(* ===== verification/_CoqProject ===== *)
-Q . S2P
Prelude.v
Json.v
QueryDocs.v
MemoryCache.v
BatchLegacy.v
Backoff.v
Breaker.v
WindowBatcher.v
PrioritySort.v
JsonParser.v
BrowserScheduler.v
ServerScheduler.v
RedisCache.v
RedisSetup.v
FieldSelection.v
OptimizedClient.v
WooAuth.v
WooStore.v
WooFacade.v
ProductMapping.v
ResilientClient.v
LazyLoading.v
ProductOptions.v
Galleries.v
Navigation.v
Recommendations.v
