(* ===== verification/Prelude.v ===== *)
(** * A verified model of the commerce storefront's data layer

  The repository is a Next.js storefront.  Its logic lives under
  [src/lib]: the GraphQL request-optimisation layer ([src/lib/graphql]),
  the Redis cache ([src/lib/redis]) and the WooCommerce REST client
  ([src/lib/woocommerce.ts]).  Pages, React components and the demo API
  routes call into these.  The parts, leaf first, and how they interact:

  - the in-memory TTL cache [GraphQLCache] and its client
    [CachedGraphQLClient] ([cache.ts]), shared as singletons by the
    enhanced client and by the batcher of [batch.ts];
  - the resilience layer [GraphQLErrorHandler] ([error-handler.ts]):
    retry with exponential backoff and one circuit breaker shared by
    every caller; [EnhancedGraphQLClient] ([enhanced-client.ts]) runs
    [withRetry (withCircuitBreaker (cachedRequest q v))];
  - two batchers: the time-windowed [GraphQLBatchClient] of
    [batch-client.ts] (size cap 10, debounced 10 ms timer, per-query
    isolation), used by [OptimizedGraphQLClient], and the older one of
    [batch.ts] (no size cap), over the in-memory cache;
  - the Redis cache strategy ([cache-strategy.ts]: keys, TTL policy,
    invalidation patterns) and service ([cache-service.ts]), used by
    [RedisEnhancedGraphQLClient] ([redis-enhanced-client.ts]), which
    [OptimizedGraphQLClient] ([optimized-client.ts]) calls when it does
    not batch; the field optimiser ([field-optimizer.ts]) is switched
    off there;
  - the prefetch schedulers [GraphQLPrefetchManager]
    ([prefetch-manager.ts]) and the bounded [BrowserPrefetchManager]
    ([browser-prefetch-manager.ts]), which sort by the same priority;
  - the converters and fetchers of [index.ts], which map GraphQL
    products and categories to WooCommerce-shaped objects;
  - the WooCommerce REST client [WooCommerceAPI] ([woocommerce.ts]):
    catalogue, orders, coupons, sales statistics with their cache,
    shipping, and customer authentication by token, and the
    storefront's functions over it ([woocommerce/index.ts]);
  - the lazy-loading hook and components ([lazy-loader.ts]), which
    observe an element's visibility and load images and data on entry;
  - the product page's variant selection: [WooCommerceProductProvider]
    ([woocommerce-product-context.tsx]) holds the selected options and
    variation, and [WooCommerceVariantSelector]
    ([woocommerce-variant-selector.tsx]) renders the option buttons and
    keeps the selection consistent with two effects;
  - the product image galleries: [OptimizedGallery]
    ([optimized-gallery.tsx]) with its index cell, neighbour preloads and
    arrow keys, and the older [Gallery] ([gallery.tsx]);
  - client navigation on the product page: [ProductLoadingWrapper]
    ([product-loading-wrapper.tsx]) replaces [push] on the shared Next.js
    router to show a skeleton, and [ProductNavigation]
    ([product-navigation.tsx]) navigates to related products through
    that router;
  - the recommendations block [ProductRecommendations]
    ([product-recommendations.tsx]) loads products through the optimized
    client and hands one prefetch per recommendation to the shared
    [browserPrefetchManager] of [BrowserScheduler].

  ** Files, in dependency order

  - [Prelude] (this file): the result type and its monad notation, the
    JavaScript string operations the code uses, the falsy-default idiom
    [x || d] ([or_default]), labelled transition sequences [steps] with
    the notation [s =[ es ]=> t] and the invariant lemmas over them, the
    hint database [commerce] and the shared tactics.
  - [Json]: JSON values, truthiness, [JSON.stringify], and Module [Js]
    (property reads that throw a [TypeError], [String(v)], [parseInt]).
  - [QueryDocs]: the query constants of [queries.ts] (Module [Queries]).
  - [MemoryCache] (cache.ts, Module [GraphQLCache]), [BatchLegacy]
    (batch.ts, Module [GraphQLBatch]), [Backoff] and [Breaker]
    (error-handler.ts, Modules [Retry] and [CircuitBreaker]),
    [WindowBatcher] (batch-client.ts, Module [BatchClient]),
    [PrioritySort] (Module [Priority]), [BrowserScheduler] and
    [ServerScheduler] (the prefetch managers, Modules [BrowserPrefetch]
    and [PrefetchManager]): one Module per class, its fields as a
    Record, one definition per method; the asynchronous ones are split
    at their [await] and interleaved by a step relation where several
    calls can be in flight.
  - [JsonParser] (Module [JsonParse]): [JSON.parse] (a builtin, from
    ECMA-404) with the round trip [parse (stringify v) = Some v].
  - [RedisCache]: the Redis server (Module [Redis]), [CacheStrategy] and
    [CacheService] with [RedisEnhancedGraphQLClient.request].
  - [RedisSetup] (Module [Connection]): [redis/config.ts] and [redis/client.ts] over
    [process.env] and the client's commands as oracles.
  - [FieldSelection] (Module [FieldOptimizer]): [GraphQLFieldOptimizer].
  - [OptimizedClient]: the rest of [RedisEnhancedGraphQLClient] (Module
    [RedisEnhanced]) and every method of [OptimizedGraphQLClient]
    (Module [Optimized]).
  - [WooAuth]: [authenticateUser], [createUser], [getUserById],
    [validateToken], with Node's [Buffer] base64 and UTF-8 codecs.
  - [WooStore]: [request] and the other methods of [WooCommerceAPI]
    (Modules [Http], [Catalog], [Coupons], [Sales], [Shipping]).
  - [WooFacade] (Module [Facade]): the functions of
    [woocommerce/index.ts] over those methods.
  - [ProductMapping] (Module [Converters]): the converters and fetchers
    of [index.ts] and the converter of [enhanced-client.ts]; Module
    [GraphQLClient]: [graphql/client.ts].
  - [ResilientClient] (Module [EnhancedClient]): [EnhancedGraphQLClient]
    over the shared breaker, cache and clock, and [getHomepageData] of
    [batch.ts]; its retry layer is [Retry.withRetry] itself, whose loop
    threads the state its operation shares with the caller.
  - [LazyLoading] (Module [LazyLoader]): [useLazyLoad] as a state
    machine over the [IntersectionObserver]'s deliveries, and the lazy
    components of [lazy-loader.ts] with their effects and renders.
  - [ProductOptions] (Modules [ProductContext] and [VariantSelector]):
    the provider's state and [useWooCommerceProduct]; the selector's
    render, its two effects with their identity-compared dependencies,
    [handleOptionChange] and [isOptionAvailable], composed into a step
    relation of renders and clicks ([selector_step], with the
    executable [selector_next]) and the re-render loop [renderLoop].
  - [Galleries] (Modules [OptimizedGallery] and [LegacyGallery]): the
    gallery's index as a JavaScript number ([NaN] included), its three
    effects, click and key handlers as a step relation ([gallery_step],
    executable [gallery_next]), its render; [Gallery]'s body as the
    engine runs it, with the temporal dead zone of [const].
  - [Navigation] (Modules [LoadingWrapper] and [RelatedNavigation]): the
    router object shared by both components with the chain of [push]
    replacements installed on it, the wrapper's effect and cleanup,
    [navigateToProduct] with its 500 ms timer, the cards, as a step
    relation [page_step] (executable [page_next]).
  - [Recommendations] (Module [Recommendations], with the props as a
    Section): the two state cells, the load effect and the observer
    effect with the length its callback captured, [loadRecommendations]
    split at its [await] ([startLoad], [finishLoad]), the hover
    prefetch, as a step relation [rec_step] over the shared manager.

  Each file ends with its theorems and their witnesses.

  ** What the theorems show

  - Invariants of every reachable state, by induction on [steps]: the
    bounded queues and concurrency of the prefetch managers and of the
    batcher, ticket accounting and result isolation of the batcher, the
    breaker's counter invariant; the shape of the sales cache; the
    lazy-loading hook's state; the variant selector's displayed
    variation mirroring the context's; the gallery's index staying in
    range when it starts in range; one navigation per timer window of
    the related-product list.
  - Functional behaviour of each operation, errors included: cache hits
    and misses, retry schedules, breaker transitions, the batchers'
    dispatch, the coupon and shipping rules, the 404 paths, the
    variations the storefront attaches to a product, a prefetch call
    per entry of an element into the view, the variation a click
    selects and the price block; the prefetches the recommendations
    hand to the browser manager, which starts the first three at once
    whatever their [idle] trigger and staggered delay.
  - Liveness: the selector's effects stop re-rendering within three
    renders of its mount ([mount_settles]).
  - Termination and bounds: the retry loop's call bound and delays, the
    work of one enhanced request, the sales loop, the coupon discount.
  - The three layers of the enhanced client together: a transient
    backend failure retried after its backoff delay, the answer cached
    with the time of the retry, the breaker keeping the failure
    ([transient_failure_recovers]); an open breaker hiding the cache;
    retries feeding the breaker until it opens.
  - An equivalence (the priority sort is the stable sort by rank) and two
    round trips ([JSON.parse] of [JSON.stringify]; the login token
    decoded by [validateToken]).
  - Defects, each proved as the behaviour the code has: passwords never
    checked and forgeable tokens, a product served stale after its
    invalidation, invalidation missing the keys the clients write, a
    health check that never looks at Redis, failures hidden by the
    batching path and by the breaker, the optimiser breaking queries,
    category ids that are [NaN], a failed lazy image that never
    retries, a stale preload marking a new image loaded, colliding grid
    keys, the selector's hooks called after an early return (React
    throws when the product changes sides), first options that may
    match no variation, a gallery that throws a [ReferenceError] on
    every render, image numbers from the URL that are never brought
    back into range, a loading skeleton that no navigation ever
    clears, and recommendations loaded twice on mount.

  ** Bounds and fuel

  - [withRetry] recurses on [Z.to_nat maxRetries], the number of
    attempts the [for] loop allows; nothing else bounds it.
  - The sales loop of [getProductSales] runs on [SALES_FUEL] = 10 =
    [MAX_TOTAL_ORDERS / MAX_ORDERS_PER_REQUEST] iterations:
    [salesLoop_fuel] shows that more fuel gives the same answer.
  - [JsonParse.parse] gives its descent one unit of fuel per input
    character, enough since every value takes one ([jsize_le_length]).
  - [FieldOptimizer.replace_sets] and the codecs are structural.
  - [VariantSelector.renderLoop] takes the number of renders as fuel;
    three are enough after a mount, and the loop then reports that no
    effect called a setter ([mount_settles]).

  ** Modelling conventions

  - Time ([Date.now()]) is a [Z] of milliseconds passed to each
    operation; an operation that awaits between two clock readings
    takes both.
  - Integers of the caches, counters and delays are [Z]; JSON numbers
    are integers; the coupon and shipping arithmetic uses exact
    rationals with the infinities and [NaN] ([WooStore.JsNumber]).
  - A callee outside the modelled code (the GraphQL backend, [fetch],
    the WooCommerce endpoint, a prefetch function) is an oracle: a
    function from the call to its outcome, a value of [result].
  - Logging is dropped; the MD5 digest is a parameter.
  - React components are state machines: a render is a function of the
    props and state cells, the effect phase runs the effects whose
    dependencies changed, and the browser or the user is a source of
    events.  Object identities that effects compare are tokens [nat].

  ** Not modelled

  The other React components and pages under [src/app] and
  [src/components] (markup over the modelled clients: product cards,
  menus, cart, layout), whose logic is presentation only, and the
  demo and performance-test API routes under [src/app/api], which call
  the modelled clients, time them and print the result; the [types.ts]
  files (declarations only, erased at run
  time, read for the fields the models keep); the recommendations'
  stats interval, which only reads the manager; the Next.js ['use cache'] directives of [woocommerce/index.ts]
  (framework caching); the [GraphQLClient] and [ioredis] libraries
  themselves (oracles here); the rounding of binary floating point
  outside [getTTL].
*)

From stdpp Require Export base list gmap strings.
From Stdlib Require Export ZArith String Ascii.

Declare Scope commerce_scope.
Delimit Scope commerce_scope with commerce.
Open Scope Z_scope.

Create HintDb commerce.

(** ** Results of fallible code: a resolved value or a thrown error. *)

Inductive result (E A : Type) : Type :=
| Ok (a : A)
| Err (e : E).
Arguments Ok {E A} a.
Arguments Err {E A} e.

#[export] Instance result_ret {E} : MRet (result E) := fun _ a => Ok a.
#[export] Instance result_bind {E} : MBind (result E) :=
  fun _ _ f m => match m with Ok a => f a | Err e => Err e end.

Definition is_ok {E A} (r : result E A) : bool :=
  match r with Ok _ => true | Err _ => false end.

(** ** JavaScript string operations used by the sources *)

(** [s.includes(pat)]: [pat] occurs in [s] (the empty pattern always does). *)
Fixpoint includes (s pat : string) : bool :=
  String.prefix pat s ||
  match s with
  | EmptyString => false
  | String _ s' => includes s' pat
  end.

(** [s.startsWith(pat)]. *)
Definition startsWith (s pat : string) : bool := String.prefix pat s.

(** [parts.join(sep)]. *)
Fixpoint join (sep : string) (parts : list string) : string :=
  match parts with
  | [] => ""
  | [p] => p
  | p :: ps => (p ++ sep ++ join sep ps)%string
  end.

(** [x || d] on a number that may be [undefined]: [0] is falsy. *)
Definition or_default (x : option Z) (d : Z) : Z :=
  match x with
  | Some v => if v =? 0 then d else v
  | None => d
  end.

(** ** Labelled transition sequences *)

Section Steps.
Context {S L : Type} (step : S -> L -> S -> Prop).

Inductive steps : S -> list L -> S -> Prop :=
| steps_nil s : steps s [] s
| steps_cons s l s' ls s'' :
    step s l s' -> steps s' ls s'' -> steps s (l :: ls) s''.

Lemma steps_app s ls1 s' ls2 s'' :
  steps s ls1 s' -> steps s' ls2 s'' -> steps s (ls1 ++ ls2) s''.
Proof. induction 1; simpl; eauto using steps. Qed.

Lemma steps_one s l s' : step s l s' -> steps s [l] s'.
Proof. eauto using steps. Qed.

(** Invariants are proved one step at a time. *)
Lemma steps_invariant (P : S -> Prop) :
  (forall s l s', P s -> step s l s' -> P s') ->
  forall s ls s', steps s ls s' -> P s -> P s'.
Proof. intros Hstep s ls s' H. induction H; eauto. Qed.

(** The same for the traces whose labels all satisfy [Q]. *)
Lemma steps_invariant_when (P : S -> Prop) (Q : L -> Prop) :
  (forall s l s', P s -> Q l -> step s l s' -> P s') ->
  forall s ls s', steps s ls s' -> Forall Q ls -> P s -> P s'.
Proof.
  intros Hstep s ls s' H. induction H as [|s l s' ls s'' Hs _ IH]; [done|].
  intros [HQ HQs]%Forall_cons HP. eauto.
Qed.
End Steps.

(** Each component registers its transition relation as an instance of
    [Step]; the notation then finds it from the types of states and
    events. *)
Class Step (S L : Type) := step_rel : S -> L -> S -> Prop.

Notation "s =[ ls ]=> t" := (steps step_rel s ls t)
  (at level 70, ls at level 60, format "s  =[ ls ]=>  t") : commerce_scope.
Open Scope commerce_scope.

#[export] Hint Constructors steps : commerce.
#[export] Hint Resolve steps_app steps_one : commerce.

(** ** Lemmas on the string operations *)

Lemma prefix_app (p s1 s2 : string) :
  String.prefix p s1 = true -> String.prefix p (s1 ++ s2) = true.
Proof.
  revert s1. induction p as [|a p IH]; intros [|b s1]; simpl; try done.
  - intros _. destruct s2; reflexivity.
  - destruct (ascii_dec a b); [apply IH | done].
Qed.

(** stdpp makes [String.append] [simpl never]; these steps are by conversion. *)
Lemma string_app_assoc (a b c : string) : ((a ++ b) ++ c = a ++ b ++ c)%string.
Proof. induction a as [|x a IH]; [reflexivity | exact (f_equal (String x) IH)]. Qed.

Lemma string_app_nil_r (a : string) : (a ++ "" = a)%string.
Proof. induction a as [|x a IH]; [reflexivity | exact (f_equal (String x) IH)]. Qed.

Lemma string_app_cons (x : ascii) (a b : string) : (String x a ++ b = String x (a ++ b))%string.
Proof. reflexivity. Qed.

Lemma string_length_app (a b : string) :
  String.length (a ++ b) = (String.length a + String.length b)%nat.
Proof. induction a as [|x a IH]; [reflexivity | exact (f_equal S IH)]. Qed.

Lemma includes_empty (s : string) : includes s "" = true.
Proof. destruct s; reflexivity. Qed.

Lemma includes_prefix (s p : string) : String.prefix p s = true -> includes s p = true.
Proof. destruct s; simpl; intros ->; reflexivity. Qed.

Lemma includes_app_l (s1 s2 p : string) :
  includes s1 p = true -> includes (s1 ++ s2) p = true.
Proof.
  induction s1 as [|a s1 IH]; simpl.
  - destruct p; simpl; [destruct s2; reflexivity | done].
  - intros [Hp | Hi]%orb_true_iff; apply orb_true_iff; [left | right].
    + now apply (prefix_app p (String a s1) s2).
    + now apply IH.
Qed.

Lemma includes_app_r (s1 s2 p : string) :
  includes s2 p = true -> includes (s1 ++ s2) p = true.
Proof.
  induction s1 as [|a s1 IH]; simpl; [done|].
  intros H. rewrite IH by done. apply orb_true_r.
Qed.

Lemma or_default_nonzero (x : option Z) (d : Z) : d <> 0 -> or_default x d <> 0.
Proof. destruct x as [v|]; simpl; [destruct (Z.eqb_spec v 0)|]; auto. Qed.

Lemma or_default_Some (v d : Z) : v <> 0 -> or_default (Some v) d = v.
Proof. intros Hv. simpl. destruct (Z.eqb_spec v 0); [lia | done]. Qed.

Lemma snoc_not_nil {A} (l : list A) (x : A) : l ++ [x] <> [].
Proof. by destruct l. Qed.

(** ** Lemmas on [mapM] in the result monad *)

Lemma mapM_result_cons {E A B} (f : A -> result E B) x l :
  mapM f (x :: l) = match f x with
                    | Ok y => match mapM f l with Ok k => Ok (y :: k) | Err e => Err e end
                    | Err e => Err e
                    end.
Proof. reflexivity. Qed.

(** One failing element makes the whole [map] throw. *)
Lemma mapM_Err {E A B} (f : A -> result E B) l x :
  In x l -> is_ok (f x) = false -> is_ok (mapM f l) = false.
Proof.
  induction l as [|y l IH]; [done|]. rewrite mapM_result_cons. intros [->|Hin] Hx.
  - by destruct (f x).
  - destruct (f y); [|done]. specialize (IH Hin Hx). by destruct (mapM f l).
Qed.

Lemma mapM_Ok {E A B} (f : A -> result E B) l k :
  mapM f l = Ok k -> Forall2 (fun x y => f x = Ok y) l k.
Proof.
  revert k. induction l as [|x l IH]; intros k H.
  - injection H as <-. constructor.
  - rewrite mapM_result_cons in H. destruct (f x) eqn:Hx; [|done].
    destruct (mapM f l) eqn:Hl; [|done]. injection H as <-. constructor; auto.
Qed.

(** ** Lemmas on lists and finite sets *)

Lemma NoDup_sub {A} (l k : list A) : l ⊆+ k -> NoDup k -> NoDup l.
Proof.
  intros [k' Hk]%submseteq_Permutation Hnd. rewrite Hk in Hnd.
  by apply NoDup_app in Hnd as [? _].
Qed.

Lemma NoDup_insert_fresh {A} (l1 l2 : list A) x :
  NoDup (l1 ++ l2) -> x ∉ l1 -> x ∉ l2 -> NoDup (l1 ++ x :: l2).
Proof.
  intros Hnd H1 H2. rewrite <- Permutation_middle. constructor; [|done].
  rewrite elem_of_app. tauto.
Qed.

Lemma removelast_submseteq {A} (l : list A) : removelast l ⊆+ l.
Proof.
  induction l as [|x [|y l] IH]; simpl; [done | by apply submseteq_nil_l |].
  by apply submseteq_skip.
Qed.

Lemma length_removelast {A} (l : list A) : l <> [] -> List.length (removelast l) = pred (List.length l).
Proof.
  intros Hl. destruct (exists_last Hl) as (l' & x & ->).
  rewrite removelast_last, length_app. simpl. lia.
Qed.

Lemma list_to_set_delete `{Countable K} (l : list K) i x :
  NoDup l -> l !! i = Some x ->
  list_to_set (C:=gset K) (delete i l) = list_to_set l ∖ {[x]}.
Proof.
  intros Hnd Hi. pose proof (delete_Permutation l i x Hi) as Hp.
  assert (Hx : x ∉ delete i l) by (rewrite Hp in Hnd; by apply NoDup_cons in Hnd as [? _]).
  apply set_eq. intros y. rewrite elem_of_difference, elem_of_singleton, !elem_of_list_to_set.
  split.
  - intros Hy. split; [by eapply list_elem_of_delete_inv|]. intros ->. contradiction.
  - intros [Hy Hne]. assert (Hy' : y ∈ x :: delete i l) by (by rewrite <- Hp).
    apply elem_of_cons in Hy' as [->|]; [contradiction|done].
Qed.

#[export] Hint Resolve includes_empty includes_prefix includes_app_l includes_app_r snoc_not_nil : commerce.

(** ** Tactics *)

Ltac invc H := inversion H; subst; clear H.

(** Expose the [match] behind the binds of the result monad. *)
Ltac unbind := unfold mbind, result_bind in *.

(** Turn the boolean comparisons the code computes with into propositions. *)
Ltac zbools :=
  repeat match goal with
  | H : (_ =? _)%Z = true |- _ => apply Z.eqb_eq in H
  | H : (_ =? _)%Z = false |- _ => apply Z.eqb_neq in H
  | H : (_ <? _)%Z = true |- _ => apply Z.ltb_lt in H
  | H : (_ <? _)%Z = false |- _ => apply Z.ltb_ge in H
  | H : (_ <=? _)%Z = true |- _ => apply Z.leb_le in H
  | H : (_ <=? _)%Z = false |- _ => apply Z.leb_gt in H
  | H : (_ =? _)%nat = true |- _ => apply Nat.eqb_eq in H
  | H : (_ =? _)%nat = false |- _ => apply Nat.eqb_neq in H
  | H : (_ <=? _)%nat = true |- _ => apply Nat.leb_le in H
  | H : (_ <=? _)%nat = false |- _ => apply Nat.leb_gt in H
  | H : (_ <? _)%nat = true |- _ => apply Nat.ltb_lt in H
  | H : (_ <? _)%nat = false |- _ => apply Nat.ltb_ge in H
  | H : (_ || _)%bool = true |- _ => apply orb_true_iff in H as [H|H]
  | H : (_ || _)%bool = false |- _ => apply orb_false_iff in H as [? ?]
  | H : (_ && _)%bool = true |- _ => apply andb_true_iff in H as [? ?]
  | H : negb _ = true |- _ => apply negb_true_iff in H
  | H : negb _ = false |- _ => apply negb_false_iff in H
  end.

(** Close a side condition on concrete values by evaluation. *)
Ltac concrete := vm_compute; first [reflexivity | discriminate | done | lia].

(** Case on the first [if] or [match] on a boolean in the goal. *)
Ltac case_if :=
  match goal with
  | |- context [if ?c then _ else _] => let E := fresh "E" in destruct c eqn:E
  end; zbools.
