(* ===== verification/Json.v ===== *)
(** * JSON values, JavaScript truthiness and [JSON.stringify]

  The payloads the caches store and the [variables] objects the cache
  keys are built from are JSON values.  This file gives their type, the
  truthiness test the code applies to them ([if (cached)],
  [variables || {}]) and [JSON.stringify] on them.

  Restrictions: numbers are integers (the code's variables are counts
  and ids); strings are sequences of 8-bit characters; an object is the
  list of its fields in insertion order (JavaScript orders array-index
  keys first; no key here is an array index). *)

From S2P Require Import Prelude.
From Stdlib Require Import DecimalString.
Open Scope Z_scope.
Open Scope commerce_scope.

Inductive jvalue : Type :=
| JNull
| JBool (b : bool)
| JNum (n : Z)
| JStr (s : string)
| JArr (items : list jvalue)
| JObj (fields : list (string * jvalue)).

(** JavaScript truthiness of a defined value ([NaN] is not modelled). *)
Definition truthy (v : jvalue) : bool :=
  match v with
  | JNull => false
  | JBool b => b
  | JNum n => negb (n =? 0)
  | JStr s => negb (String.eqb s "")
  | JArr _ | JObj _ => true
  end.

(** Truthiness of a value that may be [undefined] ([None]). *)
Definition truthy_opt (v : option jvalue) : bool :=
  match v with Some v' => truthy v' | None => false end.

(** ** [JSON.stringify] *)

Definition string_of_Z (n : Z) : string := NilZero.string_of_int (Z.to_int n).

Definition hex_digit (n : nat) : ascii :=
  if (n <? 10)%nat then ascii_of_nat (48 + n) else ascii_of_nat (87 + n).

Definition dquote : ascii := ascii_of_nat 34.
Definition backslash : ascii := ascii_of_nat 92.

(** The escape JSON.stringify writes for one character of a string. *)
Definition escape_char (c : ascii) : string :=
  let n := nat_of_ascii c in
  if (n =? 34)%nat then String backslash (String dquote EmptyString)
  else if (n =? 92)%nat then String backslash (String backslash EmptyString)
  else if (n =? 8)%nat then "\b"
  else if (n =? 12)%nat then "\f"
  else if (n =? 10)%nat then "\n"
  else if (n =? 13)%nat then "\r"
  else if (n =? 9)%nat then "\t"
  else if (n <? 32)%nat then
    ("\u00" ++ String (hex_digit (n / 16)) (String (hex_digit (n mod 16)) EmptyString))%string
  else String c EmptyString.

Fixpoint escape (s : string) : string :=
  match s with
  | EmptyString => EmptyString
  | String c s' => (escape_char c ++ escape s')%string
  end.

Definition quote (s : string) : string := String dquote (escape s ++ String dquote EmptyString).

Fixpoint stringify (v : jvalue) : string :=
  match v with
  | JNull => "null"
  | JBool true => "true"
  | JBool false => "false"
  | JNum n => string_of_Z n
  | JStr s => quote s
  | JArr items => ("[" ++ join "," (map stringify items) ++ "]")%string
  | JObj fields =>
      ("{" ++ join "," (map (fun kv => quote kv.1 ++ ":" ++ stringify kv.2) fields) ++ "}")%string
  end.

(** ** White space *)

(** [\s] and the characters [trim] removes, among the 8-bit code units. *)
Definition js_space (c : ascii) : bool :=
  let n := nat_of_ascii c in
  ((9 <=? n) && (n <=? 13) || (n =? 32) || (n =? 160))%nat.

(** [TrimString(s, start)]: the leading white space removed. *)
Fixpoint trim_start (s : string) : string :=
  match s with
  | String c s' => if js_space c then trim_start s' else s
  | EmptyString => EmptyString
  end.

(** [variables || {}]: a missing or falsy value is replaced by the empty object. *)
Definition or_empty_object (v : option jvalue) : jvalue :=
  match v with
  | Some v' => if truthy v' then v' else JObj []
  | None => JObj []
  end.

Lemma or_empty_object_truthy (v : option jvalue) : truthy (or_empty_object v) = true.
Proof. destruct v as [v|]; simpl; [destruct (truthy v) eqn:E|]; auto. Qed.

(** [o[k] = v] or [{ ...o, k: v }] on an object of string keys: an
    existing key keeps its place, a new one goes last. *)
Fixpoint obj_set {A} (o : list (string * A)) (k : string) (v : A) : list (string * A) :=
  match o with
  | [] => [(k, v)]
  | (k', v') :: o' => if String.eqb k k' then (k, v) :: o' else (k', v') :: obj_set o' k v
  end.

(** ** JavaScript reads of JSON values *)

Module Js.

(** The error a property read of [null]/[undefined] or a call of a
    missing method throws. *)
Inductive TypeError := type_error.

Fixpoint assoc (k : string) (fs : list (string * jvalue)) : option jvalue :=
  match fs with
  | [] => None
  | (k', v) :: fs' => if String.eqb k k' then Some v else assoc k fs'
  end.

(** [v.k] for a key that is not an array index. *)
Definition get (v : option jvalue) (k : string) : result TypeError (option jvalue) :=
  match v with
  | None | Some JNull => Err type_error
  | Some (JObj fs) => Ok (assoc k fs)
  | Some (JArr items) => Ok (if String.eqb k "length" then Some (JNum (Z.of_nat (List.length items))) else None)
  | Some (JStr s) => Ok (if String.eqb k "length" then Some (JNum (Z.of_nat (String.length s))) else None)
  | Some (JNum _) | Some (JBool _) => Ok None
  end.

Definition nullish (v : option jvalue) : bool :=
  match v with None | Some JNull => true | _ => false end.

(** [v?.k] *)
Definition chain (v : option jvalue) (k : string) : result TypeError (option jvalue) :=
  if nullish v then Ok None else get v k.

(** [x?.nodes?.map(f) || []]: a nullish [x] or [nodes] gives [[]]; the
    array returned by [map] is truthy even when empty; [map] on a value
    that is not an array is not a function. *)
Definition map_nodes {B} (f : jvalue -> result TypeError B) (x : option jvalue)
  : result TypeError (list B) :=
  n ← chain x "nodes";
  match n with
  | None | Some JNull => Ok []
  | Some (JArr items) => mapM f items
  | Some _ => Err type_error
  end.

(** [String(v)] *)
Fixpoint to_string (v : jvalue) : string :=
  match v with
  | JNull => "null"
  | JBool true => "true"
  | JBool false => "false"
  | JNum n => string_of_Z n
  | JStr s => s
  | JArr items => join "," (map (fun x => match x with JNull => "" | _ => to_string x end) items)
  | JObj _ => "[object Object]"
  end.

Definition to_string_opt (v : option jvalue) : string :=
  match v with Some v' => to_string v' | None => "undefined" end.

(** The value of a digit in radix up to 36; [36] for any other character. *)
Definition digit_value (c : ascii) : Z :=
  let n := Z.of_nat (nat_of_ascii c) in
  if (48 <=? n) && (n <=? 57) then n - 48
  else if (97 <=? n) && (n <=? 122) then n - 87
  else if (65 <=? n) && (n <=? 90) then n - 55
  else 36.

(** The longest prefix of digits of the radix; [None] when it is empty. *)
Fixpoint parse_digits (radix : Z) (s : string) (acc : option Z) : option Z :=
  match s with
  | String c s' =>
      if digit_value c <? radix then parse_digits radix s' (Some (default 0 acc * radix + digit_value c))
      else acc
  | EmptyString => acc
  end.

Definition strip_sign (s : string) : Z * string :=
  match s with
  | String c s' => if Ascii.eqb c "-" then (-1, s') else if Ascii.eqb c "+" then (1, s') else (1, s)
  | EmptyString => (1, s)
  end.

(** A [0x] or [0X] prefix selects radix 16. *)
Definition strip_hex_prefix (s : string) : Z * string :=
  match s with
  | String z s1 =>
      if Ascii.eqb z "0" then
        match s1 with
        | String x s' => if Ascii.eqb x "x" || Ascii.eqb x "X" then (16, s') else (10, s)
        | EmptyString => (10, s)
        end
      else (10, s)
  | EmptyString => (10, s)
  end.

(** [parseInt(v)] (no radix): [NaN] is [None]. *)
Definition parseInt (v : option jvalue) : option Z :=
  let '(sign, s1) := strip_sign (trim_start (to_string_opt v)) in
  let '(radix, s2) := strip_hex_prefix s1 in
  option_map (fun n => sign * n) (parse_digits radix s2 None).

(** An ASCII letter, the first character of a base64 GraphQL global ID
    such as [dGVybToxNQ==]. *)
Definition is_letter (c : ascii) : bool :=
  let n := nat_of_ascii c in ((65 <=? n) && (n <=? 90) || (97 <=? n) && (n <=? 122))%nat.

(** [v || d] *)
Definition or_else (v : option jvalue) (d : jvalue) : jvalue :=
  match v with Some v' => if truthy v' then v' else d | None => d end.

End Js.
