(* ===== verification/QueryDocs.v ===== *)
(** * The GraphQL documents of [src/lib/graphql/queries.ts]

  Each query constant of [queries.ts] is the string its template literal
  denotes, line for line: the leading and trailing line breaks and the
  indentation are kept, since the cache keys hash the text (after
  [normalizeQuery]) and [getTTLForQuery] searches it.  The one double
  quote of the file (in [GET_PRODUCT_COMPREHENSIVE_QUERY]) is written
  with [dquote]. *)

From S2P Require Import Prelude Json.
Open Scope string_scope.

Module Queries.

(** [GET_PRODUCTS_QUERY], lines 3-53. *)
Definition GET_PRODUCTS_QUERY : string := "
  query GetProducts($first: Int, $after: String, $where: RootQueryToProductUnionConnectionWhereArgs) {
    products(first: $first, after: $after, where: $where) {
      nodes {
        id
        databaseId
        name
        slug
        description
        shortDescription
        type
        featured
        averageRating
        reviewCount
        image {
          id
          sourceUrl
          altText
          mediaDetails {
            width
            height
          }
        }
        ... on Product {
          productCategories {
            nodes {
              id
              name
              slug
            }
          }
        }
        ... on ProductWithPricing {
          price
          regularPrice
          salePrice
        }
        ... on InventoriedProduct {
          stockStatus
          stockQuantity
        }
      }
      pageInfo {
        hasNextPage
        hasPreviousPage
        startCursor
        endCursor
      }
    }
  }
".

(** [GET_PRODUCT_BY_SLUG_QUERY], lines 55-133. *)
Definition GET_PRODUCT_BY_SLUG_QUERY : string := "
  query GetProductBySlug($slug: ID!) {
    product(id: $slug, idType: SLUG) {
      id
      databaseId
      name
      slug
      description
      shortDescription
      type
      featured
      averageRating
      reviewCount
      image {
        id
        sourceUrl
        altText
        mediaDetails {
          width
          height
        }
      }
      ... on Product {
        productCategories {
          nodes {
            id
            name
            slug
          }
        }
        localAttributes {
          nodes {
            id
            name
            options
            variation
            visible
            position
          }
        }
      }
      ... on ProductWithPricing {
        price
        regularPrice
        salePrice
      }
      ... on InventoriedProduct {
        stockStatus
        stockQuantity
      }
      ... on VariableProduct {
        variations(first: 20) {
          nodes {
            id
            databaseId
            name
            price
            regularPrice
            salePrice
            stockStatus
            stockQuantity
            image {
              id
              sourceUrl
              altText
            }
            attributes {
              nodes {
                id
                name
                value
              }
            }
          }
        }
      }
    }
  }
".

(** [GET_FEATURED_PRODUCTS_QUERY], lines 135-179. *)
Definition GET_FEATURED_PRODUCTS_QUERY : string := "
  query GetFeaturedProducts($first: Int = 3) {
    products(first: $first, where: { featured: true }) {
      nodes {
        id
        databaseId
        name
        slug
        description
        shortDescription
        type
        featured
        averageRating
        reviewCount
        image {
          id
          sourceUrl
          altText
          mediaDetails {
            width
            height
          }
        }
        ... on Product {
          productCategories {
            nodes {
              id
              name
              slug
            }
          }
        }
        ... on ProductWithPricing {
          price
          regularPrice
          salePrice
        }
        ... on InventoriedProduct {
          stockStatus
          stockQuantity
        }
      }
    }
  }
".

(** [GET_PRODUCTS_BY_CATEGORY_QUERY], lines 181-225. *)
Definition GET_PRODUCTS_BY_CATEGORY_QUERY : string := "
  query GetProductsByCategory($categorySlug: String!, $first: Int = 10) {
    products(first: $first, where: { category: $categorySlug }) {
      nodes {
        id
        databaseId
        name
        slug
        description
        shortDescription
        type
        featured
        averageRating
        reviewCount
        image {
          id
          sourceUrl
          altText
          mediaDetails {
            width
            height
          }
        }
        ... on Product {
          productCategories {
            nodes {
              id
              name
              slug
            }
          }
        }
        ... on ProductWithPricing {
          price
          regularPrice
          salePrice
        }
        ... on InventoriedProduct {
          stockStatus
          stockQuantity
        }
      }
    }
  }
".

(** [SEARCH_PRODUCTS_QUERY], lines 227-271. *)
Definition SEARCH_PRODUCTS_QUERY : string := "
  query SearchProducts($search: String!, $first: Int = 10) {
    products(first: $first, where: { search: $search }) {
      nodes {
        id
        databaseId
        name
        slug
        description
        shortDescription
        type
        featured
        averageRating
        reviewCount
        image {
          id
          sourceUrl
          altText
          mediaDetails {
            width
            height
          }
        }
        ... on Product {
          productCategories {
            nodes {
              id
              name
              slug
            }
          }
        }
        ... on ProductWithPricing {
          price
          regularPrice
          salePrice
        }
        ... on InventoriedProduct {
          stockStatus
          stockQuantity
        }
      }
    }
  }
".

(** [GET_CATEGORIES_QUERY], lines 273-298. *)
Definition GET_CATEGORIES_QUERY : string := "
  query GetCategories($first: Int = 20) {
    productCategories(first: $first, where: { hideEmpty: true }) {
      nodes {
        id
        databaseId
        name
        slug
        description
        count
        image {
          id
          sourceUrl
          altText
        }
        parent {
          node {
            id
            name
            slug
          }
        }
      }
    }
  }
".

(** [GET_CATEGORY_BY_SLUG_QUERY], lines 300-323. *)
Definition GET_CATEGORY_BY_SLUG_QUERY : string := "
  query GetCategoryBySlug($slug: ID!) {
    productCategory(id: $slug, idType: SLUG) {
      id
      databaseId
      name
      slug
      description
      count
      image {
        id
        sourceUrl
        altText
      }
      parent {
        node {
          id
          name
          slug
        }
      }
    }
  }
".

(** [GET_PRODUCT_COMPREHENSIVE_QUERY], lines 326-439. *)
Definition GET_PRODUCT_COMPREHENSIVE_QUERY : string := ("
  query GetProductComprehensive($slug: ID!) {
    product(id: $slug, idType: SLUG) {
      id
      databaseId
      name
      slug
      description
      shortDescription
      type
      featured
      averageRating
      reviewCount
      image {
        id
        sourceUrl
        altText
        mediaDetails {
          width
          height
        }
      }
      ... on Product {
        productCategories {
          nodes {
            id
            name
            slug
          }
        }
        localAttributes {
          nodes {
            id
            name
            options
            variation
            visible
            position
          }
        }
      }
      ... on ProductWithPricing {
        price
        regularPrice
        salePrice
      }
      ... on InventoriedProduct {
        stockStatus
        stockQuantity
      }
      ... on VariableProduct {
        variations(first: 20) {
          nodes {
            id
            databaseId
            name
            price
            regularPrice
            salePrice
            stockStatus
            stockQuantity
            image {
              id
              sourceUrl
              altText
            }
            attributes {
              nodes {
                id
                name
                value
              }
            }
          }
        }
      }
    }
    # Get related products
    products(first: 4, where: { category: " ++ String dquote "uncategorized" ++ String dquote " }) {
      nodes {
        id
        databaseId
        name
        slug
        price
        regularPrice
        salePrice
        image {
          id
          sourceUrl
          altText
        }
        ... on InventoriedProduct {
          stockStatus
        }
      }
    }
    # Get product reviews
    comments(first: 10, where: { contentTypes: [PRODUCT] }) {
      nodes {
        id
        content
        date
        author {
          node {
            name
            email
          }
        }
        # Note: Rating might need to be fetched from meta fields
      }
    }
  }
")%string.

(** [GET_PRODUCTS_LIST_QUERY], lines 442-480. *)
Definition GET_PRODUCTS_LIST_QUERY : string := "
  query GetProductsList($first: Int, $where: RootQueryToProductUnionConnectionWhereArgs) {
    products(first: $first, where: $where) {
      nodes {
        id
        databaseId
        name
        slug
        image {
          id
          sourceUrl
          altText
        }
        ... on Product {
          productCategories {
            nodes {
              name
              slug
            }
          }
        }
        ... on ProductWithPricing {
          price
          regularPrice
          salePrice
        }
        ... on InventoriedProduct {
          stockStatus
        }
      }
      pageInfo {
        hasNextPage
        hasPreviousPage
        startCursor
        endCursor
      }
    }
  }
".

(** [SEARCH_PRODUCTS_ADVANCED_QUERY], lines 483-527. *)
Definition SEARCH_PRODUCTS_ADVANCED_QUERY : string := "
  query SearchProductsAdvanced($search: String!, $first: Int = 10, $category: String) {
    products(first: $first, where: { search: $search, category: $category }) {
      nodes {
        id
        databaseId
        name
        slug
        description
        shortDescription
        image {
          id
          sourceUrl
          altText
        }
        ... on Product {
          productCategories {
            nodes {
              id
              name
              slug
            }
          }
        }
        ... on ProductWithPricing {
          price
          regularPrice
          salePrice
        }
        ... on InventoriedProduct {
          stockStatus
        }
      }
    }
    # Get search suggestions
    productCategories(first: 5, where: { search: $search }) {
      nodes {
        id
        name
        slug
        count
      }
    }
  }
".

(** [GET_PRODUCT_ANALYTICS_QUERY], lines 530-546. *)
Definition GET_PRODUCT_ANALYTICS_QUERY : string := "
  query GetProductAnalytics($productId: ID!) {
    product(id: $productId, idType: DATABASE_ID) {
      id
      databaseId
      name
      averageRating
      reviewCount
      ... on InventoriedProduct {
        stockStatus
        stockQuantity
      }
      # Note: Sales data might need to be fetched from WooCommerce REST API
      # as it's not typically available in GraphQL
    }
  }
".

(** Every query constant of the file, in file order. *)
Definition all_queries : list string :=
  [GET_PRODUCTS_QUERY;
   GET_PRODUCT_BY_SLUG_QUERY;
   GET_FEATURED_PRODUCTS_QUERY;
   GET_PRODUCTS_BY_CATEGORY_QUERY;
   SEARCH_PRODUCTS_QUERY;
   GET_CATEGORIES_QUERY;
   GET_CATEGORY_BY_SLUG_QUERY;
   GET_PRODUCT_COMPREHENSIVE_QUERY;
   GET_PRODUCTS_LIST_QUERY;
   SEARCH_PRODUCTS_ADVANCED_QUERY;
   GET_PRODUCT_ANALYTICS_QUERY].

End Queries.
