(* ===== verification/MemoryCache.v ===== *)
(** * The in-memory GraphQL cache of [src/lib/graphql/cache.ts]

  [GraphQLCache] keeps a [Map<string, CacheEntry>]; the Map is a
  [gmap string CacheEntry] (no operation depends on its iteration
  order).  Every operation takes the current time [Date.now()] as an
  argument.  [CachedGraphQLClient.request] consults the cache, calls the
  backend on a miss and stores the answer; its model returns the list
  of backend calls it made, so that "served from the cache" is the
  statement that this list is empty. *)

From S2P Require Import Prelude Json QueryDocs.
Open Scope Z_scope.
Open Scope commerce_scope.

Module GraphQLCache.
Import Queries.

Record CacheEntry := {
  data : jvalue;
  timestamp : Z;
  ttl : Z
}.

Definition DEFAULT_TTL : Z := 5 * 60 * 1000.

#[warnings="-notation-for-abbreviation"]
Notation Cache := (gmap string CacheEntry).

(** [`${query}:${JSON.stringify(variables || {})}`] *)
Definition generateKey (query : string) (variables : option jvalue) : string :=
  (query ++ ":" ++ stringify (or_empty_object variables))%string.

(** [Date.now() - entry.timestamp > entry.ttl] *)
Definition isExpired (now : Z) (entry : CacheEntry) : bool :=
  ttl entry <? now - timestamp entry.

(** [get]: a missing or expired entry is deleted and [null] returned. *)
Definition get (now : Z) (query : string) (variables : option jvalue) (cache : Cache)
  : option jvalue * Cache :=
  let key := generateKey query variables in
  match cache !! key with
  | Some entry =>
      if isExpired now entry then (None, delete key cache)
      else (Some (data entry), cache)
  | None => (None, delete key cache)
  end.

(** [set]: [ttl || this.DEFAULT_TTL]. *)
Definition set (now : Z) (query : string) (variables : option jvalue)
    (d : jvalue) (ttl_arg : option Z) (cache : Cache) : Cache :=
  <[generateKey query variables :=
      {| data := d; timestamp := now; ttl := or_default ttl_arg DEFAULT_TTL |}]> cache.

(** [clear(pattern?)]: a truthy pattern deletes the keys that include it;
    otherwise the whole Map is cleared. *)
Definition clear (pattern : option string) (cache : Cache) : Cache :=
  match pattern with
  | Some p =>
      if String.eqb p "" then ∅
      else filter (fun kv : string * CacheEntry => includes kv.1 p = false) cache
  | None => ∅
  end.

Definition getTTLForQuery (query : string) : Z :=
  if includes query "products" then 2 * 60 * 1000
  else if includes query "categories" then 10 * 60 * 1000
  else if includes query "featured" then 5 * 60 * 1000
  else DEFAULT_TTL.

(** ** [CachedGraphQLClient] *)

(** One backend call: the query and its variables. *)
Definition Call : Type := string * option jvalue.

Section Client.
Context {E : Type}.
(** The backend ([GraphQLClient.request]) as an oracle. *)
Variable backend : string -> option jvalue -> result E jvalue.

(** The miss path of [request]: await the backend (the clock reads
    [t1] when it answers), then store the answer with the query's TTL. *)
Definition fetch_and_store (t1 : Z) (query : string) (variables : option jvalue)
    (cache : Cache) : result E jvalue * Cache * list Call :=
  match backend query variables with
  | Ok d => (Ok d, set t1 query variables d (Some (getTTLForQuery query)) cache,
             [(query, variables)])
  | Err e => (Err e, cache, [(query, variables)])
  end.

(** [request]: [if (cached) return cached;] then the miss path. *)
Definition request (t0 t1 : Z) (query : string) (variables : option jvalue)
    (cache : Cache) : result E jvalue * Cache * list Call :=
  let '(cached, cache1) := get t0 query variables cache in
  match cached with
  | Some d => if truthy d then (Ok d, cache1, []) else fetch_and_store t1 query variables cache1
  | None => fetch_and_store t1 query variables cache1
  end.
End Client.

(** [invalidateCache(pattern?)] *)
Definition invalidateCache (pattern : option string) (cache : Cache) : Cache :=
  clear pattern cache.


(** ** Lemmas shared by the theorems *)

Lemma get_hit now q v c e :
  c !! generateKey q v = Some e -> now - timestamp e <= ttl e ->
  get now q v c = (Some (data e), c).
Proof.
  intros Hl Hfresh. unfold get. rewrite Hl. unfold isExpired.
  destruct (Z.ltb_spec (ttl e) (now - timestamp e)); [lia | done].
Qed.

Lemma get_miss now q v c :
  fst (get now q v c) = None -> get now q v c = (None, delete (generateKey q v) c).
Proof. unfold get. destruct (c !! generateKey q v); [case_if|]; done. Qed.

Lemma set_lookup t q v d ttl_arg c :
  set t q v d ttl_arg c !! generateKey q v =
  Some {| data := d; timestamp := t; ttl := or_default ttl_arg DEFAULT_TTL |}.
Proof. apply lookup_insert_eq. Qed.

Lemma getTTLForQuery_nonzero q : getTTLForQuery q <> 0.
Proof. unfold getTTLForQuery, DEFAULT_TTL. repeat case_if; lia. Qed.

(** The entry [CachedGraphQLClient.request] stores on a miss. *)
Lemma stored_entry t q v d c :
  set t q v d (Some (getTTLForQuery q)) c !! generateKey q v =
  Some {| data := d; timestamp := t; ttl := getTTLForQuery q |}.
Proof. rewrite set_lookup, or_default_Some; auto using getTTLForQuery_nonzero. Qed.

#[local] Hint Resolve get_hit set_lookup stored_entry : commerce.

(** ** Theorems *)

(** TTL: after [set] at time [t], [get] at time [t'] returns the
    stored value exactly when [t' - t] is at most the effective TTL
    ([ttl || DEFAULT_TTL]), and otherwise misses and evicts the key. *)
Theorem get_after_set t t' q v d ttl_arg c :
  get t' q v (set t q v d ttl_arg c) =
  if t' - t <=? or_default ttl_arg DEFAULT_TTL
  then (Some d, set t q v d ttl_arg c)
  else (None, delete (generateKey q v) c).
Proof.
  unfold get. rewrite set_lookup. unfold isExpired; simpl.
  destruct (Z.ltb_spec (or_default ttl_arg DEFAULT_TTL) (t' - t));
    case_if; try lia; [|done].
  unfold set. by rewrite delete_insert_eq.
Qed.

(** C7. No stale read: whatever [get] returns is the data of an entry
    of the cache whose age is at most its TTL. *)
Theorem get_never_stale now q v c d :
  fst (get now q v c) = Some d ->
  exists e, c !! generateKey q v = Some e /\ data e = d /\ now - timestamp e <= ttl e.
Proof.
  unfold get. destruct (c !! generateKey q v) as [e|] eqn:Hl; simpl; [|done].
  unfold isExpired. case_if; [done|]. intros [= <-]. exists e. split_and!; auto; lia.
Qed.

(** [clear(pattern)] with a non-empty pattern removes exactly the
    keys that include the pattern and keeps every other entry. *)
Theorem clear_lookup p k c :
  p <> ""%string ->
  clear (Some p) c !! k = if includes k p then None else c !! k.
Proof.
  intros Hp. unfold clear. destruct (String.eqb_spec p "") as [|_]; [done|].
  rewrite map_lookup_filter. destruct (c !! k); simpl; [|by case_if].
  by destruct (includes k p).
Qed.

(** Boundary of the TTL: an entry read exactly [ttl] ms after it
    was set is still served, since the code tests [now - timestamp >
    ttl]; an entry is live while its age is at most, not below, its TTL. *)
Theorem get_at_ttl_boundary t q v d ttl' c :
  ttl' <> 0 -> fst (get (t + ttl') q v (set t q v d (Some ttl') c)) = Some d.
Proof. intros H. rewrite get_after_set, or_default_Some by done. case_if; [done | lia]. Qed.

(** TTL policy as written: the categories query of queries.ts
    mentions [productCategories], which does not include the
    lower-case [categories], so it gets the 5-minute default instead of
    the 10-minute category TTL. *)
Theorem getTTLForQuery_categories_query :
  getTTLForQuery GET_CATEGORIES_QUERY = DEFAULT_TTL.
Proof. reflexivity. Qed.

(** The TTL rules for categories and featured products never
    apply: every query constant of queries.ts gets either the 2-minute
    products TTL (it mentions [products]) or the 5-minute default,
    [GET_CATEGORIES_QUERY] and [GET_FEATURED_PRODUCTS_QUERY] included. *)
Theorem queries_ttl_products_or_default q :
  In q all_queries -> getTTLForQuery q = 2 * 60 * 1000 \/ getTTLForQuery q = DEFAULT_TTL.
Proof.
  intros Hq. repeat (destruct Hq as [<-|Hq]; [vm_compute; first [left; reflexivity | right; reflexivity]|]).
  destruct Hq.
Qed.

Section ClientTheorems.
Context {E : Type} (backend : string -> option jvalue -> result E jvalue).

Lemma request_hit t0 t1 q v c e :
  c !! generateKey q v = Some e -> t0 - timestamp e <= ttl e -> truthy (data e) = true ->
  request backend t0 t1 q v c = (Ok (data e), c, []).
Proof. intros Hl Hf Ht. unfold request. rewrite (get_hit _ _ _ _ _ Hl Hf). by rewrite Ht. Qed.

Lemma request_miss t0 t1 q v c :
  fst (get t0 q v c) = None ->
  request backend t0 t1 q v c = fetch_and_store backend t1 q v (delete (generateKey q v) c).
Proof. intros Hm. unfold request. by rewrite (get_miss _ _ _ _ Hm). Qed.

(** End to end: a request that misses fetches the value from the
    backend (one call) and stores it; the same request made again
    within the query's TTL of the store returns the same value from
    the cache, calls the backend no more, and changes no entry. *)
Theorem request_then_hit t0 t1 t2 t3 q v c d r1 c1 calls1 :
  fst (get t0 q v c) = None ->
  backend q v = Ok d -> truthy d = true ->
  t2 - t1 <= getTTLForQuery q ->
  request backend t0 t1 q v c = (r1, c1, calls1) ->
  r1 = Ok d /\ calls1 = [(q, v)] /\ request backend t2 t3 q v c1 = (Ok d, c1, []).
Proof.
  intros Hmiss Hb Ht Hfresh Hreq.
  rewrite request_miss in Hreq by done. unfold fetch_and_store in Hreq.
  rewrite Hb in Hreq. invc Hreq. split_and!; auto.
  eapply (request_hit _ _ _ _ _ {| data := d |}); [apply stored_entry | simpl; lia | done].
Qed.

(** A falsy payload ([null], [0], [false], [""]) is stored but
    never served: [if (cached)] treats it as a miss, so the next
    identical request calls the backend again, however fresh the
    entry is. *)
Theorem request_falsy_refetch t0 t1 t2 t3 q v c d r1 c1 calls1 :
  fst (get t0 q v c) = None ->
  backend q v = Ok d -> truthy d = false ->
  request backend t0 t1 q v c = (r1, c1, calls1) ->
  (request backend t2 t3 q v c1).2 = [(q, v)].
Proof.
  intros Hmiss Hb Hf Hreq.
  rewrite request_miss in Hreq by done. unfold fetch_and_store in Hreq.
  rewrite Hb in Hreq. invc Hreq.
  unfold request. rewrite get_after_set. unfold fetch_and_store.
  case_if; simpl; [rewrite Hf|]; by rewrite Hb.
Qed.

(** Error path: when the backend throws on a miss, the error is
    propagated to the caller and nothing is stored under the key. *)
Theorem request_error t0 t1 q v c e :
  fst (get t0 q v c) = None -> backend q v = Err e ->
  request backend t0 t1 q v c = (Err e, delete (generateKey q v) c, [(q, v)]).
Proof. intros Hm Hb. rewrite request_miss by done. unfold fetch_and_store. by rewrite Hb. Qed.
End ClientTheorems.

(** ** Witnesses: the theorems applied at concrete inputs *)

Definition wq : string := "{ products { nodes { id } } }".
Definition wd : jvalue := JObj [("products", JArr [])].
Definition wbackend (d : jvalue) : string -> option jvalue -> result string jvalue :=
  fun _ _ => Ok d.
Definition wcache : Cache := set 0 wq None wd None ∅.

Lemma get_never_stale_witness :
  exists e, wcache !! generateKey wq None = Some e /\ data e = wd /\ 10 - timestamp e <= ttl e.
Proof. apply (get_never_stale 10 wq None wcache wd). reflexivity. Defined.

Lemma clear_lookup_witness :
  clear (Some "products") wcache !! generateKey wq None = None.
Proof.
  rewrite (clear_lookup "products" (generateKey wq None) wcache); [reflexivity | discriminate].
Defined.

Lemma get_at_ttl_boundary_witness : fst (get (0 + 300) wq None (set 0 wq None wd (Some 300) ∅)) = Some wd.
Proof. apply get_at_ttl_boundary. discriminate. Defined.

Lemma request_then_hit_witness :
  request (wbackend wd) 100 100 wq None (set 5 wq None wd (Some (getTTLForQuery wq)) ∅)
  = (Ok wd, set 5 wq None wd (Some (getTTLForQuery wq)) ∅, []).
Proof.
  destruct (request_then_hit (wbackend wd) 0 5 100 100 wq None ∅ wd (Ok wd)
              (set 5 wq None wd (Some (getTTLForQuery wq)) ∅) [(wq, None)]) as (_ & _ & H);
    [concrete | concrete | concrete | concrete | concrete | exact H].
Defined.

Lemma request_falsy_refetch_witness :
  (request (wbackend (JNum 0)) 50 50 wq None (set 5 wq None (JNum 0) (Some (getTTLForQuery wq)) ∅)).2
  = [(wq, None)].
Proof.
  apply (request_falsy_refetch (wbackend (JNum 0)) 0 5 50 50 wq None ∅ (JNum 0) (Ok (JNum 0)) _ [(wq, None)]);
    concrete.
Defined.

Lemma request_error_witness :
  request (fun _ _ => Err "HTTP 500"%string) 0 0 wq None ∅
  = (Err "HTTP 500"%string, delete (generateKey wq None) ∅, [(wq, None)]).
Proof. apply request_error; concrete. Defined.

Lemma queries_ttl_products_or_default_witness :
  getTTLForQuery GET_FEATURED_PRODUCTS_QUERY = 2 * 60 * 1000 \/
  getTTLForQuery GET_FEATURED_PRODUCTS_QUERY = DEFAULT_TTL.
Proof. apply queries_ttl_products_or_default. simpl. auto 10. Defined.

End GraphQLCache.
