(* ===== verification/BatchLegacy.v ===== *)
(** * [GraphQLBatchClient] of [src/lib/graphql/batch.ts]

  [addToBatch] queues a request with the promise's resolvers and arms a
  10 ms timer when none is pending; [processBatch] takes the whole queue
  and runs every request through [CachedGraphQLClient.request] at once.
  The requests interleave at their [await]: every request first reads
  the cache (at [t0]) and, on a miss, calls the backend, in queue order;
  the answers then come back (at [t1]) and each is stored and resolves
  its own caller.  There is no size cap and no deduplication.  The
  backend is an oracle; a backend call is recorded as a [Call]. *)

From S2P Require Import Prelude Json QueryDocs MemoryCache.
Open Scope Z_scope.
Open Scope commerce_scope.

Module GraphQLBatch.
Import Queries GraphQLCache.

Record BatchRequest := { query : string; variables : option jvalue; key : string }.

(** A queued request with the ticket of the promise awaiting it. *)
Record Queued := { ticket : nat; breq : BatchRequest }.

Record State := { batchQueue : list Queued; batchTimeout : bool; nextTicket : nat }.

Definition initialState : State := {| batchQueue := []; batchTimeout := false; nextTicket := 0 |}.

Definition BATCH_DELAY : Z := 10.

(** [addToBatch(query, variables, key)] (lines 26-43): the ticket of
    the new promise. *)
Definition addToBatch (r : BatchRequest) (s : State) : nat * State :=
  (nextTicket s,
   {| batchQueue := (batchQueue s ++ [{| ticket := nextTicket s; breq := r |}])%list;
      batchTimeout := true; nextTicket := S (nextTicket s) |}).

(** How a request left its first [await]: served from the cache, or
    waiting for the backend. *)
Inductive Started := Served (d : jvalue) | Waiting.

Section Process.
Context {E : Type}.
Variable backend : string -> option jvalue -> result E jvalue.

(** The synchronous part of [CachedGraphQLClient.request] for each
    queued request, in queue order: the cache read, then the backend
    call of a miss. *)
Fixpoint start_all (t0 : Z) (qs : list Queued) (c : Cache) : list (Queued * Started) * Cache * list Call :=
  match qs with
  | [] => ([], c, [])
  | q :: qs' =>
      let '(cached, c1) := get t0 (query (breq q)) (variables (breq q)) c in
      let st := match cached with Some d => if truthy d then Served d else Waiting | None => Waiting end in
      let calls := match st with Waiting => [(query (breq q), variables (breq q))] | Served _ => [] end in
      let '(rest, c2, calls') := start_all t0 qs' c1 in
      ((q, st) :: rest, c2, (calls ++ calls')%list)
  end.

(** The answers: each waiting request stores the backend's data and
    settles its own promise. *)
Fixpoint finish_all (t1 : Z) (ss : list (Queued * Started)) (c : Cache) : list (nat * result E jvalue) * Cache :=
  match ss with
  | [] => ([], c)
  | (q, Served d) :: ss' => let '(out, c') := finish_all t1 ss' c in ((ticket q, Ok d) :: out, c')
  | (q, Waiting) :: ss' =>
      match backend (query (breq q)) (variables (breq q)) with
      | Ok d =>
          let c1 := set t1 (query (breq q)) (variables (breq q)) d (Some (getTTLForQuery (query (breq q)))) c in
          let '(out, c') := finish_all t1 ss' c1 in ((ticket q, Ok d) :: out, c')
      | Err e => let '(out, c') := finish_all t1 ss' c in ((ticket q, Err e) :: out, c')
      end
  end.

(** [processBatch()] (lines 46-66): the outcome of each ticket, the
    cache, the backend calls and the emptied state. *)
Definition processBatch (t0 t1 : Z) (s : State) (c : Cache)
  : list (nat * result E jvalue) * Cache * list Call * State :=
  match batchQueue s with
  | [] => ([], c, [], s)
  | qs =>
      let '(started, c1, calls) := start_all t0 qs c in
      let '(outcomes, c2) := finish_all t1 started c1 in
      (outcomes, c2, calls, {| batchQueue := []; batchTimeout := false; nextTicket := nextTicket s |})
  end.

(** [batchResult[key] = value] or [{ error: reason }]. *)
Inductive Settled := Fulfilled (v : jvalue) | Rejected (e : E).

Fixpoint outcome_of (t : nat) (os : list (nat * result E jvalue)) : option (result E jvalue) :=
  match os with [] => None | (t', r) :: os' => if Nat.eqb t t' then Some r else outcome_of t os' end.

Fixpoint keyed (keys : list (string * nat)) (os : list (nat * result E jvalue)) (acc : list (string * Settled))
  : list (string * Settled) :=
  match keys with
  | [] => acc
  | (k, t) :: ks =>
      let acc' := match outcome_of t os with
                  | Some (Ok v) => obj_set acc k (Fulfilled v)
                  | Some (Err e) => obj_set acc k (Rejected e)
                  | None => acc
                  end in
      keyed ks os acc'
  end.

(** [batchProducts(requests)] (lines 69-87): every request is queued
    with [GET_PRODUCTS_QUERY], the timer fires and the batch runs; the
    result object maps each key to its outcome, a later key of the same
    name overwriting an earlier one. *)
Definition batchProducts (t0 t1 : Z) (requests : list (option jvalue * string)) (s : State) (c : Cache)
  : list (string * Settled) * Cache * list Call * State :=
  let '(tickets, s1) :=
    fold_left (fun '(ts, st) r => let '(t, st') := addToBatch {| query := GET_PRODUCTS_QUERY; variables := r.1;
                                                                   key := r.2 |} st in
                                  ((ts ++ [(r.2, t)])%list, st'))
              requests ([], s) in
  let '(outcomes, c', calls, s2) := processBatch t0 t1 s1 c in
  (keyed tickets outcomes [], c', calls, s2).
End Process.

(** The query of [getProductWithRelatedData] (lines 122-186). *)
Definition comprehensiveQuery : string :=
  ("
      query GetProductWithRelatedData($slug: ID!) {
        product(id: $slug, idType: SLUG) {
          id
          databaseId
          name
          slug
          description
          shortDescription
          type
          featured
          averageRating
          reviewCount
          image {
            id
            sourceUrl
            altText
            mediaDetails {
              width
              height
            }
          }
          ... on Product {
            productCategories {
              nodes {
                id
                name
                slug
              }
            }
          }
          ... on ProductWithPricing {
            price
            regularPrice
            salePrice
          }
          ... on InventoriedProduct {
            stockStatus
            stockQuantity
          }
        }
        products(first: 4, where: { category: " ++ String dquote "uncategorized" ++ String dquote " }) {
          nodes {
            id
            databaseId
            name
            slug
            price
            image {
              id
              sourceUrl
              altText
            }
          }
        }
        productCategories(first: 10) {
          nodes {
            id
            name
            slug
            count
          }
        }
      }
    ")%string.

Record RelatedData := { rd_product : option jvalue; rd_related : jvalue; rd_categories : jvalue }.

Section Related.
Context {E : Type}.
Variable backend : string -> option jvalue -> result E jvalue.

(** [getProductWithRelatedData(slug)] (lines 114-198): one cached
    request; a [null] answer makes the property reads throw. *)
Definition getProductWithRelatedData (t0 t1 : Z) (slug : string) (c : Cache)
  : result (E + Js.TypeError) RelatedData * Cache * list Call :=
  let '(res, c', calls) := request backend t0 t1 comprehensiveQuery (Some (JObj [("slug", JStr slug)])) c in
  (match res with
   | Err e => Err (inl e)
   | Ok r =>
       match (p ← Js.get (Some r) "product";
              rel ← Js.chain (Some r) "products" ≫= fun x => Js.chain x "nodes";
              cats ← Js.chain (Some r) "productCategories" ≫= fun x => Js.chain x "nodes";
              Ok {| rd_product := p; rd_related := Js.or_else rel (JArr []);
                    rd_categories := Js.or_else cats (JArr []) |}) with
       | Ok d => Ok d
       | Err te => Err (inr te)
       end
   end, c', calls).
End Related.

End GraphQLBatch.

(** ** Theorems *)

Module BatchTheorems.
Import Queries GraphQLCache GraphQLBatch.

Definition key_of (q : Queued) : string := generateKey (query (breq q)) (variables (breq q)).

Section Calls.
Context {E : Type}.
Variable backend : string -> option jvalue -> result E jvalue.

Lemma start_all_uncached t0 qs c :
  Forall (fun q => c !! key_of q = None) qs ->
  (start_all t0 qs c).2 = map (fun q => (query (breq q), variables (breq q))) qs.
Proof.
  revert c. induction qs as [|q qs IH]; intros c Hc; [done|]. apply Forall_cons in Hc as [Hq Hc].
  cbn [start_all]. unfold get. unfold key_of in Hq. rewrite Hq.
  destruct (start_all t0 qs _) as [[rest c2] calls'] eqn:Hs.
  simpl. f_equal. change calls' with (rest, c2, calls').2. rewrite <- Hs. apply IH.
  eapply Forall_impl; [exact Hc|]. intros q' Hq'. simpl.
  destruct (decide (generateKey (query (breq q)) (variables (breq q)) = key_of q')) as [<-|Hne].
  - by rewrite lookup_delete_eq.
  - by rewrite lookup_delete_ne.
Qed.

(** A batch does not coalesce equal requests: when no queued
    request's key is in the cache at dispatch, [processBatch] calls the
    backend once for every queued request, in queue order, two requests
    for the same query and variables included, since all of them read
    the cache before any answer is stored. *)
Theorem processBatch_no_dedup t0 t1 s c :
  Forall (fun q => c !! key_of q = None) (batchQueue s) ->
  (processBatch backend t0 t1 s c).1.2 = map (fun q => (query (breq q), variables (breq q))) (batchQueue s).
Proof.
  intros Hc. unfold processBatch. destruct (batchQueue s) as [|q qs] eqn:Hq; [done|].
  destruct (start_all t0 (q :: qs) c) as [[started c1] calls] eqn:Hs.
  destruct (finish_all backend t1 started c1). simpl.
  change calls with (started, c1, calls).2. rewrite <- Hs. by apply start_all_uncached.
Qed.
End Calls.

(** ** Witnesses *)

Definition wbackend (q : string) (_ : option jvalue) : result string jvalue := Ok (JObj [("products", JObj [])]).
Definition wtwice : State :=
  (addToBatch {| query := GET_PRODUCTS_QUERY; variables := None; key := "b" |}
     (addToBatch {| query := GET_PRODUCTS_QUERY; variables := None; key := "a" |} initialState).2).2.

Lemma processBatch_no_dedup_witness :
  (processBatch wbackend 0 5 wtwice ∅).1.2 = [(GET_PRODUCTS_QUERY, None); (GET_PRODUCTS_QUERY, None)].
Proof. apply (processBatch_no_dedup wbackend 0 5 wtwice ∅). repeat constructor. Defined.

End BatchTheorems.
