(* ===== verification/Backoff.v ===== *)
(** * Retry with exponential backoff: [GraphQLErrorHandler] of
    [src/lib/graphql/error-handler.ts] (lines 1-156)

  Errors are the JavaScript error objects the code inspects: an
  optional [code], an optional [response] with an HTTP [status] and a
  GraphQL [errors] array, and a [message].  [withRetry] takes the
  operation as a function of the time it starts and of the state it
  shares with its caller (the enhanced client's cache, breaker and
  backend log), so that the one loop serves every caller; a run
  returns the outcome, the state after it, the delays waited between
  attempts and the number of attempts made.  The theorems on the
  backoff schedule take an operation whose outcome depends only on the
  number of the attempt ([indexed]). *)

From S2P Require Import Prelude Json.
Open Scope Z_scope.
Open Scope commerce_scope.

Module Retry.

Record RetryConfig := {
  maxRetries : Z;
  baseDelay : Z;
  maxDelay : Z;
  backoffMultiplier : Z
}.

(** [Partial<RetryConfig>]: a missing field is [None]. *)
Record PartialRetryConfig := {
  opt_maxRetries : option Z;
  opt_baseDelay : option Z;
  opt_maxDelay : option Z;
  opt_backoffMultiplier : option Z
}.

Record GraphQLErrorResponse := { gql_message : string }.

Record ErrorResponse := {
  status : option Z;
  errors : option (list GraphQLErrorResponse)
}.

Record JsError := {
  code : option string;
  response : option ErrorResponse;
  message : string
}.

Definition defaultConfig : RetryConfig :=
  {| maxRetries := 3; baseDelay := 1000; maxDelay := 10000; backoffMultiplier := 2 |}.

(** [{ ...this.defaultConfig, ...config }] *)
Definition finalConfig (config : PartialRetryConfig) : RetryConfig := {|
  maxRetries := default (maxRetries defaultConfig) (opt_maxRetries config);
  baseDelay := default (baseDelay defaultConfig) (opt_baseDelay config);
  maxDelay := default (maxDelay defaultConfig) (opt_maxDelay config);
  backoffMultiplier := default (backoffMultiplier defaultConfig) (opt_backoffMultiplier config)
|}.

Definition noConfig : PartialRetryConfig := {|
  opt_maxRetries := None; opt_baseDelay := None; opt_maxDelay := None;
  opt_backoffMultiplier := None |}.

Definition has_code (e : JsError) (c : string) : bool :=
  match code e with Some c' => String.eqb c' c | None => false end.

Definition response_status (e : JsError) : option Z := response e ≫= status.

Definition response_errors (e : JsError) : option (list GraphQLErrorResponse) :=
  response e ≫= errors.

Definition temporary_message (err : GraphQLErrorResponse) : bool :=
  includes (gql_message err) "timeout" || includes (gql_message err) "rate limit" ||
  includes (gql_message err) "temporary".

Definition isRetryableError (error : JsError) : bool :=
  if has_code error "NETWORK_ERROR" || has_code error "TIMEOUT" then true
  else if (match response_status error with Some s => 500 <=? s | None => false end) then true
  else if (match response_status error with Some s => s =? 429 | None => false end) then true
  else match response_errors error with
       | Some errs => existsb temporary_message errs
       | None => false
       end.

Definition calculateDelay (attempt : Z) (config : RetryConfig) : Z :=
  Z.min (baseDelay config * backoffMultiplier config ^ (attempt - 1)) (maxDelay config).

(** What [withRetry] throws: the enhanced error, or the [TypeError] of
    reading [undefined.response] when no attempt was made. *)
Record EnhancedError := {
  e_message : string;
  e_code : string;
  originalError : JsError;
  e_response : option ErrorResponse
}.

Inductive Thrown :=
| Enhanced (e : EnhancedError)
| TypeErrorUndefined.

(** [error.response?.status] and [error.code] as truthiness tests. *)
Definition truthy_status (error : JsError) : option Z :=
  match response_status error with
  | Some s => if s =? 0 then None else Some s
  | None => None
  end.

Definition truthy_code (error : JsError) : option string :=
  match code error with
  | Some c => if String.eqb c "" then None else Some c
  | None => None
  end.

(** The message and code [enhanceError] computes. *)
Definition classify (error : JsError) : string * string :=
  match response_errors error with
  | Some errs => (join "; " (map gql_message errs), "GRAPHQL_VALIDATION_ERROR")%string
  | None =>
      match truthy_status error with
      | Some s => ("HTTP " ++ string_of_Z s ++ ": " ++ message error, "HTTP_" ++ string_of_Z s)%string
      | None =>
          match truthy_code error with
          | Some c => (c ++ ": " ++ message error, c)%string
          | None => ("GraphQL request failed", "GRAPHQL_ERROR")%string
          end
      end
  end.

Definition enhanceError (lastError : option JsError) : Thrown :=
  match lastError with
  | None => TypeErrorUndefined
  | Some error =>
      Enhanced {| e_message := (classify error).1; e_code := (classify error).2;
                  originalError := error; e_response := response error |}
  end.

(** ** [handleGraphQLError] *)

Record Handled := { h_message : string; h_code : string; retryable : bool }.

(** The [for (const graphqlError of graphqlErrors)] loop: the first error
    whose message matches one of the three cases decides. *)
Fixpoint first_specific (errs : list GraphQLErrorResponse) : option Handled :=
  match errs with
  | [] => None
  | err :: rest =>
      if includes (gql_message err) "Cannot query field" then
        Some {| h_message := "Invalid GraphQL query - field not found";
                h_code := "INVALID_FIELD"; retryable := false |}
      else if includes (gql_message err) "rate limit" then
        Some {| h_message := "Rate limit exceeded - please try again later";
                h_code := "RATE_LIMIT"; retryable := true |}
      else if includes (gql_message err) "timeout" then
        Some {| h_message := "Request timeout - server is busy";
                h_code := "TIMEOUT"; retryable := true |}
      else first_specific rest
  end.

Definition handleGraphQLError (error : JsError) : Handled :=
  match response_errors error ≫= first_specific with
  | Some h => h
  | None =>
      {| h_message := if String.eqb (message error) "" then "Unknown GraphQL error" else message error;
         h_code := "UNKNOWN_ERROR"; retryable := isRetryableError error |}
  end.

(** ** [withRetry] *)

(** [[a; a+1; ...; a+n-1]] *)
Fixpoint zrange (a : Z) (n : nat) : list Z :=
  match n with
  | O => []
  | S n' => a :: zrange (a + 1) n'
  end.

Section WithRetry.
Context {St A : Type}.
(** [operation()] started at a time on the state it shares with the
    caller (a cache, a circuit breaker, a log of backend calls): it
    resolves or throws, and leaves a new state. *)
Variable operation : Z -> St -> result JsError A * St.

(** The [for (attempt = 1; attempt <= maxRetries; attempt++)] loop with
    [n] iterations left, started at time [now]: attempt [k + 1] starts
    when the delay after attempt [k] has elapsed.  Returns the outcome,
    the state after the last attempt, the delays waited and the number
    of calls to [operation]. *)
Fixpoint retry_loop (config : RetryConfig) (n : nat) (attempt : Z) (lastError : option JsError)
    (now : Z) (s : St) : result Thrown A * St * list Z * nat :=
  match n with
  | O => (Err (enhanceError lastError), s, [], 0%nat)
  | S n' =>
      let '(res, s1) := operation now s in
      match res with
      | Ok a => (Ok a, s1, [], 1%nat)
      | Err error =>
          if (attempt =? maxRetries config) || negb (isRetryableError error)
          then (Err (enhanceError (Some error)), s1, [], 1%nat)
          else
            let d := calculateDelay attempt config in
            let '(r, s2, delays, calls) := retry_loop config n' (attempt + 1) (Some error) (now + d) s1 in
            (r, s2, d :: delays, S calls)
      end
  end.

Definition withRetry (config : PartialRetryConfig) (now : Z) (s : St) : result Thrown A * St * list Z * nat :=
  let c := finalConfig config in
  retry_loop c (Z.to_nat (maxRetries c)) 1 None now s.
End WithRetry.

(** An operation whose [k]-th call has a given outcome: its state is
    the number of the next call. *)
Definition indexed {A} (operation : Z -> result JsError A) (_ : Z) (k : Z) : result JsError A * Z :=
  (operation k, k + 1).

(** A run without its final state. *)
Definition forget {St A} (x : result Thrown A * St * list Z * nat) : result Thrown A * list Z * nat :=
  let '(r, _, ds, c) := x in (r, ds, c).

(** The delays [withRetry] waits when every attempt fails and may be retried. *)
Definition backoff_schedule (config : RetryConfig) : list Z :=
  map (fun k => calculateDelay k config) (zrange 1 (Z.to_nat (maxRetries config) - 1)).

(** ** Lemmas on the loop *)

Section RetryLemmas.
Context {A : Type} (operation : Z -> result JsError A) (config : RetryConfig).

(** Attempts [attempt .. k-1] fail with errors that may be retried. *)
Definition fail_retryable (errs : Z -> JsError) (lo hi : Z) : Prop :=
  forall j, lo <= j < hi -> operation j = Err (errs j) /\ isRetryableError (errs j) = true.

Lemma fail_retryable_shift errs lo hi :
  fail_retryable errs lo hi -> fail_retryable errs (lo + 1) hi.
Proof. intros H j Hj. apply H. lia. Qed.

Lemma retry_loop_fail_all (errs : Z -> JsError) n attempt last now :
  (1 <= n)%nat -> attempt + Z.of_nat n - 1 = maxRetries config ->
  fail_retryable errs attempt (maxRetries config + 1) ->
  retry_loop (indexed operation) config n attempt last now attempt =
  (Err (enhanceError (Some (errs (maxRetries config)))), attempt + Z.of_nat n,
   map (fun k => calculateDelay k config) (zrange attempt (n - 1)), n).
Proof.
  revert attempt last now. induction n as [|n IH]; intros attempt last now Hn Hlast Hfail; [lia|].
  cbn [retry_loop indexed]. destruct (Hfail attempt) as [-> Hr]; [lia|]. rewrite Hr.
  destruct n as [|n].
  - replace attempt with (maxRetries config) by lia. rewrite Z.eqb_refl. do 3 f_equal; lia.
  - destruct (Z.eqb_spec attempt (maxRetries config)); [lia|]. cbn [orb negb].
    rewrite IH; [| lia | lia | by apply fail_retryable_shift]. simpl. rewrite Nat.sub_0_r.
    do 3 f_equal; lia.
Qed.

Lemma retry_loop_success_at (errs : Z -> JsError) (a : A) n attempt last now k :
  attempt <= k <= maxRetries config -> attempt + Z.of_nat n - 1 = maxRetries config ->
  fail_retryable errs attempt k -> operation k = Ok a ->
  retry_loop (indexed operation) config n attempt last now attempt =
  (Ok a, k + 1, map (fun j => calculateDelay j config) (zrange attempt (Z.to_nat (k - attempt))),
   Z.to_nat (k - attempt + 1)).
Proof.
  revert attempt last now. induction n as [|n IH]; intros attempt last now Hk Hlast Hfail Hok; [lia|].
  cbn [retry_loop indexed]. destruct (Z.eq_dec attempt k) as [->|Hne].
  - rewrite Hok. by replace (k - k) with 0 by lia.
  - destruct (Hfail attempt) as [-> Hr]; [lia|]. rewrite Hr.
    destruct (Z.eqb_spec attempt (maxRetries config)); [lia|]. cbn [orb negb].
    rewrite (IH (attempt + 1)); [| lia | lia | by apply fail_retryable_shift | done].
    replace (Z.to_nat (k - attempt)) with (S (Z.to_nat (k - (attempt + 1)))) by lia.
    replace (Z.to_nat (k - attempt + 1)) with (S (Z.to_nat (k - (attempt + 1) + 1))) by lia.
    reflexivity.
Qed.

End RetryLemmas.

(** Any operation, on any state: at most [n] calls, one delay between
    two consecutive calls, and at least one call when [n >= 1]. *)
Lemma retry_loop_counts {St A} (op : Z -> St -> result JsError A * St) config n attempt last now s :
  attempt + Z.of_nat n - 1 = maxRetries config ->
  let '(_, _, delays, calls) := retry_loop op config n attempt last now s in
  (calls <= n)%nat /\ List.length delays = (calls - 1)%nat /\ ((1 <= n)%nat -> (1 <= calls)%nat).
Proof.
  revert attempt last now s. induction n as [|n IH]; intros attempt last now s Hinv; simpl; [lia|].
  destruct (op now s) as [[a|e] s1]; [simpl; lia|].
  destruct (Z.eqb_spec attempt (maxRetries config)); [simpl; lia|].
  destruct (negb _); [simpl; lia|].
  match goal with |- context [retry_loop op config n (attempt + 1) (Some e) ?t s1] =>
    specialize (IH (attempt + 1) (Some e) t s1 ltac:(lia));
    destruct (retry_loop op config n (attempt + 1) (Some e) t s1) as [[[r s2] ds] k] end.
  simpl. destruct n; lia.
Qed.

(** ** Theorems *)

Section RetryTheorems.
Context {A : Type} (operation : Z -> result JsError A).

(** Backoff schedule: when every attempt fails with an error that
    may be retried, [withRetry] calls the operation [maxRetries] times,
    waits [calculateDelay 1 .. calculateDelay (maxRetries-1)] between
    them, and throws the enhanced last error. *)
Theorem withRetry_backoff_schedule (errs : Z -> JsError) (partial : PartialRetryConfig) now
  (config := finalConfig partial) :
  1 <= maxRetries config ->
  fail_retryable operation errs 1 (maxRetries config + 1) ->
  forget (withRetry (indexed operation) partial now 1) =
  (Err (enhanceError (Some (errs (maxRetries config)))), backoff_schedule config,
   Z.to_nat (maxRetries config)).
Proof.
  intros Hm Hfail. subst config. unfold withRetry, backoff_schedule.
  rewrite (retry_loop_fail_all operation _ errs); [reflexivity | lia | lia | done].
Qed.

(** Recovery: if the first [k-1] attempts fail with retryable
    errors and attempt [k <= maxRetries] succeeds, [withRetry] returns
    its value after [k] calls, having waited the first [k-1] delays. *)
Theorem withRetry_success_at (errs : Z -> JsError) (partial : PartialRetryConfig) (a : A) k now
  (config := finalConfig partial) :
  1 <= k <= maxRetries config ->
  fail_retryable operation errs 1 k -> operation k = Ok a ->
  forget (withRetry (indexed operation) partial now 1) =
  (Ok a, map (fun j => calculateDelay j config) (zrange 1 (Z.to_nat (k - 1))), Z.to_nat k).
Proof.
  intros Hk Hfail Hok. subst config. unfold withRetry.
  rewrite (retry_loop_success_at operation (finalConfig partial) errs a _ _ _ _ k); [| lia | lia | done | done].
  simpl. by replace (k - 1 + 1) with k by lia.
Qed.

(** A first failure that may not be retried ends [withRetry] after
    one call, with no delay, throwing the enhanced error. *)
Theorem withRetry_non_retryable (partial : PartialRetryConfig) e now
  (config := finalConfig partial) :
  1 <= maxRetries config ->
  operation 1 = Err e -> isRetryableError e = false ->
  forget (withRetry (indexed operation) partial now 1) = (Err (enhanceError (Some e)), [], 1%nat).
Proof.
  intros Hm Hop Hr. subst config. unfold withRetry.
  destruct (Z.to_nat (maxRetries (finalConfig partial))) eqn:Hn; [lia|].
  simpl. rewrite Hop, Hr. by rewrite orb_true_r.
Qed.

End RetryTheorems.

Section RetryBounds.
Context {St A : Type} (op : Z -> St -> result JsError A * St).

(** Termination and call bound: for any operation on any state,
    [withRetry] makes at most [maxRetries] calls, at least one when
    [maxRetries >= 1], and waits exactly once between two consecutive
    calls. *)
Theorem withRetry_calls_bound (partial : PartialRetryConfig) now s
  (config := finalConfig partial) :
  let '(_, _, delays, calls) := withRetry op partial now s in
  (calls <= Z.to_nat (maxRetries config))%nat /\ List.length delays = (calls - 1)%nat /\
  (1 <= maxRetries config -> (1 <= calls)%nat).
Proof.
  subst config. unfold withRetry. cbv zeta.
  destruct (Z_le_gt_dec (maxRetries (finalConfig partial)) 0) as [Hle|Hgt].
  - replace (Z.to_nat _) with 0%nat by lia. simpl in *. lia.
  - pose proof (retry_loop_counts op (finalConfig partial) (Z.to_nat (maxRetries (finalConfig partial))) 1 None now s)
      as H.
    destruct (retry_loop _ _ _ _ _ _ _) as [[[r s'] ds] k]. destruct H as (H1 & H2 & H3); [lia|].
    split_and!; [lia | lia | intros; apply H3; lia].
Qed.

(** With [maxRetries <= 0] the loop body never runs: the operation
    is not called, the state is untouched, and
    [enhanceError(undefined)] throws a [TypeError] instead of an
    enhanced error. *)
Theorem withRetry_no_attempt (partial : PartialRetryConfig) now s
  (config := finalConfig partial) :
  maxRetries config <= 0 ->
  withRetry op partial now s = (Err TypeErrorUndefined, s, [], 0%nat).
Proof.
  intros Hm. subst config. unfold withRetry. by replace (Z.to_nat _) with 0%nat by lia.
Qed.

End RetryBounds.

(** Backoff bounds: with a non-negative base delay and a multiplier
    of at least 1, the delays never decrease from one attempt to the next
    and never exceed [maxDelay]. *)
Theorem calculateDelay_monotone_capped (config : RetryConfig) i j :
  0 <= baseDelay config -> 1 <= backoffMultiplier config -> 1 <= i <= j ->
  calculateDelay i config <= calculateDelay j config <= maxDelay config.
Proof.
  intros Hb Hm Hij. unfold calculateDelay. split; [|lia].
  apply Z.min_le_compat_r, Z.mul_le_mono_nonneg_l; [done|].
  apply Z.pow_le_mono_r; lia.
Qed.

Lemma first_specific_retryable errs h :
  first_specific errs = Some h -> retryable h = true -> existsb temporary_message errs = true.
Proof.
  induction errs as [|err rest IH]; simpl; [done|]. intros Hf Hr.
  destruct (temporary_message err) eqn:Ht; [done|]. simpl.
  unfold temporary_message in Ht. zbools.
  repeat match goal with H : includes _ _ = false |- _ => rewrite H in Hf; clear H end.
  destruct (includes _ "Cannot query field"); simplify_eq; auto.
Qed.

(** [handleGraphQLError] never calls an error retryable that
    [withRetry] would not retry. *)
Theorem handleGraphQLError_retryable_sound (e : JsError) :
  retryable (handleGraphQLError e) = true -> isRetryableError e = true.
Proof.
  unfold handleGraphQLError.
  destruct (response_errors e) as [errs|] eqn:He; simpl; [|auto].
  destruct (first_specific errs) as [h|] eqn:Hf; [|auto].
  intros Hr. unfold isRetryableError. rewrite He. repeat case_if; try done.
  by apply (first_specific_retryable errs h).
Qed.

(** [handleGraphQLError] reports a field error as not retryable
    even when it came with a 503, which [withRetry] does retry. *)
Example handleGraphQLError_invalid_field_503 :
  let e := {| code := None; message := "Service Unavailable";
              response := Some {| status := Some 503;
                                  errors := Some [{| gql_message := "Cannot query field x" |}] |} |} in
  retryable (handleGraphQLError e) = false /\ isRetryableError e = true.
Proof. split; reflexivity. Qed.

(** ** Witnesses *)

Definition netErr : JsError :=
  {| code := Some "NETWORK_ERROR"; response := None; message := "fetch failed" |}.
Definition badQuery : JsError :=
  {| code := None; message := "Bad Request";
     response := Some {| status := Some 400;
                         errors := Some [{| gql_message := "Cannot query field foo" |}] |} |}.
Definition rateLimited : JsError :=
  {| code := None; message := "Too Many Requests";
     response := Some {| status := Some 400;
                         errors := Some [{| gql_message := "rate limit exceeded" |}] |} |}.
Definition onlyMaxRetries (m : Z) : PartialRetryConfig :=
  {| opt_maxRetries := Some m; opt_baseDelay := None; opt_maxDelay := None;
     opt_backoffMultiplier := None |}.

(** The defaults make three calls with waits of 1000 and 2000 ms. *)
Lemma withRetry_backoff_schedule_witness :
  forget (withRetry (indexed (fun _ => Err netErr : result JsError nat)) noConfig 0 1) =
  (Err (enhanceError (Some netErr)), [1000; 2000], 3%nat).
Proof.
  rewrite (withRetry_backoff_schedule (fun _ => Err netErr : result JsError nat) (fun _ => netErr) noConfig 0);
    [reflexivity | concrete | intros j _; split; reflexivity].
Defined.

Lemma withRetry_success_at_witness :
  forget (withRetry (indexed (fun k => if k =? 1 then Err netErr else Ok 7%nat)) noConfig 0 1) =
    (Ok 7%nat, [1000], 2%nat).
Proof.
  rewrite (withRetry_success_at (fun k => if k =? 1 then Err netErr else Ok 7%nat)
             (fun _ => netErr) noConfig 7%nat 2 0);
    [reflexivity | concrete | | reflexivity].
  intros j Hj. replace j with 1 by lia. split; reflexivity.
Defined.

Lemma withRetry_non_retryable_witness :
  forget (withRetry (indexed (fun _ => Err badQuery : result JsError nat)) noConfig 0 1) =
  (Err (enhanceError (Some badQuery)), [], 1%nat).
Proof. apply withRetry_non_retryable; concrete. Defined.

Lemma withRetry_no_attempt_witness :
  withRetry (indexed (fun _ => Ok 1%nat)) (onlyMaxRetries 0) 0 1 = (Err TypeErrorUndefined, 1, [], 0%nat).
Proof. apply withRetry_no_attempt. concrete. Defined.

Lemma calculateDelay_monotone_capped_witness :
  calculateDelay 1 defaultConfig <= calculateDelay 3 defaultConfig <= maxDelay defaultConfig.
Proof. apply calculateDelay_monotone_capped; concrete. Defined.

Lemma handleGraphQLError_retryable_sound_witness : isRetryableError rateLimited = true.
Proof. apply handleGraphQLError_retryable_sound. reflexivity. Defined.

End Retry.
