(* ===== verification/Breaker.v ===== *)
(** * The circuit breaker of [src/lib/graphql/error-handler.ts] (lines 158-203)

  One breaker record is shared by every call through the error handler.
  [withCircuitBreaker] reads the clock, runs a synchronous check
  ([enter]: reject when OPEN and the timeout has not elapsed, move to
  HALF_OPEN when it has), awaits the operation, then updates the record
  ([on_success] or [on_failure], with the time read before the await).
  [withCircuitBreaker] composes the two halves for one call; the step
  relation [step] lets calls interleave at the await, as the event loop
  does when several requests are in flight. *)

From S2P Require Import Prelude Json Backoff.
Open Scope Z_scope.
Open Scope commerce_scope.

Module CircuitBreaker.
Import Retry.

Inductive BreakerState := CLOSED | OPEN | HALF_OPEN.

#[export] Instance BreakerState_eq_dec : EqDecision BreakerState.
Proof. solve_decision. Defined.

Record Breaker := {
  failures : Z;
  lastFailureTime : Z;
  state : BreakerState;
  threshold : Z;
  timeout : Z
}.

Definition initialBreaker : Breaker :=
  {| failures := 0; lastFailureTime := 0; state := CLOSED; threshold := 5; timeout := 60000 |}.

Definition with_state (st : BreakerState) (cb : Breaker) : Breaker :=
  {| failures := failures cb; lastFailureTime := lastFailureTime cb; state := st;
     threshold := threshold cb; timeout := timeout cb |}.

(** The error thrown without calling the operation. *)
Definition breakerOpenError : JsError :=
  {| code := None; response := None;
     message := "GraphQL service is temporarily unavailable (circuit breaker open)" |}.

(** Before the await: [None] is the rejection. *)
Definition enter (now : Z) (cb : Breaker) : option Breaker :=
  match state cb with
  | OPEN =>
      if timeout cb <? now - lastFailureTime cb then Some (with_state HALF_OPEN cb)
      else None
  | _ => Some cb
  end.

(** After the await, when the operation resolved. *)
Definition on_success (cb : Breaker) : Breaker :=
  if decide (state cb = HALF_OPEN) then
    {| failures := 0; lastFailureTime := lastFailureTime cb; state := CLOSED;
       threshold := threshold cb; timeout := timeout cb |}
  else cb.

(** After the await, when the operation threw; [now] is the time read
    when the call started. *)
Definition on_failure (now : Z) (cb : Breaker) : Breaker :=
  let f := failures cb + 1 in
  {| failures := f; lastFailureTime := now;
     state := if threshold cb <=? f then OPEN else state cb;
     threshold := threshold cb; timeout := timeout cb |}.

(** One call run to completion: its outcome, the breaker after it, and
    whether the operation was called. *)
Definition withCircuitBreaker {A} (now : Z) (outcome : result JsError A) (cb : Breaker)
  : result JsError A * Breaker * bool :=
  match enter now cb with
  | None => (Err breakerOpenError, cb, false)
  | Some cb1 =>
      match outcome with
      | Ok a => (Ok a, on_success cb1, true)
      | Err e => (Err e, on_failure now cb1, true)
      end
  end.

(** Calls made one after another: each is its start time and outcome. *)
Fixpoint run_calls {A} (calls : list (Z * result JsError A)) (cb : Breaker) : Breaker :=
  match calls with
  | [] => cb
  | (now, outcome) :: rest => run_calls rest (withCircuitBreaker now outcome cb).1.2
  end.

(** ** Interleaved calls *)

(** The shared breaker and the start times of the calls awaiting their
    operation. *)
Record Sys := { breaker : Breaker; inflight : list Z }.

Inductive Event :=
| Start (now : Z)
| Finish (i : nat) (success : bool).

Inductive step : Sys -> Event -> Sys -> Prop :=
| step_reject s now :
    enter now (breaker s) = None -> step s (Start now) s
| step_start s now cb :
    enter now (breaker s) = Some cb ->
    step s (Start now) {| breaker := cb; inflight := inflight s ++ [now] |}
| step_success s i t :
    inflight s !! i = Some t ->
    step s (Finish i true) {| breaker := on_success (breaker s); inflight := delete i (inflight s) |}
| step_failure s i t :
    inflight s !! i = Some t ->
    step s (Finish i false) {| breaker := on_failure t (breaker s); inflight := delete i (inflight s) |}.

#[export] Instance breaker_step : Step Sys Event := step.

Definition initialSys : Sys := {| breaker := initialBreaker; inflight := [] |}.

(** ** The breaker invariant and its preservation *)

(** A breaker that is not CLOSED has reached its threshold; the count is
    never negative. *)
Definition breaker_inv (cb : Breaker) : Prop :=
  0 <= failures cb /\ (state cb <> CLOSED -> threshold cb <= failures cb).

Lemma enter_inv now cb cb' : breaker_inv cb -> enter now cb = Some cb' -> breaker_inv cb'.
Proof.
  unfold enter, breaker_inv. destruct (state cb) eqn:Hs; intros [H0 H1] Hc.
  - injection Hc as <-. rewrite Hs. split; [done | by intros []].
  - revert Hc. case_if; intros [= <-]; simpl. split; [done|]. intros _. by apply H1.
  - injection Hc as <-. rewrite Hs. split; [done|]. intros _. by apply H1.
Qed.

Lemma on_success_inv cb : breaker_inv cb -> breaker_inv (on_success cb).
Proof. unfold on_success, breaker_inv. case_decide; simpl; [split; [lia|done] | done]. Qed.

Lemma on_failure_inv now cb : breaker_inv cb -> breaker_inv (on_failure now cb).
Proof.
  unfold on_failure, breaker_inv; simpl. intros [H0 H1].
  case_if; split; try lia; intros Hs; specialize (H1 Hs); lia.
Qed.

Lemma step_inv s e s' : breaker_inv (breaker s) -> step s e s' -> breaker_inv (breaker s').
Proof. intros Hi Hs. destruct Hs; simpl; eauto using enter_inv, on_success_inv, on_failure_inv. Qed.

Lemma enter_passes_after_timeout now cb :
  state cb = OPEN -> timeout cb < now - lastFailureTime cb ->
  enter now cb = Some (with_state HALF_OPEN cb).
Proof. intros Hs Ht. unfold enter. rewrite Hs. case_if; [done | lia]. Qed.

Lemma enter_not_open now cb : state cb <> OPEN -> enter now cb = Some cb.
Proof. unfold enter. by destruct (state cb). Qed.

(** ** Theorems *)

(** C6. Invariant of every reachable state, whatever the interleaving
    of starting and finishing calls: a breaker that is OPEN or HALF_OPEN
    has counted at least [threshold] failures. *)
Theorem reachable_breaker_inv es s :
  initialSys =[ es ]=> s -> breaker_inv (breaker s).
Proof.
  intros Hsteps. apply (steps_invariant step (fun s => breaker_inv (breaker s)) step_inv _ _ _ Hsteps).
  unfold breaker_inv; simpl. split; [lia | done].
Qed.

(** C23. While OPEN and within the timeout, a call is rejected with the
    breaker error, the operation is not called, and the breaker is left
    unchanged. *)
Theorem open_rejects {A} now (outcome : result JsError A) cb :
  state cb = OPEN -> now - lastFailureTime cb <= timeout cb ->
  withCircuitBreaker now outcome cb = (Err breakerOpenError, cb, false).
Proof. intros Hs Ht. unfold withCircuitBreaker, enter. rewrite Hs. case_if; [lia | done]. Qed.

(** After the timeout an OPEN breaker lets the next call through
    (HALF_OPEN): if it succeeds the breaker is CLOSED with no failures
    counted; if it fails the breaker is OPEN again with its last failure
    at the call's start time. *)
Theorem half_open_trial {A} now (a : A) (e : JsError) cb :
  breaker_inv cb -> state cb = OPEN -> timeout cb < now - lastFailureTime cb ->
  (let '(r, cb', called) := withCircuitBreaker now (Ok a) cb in
   r = Ok a /\ called = true /\ state cb' = CLOSED /\ failures cb' = 0) /\
  (let '(r, cb', called) := withCircuitBreaker now (Err e : result JsError A) cb in
   r = Err e /\ called = true /\ state cb' = OPEN /\ lastFailureTime cb' = now /\
   failures cb' = failures cb + 1).
Proof.
  intros [H0 H1] Hs Ht. unfold withCircuitBreaker.
  rewrite enter_passes_after_timeout by done. split; [done|].
  simpl. split_and!; try done. case_if; [done|]. rewrite Hs in H1. specialize (H1 ltac:(done)). lia.
Qed.

Lemma closed_call_failure {A} now (e : JsError) cb :
  state cb = CLOSED ->
  (withCircuitBreaker now (Err e : result JsError A) cb).1.2 = on_failure now cb.
Proof. intros Hs. unfold withCircuitBreaker. by rewrite enter_not_open by (rewrite Hs; done). Qed.

(** [threshold] failed calls in a row, starting from a CLOSED
    breaker with no failure counted, leave it OPEN with [threshold]
    failures. *)
Theorem consecutive_failures_open {A} (calls : list (Z * result JsError A)) cb :
  Forall (fun c => is_ok c.2 = false) calls ->
  state cb = CLOSED -> failures cb = 0 -> 1 <= threshold cb ->
  Z.of_nat (List.length calls) = threshold cb ->
  state (run_calls calls cb) = OPEN /\ failures (run_calls calls cb) = threshold cb.
Proof.
  intros Hall Hs Hf Hth Hlen.
  assert (Hgen : forall (l : list (Z * result JsError A)) b,
    Forall (fun c => is_ok c.2 = false) l -> state b = CLOSED -> 0 <= failures b ->
    threshold b = threshold cb -> failures b + Z.of_nat (List.length l) = threshold b -> l <> [] ->
    state (run_calls l b) = OPEN /\ failures (run_calls l b) = threshold cb).
  { induction l as [|[t r] rest IH]; intros b Hl Hb H0 Hthb Hn Hne; [done|].
    inversion Hl as [|? ? Hr Hrest]; subst. destruct r as [a|e]; [done|]. simpl.
    rewrite closed_call_failure by done.
    destruct rest as [|c rest'].
    - simpl in *. case_if; [split; [done | lia] | lia].
    - apply IH; try done; simpl in *; [case_if; [lia | done] | lia | lia]. }
  apply Hgen; [done | done | lia | done | lia |]. intros ->. simpl in Hlen. lia.
Qed.

(** A success while CLOSED leaves the failure count as it is: only
    a success in HALF_OPEN resets it, so failures separated by successes
    still add up towards the threshold. *)
Theorem closed_success_keeps_count {A} now (a : A) cb :
  state cb = CLOSED -> withCircuitBreaker now (Ok a) cb = (Ok a, cb, true).
Proof.
  intros Hs. unfold withCircuitBreaker. rewrite enter_not_open by (rewrite Hs; done).
  unfold on_success. rewrite decide_False; [done | by rewrite Hs].
Qed.

(** C24. HALF_OPEN does not limit the trial to one call: once the timeout
    has elapsed, two calls started before the first finishes both pass
    the check and are in flight together. *)
Theorem half_open_admits_concurrent s now now' :
  state (breaker s) = OPEN -> timeout (breaker s) < now - lastFailureTime (breaker s) ->
  s =[ [Start now; Start now'] ]=>
    {| breaker := with_state HALF_OPEN (breaker s); inflight := inflight s ++ [now; now'] |}.
Proof.
  intros Hs Ht. eapply steps_cons.
  { apply step_start. by apply enter_passes_after_timeout. }
  eapply steps_cons.
  { apply step_start. apply enter_not_open. done. }
  simpl. rewrite <- app_assoc. apply steps_nil.
Qed.

(** ** Witnesses *)

Definition failed : result JsError nat := Err breakerOpenError.

Lemma reachable_breaker_inv_witness :
  breaker_inv (breaker {| breaker := on_failure 7 initialBreaker; inflight := [] |}).
Proof.
  apply (reachable_breaker_inv [Start 7; Finish 0 false]).
  eapply steps_cons; [by apply step_start|].
  eapply steps_cons; [by apply (step_failure _ 0 7)|]. apply steps_nil.
Defined.

Definition openBreaker : Breaker := run_calls (map (fun t => (t, failed)) [1; 2; 3; 4; 5]) initialBreaker.

Lemma open_rejects_witness :
  withCircuitBreaker 100 (Ok 1%nat) openBreaker = (Err breakerOpenError, openBreaker, false).
Proof. apply open_rejects; concrete. Defined.

Lemma half_open_trial_witness :
  (let '(r, cb', called) := withCircuitBreaker 70000 (Ok 1%nat) openBreaker in
   r = Ok 1%nat /\ called = true /\ state cb' = CLOSED /\ failures cb' = 0) /\
  (let '(r, cb', called) := withCircuitBreaker 70000 failed openBreaker in
   r = failed /\ called = true /\ state cb' = OPEN /\ lastFailureTime cb' = 70000 /\
   failures cb' = failures openBreaker + 1).
Proof.
  apply half_open_trial; [| concrete | concrete].
  unfold breaker_inv; split; concrete.
Defined.

Lemma consecutive_failures_open_witness :
  state openBreaker = OPEN /\ failures openBreaker = threshold initialBreaker.
Proof. apply consecutive_failures_open; [repeat constructor | concrete..]. Defined.

(** Four failures, a success, one failure: the breaker opens. *)
Lemma closed_success_keeps_count_witness :
  state (run_calls [(0, failed); (1, failed); (2, failed); (3, failed)] initialBreaker) = CLOSED /\
  state (run_calls [(5, failed)]
           (withCircuitBreaker 4 (Ok 1%nat)
              (run_calls [(0, failed); (1, failed); (2, failed); (3, failed)] initialBreaker)).1.2)
  = OPEN.
Proof.
  rewrite (closed_success_keeps_count 4 1%nat); [split; reflexivity | reflexivity].
Defined.

Lemma half_open_admits_concurrent_witness :
  {| breaker := openBreaker; inflight := [] |} =[ [Start 70000; Start 70001] ]=>
    {| breaker := with_state HALF_OPEN openBreaker; inflight := [] ++ [70000; 70001] |}.
Proof. apply half_open_admits_concurrent; concrete. Defined.

End CircuitBreaker.
