(* ===== verification/WindowBatcher.v ===== *)
(** * The time-windowed batcher [GraphQLBatchClient] of
    [src/lib/graphql/batch-client.ts]

  The class keeps [batchQueue] and [batchTimeout].  [addToBatch] pushes
  the query with its promise's resolver, runs [executeBatch] at once
  when the queue reaches [MAX_BATCH_SIZE], and otherwise restarts the
  [BATCH_DELAY] timer.  [executeBatch] takes the whole queue, clears the
  queue and the timer (all before its first await), then awaits every
  query's request in parallel and resolves each caller with its own
  result.

  The model is a state record and a step relation over the events of
  the event loop: a call to [addToBatch], the timer firing, one query's
  request completing, and [clearBatch].  Besides the class's two fields
  the state records what the promises do, as ghost fields: [issued]
  (every [addToBatch] call, indexed by its ticket), [inflight] (queries
  whose request is awaited), [resolved] (the results delivered to
  callers) and [dropped] (callers whose promise nothing will settle).
  The downstream [redisEnhancedGraphQLClient.request] is an oracle. *)

From S2P Require Import Prelude Json.
From Stdlib Require Import Permutation.
Open Scope Z_scope.
Open Scope commerce_scope.

Module BatchClient.

Record QueryOptions := {
  useCache : option bool;
  cacheTTL : option Z;
  queryType : option string
}.

Definition noOptions : QueryOptions := {| useCache := None; cacheTTL := None; queryType := None |}.

Record BatchQuery := {
  id : string;
  query : string;
  variables : option jvalue;
  options : option QueryOptions
}.

Record BatchResult := {
  r_id : string;
  r_data : jvalue;
  r_error : option string;
  fromCache : bool;
  executionTime : Z
}.

(** What [redisEnhancedGraphQLClient.request] resolves with, and what it
    may throw ([error instanceof Error] or anything else). *)
Record GraphQLResponse := { g_data : jvalue; g_fromCache : bool }.

Inductive Thrown :=
| ThrownError (msg : string)
| ThrownOther.

Definition MAX_BATCH_SIZE : nat := 10.
Definition BATCH_DELAY : Z := 10.

Section Client.
(** The downstream request, called with [variables || {}] and [options || {}]. *)
Variable request : string -> jvalue -> QueryOptions -> result Thrown GraphQLResponse.
(** [Date.now() - queryStartTime] for each query. *)
Variable elapsed : BatchQuery -> Z.

(** The body of one query's promise in [executeBatch]. *)
Definition settle (q : BatchQuery) : BatchResult :=
  match request (query q) (or_empty_object (variables q)) (default noOptions (options q)) with
  | Ok r =>
      {| r_id := id q; r_data := g_data r; r_error := None;
         fromCache := g_fromCache r; executionTime := elapsed q |}
  | Err e =>
      {| r_id := id q; r_data := JNull;
         r_error := Some (match e with ThrownError m => m | ThrownOther => "Unknown error"%string end);
         fromCache := false; executionTime := elapsed q |}
  end.

(** A queued query with the ticket of the caller awaiting it. *)
Record Pending := { ticket : nat; pq : BatchQuery }.

Record State := {
  batchQueue : list Pending;
  batchTimeout : option Z;          (** the deadline of the pending timer *)
  issued : list BatchQuery;         (** ghost: every call, by ticket *)
  inflight : list Pending;          (** ghost: requests being awaited *)
  resolved : list (nat * BatchResult);  (** ghost: settled promises *)
  dropped : list nat                (** ghost: promises never settled *)
}.

Definition initialState : State :=
  {| batchQueue := []; batchTimeout := None; issued := []; inflight := [];
     resolved := []; dropped := [] |}.

(** The synchronous start of [executeBatch]: take the queue, clear the
    queue and the timer, start every request. *)
Definition executeBatch (s : State) : State :=
  match batchQueue s with
  | [] => s
  | qs => {| batchQueue := []; batchTimeout := None; issued := issued s;
             inflight := inflight s ++ qs; resolved := resolved s; dropped := dropped s |}
  end.

Definition addToBatch (now : Z) (q : BatchQuery) (s : State) : State :=
  let queue := batchQueue s ++ [{| ticket := List.length (issued s); pq := q |}] in
  let s1 := {| batchQueue := queue; batchTimeout := batchTimeout s; issued := issued s ++ [q];
               inflight := inflight s; resolved := resolved s; dropped := dropped s |} in
  if (MAX_BATCH_SIZE <=? List.length queue)%nat then executeBatch s1
  else {| batchQueue := queue; batchTimeout := Some (now + BATCH_DELAY); issued := issued s ++ [q];
          inflight := inflight s; resolved := resolved s; dropped := dropped s |}.

(** The request of the [i]-th query in flight completes and its caller
    is resolved with its own result. *)
Definition complete (i : nat) (s : State) : option State :=
  match inflight s !! i with
  | Some p =>
      Some {| batchQueue := batchQueue s; batchTimeout := batchTimeout s; issued := issued s;
              inflight := delete i (inflight s);
              resolved := resolved s ++ [(ticket p, settle (pq p))]; dropped := dropped s |}
  | None => None
  end.

Definition clearBatch (s : State) : State :=
  {| batchQueue := []; batchTimeout := None; issued := issued s; inflight := inflight s;
     resolved := resolved s; dropped := dropped s ++ map ticket (batchQueue s) |}.

(** [getBatchStats]: queue length and whether a timer is pending. *)
Definition getBatchStats (s : State) : nat * bool :=
  (List.length (batchQueue s), match batchTimeout s with Some _ => true | None => false end).

(** [executeBatchQueries]: every query through the downstream request in
    parallel; results in the queries' order and the three counters each
    query's promise increments. *)
Definition tally (q : BatchQuery) : nat * nat * nat :=
  match request (query q) (or_empty_object (variables q)) (default noOptions (options q)) with
  | Ok r => if g_fromCache r then (1, 0, 0)%nat else (0, 1, 0)%nat
  | Err _ => (0, 0, 1)%nat
  end.

Fixpoint executeBatchQueries (queries : list BatchQuery) : list BatchResult * nat * nat * nat :=
  match queries with
  | [] => ([], 0, 0, 0)%nat
  | q :: rest =>
      let '(results, hits, misses, errors) := executeBatchQueries rest in
      let '(h, m, e) := tally q in
      (settle q :: results, h + hits, m + misses, e + errors)%nat
  end.

Inductive Event :=
| Add (now : Z) (q : BatchQuery)
| Fire
| Complete (i : nat)
| Clear.

Inductive step : State -> Event -> State -> Prop :=
| step_add s now q : step s (Add now q) (addToBatch now q s)
| step_fire s d : batchTimeout s = Some d -> step s Fire (executeBatch s)
| step_complete s i s' : complete i s = Some s' -> step s (Complete i) s'
| step_clear s : step s Clear (clearBatch s).

End Client.

(** ** Invariants of the batcher *)

Section BatchTheorems.
Variable request : string -> jvalue -> QueryOptions -> result Thrown GraphQLResponse.
Variable elapsed : BatchQuery -> Z.

#[local] Instance batch_step : Step State Event := step request elapsed.

(** At most nine queries wait, and a timer is pending exactly when some do. *)
Definition shape_inv (s : State) : Prop :=
  (List.length (batchQueue s) < MAX_BATCH_SIZE)%nat /\ (batchTimeout s = None <-> batchQueue s = []).

(** Every caller's ticket is in exactly one place: queued, in flight,
    resolved or dropped. *)
Definition all_tickets (s : State) : list nat :=
  map ticket (batchQueue s) ++ map ticket (inflight s) ++ map fst (resolved s) ++ dropped s.

Definition accounting_inv (s : State) : Prop :=
  all_tickets s ≡ₚ seq 0 (List.length (issued s)).

Lemma executeBatch_nonempty s :
  batchQueue s <> [] ->
  executeBatch s = {| batchQueue := []; batchTimeout := None; issued := issued s;
                      inflight := inflight s ++ batchQueue s; resolved := resolved s;
                      dropped := dropped s |}.
Proof. unfold executeBatch. by destruct (batchQueue s). Qed.

Lemma addToBatch_cases now q s :
  (MAX_BATCH_SIZE <= S (List.length (batchQueue s)))%nat /\
    addToBatch now q s =
    {| batchQueue := []; batchTimeout := None; issued := issued s ++ [q];
       inflight := inflight s ++ batchQueue s ++ [{| ticket := List.length (issued s); pq := q |}];
       resolved := resolved s; dropped := dropped s |}
  \/ (S (List.length (batchQueue s)) < MAX_BATCH_SIZE)%nat /\
    addToBatch now q s =
    {| batchQueue := batchQueue s ++ [{| ticket := List.length (issued s); pq := q |}];
       batchTimeout := Some (now + BATCH_DELAY);
       issued := issued s ++ [q]; inflight := inflight s; resolved := resolved s;
       dropped := dropped s |}.
Proof.
  unfold addToBatch. cbv zeta. case_if; rewrite length_app in *; simpl in *; [left | right].
  - split; [lia|]. rewrite executeBatch_nonempty; [done|]. simpl. apply snoc_not_nil.
  - split; [lia | done].
Qed.

Lemma shape_step s e s' : shape_inv s -> step request elapsed s e s' -> shape_inv s'.
Proof.
  unfold shape_inv. intros [Hlen Htimer] Hs. destruct Hs as [s now q|s d Hd|s i s' Hc|s].
  - destruct (addToBatch_cases now q s) as [[_ ->]|[Hl ->]]; simpl; [split; [cbv; lia | done]|].
    rewrite length_app. simpl. split; [lia|]. split; [done|]. intros Hn. by apply snoc_not_nil in Hn.
  - assert (batchQueue s <> []) by (intros Hq; apply Htimer in Hq; congruence).
    rewrite executeBatch_nonempty by done. simpl. split; [cbv; lia | done].
  - unfold complete in Hc. destruct (inflight s !! i); simplify_eq. simpl. done.
  - simpl. split; [cbv; lia | done].
Qed.

Lemma accounting_step s e s' : accounting_inv s -> step request elapsed s e s' -> accounting_inv s'.
Proof.
  unfold accounting_inv, all_tickets. intros Hinv Hs. destruct Hs as [s now q|s d Hd|s i s' Hc|s].
  - destruct (addToBatch_cases now q s) as [[_ ->]|[_ ->]]; simpl;
      rewrite length_app, Nat.add_1_r, seq_S, <- Hinv, ?map_app; simpl; solve_Permutation.
  - unfold executeBatch. destruct (batchQueue s) as [|p ps] eqn:Hq; simpl; rewrite <- Hinv, ?Hq; [done|].
    rewrite map_app. solve_Permutation.
  - unfold complete in Hc. destruct (inflight s !! i) as [p|] eqn:Hp; simplify_eq. simpl.
    rewrite (delete_Permutation (inflight s) i p Hp) in Hinv.
    rewrite <- Hinv, map_app. simpl. solve_Permutation.
  - simpl. rewrite <- Hinv. solve_Permutation.
Qed.

(** Each waiting or running query is the one its caller issued, and each
    delivered result is [settle] of the caller's own query. *)
Definition isolation_inv (s : State) : Prop :=
  Forall (fun p => issued s !! ticket p = Some (pq p)) (batchQueue s ++ inflight s) /\
  Forall (fun tr => exists q, issued s !! tr.1 = Some q /\ tr.2 = settle request elapsed q)
    (resolved s).

Lemma pending_ok_extend (l : list BatchQuery) q (old new : list Pending) :
  Forall (fun p => l !! ticket p = Some (pq p)) old ->
  (forall p, p ∈ new -> p ∈ old \/ p = {| ticket := List.length l; pq := q |}) ->
  Forall (fun p => (l ++ [q]) !! ticket p = Some (pq p)) new.
Proof.
  rewrite !Forall_forall. intros Hold Hsub p Hp.
  destruct (Hsub p Hp) as [Hin | ->]; [by apply lookup_app_l_Some, Hold | simpl].
  by apply list_lookup_middle.
Qed.

Lemma pending_ok_sub (l : list BatchQuery) (old new : list Pending) :
  Forall (fun p => l !! ticket p = Some (pq p)) old -> (forall p, p ∈ new -> p ∈ old) ->
  Forall (fun p => l !! ticket p = Some (pq p)) new.
Proof. rewrite !Forall_forall. eauto. Qed.

Lemma resolved_ok_extend (l : list BatchQuery) q (rs : list (nat * BatchResult)) :
  Forall (fun tr => exists q', l !! tr.1 = Some q' /\ tr.2 = settle request elapsed q') rs ->
  Forall (fun tr => exists q', (l ++ [q]) !! tr.1 = Some q' /\ tr.2 = settle request elapsed q') rs.
Proof.
  intros H. apply (Forall_impl _ _ _ H). intros tr (q' & Hl & Hr).
  exists q'. split; [by apply lookup_app_l_Some | done].
Qed.

Lemma isolation_step s e s' : isolation_inv s -> step request elapsed s e s' -> isolation_inv s'.
Proof.
  unfold isolation_inv. intros [Hq Hr] Hs. destruct Hs as [s now q|s d Hd|s i s' Hc|s].
  - split; [|destruct (addToBatch_cases now q s) as [[_ ->]|[_ ->]]; by apply resolved_ok_extend].
    destruct (addToBatch_cases now q s) as [[_ ->]|[_ ->]]; simpl;
      (apply (pending_ok_extend _ _ _ _ Hq); intros p Hp; set_solver).
  - unfold executeBatch. destruct (batchQueue s) as [|p ps] eqn:Hqs; simpl;
      [rewrite Hqs; by split|].
    split; [|done]. apply (pending_ok_sub _ _ _ Hq). intros x. rewrite !elem_of_app. tauto.
  - unfold complete in Hc. destruct (inflight s !! i) as [p|] eqn:Hp; simplify_eq. simpl.
    split.
    + apply (pending_ok_sub _ _ _ Hq). intros x Hx.
      apply elem_of_app in Hx as [Hx|Hx%list_elem_of_delete_inv]; set_solver.
    + apply Forall_app; split; [done|]. apply Forall_singleton.
      exists (pq p). split; [|done]. rewrite Forall_app in Hq. destruct Hq as [_ Hq].
      by apply (Forall_lookup_1 _ _ _ _ Hq Hp).
  - simpl. split; [|done]. apply (pending_ok_sub _ _ _ Hq). set_solver.
Qed.

Lemma reachable_inv (P : State -> Prop) :
  (forall s e s', P s -> step request elapsed s e s' -> P s') -> P initialState ->
  forall es s, initialState =[ es ]=> s -> P s.
Proof. intros Hstep Hinit es s H. exact (steps_invariant _ P Hstep _ _ _ H Hinit). Qed.

Lemma shape_initial : shape_inv initialState.
Proof. split; [cbv; lia | done]. Qed.

Lemma accounting_initial : accounting_inv initialState.
Proof. unfold accounting_inv. simpl. reflexivity. Qed.

Lemma isolation_initial : isolation_inv initialState.
Proof. split; constructor. Qed.

(** Finishing every request in flight, one [Complete 0] at a time. *)
Lemma complete_all s :
  exists es s', s =[ es ]=> s' /\ Forall (fun e => exists i, e = Complete i) es /\
    inflight s' = [] /\ batchQueue s' = batchQueue s /\ batchTimeout s' = batchTimeout s /\
    issued s' = issued s /\ dropped s' = dropped s.
Proof.
  remember (List.length (inflight s)) as n eqn:Hn. revert s Hn.
  induction n as [|n IH]; intros s Hn.
  - exists [], s. split_and!; auto using steps_nil. by destruct (inflight s).
  - destruct (inflight s) as [|p ps] eqn:Hin; [done|].
    set (s1 := {| batchQueue := batchQueue s; batchTimeout := batchTimeout s; issued := issued s;
                  inflight := ps; resolved := resolved s ++ [(ticket p, settle request elapsed (pq p))];
                  dropped := dropped s |}).
    destruct (IH s1) as (es & s' & Hs & Hf & H1 & H2 & H3 & H4 & H5); [simpl in *; lia|].
    exists (Complete 0%nat :: es), s'. split_and!; try done; [| constructor; [by exists 0%nat | done]].
    eapply steps_cons; [|exact Hs]. apply step_complete. unfold complete. by rewrite Hin.
Qed.

Lemma dropped_grows s e s' : step request elapsed s e s' -> exists l, dropped s' = dropped s ++ l.
Proof.
  destruct 1 as [s now q|s d Hd|s i s' Hc|s].
  - exists []. destruct (addToBatch_cases now q s) as [[_ ->]|[_ ->]]; simpl; by rewrite app_nil_r.
  - exists []. unfold executeBatch. destruct (batchQueue s); simpl; by rewrite app_nil_r.
  - exists []. unfold complete in Hc. destruct (inflight s !! i); simplify_eq; simpl; by rewrite app_nil_r.
  - by eexists.
Qed.

Lemma dropped_grows_steps s es s' : s =[ es ]=> s' -> exists l, dropped s' = dropped s ++ l.
Proof.
  induction 1 as [s|s e s1 es s2 Hs _ [l IH]]; [exists []; by rewrite app_nil_r|].
  destruct (dropped_grows _ _ _ Hs) as [l' Hl']. exists (l' ++ l). by rewrite IH, Hl', app_assoc.
Qed.

(** The queue entries a burst of calls creates, tickets from [start]. *)
Fixpoint pendings (start : nat) (qs : list BatchQuery) : list Pending :=
  match qs with
  | [] => []
  | q :: rest => {| ticket := start; pq := q |} :: pendings (S start) rest
  end.

Lemma length_pendings start qs : List.length (pendings start qs) = List.length qs.
Proof. revert start. induction qs; simpl; auto. Qed.

Lemma pendings_snoc start qs q :
  pendings start (qs ++ [q]) = pendings start qs ++ [{| ticket := start + List.length qs; pq := q |}].
Proof.
  revert start. induction qs as [|q' qs IH]; intros start; simpl; [by rewrite Nat.add_0_r|].
  by rewrite IH, Nat.add_succ_r.
Qed.

(** A burst of calls that does not fill the queue only queues them and
    (re)starts the timer. *)
Lemma adds_below_cap s now qs :
  (List.length (batchQueue s) + List.length qs < MAX_BATCH_SIZE)%nat -> qs <> [] ->
  s =[ map (Add now) qs ]=>
    {| batchQueue := batchQueue s ++ pendings (List.length (issued s)) qs;
       batchTimeout := Some (now + BATCH_DELAY); issued := issued s ++ qs;
       inflight := inflight s; resolved := resolved s; dropped := dropped s |}.
Proof.
  induction qs as [|q qs IH] using rev_ind; [done|]. intros Hlen _.
  rewrite length_app in Hlen; simpl in Hlen. rewrite map_app. simpl.
  destruct qs as [|q0 qs0] eqn:Hqs.
  - simpl. apply steps_one. destruct (addToBatch_cases now q s) as [[Hc _]|[_ Heq]]; [lia|].
    rewrite <- Heq. by constructor.
  - rewrite <- Hqs in *. eapply steps_app; [apply IH; [lia | by rewrite Hqs]|].
    apply steps_one.
    match goal with |- step_rel ?s1 _ _ => destruct (addToBatch_cases now q s1) as [[Hc _]|[_ Heq]] end;
      simpl in *; [rewrite length_app, length_pendings in Hc; lia|].
    rewrite pendings_snoc, <- !app_assoc, length_app in *. rewrite <- Heq. by constructor.
Qed.

(** ** Theorems *)

(** C5. In every reachable state at most nine queries wait, and a timer
    is pending ([getBatchStats().isProcessing]) exactly when some do. *)
Theorem reachable_queue_bounded es s :
  initialState =[ es ]=> s ->
  (List.length (batchQueue s) < MAX_BATCH_SIZE)%nat /\ (batchTimeout s = None <-> batchQueue s = []).
Proof. apply (reachable_inv shape_inv shape_step shape_initial). Qed.

(** C17. Every [addToBatch] call is accounted for exactly once: its
    ticket is queued, in flight, resolved or dropped, and in only one of
    these; in particular no caller is resolved twice. *)
Theorem reachable_tickets_accounted es s :
  initialState =[ es ]=> s ->
  map ticket (batchQueue s) ++ map ticket (inflight s) ++ map fst (resolved s) ++ dropped s
  ≡ₚ seq 0 (List.length (issued s)).
Proof. apply (reachable_inv accounting_inv accounting_step accounting_initial). Qed.

(** C18. Isolation: every result delivered to a caller is the outcome of
    that caller's own query, whatever the other queries of its batch did. *)
Theorem reachable_results_isolated es s t r :
  initialState =[ es ]=> s -> (t, r) ∈ resolved s ->
  exists q, issued s !! t = Some q /\ r = settle request elapsed q.
Proof.
  intros Hs Hin.
  destruct (reachable_inv isolation_inv isolation_step isolation_initial es s Hs) as [_ Hr].
  rewrite Forall_forall in Hr. exact (Hr _ Hin).
Qed.

(** C19. Liveness: from any reachable state, letting the pending timer
    fire and the requests in flight complete (with no further call)
    reaches a state where every caller not dropped by [clearBatch] has
    been resolved. *)
Theorem drain_resolves_all es s :
  initialState =[ es ]=> s ->
  exists es' s', s =[ es' ]=> s' /\ Forall (fun e => e = Fire \/ exists i, e = Complete i) es' /\
    map fst (resolved s') ++ dropped s ≡ₚ seq 0 (List.length (issued s)).
Proof.
  intros Hs. destruct (reachable_inv shape_inv shape_step shape_initial es s Hs) as [_ Htimer].
  assert (exists esf sf, s =[ esf ]=> sf /\ Forall (fun e => e = Fire) esf /\ batchQueue sf = [] /\
            issued sf = issued s /\ dropped sf = dropped s) as (esf & sf & Hsf & Hff & Hq & Hi & Hd).
  { destruct (batchQueue s) as [|p ps] eqn:Hq.
    - exists [], s. split_and!; auto using steps_nil.
    - destruct (batchTimeout s) as [d|] eqn:Ht; [|discriminate (proj1 Htimer eq_refl)].
      exists [Fire], (executeBatch s). rewrite executeBatch_nonempty by (by rewrite Hq).
      split_and!; try done; [|by constructor].
      apply steps_one. rewrite <- executeBatch_nonempty by (by rewrite Hq). by eapply step_fire. }
  destruct (complete_all sf) as (esc & sc & Hsc & Hfc & Hin & Hq' & _ & Hi' & Hd').
  exists (esf ++ esc), sc. split_and!.
  - by eapply steps_app.
  - apply Forall_app; split.
    + apply (Forall_impl _ _ _ Hff). auto.
    + apply (Forall_impl _ _ _ Hfc). auto.
  - pose proof (reachable_tickets_accounted (es ++ esf ++ esc) sc
                  ltac:(eapply steps_app; [exact Hs | eapply steps_app; eauto])) as Hacc.
    rewrite Hin, Hq', Hq, Hd', Hd, Hi', Hi in Hacc. exact Hacc.
Qed.

(** [clearBatch] abandons the callers it removes: once a caller is
    dropped, no later event ever resolves its promise. *)
Theorem dropped_never_resolved es s t es' s' :
  initialState =[ es ]=> s -> t ∈ dropped s -> s =[ es' ]=> s' -> t ∉ map fst (resolved s').
Proof.
  intros Hs Ht Hs'. destruct (dropped_grows_steps _ _ _ Hs') as [l Hl].
  pose proof (reachable_tickets_accounted (es ++ es') s' ltac:(by eapply steps_app)) as Hacc.
  assert (Hnd : NoDup (map ticket (batchQueue s') ++ map ticket (inflight s') ++
                       map fst (resolved s') ++ dropped s')) by (rewrite Hacc; apply NoDup_seq).
  apply NoDup_app in Hnd as (_ & _ & Hnd). apply NoDup_app in Hnd as (_ & _ & Hnd).
  apply NoDup_app in Hnd as (_ & Hdisj & _).
  intros Hin. apply (Hdisj t Hin). rewrite Hl. set_solver.
Qed.

(** Coalescing: a burst of one to nine calls on an empty queue is
    dispatched by the single timer that fires after it, all queries in
    flight together in the order they were added. *)
Theorem burst_one_dispatch s now qs :
  batchQueue s = [] -> qs <> [] -> (List.length qs < MAX_BATCH_SIZE)%nat ->
  s =[ map (Add now) qs ++ [Fire] ]=>
    {| batchQueue := []; batchTimeout := None; issued := issued s ++ qs;
       inflight := inflight s ++ pendings (List.length (issued s)) qs;
       resolved := resolved s; dropped := dropped s |}.
Proof.
  intros Hq Hne Hlen. eapply steps_app; [apply adds_below_cap; [rewrite Hq; simpl; lia | done]|].
  apply steps_one. rewrite Hq. simpl.
  match goal with |- step_rel ?s1 _ _ =>
    replace (Build_State [] None _ _ _ _) with (executeBatch s1) end.
  - by eapply step_fire.
  - rewrite executeBatch_nonempty; simpl; [done|]. destruct qs; [done | simpl; discriminate].
Qed.

(** Size cap: the tenth call on an empty queue dispatches the whole
    batch at once, without waiting for the timer, and clears the timer. *)
Theorem size_cap_dispatch s now qs :
  batchQueue s = [] -> List.length qs = MAX_BATCH_SIZE ->
  s =[ map (Add now) qs ]=>
    {| batchQueue := []; batchTimeout := None; issued := issued s ++ qs;
       inflight := inflight s ++ pendings (List.length (issued s)) qs;
       resolved := resolved s; dropped := dropped s |}.
Proof.
  intros Hq Hlen. destruct qs as [|q qs'] using rev_ind; [done|].
  rewrite length_app in Hlen. simpl in Hlen. rewrite map_app.
  eapply steps_app; [apply adds_below_cap; [rewrite Hq; simpl; unfold MAX_BATCH_SIZE in *; lia |]|].
  { destruct qs'; [unfold MAX_BATCH_SIZE in *; simpl in Hlen; lia | done]. }
  apply steps_one. rewrite Hq. simpl.
  match goal with |- step_rel ?s1 _ _ => destruct (addToBatch_cases now q s1) as [[_ Heq]|[Hc _]] end;
    simpl in *; [|rewrite length_pendings in Hc; unfold MAX_BATCH_SIZE in *; lia].
  rewrite pendings_snoc, <- !app_assoc, ?length_app in *. rewrite <- Heq. by constructor.
Qed.

(** [executeBatchQueries] returns one result per query, in order,
    each the query's own outcome, and its hit, miss and error counters
    add up to the number of queries. *)
Theorem executeBatchQueries_counts qs :
  let '(results, hits, misses, errors) := executeBatchQueries request elapsed qs in
  results = map (settle request elapsed) qs /\ (hits + misses + errors = List.length qs)%nat.
Proof.
  induction qs as [|q qs IH]; simpl; [done|].
  destruct (executeBatchQueries request elapsed qs) as [[[rs h] m] e].
  destruct IH as [-> IH]. unfold tally.
  destruct (request _ _ _) as [r|]; [destruct (g_fromCache r)|]; simpl; split; auto; lia.
Qed.

End BatchTheorems.

(** ** Witnesses *)

Definition wreq (q : string) (_ : jvalue) (_ : QueryOptions) : result Thrown GraphQLResponse :=
  if String.eqb q "bad" then Err (ThrownError "HTTP 500")
  else Ok {| g_data := JStr q; g_fromCache := false |}.
Definition welapsed (_ : BatchQuery) : Z := 1.
Definition mkq (n : string) : BatchQuery := {| id := n; query := n; variables := None; options := None |}.
Definition wqa : BatchQuery := mkq "a".
Definition wqb : BatchQuery := mkq "bad".

Definition wstate1 : State := executeBatch (addToBatch 0 wqb (addToBatch 0 wqa initialState)).
Definition wstate2 : State := default wstate1 (complete wreq welapsed 1 wstate1).

Lemma wstate1_reached : steps (step wreq welapsed) initialState [Add 0 wqa; Add 0 wqb; Fire] wstate1.
Proof.
  eapply steps_cons; [apply step_add|]. eapply steps_cons; [apply step_add|].
  apply steps_one. by eapply step_fire.
Qed.

Lemma wstate2_reached :
  steps (step wreq welapsed) initialState [Add 0 wqa; Add 0 wqb; Fire; Complete 1] wstate2.
Proof.
  change [Add 0 wqa; Add 0 wqb; Fire; Complete 1] with ([Add 0 wqa; Add 0 wqb; Fire] ++ [Complete 1]).
  eapply steps_app; [apply wstate1_reached|]. apply steps_one. by apply step_complete.
Qed.

Lemma reachable_queue_bounded_witness :
  (List.length (batchQueue wstate1) < MAX_BATCH_SIZE)%nat /\
  (batchTimeout wstate1 = None <-> batchQueue wstate1 = []).
Proof. exact (reachable_queue_bounded wreq welapsed _ _ wstate1_reached). Defined.

Lemma reachable_tickets_accounted_witness :
  map ticket (batchQueue wstate2) ++ map ticket (inflight wstate2) ++ map fst (resolved wstate2) ++
  dropped wstate2 ≡ₚ seq 0 (List.length (issued wstate2)).
Proof. exact (reachable_tickets_accounted wreq welapsed _ _ wstate2_reached). Defined.

Lemma reachable_results_isolated_witness :
  exists q, issued wstate2 !! 1%nat = Some q /\ settle wreq welapsed wqb = settle wreq welapsed q.
Proof.
  apply (reachable_results_isolated wreq welapsed _ _ 1%nat _ wstate2_reached).
  vm_compute. left.
Defined.

Lemma drain_resolves_all_witness :
  exists es' s', steps (step wreq welapsed) wstate1 es' s' /\
    Forall (fun e => e = Fire \/ exists i, e = Complete i) es' /\
    map fst (resolved s') ++ dropped wstate1 ≡ₚ seq 0 (List.length (issued wstate1)).
Proof. exact (drain_resolves_all wreq welapsed _ _ wstate1_reached). Defined.

Lemma dropped_never_resolved_witness :
  (0%nat ∉ map fst (resolved (clearBatch (addToBatch 0 wqa initialState)))).
Proof.
  apply (dropped_never_resolved wreq welapsed [Add 0 wqa; Clear] (clearBatch (addToBatch 0 wqa initialState)) 0%nat [] _).
  - eapply steps_cons; [apply step_add|]. apply steps_one. apply step_clear.
  - vm_compute. left.
  - apply steps_nil.
Defined.

Lemma burst_one_dispatch_witness :
  steps (step wreq welapsed) initialState (map (Add 5) [wqa; wqb; wqa] ++ [Fire])
    {| batchQueue := []; batchTimeout := None; issued := [] ++ [wqa; wqb; wqa];
       inflight := [] ++ pendings 0 [wqa; wqb; wqa]; resolved := []; dropped := [] |}.
Proof. apply (burst_one_dispatch wreq welapsed initialState 5); concrete. Defined.

Lemma size_cap_dispatch_witness :
  steps (step wreq welapsed) initialState (map (Add 5) (repeat wqa 10))
    {| batchQueue := []; batchTimeout := None; issued := [] ++ repeat wqa 10;
       inflight := [] ++ pendings 0 (repeat wqa 10); resolved := []; dropped := [] |}.
Proof. apply (size_cap_dispatch wreq welapsed initialState 5); concrete. Defined.


End BatchClient.
