(* ===== verification/PrioritySort.v ===== *)
(** * Priorities and the priority sort of the prefetch queues

  Both prefetch managers ([src/lib/graphql/browser-prefetch-manager.ts]
  and [src/lib/graphql/prefetch-manager.ts]) sort their queue with

    [queue.sort((a, b) => priorityOrder[b.strategy.priority]
                          - priorityOrder[a.strategy.priority])]

  where [priorityOrder = { high: 3, medium: 2, low: 1 }].
  [Array.prototype.sort] is stable (ECMAScript 2019), so the result is
  determined by the comparator: the stable sort by decreasing rank.
  [sortByPriority] computes it by insertion, and [sortByPriority_tiers]
  shows that it equals the high items, then the medium ones, then the
  low ones, each tier in queue order (priority, then FIFO).  The
  section is generic in the element type and its priority, so that the
  two managers' item types share it. *)

From S2P Require Import Prelude.
From Stdlib Require Import Sorted.
Open Scope Z_scope.

Module Priority.

Inductive Priority := High | Medium | Low.

#[export] Instance Priority_eq_dec : EqDecision Priority.
Proof. solve_decision. Defined.

Definition priorityOrder (p : Priority) : Z :=
  match p with High => 3 | Medium => 2 | Low => 1 end.

Section Sort.
Context {A : Type} (prio : A -> Priority).

Definition rank (x : A) : Z := priorityOrder (prio x).

(** Insertion of [x] in a sorted list of elements that came after [x]:
    the comparator [rank y - rank x] keeps [x] before every [y] with
    [rank y <= rank x] (stability), and lets the larger ones go first. *)
Fixpoint insertByPriority (x : A) (l : list A) : list A :=
  match l with
  | [] => [x]
  | y :: l' => if rank y <=? rank x then x :: l else y :: insertByPriority x l'
  end.

Fixpoint sortByPriority (l : list A) : list A :=
  match l with
  | [] => []
  | x :: l' => insertByPriority x (sortByPriority l')
  end.

(** The elements of one priority, in list order. *)
Definition tier (p : Priority) (l : list A) : list A :=
  filter (fun x => bool_decide (prio x = p)) l.

(** The reference order: priority first, FIFO within a priority. *)
Definition tiers (l : list A) : list A := tier High l ++ tier Medium l ++ tier Low l.

(** ** Lemmas *)

Lemma rank_cases x :
  (prio x = High /\ rank x = 3) \/ (prio x = Medium /\ rank x = 2) \/ (prio x = Low /\ rank x = 1).
Proof. unfold rank. destruct (prio x); auto. Qed.

Lemma insert_skip x h rest :
  Forall (fun y => rank x < rank y) h ->
  insertByPriority x (h ++ rest) = h ++ insertByPriority x rest.
Proof.
  induction 1 as [|y h Hy _ IH]; [done|]. simpl.
  destruct (Z.leb_spec (rank y) (rank x)); [lia|]. by rewrite IH.
Qed.

Lemma insert_front x rest :
  Forall (fun y => rank y <= rank x) rest -> insertByPriority x rest = x :: rest.
Proof.
  destruct 1 as [|y l Hy _]; [done|]. simpl.
  destruct (Z.leb_spec (rank y) (rank x)); [done | lia].
Qed.

Lemma tier_rank p l x : x ∈ tier p l -> prio x = p.
Proof. unfold tier. rewrite list_elem_of_filter. intros [Hp _]. by case_bool_decide. Qed.

Lemma tier_Forall p l (P : A -> Prop) :
  (forall x, prio x = p -> P x) -> Forall P (tier p l).
Proof. intros HP. apply Forall_forall. intros x Hx. apply HP. by eapply tier_rank. Qed.

Lemma tier_cons_same p x l : prio x = p -> tier p (x :: l) = x :: tier p l.
Proof. intros Hx. unfold tier. rewrite filter_cons. by case_bool_decide. Qed.

Lemma tier_cons_other p x l : prio x <> p -> tier p (x :: l) = tier p l.
Proof. intros Hx. unfold tier. rewrite filter_cons. by case_bool_decide. Qed.

Lemma tier_app p l1 l2 : tier p (l1 ++ l2) = tier p l1 ++ tier p l2.
Proof. apply filter_app. Qed.

Lemma tiers_perm l : tiers l ≡ₚ l.
Proof.
  induction l as [|x l IH]; [done|]. unfold tiers in *.
  destruct (rank_cases x) as [[Hx _]|[[Hx _]|[Hx _]]];
    rewrite !(tier_cons_same _ x l Hx), !tier_cons_other by congruence;
    (transitivity (x :: tier High l ++ tier Medium l ++ tier Low l);
     [solve_Permutation | by constructor]).
Qed.

End Sort.

#[export] Hint Resolve tier_Forall : commerce.

Section SortTheorems.
Context {A : Type} (prio : A -> Priority).

Ltac tier_bound :=
  apply tier_Forall; let Hy := fresh in intros ? Hy; unfold rank in *; rewrite Hy; simpl; lia.

Lemma insert_tiers x l :
  insertByPriority prio x (tiers prio l) = tiers prio (x :: l).
Proof.
  unfold tiers. destruct (rank_cases prio x) as [[Hx Hr]|[[Hx Hr]|[Hx Hr]]];
    rewrite !(tier_cons_same _ _ x l Hx), !tier_cons_other by congruence.
  - apply insert_front. rewrite !Forall_app. split_and!; tier_bound.
  - rewrite insert_skip, insert_front; [done | rewrite Forall_app; split | ]; tier_bound.
  - rewrite app_assoc, insert_skip, insert_front, <- app_assoc;
      [done | | rewrite Forall_app; split]; tier_bound.
Qed.

Lemma sort_tiers l : sortByPriority prio l = tiers prio l.
Proof. induction l as [|x l IH]; [done|]. simpl. rewrite IH. apply insert_tiers. Qed.

(** Decreasing rank: each element ranks at least as high as every later one. *)
Definition by_rank (x y : A) : Prop := rank prio y <= rank prio x.

Lemma sorted_app l1 l2 :
  StronglySorted by_rank l1 -> StronglySorted by_rank l2 ->
  (forall x y, x ∈ l1 -> y ∈ l2 -> by_rank x y) -> StronglySorted by_rank (l1 ++ l2).
Proof.
  induction 1 as [|x l1 _ IH Hx]; intros H2 Hxy; simpl; [done|].
  constructor.
  - apply IH; [done|]. intros a b Ha Hb. apply Hxy; [by right|done].
  - apply Forall_app. split; [done|]. apply Forall_forall. intros y Hy. apply Hxy; [left|done].
Qed.

Lemma sorted_tier p l : StronglySorted by_rank (tier prio p l).
Proof.
  induction l as [|x l IH]; [constructor|].
  destruct (decide (prio x = p)) as [Hx|Hx].
  - rewrite tier_cons_same by done. constructor; [done|].
    apply tier_Forall. intros y Hy. unfold by_rank, rank. by rewrite Hx, Hy.
  - by rewrite tier_cons_other.
Qed.

Lemma tier_tier p q l : tier prio p (tier prio q l) = if decide (p = q) then tier prio q l else [].
Proof.
  case_decide as Hpq; induction l as [|x l IH]; try done;
    destruct (decide (prio x = q)) as [Hq|Hq];
    rewrite ?(tier_cons_same _ q), ?(tier_cons_other _ q) by done; try done.
  - subst. by rewrite tier_cons_same, IH.
  - rewrite tier_cons_other; congruence.
Qed.

Lemma tier_tiers p l : tier prio p (tiers prio l) = tier prio p l.
Proof.
  unfold tiers. rewrite !tier_app, !tier_tier.
  destruct p; repeat case_decide; try done; by rewrite ?app_nil_r.
Qed.

Lemma tier_none p l : Forall (fun y => prio y <> p) l -> tier prio p l = [].
Proof. induction 1; [done|]. by rewrite tier_cons_other. Qed.

Lemma sorted_tiers l : StronglySorted by_rank l -> tiers prio l = l.
Proof.
  induction 1 as [|x r _ IH Hx]; [done|]. unfold tiers in *.
  assert (Hr : forall p, priorityOrder (prio x) < priorityOrder p -> tier prio p r = []).
  { intros p Hp. apply tier_none. eapply Forall_impl; [exact Hx|].
    intros y Hy Hyp. unfold by_rank, rank in Hy. rewrite Hyp in Hy. lia. }
  destruct (prio x) eqn:Hpx;
    rewrite !(tier_cons_same _ _ x r Hpx), !tier_cons_other by congruence.
  - simpl. by rewrite IH.
  - rewrite (Hr High) in IH |- * by (simpl; lia). simpl in *. by rewrite IH.
  - rewrite (Hr High), (Hr Medium) in IH |- * by (simpl; lia).
    simpl in *. by rewrite IH.
Qed.

Lemma sort_perm l : sortByPriority prio l ≡ₚ l.
Proof. rewrite sort_tiers. apply tiers_perm. Qed.

Lemma sort_sorted l : StronglySorted by_rank (sortByPriority prio l).
Proof.
  rewrite sort_tiers. unfold tiers.
  assert (Hb : forall p q x y, x ∈ tier prio p l -> y ∈ tier prio q l ->
             priorityOrder q <= priorityOrder p -> by_rank x y).
  { intros p q x y Hx Hy Hpq. unfold by_rank, rank.
    by rewrite (tier_rank _ _ _ _ Hx), (tier_rank _ _ _ _ Hy). }
  apply sorted_app; [apply sorted_tier | apply sorted_app; [apply sorted_tier..|] |].
  - intros x y Hx Hy. by apply (Hb Medium Low).
  - intros x y Hx [Hy|Hy]%elem_of_app; [apply (Hb High Medium) | apply (Hb High Low)]; done.
Qed.

Lemma sort_stable p l : tier prio p (sortByPriority prio l) = tier prio p l.
Proof. rewrite sort_tiers. apply tier_tiers. Qed.

Lemma sorted_app_inv l1 l2 x y :
  StronglySorted by_rank (l1 ++ l2) -> x ∈ l1 -> y ∈ l2 -> by_rank x y.
Proof.
  induction l1 as [|a l1 IH]; simpl; intros Hs Hx Hy; [set_solver|].
  apply StronglySorted_inv in Hs as [Hs Ha]. apply elem_of_cons in Hx as [->|Hx].
  - eapply Forall_forall; [exact Ha|]. set_solver.
  - by apply IH.
Qed.

(** The item [processQueue] takes: the first of the highest priority present. *)
Lemma sort_head l x r :
  sortByPriority prio l = x :: r ->
  Forall (fun y => rank prio y <= rank prio x) l /\ tier prio (prio x) l = x :: tier prio (prio x) r.
Proof.
  intros Hs. split.
  - rewrite <- (sort_perm l), Hs. constructor; [lia|].
    pose proof (sort_sorted l) as Hsorted. rewrite Hs in Hsorted.
    apply StronglySorted_inv in Hsorted as [_ Hx]. exact Hx.
  - rewrite <- (sort_stable (prio x) l), Hs. by apply tier_cons_same.
Qed.

(** The item the eviction pops: the last of the lowest priority present. *)
Lemma sort_last l r e :
  sortByPriority prio l = r ++ [e] ->
  Forall (fun y => rank prio e <= rank prio y) l /\ tier prio (prio e) l = tier prio (prio e) r ++ [e].
Proof.
  intros Hs. split.
  - rewrite <- (sort_perm l), Hs. apply Forall_app. split; [|constructor; [lia|done]].
    apply Forall_forall. intros y Hy. pose proof (sort_sorted l) as Hsorted. rewrite Hs in Hsorted.
    apply (sorted_app_inv r [e]); [done | done | by left].
  - rewrite <- (sort_stable (prio e) l), Hs, tier_app. f_equal. by rewrite tier_cons_same.
Qed.

End SortTheorems.

(** ** Theorems *)

(** C28. The priority sort is the sort the comparator defines, and no
    other: a list is the result of [sortByPriority] exactly when it is a
    permutation of the queue, in decreasing rank, with each priority's
    items in queue order.  Any conforming (stable) [Array.prototype.sort]
    therefore computes [sortByPriority]. *)
Theorem sortByPriority_spec {A} (prio : A -> Priority) (l l' : list A) :
  (l' ≡ₚ l /\ StronglySorted (by_rank prio) l' /\ forall p, tier prio p l' = tier prio p l)
  <-> l' = sortByPriority prio l.
Proof.
  split.
  - intros (_ & Hsorted & Htier). rewrite sort_tiers, <- (sorted_tiers _ l' Hsorted).
    unfold tiers. by rewrite !Htier.
  - intros ->. split_and!; [apply sort_perm | apply sort_sorted | intros p; apply sort_stable].
Qed.

End Priority.
