(* ===== verification/JsonParser.v ===== *)
(** * [JSON.parse] and its round trip with [JSON.stringify]

  The Redis cache service stores [JSON.stringify(data)] and returns
  [JSON.parse(cached)] on a hit.  [JSON.parse] is a JavaScript builtin,
  modelled here from ECMA-404 on the value domain of [Json]: [parse]
  returns [None] where [JSON.parse] throws (a syntax error, trailing
  characters) and also where the result is outside the modelled domain
  (a number with a fraction or an exponent, a [\u] escape above 255, an
  object key that is an array index, whose position JavaScript would
  change).  A repeated key keeps the position of its first occurrence
  and the value of its last, as [JSON.parse] does.

  [parse_value] descends with fuel; [parse] gives it one unit per input
  character, which is enough because every value takes at least one
  character ([jsize_le_length]).  The main theorem is the round trip
  [parse (stringify v) = Some v] for every well-formed value. *)

From S2P Require Import Prelude Json.
From Stdlib Require Import DecimalString DecimalZ.
Open Scope Z_scope.
Open Scope commerce_scope.

Module JsonParse.

Definition is_ws (c : ascii) : bool :=
  let n := nat_of_ascii c in ((n =? 32) || (n =? 9) || (n =? 10) || (n =? 13))%nat.

Fixpoint skip_ws (s : string) : string :=
  match s with
  | String c s' => if is_ws c then skip_ws s' else s
  | EmptyString => s
  end.

Definition is_digit (c : ascii) : bool :=
  let n := nat_of_ascii c in ((48 <=? n) && (n <=? 57))%nat.

Fixpoint span_digits (s : string) : string * string :=
  match s with
  | String c s' => if is_digit c then let '(d, r) := span_digits s' in (String c d, r) else (EmptyString, s)
  | EmptyString => (EmptyString, EmptyString)
  end.

(** A fraction or an exponent follows the integer part. *)
Definition fraction_follows (s : string) : bool :=
  match s with
  | String c _ => Ascii.eqb c "." || Ascii.eqb c "e" || Ascii.eqb c "E"
  | EmptyString => false
  end.

(** The digits after an optional minus sign: [0] or a non-zero digit
    and more digits. *)
Definition parse_digits (neg : bool) (s : string) : option (Z * string) :=
  let '(ds, rest) := span_digits s in
  match ds with
  | EmptyString => None
  | String d ds' =>
      if Ascii.eqb d "0" && negb (String.eqb ds' "") then None
      else if fraction_follows rest then None
      else option_map (fun u => (Z.of_int (if neg then Decimal.Neg u else Decimal.Pos u), rest))
             (NilZero.uint_of_string ds)
  end.

Definition parse_number (s : string) : option (Z * string) :=
  match s with
  | String c s' => if Ascii.eqb c "-" then parse_digits true s' else parse_digits false s
  | EmptyString => None
  end.

Definition hex_val (c : ascii) : option nat :=
  let n := nat_of_ascii c in
  (if (48 <=? n) && (n <=? 57) then Some (n - 48)
   else if (97 <=? n) && (n <=? 102) then Some (n - 87)
   else if (65 <=? n) && (n <=? 70) then Some (n - 55)
   else None)%nat.

(** The characters written by a one-letter escape. *)
Definition simple_escape (e : ascii) : option ascii :=
  let n := nat_of_ascii e in
  if (n =? 34)%nat then Some dquote
  else if (n =? 92)%nat then Some backslash
  else if (n =? 47)%nat then Some (ascii_of_nat 47)
  else if Ascii.eqb e "b" then Some (ascii_of_nat 8)
  else if Ascii.eqb e "f" then Some (ascii_of_nat 12)
  else if Ascii.eqb e "n" then Some (ascii_of_nat 10)
  else if Ascii.eqb e "r" then Some (ascii_of_nat 13)
  else if Ascii.eqb e "t" then Some (ascii_of_nat 9)
  else None.

Definition prepend (c : ascii) (o : option (string * string)) : option (string * string) :=
  match o with Some (str, r) => Some (String c str, r) | None => None end.

(** The characters of a string literal after its opening quote, up to
    and without its closing quote. *)
Fixpoint parse_chars (s : string) : option (string * string) :=
  match s with
  | EmptyString => None
  | String c s' =>
      if Ascii.eqb c dquote then Some (EmptyString, s')
      else if Ascii.eqb c backslash then
        match s' with
        | EmptyString => None
        | String e s'' =>
            match simple_escape e with
            | Some ch => prepend ch (parse_chars s'')
            | None =>
                if Ascii.eqb e "u" then
                  match s'' with
                  | String h1 (String h2 (String h3 (String h4 s5))) =>
                      match hex_val h1, hex_val h2, hex_val h3, hex_val h4 with
                      | Some a, Some b, Some c3, Some d =>
                          let code := (a * 4096 + b * 256 + c3 * 16 + d)%nat in
                          if (code <? 256)%nat then prepend (ascii_of_nat code) (parse_chars s5)
                          else None
                      | _, _, _, _ => None
                      end
                  | _ => None
                  end
                else None
            end
        end
      else if (nat_of_ascii c <? 32)%nat then None
      else prepend c (parse_chars s')
  end.

(** A canonical array index: JavaScript lists such keys first. *)
Definition is_array_index (k : string) : bool :=
  let '(ds, rest) := span_digits k in
  match ds with
  | EmptyString => false
  | String d ds' =>
      String.eqb rest "" && negb (Ascii.eqb d "0" && negb (String.eqb ds' "")) &&
      match NilZero.uint_of_string ds with
      | Some u => Z.of_uint u <? 4294967295
      | None => false
      end
  end.

(** [CreateDataProperty]: a new key is appended, a repeated one keeps
    its place and takes the new value. *)
Fixpoint setField (fields : list (string * jvalue)) (k : string) (v : jvalue) : list (string * jvalue) :=
  match fields with
  | [] => [(k, v)]
  | (k', v') :: fs => if String.eqb k k' then (k, v) :: fs else (k', v') :: setField fs k v
  end.

Definition buildObject (pairs : list (string * jvalue)) : option jvalue :=
  if existsb (fun kv => is_array_index kv.1) pairs then None
  else Some (JObj (fold_left (fun fs kv => setField fs kv.1 kv.2) pairs [])).

(** [expect lit s]: [s] starts with [lit]; what follows it. *)
Fixpoint expect (lit s : string) : option string :=
  match lit, s with
  | EmptyString, _ => Some s
  | String a l', String b s' => if Ascii.eqb a b then expect l' s' else None
  | _, _ => None
  end.

Definition next_is (d : ascii) (s : string) : bool :=
  match s with String c _ => Ascii.eqb c d | EmptyString => false end.

Definition drop1 (s : string) : string :=
  match s with String _ s' => s' | EmptyString => EmptyString end.

(** The elements of an array after [[] and white space, with the
    value parser [pv] of the level below. *)
Fixpoint parse_elems (pv : string -> option (jvalue * string)) (m : nat) (s : string)
  : option (list jvalue * string) :=
  match m with
  | O => None
  | S m' =>
      match pv s with
      | None => None
      | Some (v, r) =>
          match skip_ws r with
          | String c r' =>
              if Ascii.eqb c "," then
                match parse_elems pv m' r' with
                | Some (vs, r'') => Some (v :: vs, r'')
                | None => None
                end
              else if Ascii.eqb c "]" then Some ([v], r')
              else None
          | EmptyString => None
          end
      end
  end.

(** The members of an object after [{] and white space. *)
Fixpoint parse_members (pv : string -> option (jvalue * string)) (m : nat) (s : string)
  : option (list (string * jvalue) * string) :=
  match m with
  | O => None
  | S m' =>
      match skip_ws s with
      | String q s1 =>
          if Ascii.eqb q dquote then
            match parse_chars s1 with
            | None => None
            | Some (k, s2) =>
                match skip_ws s2 with
                | String c s3 =>
                    if Ascii.eqb c ":" then
                      match pv s3 with
                      | None => None
                      | Some (v, r) =>
                          match skip_ws r with
                          | String c' r' =>
                              if Ascii.eqb c' "," then
                                match parse_members pv m' r' with
                                | Some (kvs, r'') => Some ((k, v) :: kvs, r'')
                                | None => None
                                end
                              else if Ascii.eqb c' "}" then Some ([(k, v)], r')
                              else None
                          | EmptyString => None
                          end
                      end
                    else None
                | EmptyString => None
                end
            end
          else None
      | EmptyString => None
      end
  end.

Fixpoint parse_value (fuel : nat) (s : string) : option (jvalue * string) :=
  match fuel with
  | O => None
  | S n =>
      match skip_ws s with
      | EmptyString => None
      | String c r =>
          if Ascii.eqb c "n" then option_map (fun r' => (JNull, r')) (expect "ull" r)
          else if Ascii.eqb c "t" then option_map (fun r' => (JBool true, r')) (expect "rue" r)
          else if Ascii.eqb c "f" then option_map (fun r' => (JBool false, r')) (expect "alse" r)
          else if Ascii.eqb c dquote then
            match parse_chars r with Some (str, r') => Some (JStr str, r') | None => None end
          else if Ascii.eqb c "[" then
            let r1 := skip_ws r in
            if next_is "]" r1 then Some (JArr [], drop1 r1)
            else
              match parse_elems (parse_value n) n r1 with
              | Some (vs, r') => Some (JArr vs, r')
              | None => None
              end
          else if Ascii.eqb c "{" then
            let r1 := skip_ws r in
            if next_is "}" r1 then Some (JObj [], drop1 r1)
            else
              match parse_members (parse_value n) n r1 with
              | Some (kvs, r') =>
                  match buildObject kvs with Some o => Some (o, r') | None => None end
              | None => None
              end
          else
            match parse_number (String c r) with
            | Some (z, r') => Some (JNum z, r')
            | None => None
            end
      end
  end.

(** [JSON.parse(text)]: one value and nothing but white space after it. *)
Definition parse (text : string) : option jvalue :=
  match parse_value (S (String.length text)) text with
  | Some (v, rest) => if String.eqb (skip_ws rest) "" then Some v else None
  | None => None
  end.

(** ** Lemmas: the tokens *)

(** What may follow a value inside a document printed by [stringify]. *)
Definition ends_value (rest : string) : bool :=
  match rest with
  | EmptyString => true
  | String c _ => Ascii.eqb c "," || Ascii.eqb c "]" || Ascii.eqb c "}"
  end.

Lemma ends_value_cases rest :
  ends_value rest = true ->
  rest = EmptyString \/ exists c r, rest = String c r /\ (c = ","%char \/ c = "]"%char \/ c = "}"%char).
Proof.
  destruct rest as [|c r]; simpl; [by left|]. intros H. right. exists c, r. split; [done|].
  repeat (apply orb_true_iff in H as [H|H]); apply Ascii.eqb_eq in H; auto.
Qed.

Lemma parse_chars_escape_char c t : parse_chars (escape_char c ++ t) = prepend c (parse_chars t).
Proof. destruct c as [[] [] [] [] [] [] [] []]; reflexivity. Qed.

Lemma parse_chars_escape s rest : parse_chars (escape s ++ String dquote rest) = Some (s, rest).
Proof.
  induction s as [|c s IH]; [reflexivity|]. simpl.
  rewrite string_app_assoc, parse_chars_escape_char, IH. reflexivity.
Qed.

Lemma span_end rest : ends_value rest = true -> span_digits rest = (EmptyString, rest).
Proof. intros [->|(c & r & -> & [->|[->| ->]])]%ends_value_cases; reflexivity. Qed.

Lemma fraction_end rest : ends_value rest = true -> fraction_follows rest = false.
Proof. intros [->|(c & r & -> & [->|[->| ->]])]%ends_value_cases; reflexivity. Qed.

Lemma span_uint u rest :
  ends_value rest = true ->
  span_digits (NilEmpty.string_of_uint u ++ rest) = (NilEmpty.string_of_uint u, rest).
Proof. intros Hr. induction u; simpl; rewrite ?IHu; [by apply span_end|..]; reflexivity. Qed.

(** [Z.to_int] is normalised: no leading zero. *)
Lemma to_int_norm z : Decimal.norm (Z.to_int z) = Z.to_int z.
Proof. rewrite <- DecimalZ.to_of, DecimalZ.of_to. reflexivity. Qed.

Lemma nzhead_not_D0 u u' : Decimal.nzhead u <> Decimal.D0 u'.
Proof. induction u; simpl; congruence. Qed.

(** A normalised digit string: [0], or a non-zero leading digit. *)
Definition lead_ok (u : Decimal.uint) : Prop :=
  u = Decimal.D0 Decimal.Nil \/ (u <> Decimal.Nil /\ forall u', u <> Decimal.D0 u').

Lemma parse_digits_uint neg u rest :
  ends_value rest = true -> lead_ok u ->
  parse_digits neg (NilEmpty.string_of_uint u ++ rest) =
    Some (Z.of_int (if neg then Decimal.Neg u else Decimal.Pos u), rest).
Proof.
  intros Hr [->|[Hnil Hd]].
  - unfold parse_digits. simpl. rewrite span_end, fraction_end by done. reflexivity.
  - unfold parse_digits. rewrite span_uint by done.
    destruct u; try congruence; try (exfalso; by eapply Hd);
      cbn [span_digits String.append NilEmpty.string_of_uint]; rewrite fraction_end by done;
      simpl; rewrite NilEmpty.usu; reflexivity.
Qed.

Lemma unorm_lead u : Decimal.unorm u = u -> lead_ok u.
Proof.
  unfold Decimal.unorm. destruct (Decimal.nzhead u) eqn:E; intros <-; [by left|..];
    right; split; try done; intros u' Hu; eapply nzhead_not_D0; rewrite E; exact Hu.
Qed.

Lemma parse_number_Z z rest : ends_value rest = true -> parse_number (string_of_Z z ++ rest) = Some (z, rest).
Proof.
  intros Hr. unfold string_of_Z. pose proof (to_int_norm z) as Hn. pose proof (DecimalZ.of_to z) as Ho.
  destruct (Z.to_int z) as [u|u].
  - simpl in Hn. injection Hn as Hn. apply unorm_lead in Hn.
    assert (Hs : NilZero.string_of_uint u = NilEmpty.string_of_uint u)
      by (destruct Hn as [->|[Hu _]]; [done | by destruct u]).
    simpl. rewrite Hs.
    assert (Hp : parse_number (NilEmpty.string_of_uint u ++ rest) =
                 parse_digits false (NilEmpty.string_of_uint u ++ rest))
      by (destruct Hn as [->|[Hu _]]; [done | destruct u; done]).
    rewrite Hp, parse_digits_uint by done. by rewrite Ho.
  - simpl in Hn. destruct (Decimal.nzhead u) eqn:E; try discriminate; injection Hn as Hn;
      (assert (Hl : lead_ok u) by (right; split; [intros ->; discriminate E | intros u' ->;
         eapply nzhead_not_D0; rewrite E, Hn; reflexivity]));
      (assert (Hs : NilZero.string_of_uint u = NilEmpty.string_of_uint u)
         by (destruct Hl as [->|[Hu _]]; [done | by destruct u]));
      simpl; rewrite Hs; unfold parse_number; simpl;
      rewrite parse_digits_uint by done; by rewrite Ho.
Qed.

(** ** Lemmas: the structure *)

Fixpoint keys_nodup (ks : list string) : bool :=
  match ks with
  | [] => true
  | k :: ks' => negb (existsb (String.eqb k) ks') && keys_nodup ks'
  end.

(** Well-formed values: objects have distinct keys, none of them an
    array index (a JavaScript object cannot have the first, and lists
    the second first). *)
Fixpoint wf (v : jvalue) : bool :=
  match v with
  | JArr vs => forallb wf vs
  | JObj fs =>
      keys_nodup (map fst fs) && negb (existsb (fun kv => is_array_index kv.1) fs) &&
      forallb (fun kv => wf kv.2) fs
  | _ => true
  end.

(** The fuel a value needs. *)
Fixpoint jsize (v : jvalue) : nat :=
  match v with
  | JArr vs => S (List.length vs + list_sum (map jsize vs))
  | JObj fs => S (List.length fs + list_sum (map (fun kv => jsize kv.2) fs))
  | _ => 1
  end.

Lemma jvalue_ind' (P : jvalue -> Prop) :
  P JNull -> (forall b, P (JBool b)) -> (forall z, P (JNum z)) -> (forall str, P (JStr str)) ->
  (forall vs, Forall P vs -> P (JArr vs)) ->
  (forall fs, Forall (fun kv => P kv.2) fs -> P (JObj fs)) ->
  forall v, P v.
Proof.
  intros Hn Hb Hz Hs Ha Ho. fix IH 1. intros [| | | |vs|fs].
  - exact Hn.
  - apply Hb.
  - apply Hz.
  - apply Hs.
  - apply Ha. induction vs as [|v vs IHvs]; constructor; [apply IH | exact IHvs].
  - apply Ho. induction fs as [|[k v] fs IHfs]; constructor; [apply IH | exact IHfs].
Qed.

(** The first character of a printed value. *)
Definition value_head (c : ascii) : bool :=
  Ascii.eqb c "n" || Ascii.eqb c "t" || Ascii.eqb c "f" || Ascii.eqb c dquote ||
  Ascii.eqb c "[" || Ascii.eqb c "{" || Ascii.eqb c "-" || is_digit c.

Lemma value_head_props c :
  value_head c = true -> is_ws c = false /\ Ascii.eqb c "]" = false /\ Ascii.eqb c "}" = false.
Proof. intros H. destruct c as [[] [] [] [] [] [] [] []]; vm_compute in H; try discriminate H; done. Qed.

(** The dispatch of [parse_value] on a number's first character. *)
Lemma parse_value_num_head c r n :
  Ascii.eqb c "-" || is_digit c = true ->
  parse_value (S n) (String c r) =
    match parse_number (String c r) with Some (z, r') => Some (JNum z, r') | None => None end.
Proof.
  intros H. destruct c as [[] [] [] [] [] [] [] []]; vm_compute in H; try discriminate H; reflexivity.
Qed.

Lemma string_of_Z_head z :
  exists c t, string_of_Z z = String c t /\ Ascii.eqb c "-" || is_digit c = true.
Proof.
  unfold string_of_Z. destruct (Z.to_int z) as [u|u]; [destruct u|]; eexists _, _; split; reflexivity.
Qed.

Lemma stringify_head v : exists c t, stringify v = String c t /\ value_head c = true.
Proof.
  destruct v as [|[]| | | |]; try (eexists _, _; split; reflexivity).
  destruct (string_of_Z_head n) as (c & t & Hs & Hc). exists c, t. split; [done|].
  unfold value_head. apply orb_true_iff in Hc as [Hc|Hc]; rewrite Hc; by rewrite ?orb_true_r, ?orb_true_l.
Qed.

Lemma skip_ws_value v t : skip_ws (stringify v ++ t) = (stringify v ++ t)%string.
Proof.
  destruct (stringify_head v) as (c & u & Hs & Hc). rewrite Hs.
  destruct (value_head_props c Hc) as (Hw & _). simpl. by rewrite Hw.
Qed.

Lemma next_is_value d v t :
  (d = "]"%char \/ d = "}"%char) -> next_is d (stringify v ++ t) = false.
Proof.
  destruct (stringify_head v) as (c & u & Hs & Hc). rewrite Hs.
  destruct (value_head_props c Hc) as (_ & H1 & H2). intros [-> | ->]; done.
Qed.

Lemma parse_value_str r n :
  parse_value (S n) (String dquote r) =
    match parse_chars r with Some (str, r') => Some (JStr str, r') | None => None end.
Proof. reflexivity. Qed.

Lemma parse_value_arr r n :
  parse_value (S n) (String "[" r) =
    if next_is "]" (skip_ws r) then Some (JArr [], drop1 (skip_ws r))
    else match parse_elems (parse_value n) n (skip_ws r) with
         | Some (vs, r') => Some (JArr vs, r')
         | None => None
         end.
Proof. reflexivity. Qed.

Lemma parse_value_obj r n :
  parse_value (S n) (String "{" r) =
    if next_is "}" (skip_ws r) then Some (JObj [], drop1 (skip_ws r))
    else match parse_members (parse_value n) n (skip_ws r) with
         | Some (kvs, r') => match buildObject kvs with Some o => Some (o, r') | None => None end
         | None => None
         end.
Proof. reflexivity. Qed.

(** One member of a printed object. *)
Definition member (kv : string * jvalue) : string := (quote kv.1 ++ ":" ++ stringify kv.2)%string.

Lemma member_app kv t :
  (member kv ++ t = String dquote (escape kv.1 ++ String dquote (String ":" (stringify kv.2 ++ t))))%string.
Proof.
  unfold member, quote. rewrite !string_app_assoc, string_app_cons, string_app_assoc. reflexivity.
Qed.

Lemma join_cons2 (x y : string) ys t :
  (join "," (x :: y :: ys) ++ t = x ++ String "," (join "," (y :: ys) ++ t))%string.
Proof. simpl join. rewrite !string_app_assoc. reflexivity. Qed.

(** The property of a value the loops need from the level below. *)
Definition parses_at (n : nat) (v : jvalue) : Prop :=
  forall rest, ends_value rest = true -> parse_value n (stringify v ++ rest) = Some (v, rest).

Lemma parse_elems_ok n m vs rest :
  Forall (parses_at n) vs -> vs <> [] -> (List.length vs <= m)%nat -> ends_value rest = true ->
  parse_elems (parse_value n) m (join "," (map stringify vs) ++ String "]" rest) = Some (vs, rest).
Proof.
  intros Hvs. revert m. induction Hvs as [|v vs Hv Hvs IH]; intros m Hne Hm Hr; [done|].
  destruct m as [|m]; [simpl in Hm; lia|].
  destruct vs as [|v' vs].
  - cbn [map join parse_elems]. rewrite Hv by done. reflexivity.
  - cbn [map]. rewrite join_cons2.
    remember (join "," (stringify v' :: map stringify vs) ++ String "]" rest)%string as tl eqn:Htl.
    cbn [parse_elems]. rewrite Hv by done. cbn [skip_ws is_ws]. simpl.
    subst tl. rewrite IH by (done || simpl in *; lia). reflexivity.
Qed.

Lemma parse_members_ok n m fs rest :
  Forall (fun kv => parses_at n kv.2) fs -> fs <> [] -> (List.length fs <= m)%nat -> ends_value rest = true ->
  parse_members (parse_value n) m (join "," (map member fs) ++ String "}" rest) = Some (fs, rest).
Proof.
  intros Hfs. revert m. induction Hfs as [|[k v] fs Hv Hfs IH]; intros m Hne Hm Hr; [done|].
  destruct m as [|m]; [simpl in Hm; lia|].
  destruct fs as [|kv' fs].
  - cbn [map join]. rewrite member_app. cbn [parse_members skip_ws]. simpl.
    rewrite parse_chars_escape. simpl. rewrite Hv by done. reflexivity.
  - cbn [map]. rewrite join_cons2, member_app.
    remember (join "," (member kv' :: map member fs) ++ String "}" rest)%string as tl eqn:Htl.
    cbn [parse_members skip_ws]. simpl.
    rewrite parse_chars_escape. simpl. rewrite Hv by done. simpl.
    subst tl. rewrite IH by (done || simpl in *; lia). reflexivity.
Qed.

Lemma keys_nodup_NoDup ks : keys_nodup ks = true <-> NoDup ks.
Proof.
  induction ks as [|k ks IH]; simpl; [split; [constructor | done]|].
  rewrite andb_true_iff, negb_true_iff, IH, NoDup_cons.
  assert (Hk : existsb (String.eqb k) ks = false <-> k ∉ ks).
  { rewrite <- not_true_iff_false, existsb_exists. split.
    - intros H Hk. apply H. exists k. split; [by apply list_elem_of_In | apply String.eqb_refl].
    - intros H (x & Hx & Hkx%String.eqb_eq). subst. by apply H, list_elem_of_In. }
  rewrite Hk. tauto.
Qed.

Lemma setField_fresh acc k v : k ∉ map fst acc -> setField acc k v = acc ++ [(k, v)].
Proof.
  induction acc as [|[k' v'] acc IH]; simpl; [done|].
  intros [Hk Hacc]%not_elem_of_cons. rewrite (proj2 (String.eqb_neq _ _) Hk). f_equal. by apply IH.
Qed.

Lemma fold_setField acc fs :
  NoDup (map fst (acc ++ fs)) -> fold_left (fun fs kv => setField fs kv.1 kv.2) fs acc = acc ++ fs.
Proof.
  revert acc. induction fs as [|[k v] fs IH]; intros acc Hnd; simpl; [by rewrite app_nil_r|].
  rewrite map_app in Hnd. simpl in Hnd. apply NoDup_app in Hnd as (Hacc & Hdis & Hrest).
  rewrite setField_fresh by (intros Hk; apply (Hdis k Hk); left).
  rewrite IH, <- app_assoc; [done|]. rewrite <- app_assoc, map_app. by apply NoDup_app.
Qed.

Lemma buildObject_wf fs :
  keys_nodup (map fst fs) = true -> existsb (fun kv => is_array_index kv.1) fs = false ->
  buildObject fs = Some (JObj fs).
Proof.
  intros Hk Hi. unfold buildObject. rewrite Hi. rewrite fold_setField; [done|].
  by apply keys_nodup_NoDup.
Qed.

Lemma list_sum_map_le {A} (f : A -> nat) l x : x ∈ l -> (f x <= list_sum (map f l))%nat.
Proof. induction 1; simpl; lia. Qed.

Lemma join_head_value v vs t :
  exists u, (join "," (map stringify (v :: vs)) ++ t = stringify v ++ u)%string.
Proof.
  destruct vs as [|v' vs]; [by exists t|]. cbn [map]. rewrite join_cons2. by eexists.
Qed.

Lemma join_head_member kv fs t :
  exists u, (join "," (map member (kv :: fs)) ++ t = String dquote u)%string.
Proof.
  destruct fs as [|kv' fs]; cbn [map]; [cbn [join] | rewrite join_cons2]; rewrite member_app; by eexists.
Qed.

(** The round trip of one value followed by what may follow it. *)
Lemma parse_value_stringify v : wf v = true -> forall n, (jsize v <= n)%nat -> parses_at n v.
Proof.
  induction v as [| b | z | str | vs IH | fs IH] using jvalue_ind'; intros Hwf n Hn rest Hr;
    (destruct n as [|n]; [simpl in Hn; lia|]).
  - reflexivity.
  - by destruct b.
  - destruct (string_of_Z_head z) as (c & t & Hs & Hc).
    change (stringify (JNum z)) with (string_of_Z z). rewrite Hs, string_app_cons.
    rewrite parse_value_num_head by done. rewrite <- string_app_cons, <- Hs, parse_number_Z by done.
    reflexivity.
  - change (stringify (JStr str) ++ rest)%string with (String dquote ((escape str ++ String dquote "") ++ rest)).
    rewrite string_app_assoc. change (String dquote EmptyString ++ rest)%string with (String dquote rest).
    rewrite parse_value_str, parse_chars_escape. reflexivity.
  - destruct vs as [|v0 vs']; [reflexivity|].
    change (stringify (JArr (v0 :: vs')) ++ rest)%string
      with (String "[" ((join "," (map stringify (v0 :: vs')) ++ "]") ++ rest)).
    rewrite string_app_assoc. change ("]" ++ rest)%string with (String "]" rest).
    rewrite parse_value_arr. destruct (join_head_value v0 vs' (String "]" rest)) as [u Hu]. rewrite Hu, skip_ws_value.
    rewrite next_is_value by auto. rewrite <- Hu. simpl in Hn.
    change (forallb wf (v0 :: vs') = true) in Hwf.
    rewrite parse_elems_ok; [done | | done | simpl; lia | done].
    apply Forall_forall. intros v Hv. rewrite Forall_forall in IH. apply IH; [done | |].
    + rewrite forallb_forall in Hwf. apply Hwf. by apply list_elem_of_In.
    + pose proof (list_sum_map_le jsize (v0 :: vs') v Hv) as Hle. simpl in *. lia.
  - destruct fs as [|kv0 fs']; [reflexivity|].
    change (stringify (JObj (kv0 :: fs')) ++ rest)%string
      with (String "{" ((join "," (map member (kv0 :: fs')) ++ "}") ++ rest)).
    rewrite string_app_assoc. change ("}" ++ rest)%string with (String "}" rest).
    rewrite parse_value_obj. destruct (join_head_member kv0 fs' (String "}" rest)) as [u Hu]. rewrite Hu. simpl.
    rewrite <- Hu. simpl in Hn.
    change (keys_nodup (map fst (kv0 :: fs')) &&
            negb (existsb (fun kv => is_array_index kv.1) (kv0 :: fs')) &&
            forallb (fun kv => wf kv.2) (kv0 :: fs') = true) in Hwf.
    apply andb_true_iff in Hwf as [[Hk Hi]%andb_true_iff Hall].
    rewrite parse_members_ok; [| | done | simpl; lia | done].
    + rewrite buildObject_wf; [done | done | by apply negb_true_iff].
    + apply Forall_forall. intros kv Hkv. rewrite Forall_forall in IH. apply IH; [done | |].
      * rewrite forallb_forall in Hall. apply Hall. by apply list_elem_of_In.
      * pose proof (list_sum_map_le (fun kv => jsize kv.2) (kv0 :: fs') kv Hkv) as Hle.
        simpl in *. lia.
Qed.

Lemma length_join (l : list string) :
  l <> [] -> (List.length l + list_sum (map String.length l) = S (String.length (join "," l)))%nat.
Proof.
  induction l as [|x [|y ys] IH]; intros Hl; [done | simpl; lia |].
  change (join "," (x :: y :: ys)) with (x ++ "," ++ join "," (y :: ys))%string.
  rewrite !string_length_app. specialize (IH ltac:(done)). simpl in *. lia.
Qed.

Lemma list_sum_map_mono {A} (f g : A -> nat) l :
  Forall (fun x => (f x <= g x)%nat) l -> (list_sum (map f l) <= list_sum (map g l))%nat.
Proof. induction 1; simpl; lia. Qed.

(** Every value takes at least as many characters as the fuel it needs. *)
Lemma jsize_le_length v : (jsize v <= String.length (stringify v))%nat.
Proof.
  induction v as [| b | z | str | vs IH | fs IH] using jvalue_ind'.
  - simpl; lia.
  - destruct b; simpl; lia.
  - destruct (string_of_Z_head z) as (c & t & Hs & _). simpl. rewrite Hs. simpl. lia.
  - simpl. lia.
  - destruct vs as [|v vs]; [simpl; lia|].
    change (stringify (JArr (v :: vs))) with ("[" ++ join "," (map stringify (v :: vs)) ++ "]")%string.
    rewrite !string_length_app.
    pose proof (length_join (map stringify (v :: vs)) ltac:(done)) as Hj.
    rewrite map_map, length_map in Hj.
    pose proof (list_sum_map_mono jsize (fun v => String.length (stringify v)) (v :: vs) IH).
    simpl in *. lia.
  - destruct fs as [|kv fs]; [simpl; lia|].
    change (stringify (JObj (kv :: fs))) with ("{" ++ join "," (map member (kv :: fs)) ++ "}")%string.
    rewrite !string_length_app.
    pose proof (length_join (map member (kv :: fs)) ltac:(done)) as Hj.
    rewrite map_map, length_map in Hj.
    assert (Hm : Forall (fun kv => (jsize kv.2 <= String.length (member kv))%nat) (kv :: fs)).
    { eapply Forall_impl; [exact IH|]. intros [k v] Hv. unfold member.
      rewrite !string_length_app. simpl in *. lia. }
    pose proof (list_sum_map_mono (fun kv => jsize kv.2) (fun kv => String.length (member kv)) _ Hm).
    simpl in *. lia.
Qed.

(** ** The round trip *)

(** [JSON.parse(JSON.stringify(v))] gives back [v] for every well-formed
    value. *)
Theorem parse_stringify v : wf v = true -> parse (stringify v) = Some v.
Proof.
  intros Hwf. unfold parse.
  pose proof (jsize_le_length v) as Hlen.
  pose proof (parse_value_stringify v Hwf (S (String.length (stringify v))) ltac:(lia) "" eq_refl) as H.
  rewrite string_app_nil_r in H. rewrite H. reflexivity.
Qed.

Definition wproduct : jvalue :=
  JObj [("product", JObj [("slug", JStr "blue-shirt"); ("name", JStr ("Blue " ++ String dquote ("Oxford" ++ String dquote " shirt"))%string);
                         ("price", JNum 2999); ("onSale", JBool false); ("image", JNull);
                         ("categories", JArr [JStr "shirts"; JStr "men"])])].

Example parse_stringify_product : parse (stringify wproduct) = Some wproduct.
Proof. apply parse_stringify. reflexivity. Qed.

End JsonParse.
