(* ===== verification/BrowserScheduler.v ===== *)
(** * The browser prefetch scheduler of [src/lib/graphql/browser-prefetch-manager.ts]

  [BrowserPrefetchManager] keeps a priority queue of prefetch items, the
  set [activePrefetches] of the ids being executed, a route history with
  per-route visit counts, and a private TTL cache (TTLs in seconds).
  The model is an interleaving semantics: one event per synchronous run
  of JavaScript (a public call, a timer callback, the resumption of a
  prefetch after its [await]).  [processQueue] runs synchronously up to
  [await this.executePrefetch(item)]; the model splits it there:
  [processQueue] is the part before the [await] (including the cache
  check of [executePrefetch] and the call of [fetchFunction]), and
  [finishPrefetch] the part after it (storing the data, the [finally]
  block).  Ghost fields record what the code does not keep: the
  prefetches awaiting their fetch ([running]), the [setTimeout] calls of
  [processQueue] not yet run ([timers]) and every route visited
  ([visits]).

  The item ids come from [Date.now()] and [Math.random()]: they are an
  argument of the [Add] event.  [{ id, ...item }] lets an own [id]
  property of the caller's object override the generated one
  ([in_id]).  A [condition] closure's answer at the time it is called
  is an argument of the trigger event; a fetch's outcome is an argument
  of [Finish]. *)

From S2P Require Import Prelude Json PrioritySort.
From Stdlib Require Import Sorted.
Import Priority.
Open Scope Z_scope.
Open Scope commerce_scope.

Module BrowserPrefetch.

Inductive Trigger := Hover | Click | Scroll | Idle | Route.

#[export] Instance Trigger_eq_dec : EqDecision Trigger.
Proof. solve_decision. Defined.

Record PrefetchStrategy := {
  name : string;
  priority : Priority;
  trigger : Trigger;
  delay : option Z;
  has_condition : bool
}.

Record PrefetchItem := {
  id : string;
  strategy : PrefetchStrategy;
  cacheKey : option string;
  ttl : option Z
}.

(** The argument of [addPrefetch]: [Omit<PrefetchItem, 'id'>], with the
    [id] the object may carry anyway. *)
Record PrefetchInput := {
  in_id : option string;
  in_strategy : PrefetchStrategy;
  in_cacheKey : option string;
  in_ttl : option Z
}.

Record PrefetchConfig := {
  maxConcurrent : Z;
  maxQueueSize : Z;
  defaultTTL : Z;
  enablePredictive : bool;
  enableRoutePrefetch : bool
}.

(** The constructor's defaults and the exported singleton's configuration. *)
Definition defaultPrefetchConfig : PrefetchConfig :=
  {| maxConcurrent := 3; maxQueueSize := 20; defaultTTL := 300;
     enablePredictive := true; enableRoutePrefetch := true |}.
Definition browserPrefetchConfig : PrefetchConfig :=
  {| maxConcurrent := 3; maxQueueSize := 15; defaultTTL := 300;
     enablePredictive := true; enableRoutePrefetch := true |}.

Record CachedPrefetch := {
  cdata : jvalue;
  ctimestamp : Z;
  cttl : Z
}.

Record State := {
  queue : list PrefetchItem;
  activePrefetches : gset string;
  routeHistory : list string;
  userBehavior : gmap string Z;
  cache : gmap string CachedPrefetch;
  running : list (PrefetchItem * bool);
  timers : nat;
  visits : list string
}.

Definition initialState : State :=
  {| queue := []; activePrefetches := ∅; routeHistory := []; userBehavior := ∅;
     cache := ∅; running := []; timers := 0; visits := [] |}.

Definition itemPriority (item : PrefetchItem) : Priority := priority (strategy item).

Definition with_queue (q : list PrefetchItem) (s : State) : State :=
  {| queue := q; activePrefetches := activePrefetches s; routeHistory := routeHistory s;
     userBehavior := userBehavior s; cache := cache s; running := running s;
     timers := timers s; visits := visits s |}.

Definition add_timer (s : State) : State :=
  {| queue := queue s; activePrefetches := activePrefetches s; routeHistory := routeHistory s;
     userBehavior := userBehavior s; cache := cache s; running := running s;
     timers := S (timers s); visits := visits s |}.

(** A truthy [cacheKey]. *)
Definition keyOf (item : PrefetchItem) : option string :=
  match cacheKey item with
  | Some k => if String.eqb k "" then None else Some k
  | None => None
  end.

(** [now - cached.timestamp < cached.ttl * 1000]. *)
Definition fresh (now : Z) (e : CachedPrefetch) : bool := now - ctimestamp e <? cttl e * 1000.

(** The cache check at the top of [executePrefetch]. *)
Definition cachedFresh (now : Z) (item : PrefetchItem) (c : gmap string CachedPrefetch) : bool :=
  match keyOf item with
  | Some k => match c !! k with Some e => fresh now e | None => false end
  | None => false
  end.

Section Manager.
Variable cfg : PrefetchConfig.

(** [processQueue] up to its [await]: the concurrency guard, the sort,
    [shift], [activePrefetches.add], and [executePrefetch] up to its
    [await] (the item is skipped when fresh in the cache, otherwise its
    [fetchFunction] is called). *)
Definition processQueue (now : Z) (s : State) : State :=
  if maxConcurrent cfg <=? Z.of_nat (size (activePrefetches s)) then s
  else match sortByPriority itemPriority (queue s) with
       | [] => with_queue [] s
       | item :: rest =>
           {| queue := rest; activePrefetches := {[ id item ]} ∪ activePrefetches s;
              routeHistory := routeHistory s; userBehavior := userBehavior s;
              cache := cache s;
              running := running s ++ [(item, negb (cachedFresh now item (cache s)))];
              timers := timers s; visits := visits s |}
       end.

(** [if (item.cacheKey && data)]: the store after a fetch, TTL
    [item.ttl || this.config.defaultTTL] (seconds). *)
Definition storeResult (now : Z) (item : PrefetchItem) (data : jvalue)
    (c : gmap string CachedPrefetch) : gmap string CachedPrefetch :=
  match keyOf item with
  | Some k =>
      if truthy data
      then <[k := {| cdata := data; ctimestamp := now; cttl := or_default (ttl item) (defaultTTL cfg) |}]> c
      else c
  | None => c
  end.

(** The resumption of the [i]-th awaiting prefetch: a fetched value is
    cached, a rejection is caught and logged; then the [finally] block
    deletes the id and schedules [processQueue] with [setTimeout(.., 0)]. *)
Definition finishPrefetch (now : Z) (i : nat) (outcome : option jvalue) (s : State) : option State :=
  match running s !! i with
  | None => None
  | Some (item, fetched) =>
      let c := match fetched, outcome with
               | true, Some d => storeResult now item d (cache s)
               | _, _ => cache s
               end in
      Some {| queue := queue s; activePrefetches := activePrefetches s ∖ {[ id item ]};
              routeHistory := routeHistory s; userBehavior := userBehavior s; cache := c;
              running := delete i (running s); timers := S (timers s); visits := visits s |}
  end.

Definition mkItem (genId : string) (input : PrefetchInput) : PrefetchItem :=
  {| id := default genId (in_id input); strategy := in_strategy input;
     cacheKey := in_cacheKey input; ttl := in_ttl input |}.

(** The admission part of [addPrefetch]: a full queue is sorted and its
    last item popped, then the new item is pushed. *)
Definition enqueue (item : PrefetchItem) (q : list PrefetchItem) : list PrefetchItem :=
  (if maxQueueSize cfg <=? Z.of_nat (List.length q) then removelast (sortByPriority itemPriority q) else q)
  ++ [item].

Definition addPrefetch (now : Z) (genId : string) (input : PrefetchInput) (s : State) : string * State :=
  if existsb (fun p => String.eqb (id p) genId) (queue s) || bool_decide (genId ∈ activePrefetches s)
  then (genId, s)
  else (genId, processQueue now (with_queue (enqueue (mkItem genId input) (queue s)) s)).

(** [item.strategy.trigger === trigger && (!condition || condition())]. *)
Definition matchesTrigger (t : Trigger) (holds : PrefetchItem -> bool) (item : PrefetchItem) : bool :=
  bool_decide (trigger (strategy item) = t) && (negb (has_condition (strategy item)) || holds item).

(** [if (item.strategy.delay) setTimeout(processQueue, delay) else processQueue()]. *)
Definition dispatch (now : Z) (s : State) (item : PrefetchItem) : State :=
  match delay (strategy item) with
  | Some d => if d =? 0 then processQueue now s else add_timer s
  | None => processQueue now s
  end.

Definition triggerPrefetch (t : Trigger) (holds : PrefetchItem -> bool) (now : Z) (s : State) : State :=
  fold_left (dispatch now) (filter (matchesTrigger t holds) (queue s)) s.

(** [routeHistory.push(r)], then [shift()] beyond 10 routes. *)
Definition pushRoute (r : string) (h : list string) : list string :=
  if (10 <? List.length (h ++ [r]))%nat then tail (h ++ [r]) else h ++ [r].

Record Prediction := {
  proute : string;
  ppriority : Priority;
  pcacheKey : string;
  pttl : Z
}.

Definition getRoutePredictions (currentRoute : string) : list Prediction :=
  (if String.eqb currentRoute "/" then
     [ {| proute := "/search"; ppriority := High;
          pcacheKey := "prefetch:categories:homepage"; pttl := 600 |};
       {| proute := "/product/[handle]"; ppriority := Medium;
          pcacheKey := "prefetch:featured:homepage"; pttl := 300 |} ]
   else []) ++
  (if startsWith currentRoute "/search" then
     [ {| proute := "/product/[handle]"; ppriority := High;
          pcacheKey := "prefetch:products:list"; pttl := 300 |} ]
   else []) ++
  (if startsWith currentRoute "/product/" then
     [ {| proute := "/search"; ppriority := Medium;
          pcacheKey := "prefetch:categories:product"; pttl := 600 |} ]
   else []).

Definition predictionInput (p : Prediction) : PrefetchInput :=
  {| in_id := None;
     in_strategy := {| name := ("route_" ++ proute p)%string; priority := ppriority p;
                       trigger := Route; delay := None; has_condition := false |};
     in_cacheKey := Some (pcacheKey p); in_ttl := Some (pttl p) |}.

(** [predictAndPrefetch]: one [addPrefetch] per prediction, each with
    its generated id. *)
Fixpoint addAll (now : Z) (ids : list string) (inputs : list PrefetchInput) (s : State) : State :=
  match ids, inputs with
  | i :: ids', inp :: inputs' => addAll now ids' inputs' (addPrefetch now i inp s).2
  | _, _ => s
  end.

Definition handleRouteChange (now : Z) (newRoute : string) (ids : list string) (s : State) : State :=
  let s1 := {| queue := queue s; activePrefetches := activePrefetches s;
               routeHistory := pushRoute newRoute (routeHistory s);
               userBehavior := <[newRoute := or_default (userBehavior s !! newRoute) 0 + 1]> (userBehavior s);
               cache := cache s; running := running s; timers := timers s;
               visits := visits s ++ [newRoute] |} in
  if enablePredictive cfg
  then addAll now ids (map predictionInput (getRoutePredictions newRoute)) s1
  else s1.

(** The cleanup interval: entries older than their TTL are deleted. *)
Definition cleanupCache (now : Z) (c : gmap string CachedPrefetch) : gmap string CachedPrefetch :=
  filter (fun kv : string * CachedPrefetch => ~ (kv.2.(cttl) * 1000 < now - kv.2.(ctimestamp))) c.

Definition clearQueue (s : State) : State :=
  {| queue := []; activePrefetches := ∅; routeHistory := routeHistory s;
     userBehavior := userBehavior s; cache := cache s; running := running s;
     timers := timers s; visits := visits s |}.

(** [findIndex] and [splice(index, 1)]. *)
Fixpoint removeFirst (i : string) (q : list PrefetchItem) : option (list PrefetchItem) :=
  match q with
  | [] => None
  | p :: q' => if String.eqb (id p) i then Some q' else option_map (cons p) (removeFirst i q')
  end.

Definition cancelPrefetch (i : string) (s : State) : bool * State :=
  match removeFirst i (queue s) with
  | Some q => (true, with_queue q s)
  | None => (false, s)
  end.

Definition getCached (now : Z) (key : string) (s : State) : option jvalue :=
  match cache s !! key with
  | Some e => if fresh now e then Some (cdata e) else None
  | None => None
  end.

Inductive Event :=
| Add (now : Z) (genId : string) (input : PrefetchInput)
| Timer (now : Z)
| Finish (now : Z) (i : nat) (outcome : option jvalue)
| TriggerFired (t : Trigger) (holds : PrefetchItem -> bool) (now : Z)
| RouteChange (now : Z) (route : string) (ids : list string)
| Cleanup (now : Z)
| ClearQueue
| Cancel (i : string).

Inductive step : State -> Event -> State -> Prop :=
| step_add now g inp s : step s (Add now g inp) (addPrefetch now g inp s).2
| step_timer now s :
    (0 < timers s)%nat ->
    step s (Timer now)
      (processQueue now {| queue := queue s; activePrefetches := activePrefetches s;
                           routeHistory := routeHistory s; userBehavior := userBehavior s;
                           cache := cache s; running := running s;
                           timers := pred (timers s); visits := visits s |})
| step_finish now i o s s' : finishPrefetch now i o s = Some s' -> step s (Finish now i o) s'
| step_trigger t holds now s : step s (TriggerFired t holds now) (triggerPrefetch t holds now s)
| step_route now r ids s :
    enableRoutePrefetch cfg = true ->
    List.length ids = List.length (getRoutePredictions r) ->
    step s (RouteChange now r ids) (handleRouteChange now r ids s)
| step_cleanup now s :
    step s (Cleanup now)
      {| queue := queue s; activePrefetches := activePrefetches s;
         routeHistory := routeHistory s; userBehavior := userBehavior s;
         cache := cleanupCache now (cache s); running := running s;
         timers := timers s; visits := visits s |}
| step_clear s : step s ClearQueue (clearQueue s)
| step_cancel i s : step s (Cancel i) (cancelPrefetch i s).2.

End Manager.

(** ** Invariants *)

Section BrowserTheorems.
Context (cfg : PrefetchConfig).
#[local] Instance browser_step : Step State Event := step cfg.

Definition qids (s : State) : list string := id <$> queue s.
Definition rids (s : State) : list string := (fun r => id r.1) <$> running s.

(** Every queued or running item has its own id, [activePrefetches] is
    the set of the running ids, and at most [maxConcurrent] run. *)
Definition conc_inv (s : State) : Prop :=
  NoDup (qids s ++ rids s) /\ activePrefetches s = list_to_set (rids s) /\
  Z.of_nat (List.length (running s)) <= maxConcurrent cfg.

(** The events that keep the concurrency accounting exact: no
    [clearQueue], no caller-supplied [id]. *)
Definition plain (e : Event) : Prop :=
  match e with
  | ClearQueue => False
  | Add _ _ inp => in_id inp = None
  | _ => True
  end.

Lemma conc_size s : conc_inv s -> size (activePrefetches s) = List.length (running s).
Proof.
  intros (Hnd & Hact & _). rewrite Hact, size_list_to_set.
  - unfold rids. by rewrite length_fmap.
  - by apply NoDup_app in Hnd as (_ & _ & ?).
Qed.

Lemma processQueue_conc now s : conc_inv s -> conc_inv (processQueue cfg now s).
Proof.
  intros Hinv. pose proof (conc_size s Hinv) as Hsize. destruct Hinv as (Hnd & Hact & Hlen).
  unfold processQueue. case_if; [done|].
  pose proof (sort_perm itemPriority (queue s)) as Hp.
  destruct (sortByPriority itemPriority (queue s)) as [|item rest] eqn:Hs.
  - split_and!; try done. unfold qids; simpl. by apply NoDup_app in Hnd as (_ & _ & ?).
  - unfold conc_inv, qids, rids in *; simpl. rewrite fmap_app. simpl.
    assert (Hnd' : NoDup ((id <$> item :: rest) ++ ((fun r => id r.1) <$> running s)))
      by (by rewrite Hp).
    split_and!.
    + simpl in Hnd'. rewrite app_assoc. apply NoDup_app. apply NoDup_cons in Hnd' as [Hi Hnd'].
      split_and!; [done| |by apply NoDup_singleton]. intros x Hx ->%list_elem_of_singleton. done.
    + rewrite Hact, list_to_set_app_L. simpl. set_solver.
    + rewrite length_app. simpl. lia.
Qed.

Lemma enqueue_sub item q : exists q0, enqueue cfg item q = q0 ++ [item] /\ q0 ⊆+ q.
Proof.
  unfold enqueue. case_if; eexists; split; try reflexivity.
  - rewrite removelast_submseteq. by rewrite sort_perm.
Qed.

Lemma addPrefetch_conc now g inp s :
  in_id inp = None -> conc_inv s -> conc_inv (addPrefetch cfg now g inp s).2.
Proof.
  intros Hid Hinv. unfold addPrefetch.
  destruct (existsb _ _ || bool_decide _) eqn:Hdup; [done|]. simpl.
  apply orb_false_iff in Hdup as [Hq Ha]. apply processQueue_conc.
  destruct Hinv as (Hnd & Hact & Hlen).
  assert (Hgq : g ∉ qids s).
  { unfold qids. intros (p & Hg & Hp)%list_elem_of_fmap.
    apply not_true_iff_false in Hq. apply Hq, existsb_exists.
    exists p. split; [by apply list_elem_of_In | subst; apply String.eqb_refl]. }
  assert (Hgr : g ∉ rids s).
  { intros Hg. apply bool_decide_eq_false in Ha. apply Ha. rewrite Hact. by apply elem_of_list_to_set. }
  destruct (enqueue_sub (mkItem g inp) (queue s)) as (q0 & Heq & Hsub).
  unfold conc_inv, qids, rids in *; simpl. rewrite Heq, fmap_app.
  split_and!; [|done|done]. simpl. rewrite <- app_assoc. simpl.
  unfold mkItem; simpl. rewrite Hid. simpl.
  assert (Hsub' : (id <$> q0) ++ ((fun r => id r.1) <$> running s) ⊆+
                  (id <$> queue s) ++ ((fun r => id r.1) <$> running s))
    by (apply submseteq_app; [by apply fmap_submseteq | done]).
  apply NoDup_insert_fresh; [by eapply NoDup_sub | | done].
  intros Hg. apply Hgq. eapply elem_of_submseteq; [exact Hg|]. by apply fmap_submseteq.
Qed.

Lemma finishPrefetch_conc now i o s s' :
  finishPrefetch cfg now i o s = Some s' -> conc_inv s -> conc_inv s'.
Proof.
  unfold finishPrefetch. destruct (running s !! i) as [[item f]|] eqn:Hi; [|done].
  intros [= <-] (Hnd & Hact & Hlen).
  assert (Hri : rids s !! i = Some (id item)) by (unfold rids; by rewrite list_lookup_fmap, Hi).
  unfold conc_inv, qids, rids in *; simpl. rewrite list_fmap_delete. split_and!.
  - eapply NoDup_sub; [|exact Hnd]. apply submseteq_app; [done | apply submseteq_delete].
  - rewrite Hact. symmetry. apply list_to_set_delete; [|done].
    by apply NoDup_app in Hnd as (_ & _ & ?).
  - rewrite length_delete by (by eexists). apply lookup_lt_Some in Hi. lia.
Qed.

(** [triggerPrefetch] and [predictAndPrefetch] are loops of
    [processQueue] and [addPrefetch]: what these preserve, the loops
    preserve. *)
Lemma dispatch_all_preserves (P : State -> Prop) now items s :
  (forall s, P s -> P (processQueue cfg now s)) -> (forall s, P s -> P (add_timer s)) ->
  P s -> P (fold_left (dispatch cfg now) items s).
Proof.
  intros Hpq Ht. revert s. induction items as [|item items IH]; intros s Hs; simpl; [done|].
  apply IH. unfold dispatch. destruct (delay (strategy item)) as [d|]; [case_if|]; auto.
Qed.

Lemma addAll_preserves (P : State -> Prop) (Q : PrefetchInput -> Prop) now ids inputs s :
  (forall g inp s, Q inp -> P s -> P (addPrefetch cfg now g inp s).2) ->
  Forall Q inputs -> P s -> P (addAll cfg now ids inputs s).
Proof.
  intros Hadd. revert inputs s.
  induction ids as [|i ids IH]; intros [|inp inputs] s Hin Hs; simpl; try done.
  apply Forall_cons in Hin as [Hinp Hin]. apply IH; auto.
Qed.

Lemma removeFirst_sub i q q' : removeFirst i q = Some q' -> q' ⊆+ q.
Proof.
  revert q'. induction q as [|p q IH]; intros q'; simpl; [done|].
  case_if; [intros [= <-]; by apply submseteq_cons|].
  destruct (removeFirst i q) as [q''|] eqn:Hr; simpl; [|done].
  intros [= <-]. apply submseteq_skip. by apply IH.
Qed.

Lemma step_conc s e s' : plain e -> conc_inv s -> step cfg s e s' -> conc_inv s'.
Proof.
  intros He Hs Hstep. destruct Hstep; simpl in He.
  - by apply addPrefetch_conc.
  - by apply processQueue_conc.
  - by eapply finishPrefetch_conc.
  - unfold triggerPrefetch. apply dispatch_all_preserves; auto using processQueue_conc.
  - unfold handleRouteChange. case_if; [|done].
    apply (addAll_preserves _ (fun inp => in_id inp = None)); [|
      apply Forall_forall; intros inp (p & -> & _)%list_elem_of_fmap; done | done].
    intros g inp s1. apply addPrefetch_conc.
  - done.
  - done.
  - unfold cancelPrefetch. destruct (removeFirst i (queue s)) as [q|] eqn:E; simpl; [|done].
    destruct Hs as (Hnd & Hact & Hlen). split_and!; try done.
    eapply NoDup_sub; [|exact Hnd]. apply submseteq_app; [|done].
    apply fmap_submseteq. by eapply removeFirst_sub.
Qed.

Lemma initial_conc : 0 <= maxConcurrent cfg -> conc_inv initialState.
Proof. intros Hmax. split_and!; simpl; [constructor | done | lia]. Qed.

(** The queue never exceeds [maxQueueSize]. *)
Definition queue_inv (s : State) : Prop := Z.of_nat (List.length (queue s)) <= maxQueueSize cfg.

Lemma processQueue_queue now s :
  (List.length (queue (processQueue cfg now s)) <= List.length (queue s))%nat.
Proof.
  unfold processQueue. case_if; [done|].
  pose proof (Permutation_length (sort_perm itemPriority (queue s))) as Hl.
  destruct (sortByPriority itemPriority (queue s)); simpl in *; lia.
Qed.

Lemma sort_not_nil q : q <> [] -> sortByPriority itemPriority q <> [].
Proof.
  intros Hq Hs. apply Hq, length_zero_iff_nil.
  rewrite <- (Permutation_length (sort_perm itemPriority q)), Hs. done.
Qed.

Lemma enqueue_bound item q :
  1 <= maxQueueSize cfg -> Z.of_nat (List.length q) <= maxQueueSize cfg ->
  Z.of_nat (List.length (enqueue cfg item q)) <= maxQueueSize cfg.
Proof.
  intros Hmax Hq. unfold enqueue. rewrite length_app. simpl. case_if; [|lia].
  assert (q <> []) by (intros ->; simpl in *; lia).
  rewrite length_removelast by (by apply sort_not_nil).
  rewrite (Permutation_length (sort_perm itemPriority q)). lia.
Qed.

Lemma addPrefetch_queue now g inp s :
  1 <= maxQueueSize cfg -> queue_inv s -> queue_inv (addPrefetch cfg now g inp s).2.
Proof.
  intros Hmax Hs. unfold addPrefetch. destruct (_ || _); [done|]. unfold queue_inv.
  pose proof (processQueue_queue now (with_queue (enqueue cfg (mkItem g inp) (queue s)) s)).
  pose proof (enqueue_bound (mkItem g inp) (queue s) Hmax Hs). simpl in *. lia.
Qed.

Lemma step_queue s e s' : 1 <= maxQueueSize cfg -> queue_inv s -> step cfg s e s' -> queue_inv s'.
Proof.
  intros Hmax Hs Hstep. unfold queue_inv in *.
  destruct Hstep.
  - by apply addPrefetch_queue.
  - pose proof (processQueue_queue now
      {| queue := queue s; activePrefetches := activePrefetches s; routeHistory := routeHistory s;
         userBehavior := userBehavior s; cache := cache s; running := running s;
         timers := pred (timers s); visits := visits s |}). simpl in *. lia.
  - revert H. unfold finishPrefetch. destruct (running s !! i) as [[]|]; [|done].
    by intros [= <-].
  - unfold triggerPrefetch. apply dispatch_all_preserves; [|done|done].
    intros s1 Hs1. pose proof (processQueue_queue now s1). lia.
  - unfold handleRouteChange. case_if; [|done].
    apply (addAll_preserves queue_inv (fun _ => True)); [|by apply Forall_true|done].
    intros g inp s1 _. by apply addPrefetch_queue.
  - done.
  - simpl. lia.
  - unfold cancelPrefetch. destruct (removeFirst i (queue s)) as [q|] eqn:E; simpl; [|done].
    apply removeFirst_sub, submseteq_length in E. lia.
Qed.

(** The route history holds the last ten routes visited, and
    [userBehavior] the number of visits of each route. *)
Definition lastn (n : nat) (l : list string) : list string := drop (List.length l - n) l.
Definition visitCount (r : string) (v : list string) : nat := List.length (filter (fun x => x = r) v).
Definition behaviourOf (r : string) (v : list string) : option Z :=
  if (visitCount r v =? 0)%nat then None else Some (Z.of_nat (visitCount r v)).

Definition hist (s : State) := (routeHistory s, userBehavior s, visits s).

Definition hist_inv (s : State) : Prop :=
  routeHistory s = lastn 10 (visits s) /\ forall r, userBehavior s !! r = behaviourOf r (visits s).

Lemma hist_inv_eq s s' : hist s' = hist s -> hist_inv s -> hist_inv s'.
Proof. unfold hist, hist_inv. intros [= -> -> ->]. done. Qed.

Lemma processQueue_hist now s : hist (processQueue cfg now s) = hist s.
Proof. unfold processQueue. case_if; [done|]. by destruct (sortByPriority _ _). Qed.

Lemma addPrefetch_hist now g inp s : hist (addPrefetch cfg now g inp s).2 = hist s.
Proof. unfold addPrefetch. destruct (_ || _); [done|]. simpl. by rewrite processQueue_hist. Qed.

Lemma pushRoute_lastn r v : pushRoute r (lastn 10 v) = lastn 10 (v ++ [r]).
Proof.
  unfold pushRoute, lastn. rewrite !length_app. simpl.
  assert (Htl : forall k (l : list string), tail (drop k l) = drop (S k) l)
    by (induction k as [|k IH]; intros [|x l]; simpl; auto).
  destruct (decide (List.length v <= 10)%nat).
  - replace (List.length v - 10)%nat with 0%nat by lia. rewrite drop_0. case_if.
    + replace (List.length v + 1 - 10)%nat with 1%nat by lia. by rewrite <- (Htl 0%nat), drop_0.
    + replace (List.length v + 1 - 10)%nat with 0%nat by lia. by rewrite drop_0.
  - rewrite length_drop. case_if; [|lia].
    rewrite <- drop_app_le by lia. rewrite Htl. f_equal. lia.
Qed.

Lemma visitCount_snoc x r v :
  visitCount x (v ++ [r]) = (visitCount x v + if decide (r = x) then 1 else 0)%nat.
Proof.
  unfold visitCount. rewrite filter_app, length_app, filter_cons.
  destruct (decide (r = x)); simpl; lia.
Qed.

Lemma behaviour_count x v : or_default (behaviourOf x v) 0 = Z.of_nat (visitCount x v).
Proof. unfold behaviourOf. case_if; simpl; [lia|]. case_if; lia. Qed.

Lemma handleRouteChange_hist now r ids s :
  hist_inv s -> hist_inv (handleRouteChange cfg now r ids s).
Proof.
  intros [Hh Hub].
  assert (Hs1 : forall s1, hist s1 = (pushRoute r (routeHistory s),
            <[r:=or_default (userBehavior s !! r) 0 + 1]> (userBehavior s), visits s ++ [r]) ->
            hist_inv s1).
  { intros s1 Heq. unfold hist, hist_inv in *. injection Heq as -> -> ->. split.
    - by rewrite Hh, pushRoute_lastn.
    - intros x. rewrite Hub, behaviour_count. unfold behaviourOf. rewrite visitCount_snoc.
      destruct (decide (r = x)) as [->|Hne].
      + rewrite lookup_insert_eq. case_if; [lia|]. f_equal. lia.
      + rewrite lookup_insert_ne by done. rewrite Hub. unfold behaviourOf.
        by rewrite Nat.add_0_r. }
  unfold handleRouteChange. case_if; apply Hs1; [|done].
  apply (addAll_preserves (fun s2 => hist s2 = _) (fun _ => True)); [|by apply Forall_true|done].
  intros g inp s2 _ H2. by rewrite addPrefetch_hist.
Qed.

Lemma step_hist s e s' : hist_inv s -> step cfg s e s' -> hist_inv s'.
Proof.
  intros Hs Hstep. destruct Hstep.
  - eapply hist_inv_eq; [apply addPrefetch_hist | done].
  - eapply hist_inv_eq; [apply processQueue_hist | done].
  - revert H. unfold finishPrefetch. destruct (running s !! i) as [[]|]; [|done].
    by intros [= <-].
  - unfold triggerPrefetch. eapply hist_inv_eq; [|exact Hs].
    apply (dispatch_all_preserves (fun s2 => hist s2 = hist s)); [|intros s2 H2; exact H2|done].
    intros s2 H2. by rewrite processQueue_hist.
  - by apply handleRouteChange_hist.
  - done.
  - done.
  - unfold cancelPrefetch. by destruct (removeFirst i (queue s)).
Qed.

Lemma initial_hist : hist_inv initialState.
Proof. split; [done|]. intros r. apply lookup_empty. Qed.

(** ** Theorems *)

(** C4. Bounded concurrency: along any run that neither calls
    [clearQueue] nor passes an own [id] to [addPrefetch], at most
    [maxConcurrent] prefetches are awaiting their fetch at any time, and
    [activePrefetches] has exactly one entry per such prefetch. *)
Theorem reachable_concurrency_bounded es s :
  0 <= maxConcurrent cfg -> Forall plain es -> initialState =[ es ]=> s ->
  Z.of_nat (List.length (running s)) <= maxConcurrent cfg /\
  size (activePrefetches s) = List.length (running s).
Proof.
  intros Hmax Hplain Hsteps.
  assert (Hinv : conc_inv s).
  { eapply (steps_invariant_when step_rel conc_inv plain); [| exact Hsteps | exact Hplain |].
    - intros s1 e s2 Hs1 He Hst. by eapply step_conc.
    - by apply initial_conc. }
  split; [apply Hinv | by apply conc_size].
Qed.

(** Bounded queue: when [maxQueueSize] is at least 1, the queue
    never holds more than [maxQueueSize] items, whatever the events. *)
Theorem reachable_prefetch_queue_bounded es s :
  1 <= maxQueueSize cfg -> initialState =[ es ]=> s ->
  Z.of_nat (List.length (queue s)) <= maxQueueSize cfg.
Proof.
  intros Hmax Hsteps. change (queue_inv s).
  eapply (steps_invariant step_rel queue_inv); [| exact Hsteps | unfold queue_inv; simpl; lia].
  intros s1 e s2 Hs1 Hst. by eapply step_queue.
Qed.

(** Eviction: when [addPrefetch] finds the queue full, the item it
    drops is the last of the sorted queue, which has the lowest rank of
    the queue and is the latest-added item of its priority; the new item
    is then appended, whatever its own priority. *)
Theorem enqueue_evicts_lowest item q :
  maxQueueSize cfg <= Z.of_nat (List.length q) -> q <> [] ->
  exists rest e,
    sortByPriority itemPriority q = rest ++ [e] /\ enqueue cfg item q = rest ++ [item] /\
    Forall (fun y => rank itemPriority e <= rank itemPriority y) q /\
    tier itemPriority (itemPriority e) q = tier itemPriority (itemPriority e) rest ++ [e].
Proof.
  intros Hfull Hq. destruct (exists_last (sort_not_nil q Hq)) as (rest & e & Heq).
  exists rest, e. destruct (sort_last _ _ _ _ Heq) as [Hlow Hfifo]. split_and!; try done.
  unfold enqueue. case_if; [|lia]. by rewrite Heq, removelast_last.
Qed.

(** Dispatch order: when a slot is free and the queue is not
    empty, [processQueue] starts the first-queued item of the highest
    priority present, records it as running (fetching unless its cache
    entry is fresh) and removes it from the queue. *)
Theorem processQueue_takes_first_of_highest now s :
  Z.of_nat (size (activePrefetches s)) < maxConcurrent cfg -> queue s <> [] ->
  exists item,
    running (processQueue cfg now s) = running s ++ [(item, negb (cachedFresh now item (cache s)))] /\
    queue s ≡ₚ item :: queue (processQueue cfg now s) /\
    Forall (fun y => rank itemPriority y <= rank itemPriority item) (queue s) /\
    exists later, tier itemPriority (itemPriority item) (queue s) = item :: later.
Proof.
  intros Hfree Hq. unfold processQueue. case_if; [lia|].
  pose proof (sort_perm itemPriority (queue s)) as Hp.
  destruct (sortByPriority itemPriority (queue s)) as [|item rest] eqn:Hs;
    [by apply sort_not_nil in Hs|].
  destruct (sort_head _ _ _ _ Hs) as [Hmax Hfirst].
  exists item. split_and!; [done | simpl; by rewrite <- Hp | done | by eexists].
Qed.

(** Route history: in every reachable state the history is the
    last ten routes visited (so it never holds more than ten), and
    [userBehavior] maps each visited route to its number of visits. *)
Theorem reachable_route_history es s :
  initialState =[ es ]=> s ->
  routeHistory s = lastn 10 (visits s) /\ (List.length (routeHistory s) <= 10)%nat /\
  forall r, userBehavior s !! r = behaviourOf r (visits s).
Proof.
  intros Hsteps.
  assert (Hinv : hist_inv s).
  { eapply (steps_invariant step_rel hist_inv); [| exact Hsteps | exact initial_hist].
    intros s1 e s2 Hs1 Hst. by eapply step_hist. }
  destruct Hinv as [Hh Hub]. split_and!; [done | | done].
  rewrite Hh. unfold lastn. rewrite length_drop. lia.
Qed.

End BrowserTheorems.

(** ** The exported singleton's configuration on concrete runs *)

#[local] Instance singleton_step : Step State Event := step browserPrefetchConfig.

Definition wstrategy (p : Priority) : PrefetchStrategy :=
  {| name := "w"; priority := p; trigger := Hover; delay := None; has_condition := false |}.
Definition winput (p : Priority) : PrefetchInput :=
  {| in_id := None; in_strategy := wstrategy p; in_cacheKey := None; in_ttl := None |}.
Definition wowned (i : string) : PrefetchInput :=
  {| in_id := Some i; in_strategy := wstrategy Medium; in_cacheKey := None; in_ttl := None |}.
Definition wadds (ids : list string) : list Event := map (fun g => Add 0 g (winput Medium)) ids.
Definition witem (i : string) (p : Priority) : PrefetchItem := mkItem i (winput p).

(** Build the run of a concrete trace, discharging the side conditions. *)
Ltac run_trace :=
  cbn [wadds map app];
  repeat (eapply steps_cons; [hnf; econstructor; try concrete |]); apply steps_nil.

(** The concurrency bound does not hold without its two conditions: with
    the singleton's three slots, four prefetches are awaiting their fetch
    after three additions, a [clearQueue] and a fourth addition (the
    cleared [activePrefetches] no longer counts the running ones); and
    after four additions whose objects carry the same own [id] (the
    duplicate check looks at the generated id, the set at the item's). *)
Theorem concurrency_bound_escapes :
  (exists s, initialState =[ wadds ["a"; "b"; "c"] ++ [ClearQueue] ++ wadds ["d"] ]=> s /\
             maxConcurrent browserPrefetchConfig < Z.of_nat (List.length (running s))) /\
  (exists s, initialState =[ map (fun g => Add 0 g (wowned "x")) ["a"; "b"; "c"; "d"] ]=> s /\
             maxConcurrent browserPrefetchConfig < Z.of_nat (List.length (running s))).
Proof. split; eexists; split; [run_trace | concrete | run_trace | concrete]. Qed.

Lemma reachable_concurrency_bounded_witness :
  exists s, initialState =[ wadds ["a"; "b"; "c"; "d"] ]=> s /\
    Z.of_nat (List.length (running s)) <= maxConcurrent browserPrefetchConfig /\
    size (activePrefetches s) = List.length (running s).
Proof.
  assert (H : exists s, initialState =[ wadds ["a"; "b"; "c"; "d"] ]=> s) by (eexists; run_trace).
  destruct H as [s Hs]. exists s. split; [exact Hs|].
  apply (reachable_concurrency_bounded browserPrefetchConfig (wadds ["a"; "b"; "c"; "d"]) s);
    [concrete | cbn [wadds map]; repeat constructor | exact Hs].
Defined.

Lemma reachable_prefetch_queue_bounded_witness :
  exists s, initialState =[ wadds ["a"; "b"; "c"; "d"; "e"] ]=> s /\
    Z.of_nat (List.length (queue s)) <= maxQueueSize browserPrefetchConfig.
Proof.
  assert (H : exists s, initialState =[ wadds ["a"; "b"; "c"; "d"; "e"] ]=> s) by (eexists; run_trace).
  destruct H as [s Hs]. exists s. split; [exact Hs|].
  apply (reachable_prefetch_queue_bounded browserPrefetchConfig (wadds ["a"; "b"; "c"; "d"; "e"]) s);
    [concrete | exact Hs].
Defined.

(** A full queue of fifteen high-priority items. *)
Definition wfullHigh : list PrefetchItem :=
  map (fun i => witem i High)
    ["h1"; "h2"; "h3"; "h4"; "h5"; "h6"; "h7"; "h8"; "h9"; "h10"; "h11"; "h12"; "h13"; "h14"; "h15"].

Lemma enqueue_evicts_lowest_witness :
  exists rest e,
    sortByPriority itemPriority wfullHigh = rest ++ [e] /\
    enqueue browserPrefetchConfig (witem "low" Low) wfullHigh = rest ++ [witem "low" Low] /\
    Forall (fun y => rank itemPriority e <= rank itemPriority y) wfullHigh /\
    tier itemPriority (itemPriority e) wfullHigh = tier itemPriority (itemPriority e) rest ++ [e].
Proof.
  apply (enqueue_evicts_lowest browserPrefetchConfig (witem "low" Low) wfullHigh);
    [concrete | discriminate].
Defined.

Definition wqueued : State :=
  with_queue [witem "a" Low; witem "b" High; witem "c" High] initialState.

Lemma processQueue_takes_first_of_highest_witness :
  exists item,
    running (processQueue browserPrefetchConfig 0 wqueued) =
      running wqueued ++ [(item, negb (cachedFresh 0 item (cache wqueued)))] /\
    queue wqueued ≡ₚ item :: queue (processQueue browserPrefetchConfig 0 wqueued) /\
    Forall (fun y => rank itemPriority y <= rank itemPriority item) (queue wqueued) /\
    exists later, tier itemPriority (itemPriority item) (queue wqueued) = item :: later.
Proof.
  apply (processQueue_takes_first_of_highest browserPrefetchConfig 0 wqueued);
    [concrete | discriminate].
Defined.

Definition wroutes : list Event :=
  [RouteChange 0 "/" ["p1"; "p2"]; RouteChange 1 "/search" ["p3"]; RouteChange 2 "/" ["p4"; "p5"]].

Lemma reachable_route_history_witness :
  exists s, initialState =[ wroutes ]=> s /\
    routeHistory s = lastn 10 (visits s) /\ (List.length (routeHistory s) <= 10)%nat /\
    forall r, userBehavior s !! r = behaviourOf r (visits s).
Proof.
  assert (H : exists s, initialState =[ wroutes ]=> s) by (eexists; unfold wroutes; run_trace).
  destruct H as [s Hs]. exists s. split; [exact Hs|].
  apply (reachable_route_history browserPrefetchConfig wroutes s). exact Hs.
Defined.

End BrowserPrefetch.
