(* ===== verification/ServerScheduler.v ===== *)
(** * The server-side prefetch manager of [src/lib/graphql/prefetch-manager.ts]

  [GraphQLPrefetchManager] keeps the array [prefetchQueue] of task
  objects, the set [executedPrefetches] of the cache keys whose fetch
  succeeded, and one idle timer.  The task objects are shared: the
  queue holds them, [setTimeout] closures capture them, and
  [executePrefetch] marks them [executed] in place.  The model keeps
  this aliasing: the objects live in a heap indexed by reference, the
  queue and the pending hover timers hold references.  One event is one
  synchronous run of JavaScript: a call of [addPrefetch] (and what it
  runs synchronously), a hover or idle timer firing, the resumption of
  an [executePrefetch] after [await task.fetchFunction()] (its outcome is
  the event's argument), [clearQueue], [clearExecuted].  The ghost field
  [inflight] lists the references whose fetch has been called and not
  yet settled, [nextRef] the next fresh reference.  A [condition]
  closure's answer, when [executePrefetch] calls it, is an argument of
  the event. *)

From S2P Require Import Prelude PrioritySort.
Import Priority.
Open Scope Z_scope.
Open Scope commerce_scope.

Module PrefetchManager.

Inductive Trigger := Hover | Idle | Scroll | Manual.

#[export] Instance Trigger_eq_dec : EqDecision Trigger.
Proof. solve_decision. Defined.

Record PrefetchStrategy := {
  name : string;
  priority : Priority;
  trigger : Trigger;
  delay : option Z;
  has_condition : bool
}.

Record PrefetchTask := {
  strategy : PrefetchStrategy;
  cacheKey : string;
  ttl : option Z;
  executed : bool;
  timestamp : option Z
}.

Record State := {
  heap : gmap nat PrefetchTask;
  prefetchQueue : list nat;
  executedPrefetches : gset string;
  idlePending : bool;
  hoverTimers : list nat;
  inflight : list nat;
  nextRef : nat
}.

Definition initialState : State :=
  {| heap := ∅; prefetchQueue := []; executedPrefetches := ∅; idlePending := false;
     hoverTimers := []; inflight := []; nextRef := 0 |}.

Definition taskPriority (h : gmap nat PrefetchTask) (r : nat) : Priority :=
  match h !! r with Some t => priority (strategy t) | None => Low end.

(** [task.strategy.trigger === trigger && !task.executed]. *)
Definition pendingWith (t : Trigger) (h : gmap nat PrefetchTask) (r : nat) : bool :=
  match h !! r with
  | Some task => bool_decide (trigger (strategy task) = t) && negb (executed task)
  | None => false
  end.

(** [prefetchQueue.filter(...)[0]]. *)
Definition firstPending (t : Trigger) (s : State) : option nat :=
  head (List.filter (pendingWith t (heap s)) (prefetchQueue s)).

Definition with_inflight (l : list nat) (s : State) : State :=
  {| heap := heap s; prefetchQueue := prefetchQueue s; executedPrefetches := executedPrefetches s;
     idlePending := idlePending s; hoverTimers := hoverTimers s; inflight := l; nextRef := nextRef s |}.

Definition with_hoverTimers (l : list nat) (s : State) : State :=
  {| heap := heap s; prefetchQueue := prefetchQueue s; executedPrefetches := executedPrefetches s;
     idlePending := idlePending s; hoverTimers := l; inflight := inflight s; nextRef := nextRef s |}.

Definition with_idle (b : bool) (s : State) : State :=
  {| heap := heap s; prefetchQueue := prefetchQueue s; executedPrefetches := executedPrefetches s;
     idlePending := b; hoverTimers := hoverTimers s; inflight := inflight s; nextRef := nextRef s |}.

(** [executePrefetch(task)] up to [await task.fetchFunction()]: an
    executed task or an executed key returns, so does a task whose
    condition answers [false]; otherwise the fetch is called. *)
Definition executePrefetch (r : nat) (cond : bool) (s : State) : State :=
  match heap s !! r with
  | None => s
  | Some task =>
      if executed task || bool_decide (cacheKey task ∈ executedPrefetches s) then s
      else if has_condition (strategy task) && negb cond then s
      else with_inflight (inflight s ++ [r]) s
  end.

Definition markExecuted (task : PrefetchTask) : PrefetchTask :=
  {| strategy := strategy task; cacheKey := cacheKey task; ttl := ttl task;
     executed := true; timestamp := timestamp task |}.

(** The resumption of the [i]-th pending fetch: on success
    [task.executed = true] and [executedPrefetches.add(task.cacheKey)];
    a rejection is caught and logged, and nothing is marked. *)
Definition fetchDone (i : nat) (ok : bool) (s : State) : option State :=
  match inflight s !! i with
  | None => None
  | Some r =>
      let s1 := with_inflight (delete i (inflight s)) s in
      match ok, heap s !! r with
      | true, Some task =>
          Some {| heap := <[r := markExecuted task]> (heap s1); prefetchQueue := prefetchQueue s1;
                  executedPrefetches := {[ cacheKey task ]} ∪ executedPrefetches s1;
                  idlePending := idlePending s1; hoverTimers := hoverTimers s1;
                  inflight := inflight s1; nextRef := nextRef s1 |}
      | _, _ => Some s1
      end
  end.

(** [processQueueByTrigger]: a hover task is executed by a timer after
    its delay, the idle timer is (re)started, scroll and manual tasks
    are executed at once. *)
Definition processQueueByTrigger (t : Trigger) (cond : bool) (s : State) : State :=
  match t with
  | Hover =>
      match firstPending Hover s with
      | Some r => with_hoverTimers (hoverTimers s ++ [r]) s
      | None => s
      end
  | Idle => with_idle true s
  | Scroll | Manual =>
      match firstPending t s with
      | Some r => executePrefetch r cond s
      | None => s
      end
  end.

Definition stamp (now : Z) (task : PrefetchTask) : PrefetchTask :=
  {| strategy := strategy task; cacheKey := cacheKey task; ttl := ttl task;
     executed := executed task; timestamp := Some now |}.

(** [addPrefetch]: an executed key is ignored; otherwise a copy
    [{...task, timestamp}] is pushed, the queue sorted, and the
    trigger's processing run. *)
Definition addPrefetch (now : Z) (task : PrefetchTask) (cond : bool) (s : State) : State :=
  if bool_decide (cacheKey task ∈ executedPrefetches s) then s
  else
    let r := nextRef s in
    let h := <[r := stamp now task]> (heap s) in
    processQueueByTrigger (trigger (strategy task)) cond
      {| heap := h; prefetchQueue := sortByPriority (taskPriority h) (prefetchQueue s ++ [r]);
         executedPrefetches := executedPrefetches s; idlePending := idlePending s;
         hoverTimers := hoverTimers s; inflight := inflight s; nextRef := S r |}.

(** A hover timer fires: [executePrefetch] of the task it captured. *)
Definition fireHover (i : nat) (cond : bool) (s : State) : option State :=
  match hoverTimers s !! i with
  | Some r => Some (executePrefetch r cond (with_hoverTimers (delete i (hoverTimers s)) s))
  | None => None
  end.

(** The idle timer fires: the first pending idle task at that time. *)
Definition fireIdle (cond : bool) (s : State) : option State :=
  if idlePending s then
    let s1 := with_idle false s in
    Some match firstPending Idle s1 with
         | Some r => executePrefetch r cond s1
         | None => s1
         end
  else None.

Definition clearQueue (s : State) : State :=
  {| heap := heap s; prefetchQueue := []; executedPrefetches := executedPrefetches s;
     idlePending := false; hoverTimers := hoverTimers s; inflight := inflight s; nextRef := nextRef s |}.

Definition clearExecuted (s : State) : State :=
  {| heap := heap s; prefetchQueue := prefetchQueue s; executedPrefetches := ∅;
     idlePending := idlePending s; hoverTimers := hoverTimers s; inflight := inflight s;
     nextRef := nextRef s |}.

(** The tasks built by [prefetchProduct] and [prefetchCategory], with
    their destructuring defaults. *)
Definition productTask (slug : string) (prio : option Priority) (trig : option Trigger)
    (dl : option Z) : PrefetchTask :=
  {| strategy := {| name := ("product_" ++ slug)%string; priority := default Medium prio;
                    trigger := default Hover trig; delay := Some (default 200 dl);
                    has_condition := false |};
     cacheKey := ("product:" ++ slug)%string; ttl := Some 300; executed := false;
     timestamp := None |}.

Definition categoryTask (slug : string) (prio : option Priority) (trig : option Trigger)
    (dl : option Z) : PrefetchTask :=
  {| strategy := {| name := ("category_" ++ slug)%string; priority := default Low prio;
                    trigger := default Idle trig; delay := Some (default 500 dl);
                    has_condition := false |};
     cacheKey := ("category:" ++ slug)%string; ttl := Some 600; executed := false;
     timestamp := None |}.

Inductive Event :=
| Add (now : Z) (task : PrefetchTask) (cond : bool)
| FireHover (i : nat) (cond : bool)
| FireIdle (cond : bool)
| FetchDone (i : nat) (ok : bool)
| ClearQueue
| ClearExecuted.

Inductive step : State -> Event -> State -> Prop :=
| step_add now task cond s : step s (Add now task cond) (addPrefetch now task cond s)
| step_hover i cond s s' : fireHover i cond s = Some s' -> step s (FireHover i cond) s'
| step_idle cond s s' : fireIdle cond s = Some s' -> step s (FireIdle cond) s'
| step_done i ok s s' : fetchDone i ok s = Some s' -> step s (FetchDone i ok) s'
| step_clear s : step s ClearQueue (clearQueue s)
| step_clear_executed s : step s ClearExecuted (clearExecuted s).

#[export] Instance manager_step : Step State Event := step.

(** ** Lemmas *)

(** The queue and the reference counter, which [executePrefetch] and the
    trigger processing leave alone. *)
Definition queue_view (s : State) : list nat * nat := (prefetchQueue s, nextRef s).

Lemma executePrefetch_view r cond s : queue_view (executePrefetch r cond s) = queue_view s.
Proof.
  unfold executePrefetch. destruct (heap s !! r); [|done].
  destruct (_ || _); [done|]. by destruct (_ && _).
Qed.

Lemma processQueueByTrigger_view t cond s :
  queue_view (processQueueByTrigger t cond s) = queue_view s.
Proof.
  unfold processQueueByTrigger.
  destruct t; try destruct (firstPending _ _); auto using executePrefetch_view.
Qed.

Lemma addPrefetch_view now task cond s :
  cacheKey task ∉ executedPrefetches s ->
  queue_view (addPrefetch now task cond s) =
    (sortByPriority (taskPriority (<[nextRef s := stamp now task]> (heap s)))
                    (prefetchQueue s ++ [nextRef s]), S (nextRef s)).
Proof.
  intros Hk. unfold addPrefetch. rewrite bool_decide_false by done.
  by rewrite processQueueByTrigger_view.
Qed.

(** Every reference ever allocated is still queued. *)
Definition all_queued (s : State) : Prop := prefetchQueue s ≡ₚ seq 0 (nextRef s).

Lemma step_all_queued s e s' : e <> ClearQueue -> all_queued s -> step s e s' -> all_queued s'.
Proof.
  intros He Hs Hstep. unfold all_queued in *.
  destruct Hstep as [now task cond s| i cond s s' H | cond s s' H | i ok s s' H | s | s].
  - destruct (decide (cacheKey task ∈ executedPrefetches s)) as [Hk|Hk].
    + unfold addPrefetch. by rewrite bool_decide_true.
    + pose proof (addPrefetch_view now task cond s Hk) as Hv. unfold queue_view in Hv.
      injection Hv as -> ->. rewrite sort_perm, Hs, seq_S. done.
  - revert H. unfold fireHover. destruct (hoverTimers s !! i); [|done]. intros [= <-].
    pose proof (executePrefetch_view n cond (with_hoverTimers (delete i (hoverTimers s)) s)) as Hv.
    unfold queue_view in Hv. injection Hv as -> ->. done.
  - revert H. unfold fireIdle. destruct (idlePending s); [|done]. intros [= <-].
    destruct (firstPending Idle _); [|done].
    pose proof (executePrefetch_view n cond (with_idle false s)) as Hv.
    unfold queue_view in Hv. injection Hv as -> ->. done.
  - revert H. unfold fetchDone. destruct (inflight s !! i); [|done].
    destruct ok, (heap s !! n); by intros [= <-].
  - done.
  - done.
Qed.

Lemma initial_all_queued : all_queued initialState.
Proof. unfold all_queued. simpl. constructor. Qed.

(** A manual task with no condition and its cache key. *)
Definition manualTask (k : string) : PrefetchTask :=
  {| strategy := {| name := "manual"; priority := Medium; trigger := Manual; delay := None;
                    has_condition := false |};
     cacheKey := k; ttl := None; executed := false; timestamp := None |}.

(** Build the run of a concrete trace. *)
Ltac run_trace :=
  repeat (eapply steps_cons; [hnf; econstructor; try reflexivity |]); apply steps_nil.

(** ** Theorems *)

(** Deduplication once a fetch succeeds: the task's key is marked
    executed; from then on an [addPrefetch] of any task with that key
    leaves the whole state unchanged, and [executePrefetch] of any task
    object with that key starts no fetch. *)
Theorem fetchDone_success_dedups i r task s s' :
  inflight s !! i = Some r -> heap s !! r = Some task -> fetchDone i true s = Some s' ->
  cacheKey task ∈ executedPrefetches s' /\
  (forall now task' cond, cacheKey task' = cacheKey task -> addPrefetch now task' cond s' = s') /\
  (forall r' task' cond, heap s' !! r' = Some task' -> cacheKey task' = cacheKey task ->
     executePrefetch r' cond s' = s').
Proof.
  unfold fetchDone. intros Hi Hr. rewrite Hi, Hr. intros [= <-].
  split_and!; [set_solver| |].
  - intros now task' cond Hk. unfold addPrefetch. rewrite bool_decide_true; [done|]. simpl. set_solver.
  - intros r' task' cond Hr' Hk. unfold executePrefetch. rewrite Hr'.
    rewrite (bool_decide_true (_ ∈ _)); [by rewrite orb_true_r|]. simpl. set_solver.
Qed.

(** No protection against concurrent duplicates: after a manual
    task is added and its fetch started, adding a second manual task
    (with the same key or another) calls [executePrefetch] on the first
    again, since it is not marked executed until its fetch settles: two
    fetches of the first task are in flight, and none of the second. *)
Theorem manual_add_refetches_pending k k' :
  exists s, initialState =[ [Add 0 (manualTask k) true; Add 1 (manualTask k') true] ]=> s /\
            inflight s = [0%nat; 0%nat].
Proof. eexists; split; [run_trace | reflexivity]. Qed.

(** A failed fetch is not terminal: the rejection is caught and
    nothing is marked, so the key stays admissible and the failed task
    stays pending; the next manual addition (of any key) fetches the
    failed task again instead of the new one. *)
Theorem failed_fetch_refetched k k' :
  exists s, initialState =[ [Add 0 (manualTask k) true; FetchDone 0 false; Add 1 (manualTask k') true] ]=> s /\
            inflight s = [0%nat] /\ executedPrefetches s = ∅.
Proof. eexists; split; [run_trace | split; reflexivity]. Qed.

(** The queue keeps every task: along any run without
    [clearQueue], the queue holds exactly the tasks ever admitted, the
    executed ones included, so its length is the number of admitted
    additions and no bound applies. *)
Theorem reachable_queue_retains_all es s :
  Forall (fun e => e <> ClearQueue) es -> initialState =[ es ]=> s ->
  prefetchQueue s ≡ₚ seq 0 (nextRef s) /\ List.length (prefetchQueue s) = nextRef s.
Proof.
  intros Hes Hsteps.
  assert (Hq : all_queued s).
  { eapply (steps_invariant_when step_rel all_queued); [| exact Hsteps | exact Hes | exact initial_all_queued].
    intros s1 e s2 Hs1 He Hst. exact (step_all_queued s1 e s2 He Hs1 Hst). }
  split; [done|]. rewrite (Permutation_length Hq). apply length_seq.
Qed.

(** ** Witnesses *)

Definition wafter_add : State := addPrefetch 0 (manualTask "product:shirt") true initialState.

Lemma fetchDone_success_dedups_witness :
  exists s', fetchDone 0 true wafter_add = Some s' /\
    "product:shirt"%string ∈ executedPrefetches s' /\
    addPrefetch 5 (manualTask "product:shirt") true s' = s'.
Proof.
  eexists. split; [reflexivity|].
  destruct (fetchDone_success_dedups 0 0 (stamp 0 (manualTask "product:shirt")) wafter_add
              (default initialState (fetchDone 0 true wafter_add)))
    as (Hk & Hadd & _); [reflexivity | reflexivity | reflexivity |].
  split; [exact Hk | by apply Hadd].
Defined.

Lemma reachable_queue_retains_all_witness :
  exists s, initialState =[ [Add 0 (manualTask "a") true; FetchDone 0 true; Add 1 (manualTask "b") true] ]=> s /\
    prefetchQueue s ≡ₚ seq 0 (nextRef s) /\ List.length (prefetchQueue s) = nextRef s.
Proof.
  assert (H : exists s, initialState =[ [Add 0 (manualTask "a") true; FetchDone 0 true;
                                        Add 1 (manualTask "b") true] ]=> s) by (eexists; run_trace).
  destruct H as [s Hs]. exists s. split; [exact Hs|].
  apply (reachable_queue_retains_all [Add 0 (manualTask "a") true; FetchDone 0 true;
                                      Add 1 (manualTask "b") true] s); [|exact Hs].
  repeat constructor; discriminate.
Defined.

End PrefetchManager.
