(* ===== verification/RedisCache.v ===== *)
(** * The Redis cache layer: [src/lib/redis/cache-strategy.ts], [cache-service.ts]
      and the clients that use it

  Three Modules, leaf first.

  - [Redis]: the Redis server the [ioredis] client of
    [src/lib/redis/client.ts] talks to, from the Redis command
    semantics (it is a library, not code of the repository): a map from
    keys to string values with an optional expiry time, [GET], [SET] with
    or without [EX], [DEL], and [KEYS] with glob patterns ([*], [?], [\]
    escapes; the code builds no pattern with a [[...]] class).  A client
    that is not available ([redisClient] null) is the flag [available].
  - [CacheStrategy]: key generation with query normalisation, the TTL
    policy ([getTTL], with IEEE doubles for [Math.floor(ttl * 0.7)]) and
    the invalidation patterns.  The MD5 digest is a parameter.
  - [CacheService]: [RedisCacheService] ([get], [set], [delete],
    [exists], [getOrSet], [cacheGraphQLQuery], [invalidateByPattern],
    [invalidateProduct], [invalidateCategory], [warmUpCache],
    [getStats], [clearAllGraphQLCaches], [healthCheck]) and
    [RedisEnhancedGraphQLClient.request], which the non-batching path
    of [OptimizedGraphQLClient.request] (file [OptimizedClient]) calls.

  Each service operation threads the Redis state and takes the clock
  readings it makes ([Date.now()] before and after the awaited fetch);
  the fetch is an oracle of [result]. *)

From S2P Require Import Prelude Json JsonParser.
From Stdlib Require Import Floats.
Set Warnings "-inexact-float".
Open Scope Z_scope.
Open Scope commerce_scope.

Module Redis.

Record Entry := {
  rvalue : string;
  expiresAt : option Z
}.

Record Redis := {
  available : bool;
  store : gmap string Entry
}.

Definition live (now : Z) (e : Entry) : bool :=
  match expiresAt e with Some t => now <? t | None => true end.

(** [GET key]. *)
Definition get (now : Z) (k : string) (r : Redis) : option string :=
  match store r !! k with
  | Some e => if live now e then Some (rvalue e) else None
  | None => None
  end.

(** [SET key value] and [SET key value EX seconds]; the reply is [OK]. *)
Definition set (now : Z) (k v : string) (ex : option Z) (r : Redis) : Redis :=
  {| available := available r;
     store := <[k := {| rvalue := v; expiresAt := option_map (fun s => now + s * 1000) ex |}]> (store r) |}.

(** [DEL key]: the number of keys removed. *)
Definition del (now : Z) (k : string) (r : Redis) : Z * Redis :=
  (match get now k r with Some _ => 1 | None => 0 end,
   {| available := available r; store := delete k (store r) |}).

(** Glob matching of [KEYS]. *)
Fixpoint glob (p s : string) : bool :=
  match p with
  | EmptyString => String.eqb s ""
  | String c p' =>
      if Ascii.eqb c "*" then
        (fix star (s : string) : bool :=
           glob p' s || match s with String _ s' => star s' | EmptyString => false end) s
      else if Ascii.eqb c "?" then
        match s with String _ s' => glob p' s' | EmptyString => false end
      else if Ascii.eqb c backslash then
        match p' with
        | String e p'' => match s with String c' s' => Ascii.eqb e c' && glob p'' s' | EmptyString => false end
        | EmptyString => match s with String c' s' => Ascii.eqb c c' && String.eqb s' "" | EmptyString => false end
        end
      else match s with String c' s' => Ascii.eqb c c' && glob p' s' | EmptyString => false end
  end.

(** [KEYS pattern]: the live keys that match, in the store's order. *)
Definition keys (now : Z) (pat : string) (r : Redis) : list string :=
  map fst (filter (fun kv : string * Entry => live now kv.2 && glob pat kv.1 = true)
                  (map_to_list (store r))).

End Redis.

Module CacheStrategy.

Record CacheConfig := {
  ttl : Z;
  prefix : string;
  version : option string
}.

Definition mkConfig (t : Z) (p : string) : CacheConfig :=
  {| ttl := t; prefix := p; version := Some "v1" |}.

Definition PRODUCT : CacheConfig := mkConfig (30 * 60) "graphql:product".
Definition PRODUCT_LIST : CacheConfig := mkConfig (10 * 60) "graphql:products".
Definition CATEGORY : CacheConfig := mkConfig (60 * 60) "graphql:category".
Definition SEARCH : CacheConfig := mkConfig (5 * 60) "graphql:search".
Definition HOMEPAGE : CacheConfig := mkConfig (15 * 60) "graphql:homepage".
Definition USER : CacheConfig := mkConfig (5 * 60) "graphql:user".
Definition DEFAULT : CacheConfig := mkConfig (10 * 60) "graphql:default".

(** [CACHE_CONFIGS] as the object literal's entries. *)
Definition CACHE_CONFIGS : list (string * CacheConfig) :=
  [("PRODUCT", PRODUCT); ("PRODUCT_LIST", PRODUCT_LIST); ("CATEGORY", CATEGORY);
   ("SEARCH", SEARCH); ("HOMEPAGE", HOMEPAGE); ("USER", USER); ("DEFAULT", DEFAULT)].

(** [toUpperCase] on the ASCII letters; no other character can turn a
    string into one of the configuration names. *)
Definition upper_char (c : ascii) : ascii :=
  let n := nat_of_ascii c in if ((97 <=? n) && (n <=? 122))%nat then ascii_of_nat (n - 32) else c.

Fixpoint toUpperCase (s : string) : string :=
  match s with
  | EmptyString => EmptyString
  | String c s' => String (upper_char c) (toUpperCase s')
  end.

Fixpoint lookup_config (name : string) (l : list (string * CacheConfig)) : option CacheConfig :=
  match l with
  | [] => None
  | (n, c) :: l' => if String.eqb n name then Some c else lookup_config name l'
  end.

(** [CACHE_CONFIGS[queryType.toUpperCase()] || CACHE_CONFIGS.DEFAULT]. *)
Definition getConfig (queryType : string) : CacheConfig :=
  default DEFAULT (lookup_config (toUpperCase queryType) CACHE_CONFIGS).

(** ** Query normalisation *)

(** [.replace(/\s+/g, ' ')]: every run of white space becomes one space. *)
Fixpoint collapse_ws (s : string) : string :=
  match s with
  | EmptyString => EmptyString
  | String c s' =>
      if js_space c then
        String " " ((fix skip (t : string) : string :=
                       match t with
                       | String c' t' => if js_space c' then skip t' else collapse_ws t
                       | EmptyString => EmptyString
                       end) s')
      else String c (collapse_ws s')
  end.

(** A line terminator, where [.] stops and [$] matches under [m]. *)
Definition line_terminator (c : ascii) : bool :=
  let n := nat_of_ascii c in ((n =? 10) || (n =? 13))%nat.

(** [.replace(/#.*$/gm, '')]: from each [#] to the end of its line. *)
Fixpoint strip_comments (s : string) : string :=
  match s with
  | EmptyString => EmptyString
  | String c s' =>
      if Ascii.eqb c "#" then
        (fix skip (t : string) : string :=
           match t with
           | String c' t' => if line_terminator c' then String c' (strip_comments t') else skip t'
           | EmptyString => EmptyString
           end) s'
      else String c (strip_comments s')
  end.

Definition string_rev (s : string) : string :=
  string_of_list_ascii (rev (list_ascii_of_string s)).

Definition trim (s : string) : string := string_rev (trim_start (string_rev (trim_start s))).

Definition normalizeQuery (query : string) : string := trim (strip_comments (collapse_ws query)).

Record CacheKeyOptions := {
  query : string;
  variables : option jvalue;
  userId : option string;
  context : option string
}.

Section Keys.
(** The hex MD5 digest of the concatenated updates. *)
Variable md5hex : string -> string.

(** [CacheKeyGenerator.generateKey]. *)
Definition generateKey (options : CacheKeyOptions) (config : CacheConfig) : string :=
  let normalizedQuery := normalizeQuery (query options) in
  let queryHash := substring 0 12 (md5hex (normalizedQuery ++ stringify (default (JObj []) (variables options)))) in
  let keyParts := [prefix config; default "" (version config);
                   match context options with Some c => if String.eqb c "" then "default" else c | None => "default" end;
                   queryHash] in
  let keyParts := match userId options with
                  | Some u => if String.eqb u "" then keyParts else keyParts ++ [("user:" ++ u)%string]
                  | None => keyParts
                  end in
  join ":" keyParts.

Definition generateProductKey (slug : string) (user : option string) : string :=
  generateKey {| query := "product"; variables := Some (JObj [("slug", JStr slug)]);
                 userId := user; context := None |} PRODUCT.

Definition generateCategoryKey (slug : string) (user : option string) : string :=
  generateKey {| query := "category"; variables := Some (JObj [("slug", JStr slug)]);
                 userId := user; context := None |} CATEGORY.

Definition generateProductListKey (params : jvalue) (user : option string) : string :=
  generateKey {| query := "products"; variables := Some params; userId := user; context := None |}
    PRODUCT_LIST.

(** [{ search: searchTerm, ...filters }]: a filter named [search]
    overwrites the term in place. *)
Definition generateSearchKey (searchTerm : string) (filters : list (string * jvalue)) (user : option string)
  : string :=
  generateKey {| query := "search";
                 variables := Some (JObj (fold_left (fun fs kv => JsonParse.setField fs kv.1 kv.2) filters
                                                    [("search", JStr searchTerm)]));
                 userId := user; context := None |} SEARCH.

Definition generateHomepageKey (user : option string) : string :=
  generateKey {| query := "homepage"; variables := None; userId := user; context := None |} HOMEPAGE.

(** [`${prefix}:${version}:*`]. *)
Definition basePattern (config : CacheConfig) : string :=
  (prefix config ++ ":" ++ default "" (version config) ++ ":*")%string.

Definition getProductInvalidationKeys (productSlug : string) : list string :=
  [generateProductKey productSlug None; basePattern PRODUCT_LIST; basePattern HOMEPAGE; basePattern SEARCH].

Definition getCategoryInvalidationKeys (categorySlug : string) : list string :=
  [generateCategoryKey categorySlug None; basePattern PRODUCT_LIST; basePattern HOMEPAGE].
End Keys.

(** The fields of [context] [getInvalidationPatterns] reads. *)
Record InvalidationContext := {
  ic_productId : option jvalue; ic_categoryId : option jvalue; ic_userId : option jvalue }.

(** [CacheInvalidation.getInvalidationPatterns(queryType, context?)]. *)
Definition getInvalidationPatterns (queryType : string) (ctx : option InvalidationContext) : list string :=
  let config := getConfig queryType in
  let base := (prefix config ++ ":" ++ Js.to_string_opt (option_map JStr (version config)) ++ ":")%string in
  let extra (v : option jvalue) (mid : string) :=
    if truthy_opt v then [(base ++ mid ++ Js.to_string_opt v ++ "*")%string] else [] in
  ([(base ++ "*")%string] ++
   match ctx with
   | Some c => extra (ic_productId c) "*product*" ++ extra (ic_categoryId c) "*category*" ++
               extra (ic_userId c) "*user:"
   | None => []
   end)%list.

(** ** TTL policy *)

(** An integer-valued double, as a [Z] ([Math.floor] of a finite double). *)
Definition float_floor (f : float) : Z :=
  match Prim2SF f with
  | S754_finite sgn m e =>
      let n := if sgn then Z.neg m else Z.pos m in
      if 0 <=? e then n * 2 ^ e else n / 2 ^ (- e)
  | _ => 0
  end.

Definition float_of_Z (z : Z) : float :=
  if z <? 0 then (- of_uint63 (Uint63.of_Z (- z)))%float else of_uint63 (Uint63.of_Z z).

(** [Math.floor(ttl * k)] on doubles. *)
Definition scale (t : Z) (k : float) : Z := float_floor (float_of_Z t * k)%float.

(** The truthiness of [context.userId] and [context.static]. *)
Record TTLContext := {
  ctx_userId : bool;
  ctx_static : bool
}.

(** [CacheTTLManager.getTTL]; [hour] is [new Date().getHours()]. *)
Definition getTTL (queryType : string) (ctx : TTLContext) (hour : Z) : Z :=
  let t0 := ttl (getConfig queryType) in
  let t1 := if (9 <=? hour) && (hour <=? 17) then scale t0 0.7 else t0 in
  let t2 := if ctx_userId ctx then scale t1 0.8 else t1 in
  let t3 := if ctx_static ctx then scale t2 1.5 else t2 in
  Z.max t3 60.

End CacheStrategy.

Module CacheService.
Import Redis CacheStrategy.

(** [CacheOptions]; [context] matters only through the two fields
    [getTTL] reads. *)
Record CacheOptions := {
  o_ttl : option Z;
  o_queryType : option string;
  o_userId : option string;
  o_context : TTLContext;
  o_forceRefresh : bool
}.

Record CacheResult := {
  data : jvalue;
  fromCache : bool;
  cacheKey : string;
  ttlUsed : option Z
}.

(** [get<T>(key)]: [null] ([JNull]) when the client is missing, the key
    is absent or expired, the value is the empty string, or
    [JSON.parse] throws. *)
Definition get (now : Z) (key : string) (r : Redis) : jvalue :=
  if available r then
    match Redis.get now key r with
    | Some cached => if String.eqb cached "" then JNull else default JNull (JsonParse.parse cached)
    | None => JNull
    end
  else JNull.

(** [set<T>(key, data, ttl?)]: [SET ... EX ttl] when [ttl && ttl > 0]. *)
Definition set (now : Z) (key : string) (d : jvalue) (ttl_arg : option Z) (r : Redis) : bool * Redis :=
  if available r then
    match ttl_arg with
    | Some t => if 0 <? t then (true, Redis.set now key (stringify d) (Some t) r)
                else (true, Redis.set now key (stringify d) None r)
    | None => (true, Redis.set now key (stringify d) None r)
    end
  else (false, r).

(** [delete(key)]: the count [DEL] replies. *)
Definition delete (now : Z) (key : string) (r : Redis) : Z * Redis :=
  if available r then Redis.del now key r else (0, r).

(** [exists(key)]: [false] without a client ([None]), otherwise the
    count [EXISTS] replies (a number, not a boolean). *)
Definition exists_ (now : Z) (key : string) (r : Redis) : option Z :=
  if available r then Some (if Redis.get now key r then 1 else 0) else None.

Record CacheStats := { connected : bool; totalKeys : Z }.

(** [redisClient.getConnectionStatus]: an ioredis client has no such
    method ([None]). *)
Definition getConnectionStatus : option (Redis -> bool) := None.

(** [getStats()]: calling the missing method throws, and the [catch]
    answers. *)
Definition getStats (now : Z) (r : Redis) : CacheStats :=
  if negb (available r) then {| connected := false; totalKeys := 0 |}
  else match getConnectionStatus with
       | Some status => {| connected := status r;
                           totalKeys := Z.of_nat (List.length (Redis.keys now "graphql:*" r)) |}
       | None => {| connected := false; totalKeys := 0 |}
       end.

Inductive Health := Healthy (latency : Z) | Unhealthy.

(** [healthCheck()]: [redisClient.ping()] throws when there is no client. *)
Definition serviceHealthCheck (tStart tEnd : Z) (r : Redis) : Health :=
  if available r then Healthy (tEnd - tStart) else Unhealthy.

Section Fetch.
Context {E : Type}.

(** [getOrSet]: the cache is read at [t0] unless [forceRefresh]; a value
    other than [null] is returned from the cache; otherwise the fetch
    runs (its error propagates), and its value is stored at [t1] with
    [options.ttl || CacheTTLManager.getTTL(queryType, context)]. *)
Definition getOrSet (t0 t1 hour : Z) (key : string) (fetch : result E jvalue)
    (options : CacheOptions) (r : Redis) : result E CacheResult * Redis :=
  let cached := if o_forceRefresh options then JNull else get t0 key r in
  match cached with
  | JObj _ | JArr _ | JStr _ | JNum _ | JBool _ =>
      (Ok {| data := cached; fromCache := true; cacheKey := key; ttlUsed := None |}, r)
  | JNull =>
      match fetch with
      | Err e => (Err e, r)
      | Ok fresh =>
          let t := or_default (o_ttl options)
                     (getTTL (default "default" (o_queryType options)) (o_context options) hour) in
          let r' := (set t1 key fresh (Some t) r).2 in
          (Ok {| data := fresh; fromCache := false; cacheKey := key; ttlUsed := Some t |}, r')
      end
  end.

Variable md5hex : string -> string.

(** The key [cacheGraphQLQuery] uses: the query type is the key's context. *)
Definition graphQLKey (query : string) (variables : option jvalue) (options : CacheOptions) : string :=
  let queryType := default "default" (o_queryType options) in
  generateKey md5hex {| query := query; variables := Some (default (JObj []) variables);
                        userId := o_userId options; context := Some queryType |}
              (getConfig queryType).

(** [cacheGraphQLQuery]: [{ ...context, userId }] replaces the context's
    [userId] with the option's. *)
Definition cacheGraphQLQuery (t0 t1 hour : Z) (query : string) (variables : option jvalue)
    (fetch : result E jvalue) (options : CacheOptions) (r : Redis) : result E CacheResult * Redis :=
  let queryType := default "default" (o_queryType options) in
  getOrSet t0 t1 hour (graphQLKey query variables options) fetch
    {| o_ttl := o_ttl options; o_queryType := Some queryType; o_userId := o_userId options;
       o_context := {| ctx_userId := match o_userId options with
                                     | Some u => negb (String.eqb u "")
                                     | None => false
                                     end;
                       ctx_static := ctx_static (o_context options) |};
       o_forceRefresh := o_forceRefresh options |} r.
End Fetch.

(** [invalidateByPattern]: [KEYS pattern], then [delete] of each key,
    counting the deletions [DEL] reports; a missing client throws in
    [redisClient.keys] and the error is caught. *)
Fixpoint deleteKeys (now : Z) (ks : list string) (count : Z) (r : Redis) : Z * Redis :=
  match ks with
  | [] => (count, r)
  | k :: ks' =>
      let '(n, r1) := delete now k r in
      deleteKeys now ks' (if n =? 0 then count else count + 1) r1
  end.

Definition invalidateByPattern (now : Z) (pattern : string) (r : Redis) : Z * Redis :=
  if available r then
    match Redis.keys now pattern r with
    | [] => (0, r)
    | ks => deleteKeys now ks 0 r
    end
  else (0, r).

Fixpoint invalidatePatterns (now : Z) (patterns : list string) (total : Z) (r : Redis) : Z * Redis :=
  match patterns with
  | [] => (total, r)
  | p :: ps => let '(n, r1) := invalidateByPattern now p r in invalidatePatterns now ps (total + n) r1
  end.

Definition invalidateProduct (md5hex : string -> string) (now : Z) (productSlug : string) (r : Redis)
  : Z * Redis :=
  invalidatePatterns now (getProductInvalidationKeys md5hex productSlug) 0 r.

Definition invalidateCategory (md5hex : string -> string) (now : Z) (categorySlug : string) (r : Redis)
  : Z * Redis :=
  invalidatePatterns now (getCategoryInvalidationKeys md5hex categorySlug) 0 r.

(** [clearAllGraphQLCaches]: every key under [graphql:*]. *)
Definition clearAllGraphQLCaches (now : Z) (r : Redis) : bool * Redis :=
  if available r then
    match Redis.keys now "graphql:*" r with
    | [] => (true, r)
    | ks => (true, (deleteKeys now ks 0 r).2)
    end
  else (false, r).

(** [warmUpCache(warmUpFunctions)]: each function runs against the store
    and a rejection is caught and logged; the functions' effects are
    applied in the order of the array, and the call itself always
    resolves. *)
Definition warmUpCache {E} (warmUpFunctions : list (Redis -> result E jvalue * Redis)) (r : Redis) : Redis :=
  fold_left (fun r' fn => (fn r').2) warmUpFunctions r.

(** ** [RedisEnhancedGraphQLClient.request] and [OptimizedGraphQLClient.request] *)

Record RequestOptions := {
  useCache : option bool;
  cacheTTL : option Z;
  queryType : option string;
  userId : option string;
  context : TTLContext;
  forceRefresh : option bool
}.

Record EnhancedResponse := {
  r_data : jvalue;
  r_fromCache : bool;
  executionTime : Z;
  r_cacheKey : option string
}.

Section Client.
Context {E : Type}.
Variable md5hex : string -> string.
(** [this.client.request(query, variables)] as an oracle. *)
Variable backend : string -> jvalue -> result E jvalue.

(** [request]: without the cache the backend is called directly;
    otherwise through [cacheGraphQLQuery].  [tStart] and [tEnd] are the
    clock readings of [executionTime]. *)
Definition request (tStart t0 t1 tEnd hour : Z) (query : string) (variables : option jvalue)
    (options : RequestOptions) (r : Redis) : result E EnhancedResponse * Redis :=
  let vars := default (JObj []) variables in
  if negb (default true (useCache options)) then
    match backend query vars with
    | Ok d => (Ok {| r_data := d; r_fromCache := false; executionTime := tEnd - tStart; r_cacheKey := None |}, r)
    | Err e => (Err e, r)
    end
  else
    let '(res, r') := cacheGraphQLQuery md5hex t0 t1 hour query (Some vars) (backend query vars)
                        {| o_ttl := cacheTTL options; o_queryType := Some (default "default" (queryType options));
                           o_userId := userId options; o_context := context options;
                           o_forceRefresh := default false (forceRefresh options) |} r in
    match res with
    | Ok cr => (Ok {| r_data := data cr; r_fromCache := fromCache cr; executionTime := tEnd - tStart;
                      r_cacheKey := Some (cacheKey cr) |}, r')
    | Err e => (Err e, r')
    end.

End Client.

End CacheService.

(** ** Lemmas on the key strategy *)

Module StrategyFacts.
Import CacheStrategy.

Lemma collapse_space c s :
  js_space c = true -> collapse_ws (String c s) = String " " (collapse_ws (trim_start s)).
Proof.
  intros Hc. cbn [collapse_ws]. rewrite Hc. f_equal.
  induction s as [|c' s IH]; [done|]. cbn [trim_start]. destruct (js_space c') eqn:E; [done|].
  reflexivity.
Qed.

Lemma trim_start_app p c r :
  js_space c = false -> trim_start (p ++ String c r) = (trim_start p ++ String c r)%string.
Proof.
  intros Hc. induction p as [|x p IH].
  - change (trim_start (String c r) = String c r). simpl. by rewrite Hc.
  - change (trim_start (String x (p ++ String c r)) = (trim_start (String x p) ++ String c r)%string).
    simpl. destruct (js_space x); [done | reflexivity].
Qed.

Lemma trim_start_length s : (String.length (trim_start s) <= String.length s)%nat.
Proof. induction s as [|c s IH]; cbn [trim_start]; [done|]. destruct (js_space c); simpl; lia. Qed.

(** White space runs do not cross a character that is not white space. *)
Lemma collapse_app p c r :
  js_space c = false ->
  collapse_ws (p ++ String c r) = (collapse_ws p ++ collapse_ws (String c r))%string.
Proof.
  intros Hc. remember (String.length p) as n eqn:Hn. revert p Hn.
  induction n as [n IH] using lt_wf_ind. intros [|x p] Hn; [done|].
  change (String x p ++ String c r)%string with (String x (p ++ String c r)).
  destruct (js_space x) eqn:Hx.
  - rewrite !collapse_space by done. rewrite trim_start_app by done.
    rewrite (IH (String.length (trim_start p))); [reflexivity | | done].
    pose proof (trim_start_length p). simpl in Hn. lia.
  - cbn [collapse_ws]. rewrite Hx. rewrite (IH (String.length p)); [reflexivity | | done].
    simpl in Hn. lia.
Qed.

(** No line terminator. *)
Fixpoint no_lt (s : string) : bool :=
  match s with
  | EmptyString => true
  | String c s' => negb (line_terminator c) && no_lt s'
  end.

Lemma no_lt_app a b : no_lt (a ++ b) = no_lt a && no_lt b.
Proof. induction a as [|c a IH]; [done|]. simpl. rewrite IH. by rewrite andb_assoc. Qed.

Lemma space_of_lt c : line_terminator c = true -> js_space c = true.
Proof. destruct c as [[] [] [] [] [] [] [] []]; vm_compute; congruence. Qed.

Lemma no_lt_collapse s : no_lt (collapse_ws s) = true.
Proof.
  remember (String.length s) as n eqn:Hn. revert s Hn.
  induction n as [n IH] using lt_wf_ind. intros [|x p] Hn; [done|].
  destruct (js_space x) eqn:Hx.
  - rewrite collapse_space by done. simpl. apply (IH (String.length (trim_start p))); [|done].
    pose proof (trim_start_length p). simpl in Hn. lia.
  - cbn [collapse_ws]. rewrite Hx. simpl.
    destruct (line_terminator x) eqn:Hl; [by rewrite space_of_lt in Hx|].
    simpl. apply (IH (String.length p)); [simpl in Hn; lia | done].
Qed.

(** The text before the first [#]. *)
Fixpoint before_hash (s : string) : string :=
  match s with
  | EmptyString => EmptyString
  | String c s' => if Ascii.eqb c "#" then EmptyString else String c (before_hash s')
  end.

Lemma strip_no_lt s : no_lt s = true -> strip_comments s = before_hash s.
Proof.
  induction s as [|c s IH]; [done|]. simpl. intros [Hc Hs]%andb_true_iff.
  destruct (Ascii.eqb c "#"); [|by rewrite IH].
  clear IH c Hc. induction s as [|c s IH]; [done|]. simpl in *.
  apply andb_true_iff in Hs as [Hc Hs]. apply negb_true_iff in Hc. rewrite Hc. by apply IH.
Qed.

Lemma before_hash_app x y : before_hash (x ++ String "#" y) = before_hash x.
Proof. induction x as [|c x IH]; [done|]. simpl. destruct (Ascii.eqb c "#"); [done|]. by rewrite IH. Qed.

(** Everything after a [#] is lost: the whitespace collapse runs first,
    so the comment reaches the end of the query. *)
Lemma normalize_comment p a :
  normalizeQuery (p ++ String "#" a) = trim (before_hash (collapse_ws p)).
Proof.
  unfold normalizeQuery. rewrite collapse_app by reflexivity.
  change (collapse_ws (String "#" a)) with (String "#" (collapse_ws a)).
  rewrite strip_no_lt.
  - by rewrite before_hash_app.
  - rewrite no_lt_app, no_lt_collapse. simpl. apply no_lt_collapse.
Qed.

End StrategyFacts.

(** ** Theorems on the cache layer *)

Module CacheTheorems.
Import Redis CacheStrategy CacheService StrategyFacts.

(** The keys written with the query type ['default'] start with
    [graphql:default:]. *)
Lemma graphQLKey_default (md5hex : string -> string) q v opts :
  default "default" (o_queryType opts) = "default" ->
  exists rest, graphQLKey md5hex q v opts = ("graphql:default:" ++ rest)%string.
Proof.
  intros Hq. unfold graphQLKey. rewrite Hq. unfold generateKey.
  cbn [CacheStrategy.userId CacheStrategy.context].
  destruct (o_userId opts) as [u|]; [destruct (String.eqb u "")|]; eexists; reflexivity.
Qed.

Lemma invalidation_patterns_miss (md5hex : string -> string) slug pat rest :
  pat ∈ getProductInvalidationKeys md5hex slug ++ getCategoryInvalidationKeys md5hex slug ->
  glob pat ("graphql:default:" ++ rest) = false.
Proof. intros Hp. repeat (apply elem_of_cons in Hp as [->|Hp]; [reflexivity|]). set_solver. Qed.

Lemma deleteKeys_keeps now ks c r k :
  k ∉ ks -> store (deleteKeys now ks c r).2 !! k = store r !! k.
Proof.
  revert c r. induction ks as [|k' ks IH]; intros c r Hk; [done|].
  apply not_elem_of_cons in Hk as [Hne Hk]. cbn [deleteKeys].
  unfold CacheService.delete. destruct (available r); simpl; rewrite IH by done; [|done].
  simpl. by rewrite lookup_delete_ne.
Qed.

Lemma keys_glob now pat r k : k ∈ Redis.keys now pat r -> glob pat k = true.
Proof.
  unfold Redis.keys. intros ([k' e] & -> & Hin)%list_elem_of_fmap.
  apply list_elem_of_filter in Hin as [Hm _]. simpl in *. by apply andb_true_iff in Hm as [_ ?].
Qed.

Lemma invalidateByPattern_keeps now pat r k :
  glob pat k = false -> store (invalidateByPattern now pat r).2 !! k = store r !! k.
Proof.
  intros Hg. unfold invalidateByPattern. destruct (available r); [|done].
  destruct (Redis.keys now pat r) as [|k0 ks] eqn:Hks; [done|].
  apply deleteKeys_keeps. intros Hk. rewrite <- Hks in Hk. apply keys_glob in Hk. congruence.
Qed.

Lemma invalidatePatterns_keeps now ps t r k :
  Forall (fun p => glob p k = false) ps -> store (invalidatePatterns now ps t r).2 !! k = store r !! k.
Proof.
  revert t r. induction ps as [|p ps IH]; intros t r Hps; [done|].
  apply Forall_cons in Hps as [Hp Hps]. cbn [invalidatePatterns].
  destruct (invalidateByPattern now p r) as [n r1] eqn:E. rewrite IH by done.
  change r1 with (n, r1).2. rewrite <- E. by apply invalidateByPattern_keeps.
Qed.

(** What [GET] returns after [getOrSet] stored a value, within its TTL. *)
Lemma service_get_after_set now t1 t key v r :
  available r = true -> 0 < t -> now < t1 + t * 1000 -> JsonParse.wf v = true ->
  CacheService.get now key (Redis.set t1 key (stringify v) (Some t) r) = v.
Proof.
  intros Ha Ht Hnow Hwf. unfold CacheService.get, Redis.get, Redis.set. simpl. rewrite Ha.
  rewrite lookup_insert_eq. unfold live. simpl. destruct (Z.ltb_spec now (t1 + t * 1000)); [|lia].
  destruct (JsonParse.stringify_head v) as (c & u & Hs & _). rewrite Hs. simpl.
  rewrite <- Hs, JsonParse.parse_stringify by done. reflexivity.
Qed.

(** C25. Comments break the cache key: [normalizeQuery] collapses white
    space before it strips [#] comments, so a comment runs to the end
    of the query, and two queries that agree up to a [#] get the same
    key whatever follows it (for any digest function). *)
Theorem generateKey_comment_collision (md5hex : string -> string) p a b vars user ctx config :
  generateKey md5hex {| CacheStrategy.query := p ++ String "#" a; CacheStrategy.variables := vars;
                        CacheStrategy.userId := user; CacheStrategy.context := ctx |} config =
  generateKey md5hex {| CacheStrategy.query := p ++ String "#" b; CacheStrategy.variables := vars;
                        CacheStrategy.userId := user; CacheStrategy.context := ctx |} config.
Proof. unfold generateKey. cbn [CacheStrategy.query]. by rewrite !normalize_comment. Qed.

(** C12. Product and category invalidation miss the cached queries:
    [invalidateProduct] and [invalidateCategory] delete only keys under
    [graphql:product:v1:default:], [graphql:category:v1:default:],
    [graphql:products:v1:], [graphql:homepage:v1:] and [graphql:search:v1:];
    an entry [cacheGraphQLQuery] wrote with the query type ['default'],
    the one [OptimizedGraphQLClient.request] always uses, is left as it
    was. *)
Theorem invalidation_keeps_default_entries (md5hex : string -> string) now slug q v opts r :
  default "default" (o_queryType opts) = "default" ->
  store (invalidateProduct md5hex now slug r).2 !! graphQLKey md5hex q v opts =
    store r !! graphQLKey md5hex q v opts /\
  store (invalidateCategory md5hex now slug r).2 !! graphQLKey md5hex q v opts =
    store r !! graphQLKey md5hex q v opts.
Proof.
  intros Hq. destruct (graphQLKey_default md5hex q v opts Hq) as [rest ->].
  split; apply invalidatePatterns_keeps; apply Forall_forall; intros pat Hp;
    apply (invalidation_patterns_miss md5hex slug); set_solver.
Qed.

(** Store and hit: when [getOrSet] misses and stores a fetched
    value (well formed, not [null]) with a positive TTL, a later
    [getOrSet] of the same key before the TTL runs out returns that value
    from the cache, does not use its fetch, and leaves Redis unchanged;
    this rests on [JSON.parse(JSON.stringify(v)) = v]. *)
Theorem getOrSet_then_hit {E} t0 t1 hour key v opts r res r1 t t2 t3 hour' (fetch' : result E jvalue) opts' :
  available r = true -> JsonParse.wf v = true -> v <> JNull ->
  getOrSet t0 t1 hour key (Ok v : result E jvalue) opts r = (Ok res, r1) -> fromCache res = false ->
  ttlUsed res = Some t -> 0 < t -> t2 < t1 + t * 1000 -> o_forceRefresh opts' = false ->
  getOrSet t2 t3 hour' key fetch' opts' r1 =
    (Ok {| data := v; fromCache := true; cacheKey := key; ttlUsed := None |}, r1).
Proof.
  intros Ha Hwf Hv Hget Hfc Httl Ht Ht2 Hf. unfold getOrSet in Hget.
  destruct (if o_forceRefresh opts then JNull else CacheService.get t0 key r);
    try (injection Hget as <- _; discriminate Hfc).
  injection Hget as <- <-. simpl in Httl. injection Httl as ->.
  unfold CacheService.set. rewrite Ha. destruct (Z.ltb_spec 0 t); [|lia]. simpl.
  unfold getOrSet. rewrite Hf, service_get_after_set by done.
  destruct v; [contradiction | reflexivity..].
Qed.

(** ** Witnesses *)

Definition wmd5 (_ : string) : string := "0123456789abcdef".
Definition wopts (ttl_opt : option Z) : CacheOptions :=
  {| o_ttl := ttl_opt; o_queryType := None; o_userId := None;
     o_context := {| ctx_userId := false; ctx_static := false |}; o_forceRefresh := false |}.
Definition wquery : string := "query GetProducts { products(first: 8) { nodes { id name } } }".
Definition wempty : Redis := {| available := true; store := ∅ |}.
Definition wredis : Redis :=
  Redis.set 0 (graphQLKey wmd5 wquery None (wopts None)) "{}" (Some 600) wempty.

Lemma invalidation_keeps_default_entries_witness :
  store (invalidateProduct wmd5 10 "blue-shirt" wredis).2 !! graphQLKey wmd5 wquery None (wopts None) =
    store wredis !! graphQLKey wmd5 wquery None (wopts None) /\
  store (invalidateCategory wmd5 10 "blue-shirt" wredis).2 !! graphQLKey wmd5 wquery None (wopts None) =
    store wredis !! graphQLKey wmd5 wquery None (wopts None).
Proof. apply invalidation_keeps_default_entries. reflexivity. Defined.

Lemma getOrSet_then_hit_witness :
  getOrSet 1000 1000 12 "k" (Err "backend down"%string) (wopts None)
    (getOrSet 0 0 12 "k" (Ok JsonParse.wproduct : result string jvalue) (wopts (Some 300)) wempty).2 =
  (Ok {| data := JsonParse.wproduct; fromCache := true; cacheKey := "k"; ttlUsed := None |},
   (getOrSet 0 0 12 "k" (Ok JsonParse.wproduct : result string jvalue) (wopts (Some 300)) wempty).2).
Proof.
  apply (getOrSet_then_hit 0 0 12 "k" JsonParse.wproduct (wopts (Some 300)) wempty
           {| data := JsonParse.wproduct; fromCache := false; cacheKey := "k"; ttlUsed := Some 300 |}
           _ 300 1000 1000 12 (Err "backend down"%string) (wopts None));
    [reflexivity | reflexivity | discriminate | reflexivity | reflexivity | reflexivity | lia | lia | reflexivity].
Defined.

End CacheTheorems.
