(* ===== verification/RedisSetup.v ===== *)
(** * Redis configuration and connection: [src/lib/redis/config.ts] and
    [src/lib/redis/client.ts]

  Both files read [process.env], here the oracle [env] from a variable's
  name to its value.  [client.ts] creates the [ioredis] client when the
  module is loaded on the server ([typeof window === 'undefined']) and
  [require('ioredis')] succeeds; the client's commands ([ping],
  [connect], [quit]) are oracles of [result] whose error is the
  message of the thrown [Error].  The connection-event handlers only log. *)

From S2P Require Import Prelude Json.
Open Scope Z_scope.
Open Scope commerce_scope.

Module Connection.

Section Env.
Variable env : string -> option string.

(** [process.env.X || d]: an empty variable counts as unset. *)
Definition env_or (x d : string) : string :=
  match env x with Some v => if String.eqb v "" then d else v | None => d end.

(** [parseInt(process.env.X || d)]; [None] is [NaN]. *)
Definition env_int (x d : string) : option Z := Js.parseInt (Some (JStr (env_or x d))).

Record TtlSettings := { ttl_default : option Z; ttl_product : option Z; ttl_category : option Z;
                        ttl_search : option Z; ttl_homepage : option Z; ttl_user : option Z }.

Record RedisConfig := {
  host : string; port : option Z; password : option string; db : option Z;
  enabled : bool; ttl : TtlSettings;
  retryDelayOnFailover : Z; maxRetriesPerRequest : Z; lazyConnect : bool;
  prefixes : list (string * string); version : string
}.

(** [REDIS_CONFIG] (config.ts lines 1-38) *)
Definition REDIS_CONFIG : RedisConfig :=
  {| host := env_or "REDIS_HOST" "localhost";
     port := env_int "REDIS_PORT" "6379";
     password := env "REDIS_PASSWORD";
     db := env_int "REDIS_DB" "0";
     enabled := bool_decide (env "REDIS_ENABLED" = Some "true") || bool_decide (env "NODE_ENV" = Some "production");
     ttl := {| ttl_default := env_int "CACHE_TTL_DEFAULT" "600"; ttl_product := env_int "CACHE_TTL_PRODUCT" "1800";
               ttl_category := env_int "CACHE_TTL_CATEGORY" "3600"; ttl_search := env_int "CACHE_TTL_SEARCH" "300";
               ttl_homepage := env_int "CACHE_TTL_HOMEPAGE" "900"; ttl_user := env_int "CACHE_TTL_USER" "300" |};
     retryDelayOnFailover := 100; maxRetriesPerRequest := 3; lazyConnect := true;
     prefixes := [("graphql", "graphql"); ("product", "graphql:product"); ("category", "graphql:category");
                  ("search", "graphql:search"); ("homepage", "graphql:homepage"); ("user", "graphql:user")];
     version := "v1" |}.

(** [isRedisEnabled()] and [getRedisConfig()] (config.ts lines 40-46) *)
Definition isRedisEnabled : bool := enabled REDIS_CONFIG.
Definition getRedisConfig : RedisConfig := REDIS_CONFIG.

(** The options [client.ts] passes to [new Redis(...)] (lines 11-21). *)
Record ClientOptions := {
  c_host : string; c_port : option Z; c_password : option string; c_db : option Z;
  c_retryDelayOnFailover : Z; c_maxRetriesPerRequest : Z; c_lazyConnect : bool;
  connectTimeout : Z; commandTimeout : Z
}.

Definition redisConfig : ClientOptions :=
  {| c_host := env_or "REDIS_HOST" "localhost"; c_port := env_int "REDIS_PORT" "6379";
     c_password := env "REDIS_PASSWORD"; c_db := env_int "REDIS_DB" "0";
     c_retryDelayOnFailover := 100; c_maxRetriesPerRequest := 3; c_lazyConnect := true;
     connectTimeout := 10000; commandTimeout := 5000 |}.

(** The exported [redisClient] (lines 2-30): the client's options when
    it was created, [null] in a browser or when [ioredis] fails to load. *)
Definition redisClient (serverSide ioredisLoads : bool) : option ClientOptions :=
  if serverSide && ioredisLoads then Some redisConfig else None.
End Env.

Record HealthReport := { status : string; hr_message : string; connected : bool }.

(** [redisHealthCheck()] (lines 52-85): [ping] answers a reply or
    throws. *)
Definition redisHealthCheck {C} (client : option C) (ping : result string string) : HealthReport :=
  match client with
  | None => {| status := "unhealthy"; hr_message := "Redis client not available (server-side only)";
               connected := false |}
  | Some _ =>
      match ping with
      | Ok pong =>
          if String.eqb pong "PONG" then
            {| status := "healthy"; hr_message := "Redis is connected and responding"; connected := true |}
          else {| status := "unhealthy"; hr_message := "Redis ping failed"; connected := false |}
      | Err msg => {| status := "unhealthy"; hr_message := "Redis health check failed: " ++ msg; connected := false |}
      end
  end.

(** [closeRedisConnection()] (lines 88-97): whether [quit] was sent;
    its failure is logged. *)
Definition closeRedisConnection {C} (client : option C) (quit : result string unit) : bool :=
  match client with None => false | Some _ => true end.

(** [initializeRedis()] (lines 100-110) *)
Definition initializeRedis {C} (client : option C) (connect : result string unit) : bool :=
  match client with
  | None => false
  | Some _ => match connect with Ok _ => true | Err _ => false end
  end.

End Connection.
