(* ===== verification/FieldSelection.v ===== *)
(** * [GraphQLFieldOptimizer] of [src/lib/graphql/field-optimizer.ts]

  The optimiser picks a field list from the query context and rewrites
  every match of [/(\{[^}]*\})/g] in the query: a [{] and every
  character up to the first [}] become [{\n    f1\n    f2 ...\n  }].
  [replaceFields] scans the query once: after a [{] the characters are
  held until the next [}] (the match is replaced) or the end of the
  text (no match starts there, nor at any later position, since no [}]
  follows: the held text is emitted as it was).  [OptimizedGraphQLClient]
  disables the optimiser ([useFieldOptimization && false]); the class is
  still exported. *)

From S2P Require Import Prelude Json QueryDocs.
Open Scope Z_scope.
Open Scope commerce_scope.

Module FieldOptimizer.
Import Queries.

Inductive Device := Mobile | Desktop.
Inductive Connection := Slow | Fast.

#[export] Instance Device_eq_dec : EqDecision Device.
Proof. solve_decision. Defined.
#[export] Instance Connection_eq_dec : EqDecision Connection.
Proof. solve_decision. Defined.

Record QueryContext := {
  page : option string;
  component : option string;
  device : option Device;
  connection : option Connection
}.

Definition emptyContext : QueryContext :=
  {| page := None; component := None; device := None; connection := None |}.

Definition is_some_str (o : option string) (s : string) : bool :=
  match o with Some x => String.eqb x s | None => false end.

(** [context.device === 'mobile' || context.connection === 'slow'] *)
Definition minimalWanted (ctx : QueryContext) : bool :=
  bool_decide (device ctx = Some Mobile) || bool_decide (connection ctx = Some Slow).

Definition minimalFields : list string := ["id"; "name"; "slug"; "price"; "image { sourceUrl altText }"].

Definition productFields : list string :=
  ["id"; "name"; "slug"; "description"; "price"; "regularPrice"; "salePrice"; "onSale"; "stockStatus";
   "images { sourceUrl altText }"; "categories { name slug }"].

Definition gridFields : list string :=
  ["id"; "name"; "slug"; "price"; "onSale"; "image { sourceUrl altText }"; "categories { name }"].

Definition defaultFields : list string := ["id"; "name"; "slug"; "price"; "image { sourceUrl altText }"].

(** [getFieldSelection(context)]; its [catch] is unreachable. *)
Definition getFieldSelection (ctx : QueryContext) : list string :=
  if minimalWanted ctx then minimalFields
  else if is_some_str (page ctx) "product" then productFields
  else if is_some_str (component ctx) "product-grid" then gridFields
  else defaultFields.

Record FieldStats := { fieldCount : Z; estimatedSize : Z; optimization : string }.

(** [getFieldStats(context)]: the label tests [device] alone. *)
Definition getFieldStats (ctx : QueryContext) : FieldStats :=
  let fields := getFieldSelection ctx in
  let n := Z.of_nat (List.length fields) in
  {| fieldCount := n; estimatedSize := n * 50;
     optimization := if bool_decide (device ctx = Some Mobile) then "minimal"
                     else if is_some_str (page ctx) "product" then "full"
                     else if is_some_str (component ctx) "product-grid" then "grid"
                     else "default" |}.

(** The scan of [query.replace(/(\{[^}]*\})/g, ...)]: [held] is the text
    after a pending [{]. *)
Fixpoint replace_sets (repl : string) (s : string) (held : option string) : string :=
  match s, held with
  | EmptyString, None => EmptyString
  | EmptyString, Some h => String "{" h
  | String c s', None =>
      if Ascii.eqb c "{" then replace_sets repl s' (Some EmptyString) else String c (replace_sets repl s' None)
  | String c s', Some h =>
      if Ascii.eqb c "}" then (repl ++ replace_sets repl s' None)%string
      else replace_sets repl s' (Some (h ++ String c EmptyString)%string)
  end.

(** [replaceFields(query, fields)]: the callback's test
    [match.includes('{') && match.includes('}')] always holds. *)
Definition replaceFields (query : string) (fields : list string) : string :=
  let fieldString := join "
    " fields in
  replace_sets ("{
    " ++ fieldString ++ "
  }")%string query None.

Definition selectMinimalFields (query : string) : string := replaceFields query minimalFields.
Definition selectProductFields (query : string) : string := replaceFields query productFields.
Definition selectGridFields (query : string) : string := replaceFields query gridFields.
Definition selectDefaultFields (query : string) : string := replaceFields query defaultFields.

(** [optimizeQuery(query, context)]; its [catch] is unreachable. *)
Definition optimizeQuery (query : string) (ctx : QueryContext) : string :=
  if minimalWanted ctx then selectMinimalFields query
  else if is_some_str (page ctx) "product" then selectProductFields query
  else if is_some_str (component ctx) "product-grid" then selectGridFields query
  else selectDefaultFields query.

(** Opening minus closing braces. *)
Fixpoint brace_balance (s : string) : Z :=
  match s with
  | EmptyString => 0
  | String c s' =>
      (if Ascii.eqb c "{" then 1 else if Ascii.eqb c "}" then -1 else 0) + brace_balance s'
  end.

(** ** Theorems *)

(** The four [select*Fields] apply the lists [getFieldSelection] reports. *)
Lemma optimizeQuery_selection q ctx : optimizeQuery q ctx = replaceFields q (getFieldSelection ctx).
Proof. unfold optimizeQuery, getFieldSelection. by repeat case_if. Qed.

Lemma getFieldSelection_cases ctx :
  getFieldSelection ctx = minimalFields \/ getFieldSelection ctx = productFields \/
  getFieldSelection ctx = gridFields \/ getFieldSelection ctx = defaultFields.
Proof. unfold getFieldSelection. repeat case_if; auto. Qed.

(** C20. The optimiser breaks every query of the repository: a match
    of [/(\{[^}]*\})/g] runs from a [{] to the first [}], swallowing the
    [{] of the nested selection sets it crosses, so that for every
    query constant of queries.ts and every context the optimised text
    has more [}] than [{] and is no longer a GraphQL document. *)
Theorem optimizeQuery_unbalanced q ctx :
  In q all_queries -> brace_balance (optimizeQuery q ctx) < 0.
Proof.
  rewrite optimizeQuery_selection. intros Hq.
  destruct (getFieldSelection_cases ctx) as [->|[->|[->| ->]]];
    repeat (destruct Hq as [<-|Hq]; [vm_compute; reflexivity|]); destruct Hq.
Qed.

(** The statistics misreport a slow connection: with
    [connection: 'slow'] on a device that is not mobile, the optimiser
    selects the five minimal fields, but [getFieldStats] labels the
    selection ["full"], ["grid"] or ["default"], never ["minimal"]. *)
Theorem getFieldStats_slow_mislabelled ctx :
  connection ctx = Some Slow -> device ctx <> Some Mobile ->
  getFieldSelection ctx = minimalFields /\ optimization (getFieldStats ctx) <> "minimal".
Proof.
  intros Hc Hd. unfold getFieldStats, getFieldSelection, minimalWanted. cbn [optimization].
  rewrite Hc, (bool_decide_eq_false_2 _ Hd), bool_decide_eq_true_2 by done. simpl.
  split; [done|]. by repeat case_if.
Qed.

Lemma optimizeQuery_unbalanced_witness : brace_balance (optimizeQuery GET_PRODUCTS_QUERY emptyContext) < 0.
Proof. apply optimizeQuery_unbalanced. simpl. auto. Defined.

Definition wslowProductPage : QueryContext :=
  {| page := Some "product"; component := None; device := Some Desktop; connection := Some Slow |}.

Lemma getFieldStats_slow_mislabelled_witness :
  getFieldSelection wslowProductPage = minimalFields /\ optimization (getFieldStats wslowProductPage) <> "minimal".
Proof. apply getFieldStats_slow_mislabelled; [reflexivity | discriminate]. Defined.

End FieldOptimizer.
