(* ===== verification/OptimizedClient.v ===== *)
(** * [OptimizedGraphQLClient] of [src/lib/graphql/optimized-client.ts]
    and the rest of [RedisEnhancedGraphQLClient]

  [OptimizedGraphQLClient.request] sends a query either to the batch
  client ([useBatching]) or to [RedisEnhancedGraphQLClient.request]
  (modelled in [RedisCache.CacheService]); the field optimiser is
  switched off in the code ([useFieldOptimization && false]).  The
  batch client's answer is an oracle from the queued query to the
  [BatchResult] its promise resolves with ([None]: it never settles, the
  query was dropped by [clearBatch]); [WindowBatcher] proves that this
  answer is the outcome of the caller's own query.  The methods that
  build on [request] (product page, search, listing, category, home
  page) have no [try]: a [null] payload makes them throw a [TypeError].
  Requests issued together with [Promise.all] run one after the other on
  the shared Redis store; the first error in list order is the one
  reported. *)

From S2P Require Import Prelude Json JsonParser RedisCache WindowBatcher FieldSelection.
Open Scope Z_scope.
Open Scope commerce_scope.

Module RedisEnhanced.
Import Redis CacheStrategy CacheService.

Record Req := { rq_query : string; rq_variables : option jvalue; rq_options : RequestOptions }.

(** The query of [healthCheck] (lines 111-117). *)
Definition healthQuery : string := "
        query HealthCheck {
          generalSettings {
            title
          }
        }
      ".

Section Client.
Context {E : Type}.
Variable md5hex : string -> string.
Variable backend : string -> jvalue -> result E jvalue.

(** [batchRequest(requests)]: [Promise.all] of [request], all started at [now]. *)
Fixpoint batchRequest (now hour : Z) (reqs : list Req) (r : Redis) : result E (list EnhancedResponse) * Redis :=
  match reqs with
  | [] => (Ok [], r)
  | q :: qs =>
      let '(res, r1) := request md5hex backend now now now now hour (rq_query q) (rq_variables q) (rq_options q) r in
      let '(rest, r2) := batchRequest now hour qs r1 in
      (match res, rest with
       | Ok x, Ok xs => Ok (x :: xs)
       | Err e, _ => Err e
       | _, Err e => Err e
       end, r2)
  end.

(** [healthCheck()]: the GraphQL backend answers the probe query (sent
    without variables, the empty object here). *)
Definition healthCheck (tStart tEnd : Z) : Health :=
  match backend healthQuery (JObj []) with Ok _ => Healthy (tEnd - tStart) | Err _ => Unhealthy end.

(** [clearCache()] *)
Definition clearCache (now : Z) (r : Redis) : bool * Redis := clearAllGraphQLCaches now r.

(** [getCacheStats()] *)
Definition getCacheStats (now : Z) (r : Redis) : CacheStats := getStats now r.

(** [invalidateProductCache(productSlug)] and [invalidateCategoryCache(categorySlug)] *)
Definition invalidateProductCache (now : Z) (slug : string) (r : Redis) : Z * Redis :=
  invalidateProduct md5hex now slug r.

Definition invalidateCategoryCache (now : Z) (slug : string) (r : Redis) : Z * Redis :=
  invalidateCategory md5hex now slug r.
End Client.
End RedisEnhanced.

Module Optimized.
Import Redis CacheStrategy CacheService FieldOptimizer.

Record OptimizedQueryOptions := {
  useCache_ : option bool; useBatching : option bool; useFieldOptimization : option bool;
  context_ : option QueryContext; cacheTTL_ : option Z; queryType_ : option string }.

Record OptimizedResponse := {
  od_data : option jvalue; od_fromCache : bool; od_executionTime : Z; optimizations : list string }.

(** The options the methods below pass: [useCache: true,
    useFieldOptimization: true] and a context. *)
Definition methodOptions (ctx : QueryContext) : OptimizedQueryOptions :=
  {| useCache_ := Some true; useBatching := None; useFieldOptimization := Some true;
     context_ := Some ctx; cacheTTL_ := None; queryType_ := None |}.

Definition pageContext (p : string) : QueryContext :=
  {| page := Some p; component := None; device := None; connection := None |}.
Definition componentContext (c : string) : QueryContext :=
  {| page := None; component := Some c; device := None; connection := None |}.

(** [[...new Set(xs)]]: the first occurrence of each element, in order. *)
Definition dedup (xs : list string) : list string :=
  fold_left (fun acc x => if existsb (String.eqb x) acc then acc else acc ++ [x]) xs [].

(** The error of a method: the request's, or a [TypeError] of the
    projection. *)
Inductive MethodError (E : Type) := Backend (e : E) | TypeErr.
Arguments Backend {E} e.
Arguments TypeErr {E}.

Record ProductAnswer := { pa_product : option jvalue; pa_executionTime : Z; pa_optimizations : list string }.
Record ListAnswer := { la_products : jvalue; la_executionTime : Z; la_optimizations : list string }.
Record CategoryAnswer := {
  ca_products : jvalue; ca_category : option jvalue; ca_executionTime : Z; ca_optimizations : list string }.
Record HomepageAnswer := {
  ha_products : jvalue; ha_categories : jvalue; ha_executionTime : Z; ha_optimizations : list string }.

Record BatchAnswer := {
  ba_results : list OptimizedResponse; ba_cacheHits : nat; ba_cacheMisses : nat }.

Record HealthAnswer := { healthy : bool; c_redis : bool; c_graphql : bool; c_batching : bool }.

(** The queries the methods send (lines 203-253, 283-300, 330-347, 378-405, 437-454, 463-472). *)
Definition GET_PRODUCT_BY_SLUG : string := "query GetProduct($slug: ID!) {
        product(id: $slug, idType: SLUG) {
          id
          name
          slug
          description
          shortDescription
          type
          featured
          averageRating
          reviewCount
          image {
            id
            sourceUrl
            altText
            mediaDetails {
              width
              height
            }
          }
          galleryImages {
            nodes {
              id
              sourceUrl
              altText
              mediaDetails {
                width
                height
              }
            }
          }
          ... on Product {
            productCategories {
              nodes {
                id
                name
                slug
              }
            }
          }
          ... on ProductWithPricing {
            price
            regularPrice
            salePrice
          }
          ... on InventoriedProduct {
            stockStatus
            stockQuantity
          }
        }
      }".

Definition SEARCH_PRODUCTS : string := "query SearchProducts($search: String!, $first: Int!) {
        products(first: $first, where: { search: $search }) {
          nodes {
            id
            name
            slug
            image {
              sourceUrl
              altText
            }
            ... on ProductWithPricing {
              price
              regularPrice
              salePrice
            }
          }
        }
      }".

Definition GET_PRODUCTS : string := "query GetProducts($first: Int!) {
        products(first: $first) {
          nodes {
            id
            name
            slug
            image {
              sourceUrl
              altText
            }
            ... on ProductWithPricing {
              price
              regularPrice
              salePrice
            }
          }
        }
      }".

Definition GET_PRODUCTS_BY_CATEGORY : string := "query GetProductsByCategory($categorySlug: ID!, $first: Int!) {
        productCategory(id: $categorySlug, idType: SLUG) {
          id
          name
          slug
          description
          image {
            sourceUrl
            altText
          }
        }
        products(first: $first, where: { categoryId: $categorySlug }) {
          nodes {
            id
            name
            slug
            image {
              sourceUrl
              altText
            }
            ... on ProductWithPricing {
              price
              regularPrice
              salePrice
            }
          }
        }
      }".

Definition HOMEPAGE_PRODUCTS : string := "query GetProducts {
          products(first: 8) {
            nodes {
              id
              name
              slug
              image {
                sourceUrl
                altText
              }
              ... on ProductWithPricing {
                price
                regularPrice
                salePrice
              }
            }
          }
        }".

Definition HOMEPAGE_CATEGORIES : string := "query GetCategories {
          productCategories(first: 6) {
            nodes {
              id
              name
              slug
              image { sourceUrl altText }
            }
          }
        }".

(** [result.data.k?.nodes || []] *)
Definition nodesOf (d : option jvalue) (k : string) : result Js.TypeError jvalue :=
  c ← Js.get d k; n ← Js.chain c "nodes"; Ok (Js.or_else n (JArr [])).

Section Client.
Context {E : Type}.
Variable md5hex : string -> string.
Variable backend : string -> jvalue -> result E jvalue.
(** What [graphqlBatchClient.addToBatch(q)] resolves with, if it ever does. *)
Variable batchAnswer : BatchClient.BatchQuery -> option BatchClient.BatchResult.

(** [request(query, variables, options)]: [None] when the batched
    promise never settles. *)
Definition request (tStart t0 t1 tEnd hour : Z) (query : string) (variables : option jvalue)
    (options : OptimizedQueryOptions) (r : Redis) : option (result E OptimizedResponse) * Redis :=
  let use_cache := default true (useCache_ options) in
  let use_fo := default true (useFieldOptimization options) in
  let ctx := default emptyContext (context_ options) in
  let query_type := default "default" (queryType_ options) in
  let vars := default (JObj []) variables in
  let optimizedQuery := if use_fo && false then optimizeQuery query ctx else query in
  let opts0 := if use_fo && false && negb (String.eqb (optimizeQuery query ctx) query)
               then ["field-optimization"] else [] in
  if default false (useBatching options) then
    match batchAnswer {| BatchClient.id := ("query-" ++ string_of_Z tStart)%string;
                         BatchClient.query := optimizedQuery; BatchClient.variables := Some vars;
                         BatchClient.options := Some {| BatchClient.useCache := Some use_cache;
                                                        BatchClient.cacheTTL := cacheTTL_ options;
                                                        BatchClient.queryType := Some query_type |} |} with
    | Some br => (Some (Ok {| od_data := Some (BatchClient.r_data br); od_fromCache := BatchClient.fromCache br;
                               od_executionTime := BatchClient.executionTime br;
                               optimizations := (opts0 ++ ["batching"])%list |}), r)
    | None => (None, r)
    end
  else
    let '(res, r') := CacheService.request md5hex backend tStart t0 t1 tEnd hour optimizedQuery (Some vars)
                        {| useCache := Some use_cache; cacheTTL := cacheTTL_ options; queryType := Some query_type;
                           userId := None; context := {| ctx_userId := false; ctx_static := false |};
                           forceRefresh := None |} r in
    (Some (match res with
           | Ok er => Ok {| od_data := Some (r_data er); od_fromCache := r_fromCache er;
                            od_executionTime := executionTime er;
                            optimizations := (opts0 ++ if r_fromCache er then ["redis-cache"] else [])%list |}
           | Err e => Err e
           end), r').

(** A method body after its [await this.request(...)]: the projection
    may throw a [TypeError]. *)
Definition project {B} (res : option (result E OptimizedResponse))
    (f : OptimizedResponse -> result Js.TypeError B) : option (result (MethodError E) B) :=
  match res with
  | None => None
  | Some (Err e) => Some (Err (Backend e))
  | Some (Ok o) => Some (match f o with Ok b => Ok b | Err _ => Err TypeErr end)
  end.

Definition getProductBySlug (tStart t0 t1 tEnd hour : Z) (slug : string) (r : Redis)
  : option (result (MethodError E) ProductAnswer) * Redis :=
  let '(res, r') := request tStart t0 t1 tEnd hour GET_PRODUCT_BY_SLUG (Some (JObj [("slug", JStr slug)]))
                      (methodOptions (pageContext "product-detail")) r in
  (project res (fun o => p ← Js.get (od_data o) "product";
                         Ok {| pa_product := p; pa_executionTime := tEnd - tStart;
                               pa_optimizations := optimizations o |}), r').

Definition searchProducts (tStart t0 t1 tEnd hour : Z) (searchTerm : string) (first : option Z) (r : Redis)
  : option (result (MethodError E) ListAnswer) * Redis :=
  let '(res, r') := request tStart t0 t1 tEnd hour SEARCH_PRODUCTS
                      (Some (JObj [("search", JStr searchTerm); ("first", JNum (default 20 first))]))
                      (methodOptions (pageContext "search")) r in
  (project res (fun o => n ← nodesOf (od_data o) "products";
                         Ok {| la_products := n; la_executionTime := tEnd - tStart;
                               la_optimizations := optimizations o |}), r').

Definition getProducts (tStart t0 t1 tEnd hour : Z) (first : option Z) (r : Redis)
  : option (result (MethodError E) ListAnswer) * Redis :=
  let '(res, r') := request tStart t0 t1 tEnd hour GET_PRODUCTS (Some (JObj [("first", JNum (default 20 first))]))
                      (methodOptions (pageContext "product-list")) r in
  (project res (fun o => n ← nodesOf (od_data o) "products";
                         Ok {| la_products := n; la_executionTime := tEnd - tStart;
                               la_optimizations := optimizations o |}), r').

Definition getProductsByCategory (tStart t0 t1 tEnd hour : Z) (categorySlug : string) (first : option Z)
    (r : Redis) : option (result (MethodError E) CategoryAnswer) * Redis :=
  let '(res, r') := request tStart t0 t1 tEnd hour GET_PRODUCTS_BY_CATEGORY
                      (Some (JObj [("categorySlug", JStr categorySlug); ("first", JNum (default 20 first))]))
                      (methodOptions (pageContext "category")) r in
  (project res (fun o => n ← nodesOf (od_data o) "products"; c ← Js.get (od_data o) "productCategory";
                         Ok {| ca_products := n; ca_category := c; ca_executionTime := tEnd - tStart;
                               ca_optimizations := optimizations o |}), r').

(** [getHomepageData()]: both requests of [Promise.all] run. *)
Definition getHomepageData (tStart t0 t1 tEnd hour : Z) (r : Redis)
  : option (result (MethodError E) HomepageAnswer) * Redis :=
  let '(res1, r1) := request tStart t0 t1 tEnd hour HOMEPAGE_PRODUCTS (Some (JObj []))
                       (methodOptions (componentContext "homepage-grid")) r in
  let '(res2, r2) := request tStart t0 t1 tEnd hour HOMEPAGE_CATEGORIES (Some (JObj []))
                       (methodOptions (componentContext "homepage-categories")) r1 in
  (match res1, res2 with
   | Some (Ok o1), Some (Ok o2) =>
       Some (match (p ← nodesOf (od_data o1) "products"; c ← nodesOf (od_data o2) "productCategories";
                    Ok {| ha_products := p; ha_categories := c; ha_executionTime := tEnd - tStart;
                          ha_optimizations := dedup (optimizations o1 ++ optimizations o2)%list |}) with
             | Ok h => Ok h
             | Err _ => Err TypeErr
             end)
   | Some (Err e), _ => Some (Err (Backend e))
   | _, Some (Err e) => Some (Err (Backend e))
   | _, _ => None
   end, r2).

(** [healthCheck()]: both probes are [redisEnhancedGraphQLClient.healthCheck()]. *)
Definition healthCheck (tStart tEnd : Z) : HealthAnswer :=
  let ok (h : Health) := match h with Healthy _ => true | Unhealthy => false end in
  let redisStatus := ok (RedisEnhanced.healthCheck backend tStart tEnd) in
  let graphqlStatus := ok (RedisEnhanced.healthCheck backend tStart tEnd) in
  {| healthy := redisStatus && graphqlStatus; c_redis := redisStatus; c_graphql := graphqlStatus;
     c_batching := true |}.

(** [getStats()]: the cache statistics and the batch client's queue
    length and pending timer. *)
Definition getStats (now : Z) (r : Redis) (b : BatchClient.State) : CacheStats * (nat * bool) :=
  (RedisEnhanced.getCacheStats now r, BatchClient.getBatchStats b).

(** [clearCaches()] *)
Definition clearCaches (now : Z) (r : Redis) : bool * Redis :=
  let '(_, r') := RedisEnhanced.clearCache now r in (true, r').
End Client.

Section Batch.
(** The downstream request of the batch client and the elapsed time of each query. *)
Variable downstream : string -> jvalue -> BatchClient.QueryOptions ->
  result BatchClient.Thrown BatchClient.GraphQLResponse.
Variable elapsed : BatchClient.BatchQuery -> Z.

Record BatchInput := { bi_query : string; bi_variables : option jvalue; bi_options : option OptimizedQueryOptions }.

(** The [BatchQuery] of the [index]-th input (lines 105-114). *)
Definition toBatchQuery (now : Z) (index : nat) (q : BatchInput) : BatchClient.BatchQuery :=
  {| BatchClient.id := ("batch-" ++ string_of_Z (Z.of_nat index) ++ "-" ++ string_of_Z now)%string;
     BatchClient.query := bi_query q; BatchClient.variables := Some (or_empty_object (bi_variables q));
     BatchClient.options := Some {|
       BatchClient.useCache := Some (match bi_options q ≫= useCache_ with Some false => false | _ => true end);
       BatchClient.cacheTTL := bi_options q ≫= cacheTTL_;
       BatchClient.queryType := Some (match bi_options q ≫= queryType_ with
                                           | Some t => if String.eqb t "" then "batch" else t
                                           | None => "batch"
                                           end) |} |}.

(** [batchRequest(queries)] over [graphqlBatchClient.executeBatchQueries]. *)
Definition batchRequest (now : Z) (qs : list BatchInput) : BatchAnswer :=
  let '(results, hits, misses, _) := BatchClient.executeBatchQueries downstream elapsed (imap (toBatchQuery now) qs) in
  {| ba_results := map (fun br => {| od_data := Some (BatchClient.r_data br); od_fromCache := BatchClient.fromCache br;
                                     od_executionTime := BatchClient.executionTime br;
                                     optimizations := ["batching"; if BatchClient.fromCache br
                                                                   then "redis-cache" else "fresh-data"] |})
                       results;
     ba_cacheHits := hits; ba_cacheMisses := misses |}.
End Batch.

End Optimized.

(** ** Theorems *)

Module OptimizedTheorems.
Import Redis CacheStrategy CacheService Optimized CacheTheorems.

(** The cache options [RedisEnhancedGraphQLClient.request] passes to
    [cacheGraphQLQuery] for a method of [OptimizedGraphQLClient]:
    no TTL, the query type ['default'], no user. *)
Definition methodCacheOptions : CacheOptions :=
  {| o_ttl := None; o_queryType := Some "default"; o_userId := None;
     o_context := {| ctx_userId := false; ctx_static := false |}; o_forceRefresh := false |}.

(** *** The cache layer seen by the client *)

Lemma service_get_ext now k r r' :
  available r = available r' -> store r !! k = store r' !! k -> CacheService.get now k r = CacheService.get now k r'.
Proof. intros Ha Hs. unfold CacheService.get, Redis.get. by rewrite Ha, Hs. Qed.

Lemma deleteKeys_available now ks c r : available (deleteKeys now ks c r).2 = available r.
Proof.
  revert c r. induction ks as [|k ks IH]; intros c r; [done|]. cbn [deleteKeys].
  destruct (CacheService.delete now k r) as [n r1] eqn:Ed. rewrite IH.
  unfold CacheService.delete, Redis.del in Ed.
  destruct (available r) eqn:Ha; injection Ed as _ <-; simpl; congruence.
Qed.

Lemma invalidatePatterns_available now ps t r : available (invalidatePatterns now ps t r).2 = available r.
Proof.
  revert t r. induction ps as [|p ps IH]; intros t r; [done|]. cbn [invalidatePatterns].
  destruct (invalidateByPattern now p r) as [n r1] eqn:E. rewrite IH. change r1 with (n, r1).2. rewrite <- E.
  unfold invalidateByPattern. destruct (available r) eqn:Ha; [|done].
  destruct (Redis.keys now p r); [done|]. by rewrite deleteKeys_available.
Qed.

(** What [get] reads under a key of the query type ['default'] is the
    same after [invalidateProduct]. *)
Lemma invalidateProduct_get md5hex now slug q v opts r t :
  default "default" (o_queryType opts) = "default" ->
  CacheService.get t (graphQLKey md5hex q v opts) (invalidateProduct md5hex now slug r).2 =
  CacheService.get t (graphQLKey md5hex q v opts) r.
Proof.
  intros Hq. destruct (graphQLKey_default md5hex q v opts Hq) as [rest Hk].
  apply service_get_ext; [apply invalidatePatterns_available|]. rewrite Hk.
  apply invalidatePatterns_keeps, Forall_forall. intros pat Hpat.
  apply (invalidation_patterns_miss md5hex slug). set_solver.
Qed.

Lemma getTTL_min q c h : 60 <= getTTL q c h.
Proof. unfold getTTL. lia. Qed.

Lemma getOrSet_hit {E} t0 t1 hour key (fetch : result E jvalue) opts r v :
  o_forceRefresh opts = false -> CacheService.get t0 key r = v -> v <> JNull ->
  getOrSet t0 t1 hour key fetch opts r = (Ok {| data := v; fromCache := true; cacheKey := key; ttlUsed := None |}, r).
Proof. intros Hf Hg Hv. unfold getOrSet. rewrite Hf, Hg. destruct v; done. Qed.

Lemma getOrSet_miss {E} t0 t1 hour key v opts r cr r1 :
  getOrSet t0 t1 hour key (Ok v : result E jvalue) opts r = (Ok cr, r1) -> fromCache cr = false ->
  data cr = v /\
  r1 = (CacheService.set t1 key v
          (Some (or_default (o_ttl opts) (getTTL (default "default" (o_queryType opts)) (o_context opts) hour))) r).2.
Proof.
  unfold getOrSet. destruct (if o_forceRefresh opts then JNull else CacheService.get t0 key r);
    intros H Hfc; injection H as <- <-; done.
Qed.

(** A value stored with the method options is read back for at least a
    minute, whatever the hour. *)
Lemma method_set_get t1 t2 hour key v r :
  available r = true -> JsonParse.wf v = true -> t2 < t1 + 60 * 1000 ->
  CacheService.get t2 key
    (CacheService.set t1 key v
       (Some (or_default (o_ttl methodCacheOptions)
                (getTTL (default "default" (o_queryType methodCacheOptions)) (o_context methodCacheOptions) hour)))
       r).2 = v.
Proof.
  intros Ha Hwf Ht. unfold CacheService.set. rewrite Ha. cbn -[getTTL].
  pose proof (getTTL_min "default" {| ctx_userId := false; ctx_static := false |} hour).
  rewrite (proj2 (Z.ltb_lt 0 _)) by lia. apply service_get_after_set; [done | lia | lia | done].
Qed.

(** *** The methods over [request] *)

Section Methods.
Context {E : Type}.
Variable md5hex : string -> string.
Variable backend : string -> jvalue -> result E jvalue.
Variable ba : BatchClient.BatchQuery -> option BatchClient.BatchResult.

(** A method's [request] is [getOrSet] under the key of the query type
    ['default']. *)
Lemma method_request_eq tS t0 t1 tE hour q vars ctx r :
  request md5hex backend ba tS t0 t1 tE hour q (Some vars) (methodOptions ctx) r =
  let '(res, r') := getOrSet t0 t1 hour (graphQLKey md5hex q (Some vars) methodCacheOptions) (backend q vars)
                      methodCacheOptions r in
  (Some (match res with
         | Ok cr => Ok {| od_data := Some (data cr); od_fromCache := fromCache cr; od_executionTime := tE - tS;
                          optimizations := if fromCache cr then ["redis-cache"] else [] |}
         | Err e => Err e
         end), r').
Proof.
  unfold request, methodOptions, CacheService.request, cacheGraphQLQuery. simpl.
  destruct (getOrSet _ _ _ _ _ _ _) as [[cr|e] r']; reflexivity.
Qed.
End Methods.

Lemma project_Ok {E B} (res : option (result E OptimizedResponse)) (f : OptimizedResponse -> result Js.TypeError B) a :
  project res f = Some (Ok a) -> exists o, res = Some (Ok o) /\ f o = Ok a.
Proof. unfold project. destruct res as [[o|e]|]; try done. destruct (f o) eqn:Hf; intros [= <-]; eauto. Qed.

Section Stale.
Context {E : Type}.
Variable md5hex : string -> string.
Variable backend : string -> jvalue -> result E jvalue.
Variable ba : BatchClient.BatchQuery -> option BatchClient.BatchResult.

(** C3. A product page stays stale after its invalidation: when
    [getProductBySlug] fetched a product from the backend (no
    ["redis-cache"] among its optimizations) and stored it, and
    [invalidateProductCache] of the same slug then runs, a
    [getProductBySlug] within the next minute answers the stored product
    from Redis, whatever the backend now holds: the entry's key is under
    [graphql:default:], which no invalidation pattern matches. *)
Theorem product_stale_after_invalidation (b' : string -> jvalue -> result E jvalue) ba' slug v r a r1
    tS t0 t1 tE hour now n r2 tS' t2 t3 tE' hour' :
  available r = true -> backend GET_PRODUCT_BY_SLUG (JObj [("slug", JStr slug)]) = Ok v ->
  JsonParse.wf v = true -> v <> JNull ->
  getProductBySlug md5hex backend ba tS t0 t1 tE hour slug r = (Some (Ok a), r1) -> pa_optimizations a = [] ->
  RedisEnhanced.invalidateProductCache md5hex now slug r1 = (n, r2) ->
  t2 < t1 + 60 * 1000 ->
  getProductBySlug md5hex b' ba' tS' t2 t3 tE' hour' slug r2 =
    (Some (Ok {| pa_product := pa_product a; pa_executionTime := tE' - tS';
                 pa_optimizations := ["redis-cache"] |}), r2).
Proof.
  intros Ha Hb Hwf Hv H1 Hopt Hinv Ht2. unfold getProductBySlug in *.
  destruct (request _ _ _ _ _ _ _ _ _ _ _ r) as [res r1'] eqn:Hr. injection H1 as H1 <-.
  apply project_Ok in H1 as (o & -> & Hf). rewrite method_request_eq, Hb in Hr.
  destruct (getOrSet _ _ _ _ (Ok v) _ r) as [[cr|e] r1''] eqn:Hg; [|discriminate]. injection Hr as <- <-.
  cbn [od_data] in Hf. destruct (Js.get (Some (data cr)) "product") as [p|] eqn:Hp; simpl in Hf; [|discriminate].
  injection Hf as <-. cbn [pa_optimizations optimizations] in Hopt |- *.
  destruct (fromCache cr) eqn:Hfc; [discriminate|].
  destruct (getOrSet_miss _ _ _ _ _ _ _ _ _ Hg Hfc) as [<- ->].
  unfold RedisEnhanced.invalidateProductCache in Hinv. change r2 with (n, r2).2. rewrite <- Hinv.
  rewrite method_request_eq, (getOrSet_hit _ _ _ _ _ _ _ (data cr)) by
    (rewrite ?invalidateProduct_get, ?method_set_get by done; done).
  cbn [project od_data data fromCache]. unbind. by rewrite Hp.
Qed.
End Stale.

(** The health check never looks at Redis: both probes of
    [healthCheck] are [redisEnhancedGraphQLClient.healthCheck()], so the
    ["redis"] component is the GraphQL backend's status, healthy exactly
    when the probe query succeeds, and the overall status is that same
    bit. *)
Theorem healthCheck_redis_is_graphql {E} (backend : string -> jvalue -> result E jvalue) tS tE :
  c_redis (healthCheck backend tS tE) = c_graphql (healthCheck backend tS tE) /\
  c_graphql (healthCheck backend tS tE) = is_ok (backend RedisEnhanced.healthQuery (JObj [])) /\
  healthy (healthCheck backend tS tE) = c_graphql (healthCheck backend tS tE).
Proof.
  unfold healthCheck, RedisEnhanced.healthCheck. simpl.
  destruct (backend _ _); simpl; auto.
Qed.

(** C16. A batched request whose query fails does not reject: the batch
    client settles the caller's promise with [data: null] and the error
    text, and [request] with [useBatching] resolves to a response whose
    data is [null], not from the cache, with the optimization
    ["batching"]; the backend's error never reaches the caller, and the
    error text the batch client recorded is dropped. *)
Theorem batched_failure_resolves_null {E} md5hex (backend : string -> jvalue -> result E jvalue)
    downstream elapsed tS t0 t1 tE hour q vars opts r e :
  useBatching opts = Some true ->
  (forall v o, downstream q v o = Err e) ->
  exists t,
    request md5hex backend (fun bq => Some (BatchClient.settle downstream elapsed bq)) tS t0 t1 tE hour q vars opts r =
    (Some (Ok {| od_data := Some JNull; od_fromCache := false; od_executionTime := t; optimizations := ["batching"] |}), r).
Proof.
  intros Hb Hd. unfold request. rewrite Hb, !andb_false_r. simpl. unfold BatchClient.settle. simpl.
  rewrite Hd. eexists. reflexivity.
Qed.

(** ** Witnesses *)

Definition wproduct : jvalue := JObj [("product", JObj [("name", JStr "Blue shirt")])].
Definition wrenamed : jvalue := JObj [("product", JObj [("name", JStr "Navy shirt")])].
Definition wbackend (answer : jvalue) (q : string) (_ : jvalue) : result string jvalue :=
  if String.eqb q GET_PRODUCT_BY_SLUG then Ok answer else Err "unknown query"%string.
Definition wnobatch (_ : BatchClient.BatchQuery) : option BatchClient.BatchResult := None.
Definition wfirst := getProductBySlug wmd5 (wbackend wproduct) wnobatch 0 0 0 5 12 "blue-shirt" wempty.
Definition winvalidated := RedisEnhanced.invalidateProductCache wmd5 100 "blue-shirt" wfirst.2.
Definition wanswer : ProductAnswer :=
  {| pa_product := Some (JObj [("name", JStr "Blue shirt")]); pa_executionTime := 5; pa_optimizations := [] |}.

Lemma product_stale_after_invalidation_witness :
  getProductBySlug wmd5 (wbackend wrenamed) wnobatch 200 200 200 210 12 "blue-shirt" winvalidated.2 =
    (Some (Ok {| pa_product := Some (JObj [("name", JStr "Blue shirt")]); pa_executionTime := 10;
                 pa_optimizations := ["redis-cache"] |}), winvalidated.2).
Proof.
  apply (product_stale_after_invalidation wmd5 (wbackend wproduct) wnobatch (wbackend wrenamed) wnobatch
           "blue-shirt" wproduct wempty wanswer wfirst.2 0 0 0 5 12 100 winvalidated.1);
    [reflexivity | vm_compute; reflexivity | reflexivity | discriminate | vm_compute; reflexivity
    | reflexivity | vm_compute; reflexivity | lia].
Defined.

Definition wfailing (_ : string) (_ : jvalue) (_ : BatchClient.QueryOptions)
  : result BatchClient.Thrown BatchClient.GraphQLResponse := Err (BatchClient.ThrownError "HTTP 500").
Definition wbatching : OptimizedQueryOptions :=
  {| useCache_ := None; useBatching := Some true; useFieldOptimization := None; context_ := None;
     cacheTTL_ := None; queryType_ := None |}.

Lemma batched_failure_resolves_null_witness :
  exists t,
    request wmd5 (wbackend wproduct) (fun bq => Some (BatchClient.settle wfailing (fun _ => 7) bq)) 0 0 0 5 12
      GET_PRODUCT_BY_SLUG None wbatching wempty =
    (Some (Ok {| od_data := Some JNull; od_fromCache := false; od_executionTime := t; optimizations := ["batching"] |}),
     wempty).
Proof. apply (batched_failure_resolves_null _ _ _ _ _ _ _ _ _ _ _ _ _ (BatchClient.ThrownError "HTTP 500")); reflexivity. Defined.

End OptimizedTheorems.
