(* ===== verification/WooAuth.v ===== *)
(** * Customer authentication of [src/lib/woocommerce.ts]

  [WooCommerceAPI.authenticateUser] looks the customer up (WordPress
  users by slug, then by e-mail search, then WooCommerce customers) and
  issues the token [base64(utf8("<id>:<email or slug>:<now>"))];
  [validateToken] decodes a token and returns [getUserById] of its first
  field.  Node's [Buffer] is modelled from its documented behaviour:
  [Buffer.from(s)] encodes UTF-8, [toString("base64")] pads with [=],
  [Buffer.from(t, "base64")] accepts both alphabets, skips the
  characters outside them and stops at the first [=], and
  [toString("utf-8")] decodes by the WHATWG algorithm, with U+FFFD for
  each maximal ill-formed subsequence.  Strings are Rocq strings of
  8-bit code units; a decoded text is its list of code points.

  The REST endpoint is an oracle from the path to the JSON answer or an
  error ([request] throws); [Date.now()] and [new Date().toISOString()]
  are parameters. *)

From Stdlib Require Import DecimalString.
From S2P Require Import Prelude Json JsonParser.
Open Scope Z_scope.
Open Scope commerce_scope.

Module Codec.

(** The code points of a string of 8-bit code units. *)
Definition codes (s : string) : list Z := map (fun c => Z.of_nat (nat_of_ascii c)) (list_ascii_of_string s).

(** [Buffer.from(s)]: UTF-8 of the code units below 256. *)
Definition utf8_char (c : ascii) : list Z :=
  let n := Z.of_nat (nat_of_ascii c) in
  if n <? 128 then [n] else [Z.lor 192 (Z.shiftr n 6); Z.lor 128 (Z.land n 63)].

Definition utf8_encode (s : string) : list Z := flat_map utf8_char (list_ascii_of_string s).

(** The state of the WHATWG UTF-8 decoder. *)
Record U8 := { needed : Z; seen : Z; cp : Z; lower : Z; upper : Z }.

Definition u8_init : U8 := {| needed := 0; seen := 0; cp := 0; lower := 128; upper := 191 |}.

Definition u8_lead (n : Z) (c : Z) (lo hi : Z) : U8 :=
  {| needed := n; seen := 0; cp := c; lower := lo; upper := hi |}.

(** A byte read when no sequence is pending. *)
Definition u8_start (b : Z) : list Z * U8 :=
  if b <=? 127 then ([b], u8_init)
  else if (194 <=? b) && (b <=? 223) then ([], u8_lead 1 (Z.land b 31) 128 191)
  else if (224 <=? b) && (b <=? 239) then
    ([], u8_lead 2 (Z.land b 15) (if b =? 224 then 160 else 128) (if b =? 237 then 159 else 191))
  else if (240 <=? b) && (b <=? 244) then
    ([], u8_lead 3 (Z.land b 7) (if b =? 240 then 144 else 128) (if b =? 244 then 143 else 191))
  else ([65533], u8_init).

(** One byte: a byte outside the expected range ends the pending
    sequence with U+FFFD and is read again. *)
Definition u8_step (st : U8) (b : Z) : list Z * U8 :=
  if needed st =? 0 then u8_start b
  else if negb ((lower st <=? b) && (b <=? upper st)) then
    let '(out, st') := u8_start b in (65533 :: out, st')
  else
    let c := Z.lor (Z.shiftl (cp st) 6) (Z.land b 63) in
    if seen st + 1 =? needed st then ([c], u8_init)
    else ([], {| needed := needed st; seen := seen st + 1; cp := c; lower := 128; upper := 191 |}).

Fixpoint u8_run (st : U8) (bs : list Z) : list Z :=
  match bs with
  | [] => if needed st =? 0 then [] else [65533]
  | b :: bs' => let '(out, st') := u8_step st b in out ++ u8_run st' bs'
  end.

(** [buf.toString("utf-8")] *)
Definition utf8_decode (bs : list Z) : list Z := u8_run u8_init bs.

(** [buf.toString("base64")]: three bytes give four characters. *)
Definition b64_alphabet : string :=
  "ABCDEFGHIJKLMNOPQRSTUVWXYZabcdefghijklmnopqrstuvwxyz0123456789+/".

Definition b64_char (n : Z) : ascii := default "A"%char (String.get (Z.to_nat n) b64_alphabet).

Fixpoint b64_encode (bs : list Z) : string :=
  match bs with
  | a :: b :: c :: rest =>
      String (b64_char (a / 4)) (String (b64_char (a mod 4 * 16 + b / 16))
        (String (b64_char (b mod 16 * 4 + c / 64)) (String (b64_char (c mod 64)) (b64_encode rest))))
  | [a; b] =>
      String (b64_char (a / 4)) (String (b64_char (a mod 4 * 16 + b / 16))
        (String (b64_char (b mod 16 * 4)) "="))
  | [a] => String (b64_char (a / 4)) (String (b64_char (a mod 4 * 16)) "==")
  | [] => EmptyString
  end.

(** The value of a base64 character in either alphabet; [64] for any
    other character. *)
Definition unbase64 (c : ascii) : Z :=
  let n := Z.of_nat (nat_of_ascii c) in
  if (65 <=? n) && (n <=? 90) then n - 65
  else if (97 <=? n) && (n <=? 122) then n - 71
  else if (48 <=? n) && (n <=? 57) then n + 4
  else if (n =? 43) || (n =? 45) then 62
  else if (n =? 47) || (n =? 95) then 63
  else 64.

(** The sextets of the text up to the first [=], other characters skipped. *)
Fixpoint sextets (s : string) : list Z :=
  match s with
  | EmptyString => []
  | String c s' =>
      if Ascii.eqb c "=" then []
      else let v := unbase64 c in if v <? 64 then v :: sextets s' else sextets s'
  end.

(** Four sextets give three bytes; a trailing group of two or three
    gives one or two; a single trailing sextet is dropped. *)
Fixpoint sextet_bytes (l : list Z) : list Z :=
  match l with
  | a :: b :: c :: d :: rest =>
      a * 4 + b / 16 :: b mod 16 * 16 + c / 4 :: c mod 4 * 64 + d :: sextet_bytes rest
  | [a; b; c] => [a * 4 + b / 16; b mod 16 * 16 + c / 4]
  | [a; b] => [a * 4 + b / 16]
  | _ => []
  end.

(** [Buffer.from(t, "base64")] *)
Definition b64_decode (s : string) : list Z := sextet_bytes (sextets s).

(** [s.split(":")[0]] over code points. *)
Fixpoint before_colon (cps : list Z) : list Z :=
  match cps with
  | [] => []
  | c :: r => if c =? 58 then [] else c :: before_colon r
  end.

(** The white space [parseInt] skips: [WhiteSpace] and [LineTerminator]. *)
Definition js_ws (c : Z) : bool :=
  ((9 <=? c) && (c <=? 13)) || (c =? 32) || (c =? 160) || (c =? 5760) ||
  ((8192 <=? c) && (c <=? 8202)) || (c =? 8232) || (c =? 8233) || (c =? 8239) ||
  (c =? 8287) || (c =? 12288) || (c =? 65279).

Fixpoint drop_ws (cps : list Z) : list Z :=
  match cps with
  | c :: r => if js_ws c then drop_ws r else cps
  | [] => []
  end.

Fixpoint digits10 (cps : list Z) (acc : option Z) : option Z :=
  match cps with
  | c :: r => if (48 <=? c) && (c <=? 57) then digits10 r (Some (default 0 acc * 10 + (c - 48))) else acc
  | [] => acc
  end.

(** [Number.parseInt(s, 10)]; [NaN] is [None]. *)
Definition parseInt10 (cps : list Z) : option Z :=
  match drop_ws cps with
  | c :: r => if c =? 45 then option_map Z.opp (digits10 r None)
              else if c =? 43 then digits10 r None else digits10 (c :: r) None
  | [] => None
  end.

End Codec.

(** ** JavaScript string operations on 8-bit code units *)

Module JsText.
Import Js.

(** [encodeURIComponent(s)]: the unreserved characters as they are,
    every other UTF-8 byte as [%XX]. *)
Definition uri_unreserved (c : ascii) : bool :=
  let n := nat_of_ascii c in
  ((65 <=? n) && (n <=? 90) || (97 <=? n) && (n <=? 122) || (48 <=? n) && (n <=? 57) ||
   (n =? 45) || (n =? 95) || (n =? 46) || (n =? 33) || (n =? 126) || (n =? 42) || (n =? 39) ||
   (n =? 40) || (n =? 41))%nat.

Definition hex_upper (n : Z) : ascii :=
  let k := Z.to_nat n in if (k <? 10)%nat then ascii_of_nat (48 + k) else ascii_of_nat (55 + k).

Definition percent (b : Z) : string := String "%" (String (hex_upper (b / 16)) (String (hex_upper (b mod 16)) "")).

Fixpoint encodeURIComponent (s : string) : string :=
  match s with
  | EmptyString => EmptyString
  | String c s' =>
      (if uri_unreserved c then String c EmptyString
       else String.concat "" (map percent (Codec.utf8_char c))) ++ encodeURIComponent s'
  end.

(** [s.toLowerCase()] on the code units below 256. *)
Definition lower_char (c : ascii) : ascii :=
  let n := nat_of_ascii c in
  if ((65 <=? n) && (n <=? 90) || (192 <=? n) && (n <=? 222) && negb (n =? 215))%nat
  then ascii_of_nat (n + 32) else c.

Fixpoint toLowerCase (s : string) : string :=
  match s with
  | EmptyString => EmptyString
  | String c s' => String (lower_char c) (toLowerCase s')
  end.

(** [s.split(sep)] for a one-character separator. *)
Fixpoint split_on (sep : ascii) (s : string) : list string :=
  match s with
  | EmptyString => [EmptyString]
  | String c s' =>
      if Ascii.eqb c sep then EmptyString :: split_on sep s'
      else match split_on sep s' with
           | p :: ps => String c p :: ps
           | [] => [String c EmptyString]
           end
  end.

(** [v?.toLowerCase()]: a nullish [v] gives [undefined]; a value that is
    not a string has no [toLowerCase]. *)
Definition lower_opt (v : option jvalue) : result TypeError (option string) :=
  match v with
  | None | Some JNull => Ok None
  | Some (JStr s) => Ok (Some (toLowerCase s))
  | Some _ => Err type_error
  end.

(** [v.toLowerCase()] *)
Definition lower_req (v : option jvalue) : result TypeError string :=
  match v with Some (JStr s) => Ok (toLowerCase s) | _ => Err type_error end.

(** [a || b] on values that may throw; [b] is only used when [a] is falsy. *)
Definition js_or (a b : result TypeError (option jvalue)) : result TypeError (option jvalue) :=
  x ← a; if truthy_opt x then Ok x else b.

(** [v?.[i]] for an index [i]. *)
Definition chain_index (v : option jvalue) (i : nat) : option jvalue :=
  match v with
  | None | Some JNull => None
  | Some (JArr items) => nth_error items i
  | Some (JStr s) => option_map (fun c => JStr (String c EmptyString)) (String.get i s)
  | Some (JObj fs) => assoc (string_of_Z (Z.of_nat i)) fs
  | Some _ => None
  end.

(** [v?.split(" ")]: the pieces, or [undefined]; a value that is not a
    string has no [split]. *)
Definition split_opt (v : option jvalue) : result TypeError (option (list string)) :=
  match v with
  | None | Some JNull => Ok None
  | Some (JStr s) => Ok (Some (split_on " " s))
  | Some _ => Err type_error
  end.

(** [arr.find(p)] with a predicate that may throw. *)
Fixpoint find_r (p : jvalue -> result TypeError bool) (l : list jvalue) : result TypeError (option jvalue) :=
  match l with
  | [] => Ok None
  | x :: l' => match p x with Ok true => Ok (Some x) | Ok false => find_r p l' | Err e => Err e end
  end.

End JsText.

(** ** [WooCommerceAPI] customer accounts *)

Module Auth.
Import Js JsText Codec.

(** [WooCommerceUser]: each field is the JavaScript value the code
    copies into it. *)
Record WooCommerceUser := {
  wu_id : option jvalue; wu_username : option jvalue; wu_email : option jvalue;
  wu_first_name : option jvalue; wu_last_name : option jvalue; wu_role : option jvalue;
  wu_date_created : option jvalue; wu_date_modified : option jvalue; wu_avatar_url : option jvalue }.

(** What [request] throws: an [Error] with its message, or the
    [SyntaxError] of [response.json()] on a body that is not JSON. *)
Inductive WooError := WooErr (msg : string) | JsonSyntaxError (body : string).

Definition invalidLogin : string := "Invalid email or username".

Section Api.
(** [this.request(endpoint)] of a [GET], and of a [POST] with its JSON body. *)
Variable request : string -> result WooError jvalue.
Variable post : string -> jvalue -> result WooError jvalue.
(** [Date.now()] and [new Date().toISOString()]. *)
Variable now : Z.
Variable nowISO : string.

Definition str (s : string) : result TypeError (option jvalue) := Ok (Some (JStr s)).

(** The first lookup: WordPress users by slug; an error is caught. *)
Definition lookupBySlug (x : string) : option jvalue :=
  match request ("/wp/v2/users?slug=" ++ encodeURIComponent x ++ "&per_page=10")%string with
  | Ok (JArr (u :: _)) => Some u
  | _ => None
  end.

(** [u => u.email?.toLowerCase() === x.toLowerCase()] *)
Definition emailMatches (x : string) (u : jvalue) : result TypeError bool :=
  e ← get (Some u) "email"; l ← lower_opt e; Ok (bool_decide (l = Some (toLowerCase x))).

(** [customer.email.toLowerCase() === lx || customer.username?.toLowerCase() === lx] *)
Definition customerMatches (x : string) (c : jvalue) : result TypeError bool :=
  e ← get (Some c) "email"; le ← lower_req e;
  if String.eqb le (toLowerCase x) then Ok true
  else u ← get (Some c) "username"; lu ← lower_opt u; Ok (bool_decide (lu = Some (toLowerCase x))).

(** A later lookup runs only while [user] is falsy; a thrown error
    leaves [user] as it was. *)
Definition lookupFind (endpoint : string) (p : jvalue -> result TypeError bool) (user : option jvalue)
  : option jvalue :=
  if truthy_opt user then user
  else match request endpoint with
       | Ok (JArr (u :: us)) => match find_r p (u :: us) with Ok found => found | Err _ => user end
       | _ => user
       end.

Definition findUser (x : string) : option jvalue :=
  let user := lookupBySlug x in
  let user := lookupFind ("/wp/v2/users?search=" ++ encodeURIComponent x ++ "&per_page=10")%string
                (emailMatches x) user in
  lookupFind ("/customers?search=" ++ encodeURIComponent x ++ "&per_page=1")%string (customerMatches x) user.

(** [Buffer.from(text).toString("base64")] *)
Definition tokenOf (text : string) : string := b64_encode (utf8_encode text).

(** The user record [authenticateUser] returns (lines 1084-1094). *)
Definition authUser (user : jvalue) : result TypeError WooCommerceUser :=
  let u := Some user in
  id ← get u "id";
  username ← js_or (get u "username") (js_or (get u "slug") (get u "email"));
  email ← js_or (get u "email") (str "");
  first_name ← js_or (get u "first_name")
                 (js_or (n ← get u "name"; p ← split_opt n; Ok (option_map (fun ps => JStr (default "" (head ps))) p))
                        (str ""));
  last_name ← js_or (get u "last_name")
                (js_or (n ← get u "name"; p ← split_opt n; Ok (option_map (fun ps => JStr (join " " (tail ps))) p))
                       (str ""));
  role ← js_or (r ← get u "roles"; Ok (chain_index r 0)) (js_or (get u "role") (str "customer"));
  date_created ← js_or (get u "date_created") (js_or (get u "date") (str nowISO));
  date_modified ← js_or (get u "date_modified") (js_or (get u "modified") (str nowISO));
  avatar_url ← js_or (get u "avatar_url") (js_or (a ← get u "avatar_urls"; Ok (chain_index a 96)) (str ""));
  Ok {| wu_id := id; wu_username := username; wu_email := email; wu_first_name := first_name;
        wu_last_name := last_name; wu_role := role; wu_date_created := date_created;
        wu_date_modified := date_modified; wu_avatar_url := avatar_url |}.

(** [authenticateUser(emailOrUsername, password)] (lines 1003-1101):
    every error becomes [Error("Invalid email or username")]. *)
Definition authenticateUser (emailOrUsername password : string) : result string (WooCommerceUser * string) :=
  match findUser emailOrUsername with
  | Some user =>
      if truthy user && negb (String.eqb password "") then
        match (id ← get (Some user) "id"; mail ← js_or (get (Some user) "email") (get (Some user) "slug");
               Ok (to_string_opt id ++ ":" ++ to_string_opt mail ++ ":" ++ string_of_Z now)%string) with
        | Ok text =>
            match authUser user with
            | Ok rec => Ok (rec, tokenOf text)
            | Err _ => Err invalidLogin
            end
        | Err _ => Err invalidLogin
        end
      else Err invalidLogin
  | None => Err invalidLogin
  end.

(** The record of [createUser] and [getUserById] (lines 1135-1145, 1160-1170). *)
Definition customerUser (user : jvalue) : result TypeError WooCommerceUser :=
  let u := Some user in
  id ← get u "id";
  username ← js_or (get u "username") (get u "email");
  email ← get u "email";
  first_name ← get u "first_name";
  last_name ← get u "last_name";
  role ← js_or (get u "role") (str "customer");
  date_created ← get u "date_created";
  date_modified ← get u "date_modified";
  avatar_url ← js_or (get u "avatar_url") (str "");
  Ok {| wu_id := id; wu_username := username; wu_email := email; wu_first_name := first_name;
        wu_last_name := last_name; wu_role := role; wu_date_created := date_created;
        wu_date_modified := date_modified; wu_avatar_url := avatar_url |}.

(** [getUserById(userId)]: any error gives [null]. *)
Definition getUserById (userId : Z) : option WooCommerceUser :=
  match request ("/customers/" ++ string_of_Z userId)%string with
  | Ok user => match customerUser user with Ok r => Some r | Err _ => None end
  | Err _ => None
  end.

(** [validateToken(token)] (lines 1177-1193): the first [:]-separated field of the decoded
    token, read by [parseInt(_, 10)]. *)
Definition validateToken (token : string) : option WooCommerceUser :=
  match parseInt10 (before_colon (utf8_decode (b64_decode token))) with
  | Some userId => getUserById userId
  | None => None
  end.

Inductive CreateError := UserExists | CreateFailed (e : WooError) | CreateTypeError.

Record NewUser := { nu_email : string; nu_password : string; nu_first_name : string; nu_last_name : string }.

(** [createUser(userData)] (lines 1103-1155). *)
Definition createUser (d : NewUser) : result CreateError (WooCommerceUser * string) :=
  match request ("/customers?email=" ++ encodeURIComponent (nu_email d) ++ "&per_page=1")%string with
  | Err e => Err (CreateFailed e)
  | Ok (JArr (_ :: _)) => Err UserExists
  | Ok _ =>
      match post "/customers" (JObj [("email", JStr (nu_email d)); ("first_name", JStr (nu_first_name d));
                                     ("last_name", JStr (nu_last_name d)); ("username", JStr (nu_email d));
                                     ("password", JStr (nu_password d))]) with
      | Err e => Err (CreateFailed e)
      | Ok newUser =>
          match (id ← get (Some newUser) "id"; Ok (to_string_opt id ++ ":" ++ string_of_Z now)%string) with
          | Err _ => Err CreateTypeError
          | Ok text =>
              match customerUser newUser with
              | Ok rec => Ok (rec, tokenOf text)
              | Err _ => Err CreateTypeError
              end
          end
      end
  end.
End Api.

End Auth.

(** ** Theorems *)

(** *** The codecs *)

Module CodecFacts.
Import Codec.

Lemma u8_char c rest : u8_run u8_init (utf8_char c ++ rest) = Z.of_nat (nat_of_ascii c) :: u8_run u8_init rest.
Proof. destruct c as [[] [] [] [] [] [] [] []]; reflexivity. Qed.

Lemma utf8_roundtrip s : utf8_decode (utf8_encode s) = codes s.
Proof.
  unfold utf8_decode, utf8_encode, codes. induction s as [|c s IH]; [done|].
  simpl. rewrite u8_char. by f_equal.
Qed.

Lemma b64_char_ok x : 0 <= x < 64 -> unbase64 (b64_char x) = x /\ Ascii.eqb (b64_char x) "=" = false.
Proof.
  intros Hx. rewrite <- (Z2Nat.id x) by lia. assert (Hk : (Z.to_nat x < 64)%nat) by lia.
  generalize (Z.to_nat x) Hk. clear. intros k Hk.
  do 64 (destruct k as [|k]; [vm_compute; auto|]). lia.
Qed.

Lemma sextets_char x s : 0 <= x < 64 -> sextets (String (b64_char x) s) = x :: sextets s.
Proof. intros Hx. destruct (b64_char_ok x Hx) as [H1 H2]. simpl. rewrite H2, H1. by rewrite (proj2 (Z.ltb_lt x 64)) by lia. Qed.

Lemma b64_roundtrip bs : Forall (fun b => 0 <= b < 256) bs -> b64_decode (b64_encode bs) = bs.
Proof.
  unfold b64_decode. induction bs as [[|a [|b [|c rest]]] IH] using (induction_ltof1 _ (@List.length Z)); intros Hall;
    repeat (apply Forall_cons in Hall as [? Hall]); simpl b64_encode;
    rewrite ?sextets_char by (Z.div_mod_to_equations; lia).
  - reflexivity.
  - simpl. f_equal. Z.div_mod_to_equations; lia.
  - simpl. f_equal; [|f_equal]; Z.div_mod_to_equations; lia.
  - cbn [sextet_bytes]. rewrite IH; [| unfold ltof; simpl; lia | done]. f_equal; [|f_equal; [|f_equal]]; Z.div_mod_to_equations; lia.
Qed.

Lemma codes_app a b : codes (a ++ b) = codes a ++ codes b.
Proof. unfold codes. induction a as [|c a IH]; simpl; [done|]. by rewrite IH. Qed.

Ltac eval_codes :=
  repeat match goal with
  | |- context [Z.of_nat (nat_of_ascii ?c)] =>
      let v := eval vm_compute in (Z.of_nat (nat_of_ascii c)) in change (Z.of_nat (nat_of_ascii c)) with v
  end.

Definition nondigit_head (rest : list Z) : Prop :=
  match rest with c :: _ => ~ (48 <= c <= 57) | [] => True end.

Lemma digits10_end rest acc : nondigit_head rest -> digits10 rest acc = acc.
Proof.
  destruct rest as [|c r]; [done|]. simpl. intros Hc.
  destruct (Z.leb_spec 48 c), (Z.leb_spec c 57); simpl; auto; lia.
Qed.

Lemma digits10_uint_acc u a rest :
  nondigit_head rest ->
  digits10 (codes (NilEmpty.string_of_uint u) ++ rest) (Some (Zpos a)) = Some (Zpos (Pos.of_uint_acc u a)).
Proof.
  revert a. induction u; intros a Hr; simpl; [by apply digits10_end|..];
    rewrite <- IHu by done; f_equal; f_equal; eval_codes; lia.
Qed.

Lemma codes_cons c s : codes (String c s) = Z.of_nat (nat_of_ascii c) :: codes s.
Proof. reflexivity. Qed.

Lemma digits10_uint u rest :
  nondigit_head rest ->
  digits10 (codes (NilEmpty.string_of_uint u) ++ rest) (Some 0) = Some (Z.of_uint u).
Proof.
  intros Hr. induction u; cbn [NilEmpty.string_of_uint]; [by apply digits10_end|..];
    rewrite codes_cons; cbn [app digits10]; eval_codes; cbn -[codes digits10 Pos.of_uint_acc];
    match goal with |- digits10 _ (Some ?e) = _ => let v := eval vm_compute in e in change e with v end;
    rewrite ?IHu, ?digits10_uint_acc by done; reflexivity.
Qed.

Lemma uint_head u :
  u <> Decimal.Nil -> exists c r, codes (NilEmpty.string_of_uint u) = c :: r /\ 48 <= c <= 57.
Proof. destruct u; intros Hu; [done|..]; eexists _, _; (split; [reflexivity | eval_codes; lia]). Qed.

Lemma digits10_first c r : 48 <= c <= 57 -> digits10 (c :: r) None = digits10 (c :: r) (Some 0).
Proof.
  intros Hc. simpl. replace ((48 <=? c) && (c <=? 57)) with true; [done|].
  symmetry. apply andb_true_iff. split; apply Z.leb_le; lia.
Qed.

Lemma drop_ws_digit c r : 48 <= c <= 57 -> drop_ws (c :: r) = c :: r.
Proof.
  intros Hc. simpl. unfold js_ws.
  repeat match goal with
  | |- context [?a =? ?b] => destruct (Z.eqb_spec a b); [lia|]
  | |- context [?a <=? ?b] => destruct (Z.leb_spec a b)
  end; simpl; try lia; reflexivity.
Qed.

Lemma parseInt10_uint (neg : bool) u rest :
  u <> Decimal.Nil -> nondigit_head rest ->
  parseInt10 (codes ((if neg then "-"%string else ""%string) ++ NilEmpty.string_of_uint u)%string ++ rest) =
    Some (if neg then - Z.of_uint u else Z.of_uint u).
Proof.
  intros Hu Hr. destruct (uint_head u Hu) as (c & r & Hcr & Hc).
  assert (Hd : digits10 (codes (NilEmpty.string_of_uint u) ++ rest) None = Some (Z.of_uint u)).
  { rewrite Hcr. simpl app. rewrite digits10_first by done. change (c :: r ++ rest) with ((c :: r) ++ rest).
    rewrite <- Hcr. by apply digits10_uint. }
  unfold parseInt10. destruct neg.
  - change (codes ("-" ++ NilEmpty.string_of_uint u)) with (45 :: codes (NilEmpty.string_of_uint u)).
    cbn [app drop_ws]. change (js_ws 45) with false. cbn -[codes digits10]. by rewrite Hd.
  - change (codes ("" ++ NilEmpty.string_of_uint u)) with (codes (NilEmpty.string_of_uint u)).
    rewrite Hcr in Hd |- *. simpl app. rewrite drop_ws_digit by done.
    rewrite (proj2 (Z.eqb_neq c 45)), (proj2 (Z.eqb_neq c 43)) by lia. done.
Qed.

Lemma parseInt10_Z z rest : nondigit_head rest -> parseInt10 (codes (string_of_Z z) ++ rest) = Some z.
Proof.
  intros Hr. unfold string_of_Z. pose proof (JsonParse.to_int_norm z) as Hn. pose proof (DecimalZ.of_to z) as Ho.
  destruct (Z.to_int z) as [u|u]; simpl in Hn.
  - injection Hn as Hn. assert (Hu : u <> Decimal.Nil) by (intros ->; discriminate Hn).
    assert (Hs : NilZero.string_of_uint u = NilEmpty.string_of_uint u) by (destruct u; done).
    simpl. rewrite Hs, <- Ho. exact (parseInt10_uint false u rest Hu Hr).
  - assert (Hu : u <> Decimal.Nil) by (intros ->; discriminate Hn).
    assert (Hs : NilZero.string_of_uint u = NilEmpty.string_of_uint u) by (destruct u; done).
    simpl. rewrite Hs, <- Ho. exact (parseInt10_uint true u rest Hu Hr).
Qed.

End CodecFacts.

(** *** Tokens *)

Module AuthTheorems.
Import Js JsText Codec CodecFacts Auth.

Lemma utf8_char_bytes c : forallb (fun b => (0 <=? b) && (b <? 256)) (utf8_char c) = true.
Proof. destruct c as [[] [] [] [] [] [] [] []]; reflexivity. Qed.

Lemma utf8_bytes s : Forall (fun b => 0 <= b < 256) (utf8_encode s).
Proof.
  unfold utf8_encode. induction s as [|c s IH]; simpl; [constructor|]. apply Forall_app. split; [|done].
  apply Forall_forall. intros b Hb%list_elem_of_In. pose proof (utf8_char_bytes c) as Hc.
  rewrite forallb_forall in Hc. apply Hc, andb_true_iff in Hb as [H1 H2]. lia.
Qed.

Lemma uint_no_colon u : Forall (fun c => c <> 58) (codes (NilEmpty.string_of_uint u)).
Proof. induction u; cbn [NilEmpty.string_of_uint]; rewrite ?codes_cons; constructor; try done; eval_codes; lia. Qed.

Lemma string_of_Z_no_colon z : Forall (fun c => c <> 58) (codes (string_of_Z z)).
Proof.
  unfold string_of_Z. destruct (Z.to_int z) as [u|u]; simpl.
  - destruct u; [repeat constructor; eval_codes; lia | apply uint_no_colon..].
  - rewrite codes_cons. constructor; [eval_codes; lia|].
    destruct u; [repeat constructor; eval_codes; lia | apply uint_no_colon..].
Qed.

Lemma before_colon_app l r : Forall (fun c => c <> 58) l -> before_colon (l ++ r) = l ++ before_colon r.
Proof.
  induction l as [|c l IH]; intros Hl; [done|]. apply Forall_cons in Hl as [Hc Hl]. simpl.
  rewrite (proj2 (Z.eqb_neq c 58)) by done. by rewrite IH.
Qed.

Section Tokens.
Variable request : string -> result WooError jvalue.

(** The token of a text that starts with a customer id and then a
    character that is not a digit grants that customer. *)
Lemma validateToken_tokenOf n rest :
  nondigit_head (before_colon (codes rest)) ->
  validateToken request (tokenOf (string_of_Z n ++ rest)) = getUserById request n.
Proof.
  intros Hr. unfold validateToken, tokenOf. rewrite b64_roundtrip by apply utf8_bytes.
  unfold utf8_decode. fold (utf8_decode (utf8_encode (string_of_Z n ++ rest))).
  rewrite utf8_roundtrip, codes_app, before_colon_app by apply string_of_Z_no_colon.
  by rewrite parseInt10_Z.
Qed.

Lemma colon_text_head s : nondigit_head (before_colon (codes (":" ++ s))).
Proof. done. Qed.

Lemma authUser_id iso user r : authUser iso user = Ok r -> get (Some user) "id" = Ok (wu_id r).
Proof. unfold authUser. unbind. intros H. repeat case_match; simplify_eq/=; done. Qed.

Lemma customerUser_id user r : customerUser user = Ok r -> get (Some user) "id" = Ok (wu_id r).
Proof. unfold customerUser. unbind. intros H. repeat case_match; simplify_eq/=; done. Qed.
End Tokens.

Section Claims.
Variable request : string -> result WooError jvalue.
Variable post : string -> jvalue -> result WooError jvalue.
Variable now : Z.
Variable nowISO : string.

(** C9. The token round trip: when [authenticateUser] returns a user
    whose [id] is the number [n] with a token, [validateToken] of that
    token is [getUserById(n)]: base64 and UTF-8 decode what they encoded,
    and [parseInt] reads the id back from the text before the first [:]. *)
Theorem issued_token_validates x p u tok n :
  authenticateUser request now nowISO x p = Ok (u, tok) -> wu_id u = Some (JNum n) ->
  validateToken request tok = getUserById request n.
Proof.
  unfold authenticateUser. destruct (findUser request x) as [user|]; [|discriminate].
  destruct (truthy user && _); [|discriminate]. unbind.
  destruct (get (Some user) "id") as [id|] eqn:Hid; [|discriminate]. cbn iota beta.
  destruct (js_or _ _) as [mail|]; [|discriminate]. cbn iota beta.
  destruct (authUser nowISO user) as [r|] eqn:Ha; [|discriminate]. intros [= <- <-] Hn.
  apply authUser_id in Ha. rewrite Hid in Ha. injection Ha as ->. rewrite Hn.
  apply validateToken_tokenOf, colon_text_head.
Qed.

(** The tokens [createUser] issues validate the same way. *)
Theorem created_token_validates d u tok n :
  createUser request post now d = Ok (u, tok) -> wu_id u = Some (JNum n) ->
  validateToken request tok = getUserById request n.
Proof.
  unfold createUser. destruct (request _) as [j|]; [|discriminate].
  destruct j as [| | | |[|]|]; try discriminate; destruct (post _ _) as [nu|]; try discriminate;
    unbind; destruct (get (Some nu) "id") as [id|] eqn:Hid; try discriminate; cbn iota beta;
    destruct (customerUser nu) as [r|] eqn:Hc; try discriminate; intros [= <- <-] Hn;
    apply customerUser_id in Hc; rewrite Hid in Hc; injection Hc as ->; rewrite Hn;
    apply validateToken_tokenOf, colon_text_head.
Qed.

(** C1. The password is never checked: [authenticateUser] with two
    non-empty passwords gives the same answer, user and token included;
    whoever knows a customer's e-mail or user name logs in as that
    customer. *)
Theorem authenticateUser_ignores_password x p p' :
  p <> "" -> p' <> "" ->
  authenticateUser request now nowISO x p = authenticateUser request now nowISO x p'.
Proof.
  intros Hp Hp'. unfold authenticateUser.
  by rewrite (proj2 (String.eqb_neq p "") Hp), (proj2 (String.eqb_neq p' "") Hp').
Qed.

(** C2. Tokens are forgeable: for any customer id [n] and any text
    [s], the base64 of the decimal id followed by a colon and [s] (the
    shape of the tokens [authenticateUser] issues, [id:email] or
    [id:username]) and the base64 of the id alone are computed without
    any secret, and [validateToken] accepts both as the customer with
    that id, whatever [s] is. *)
Theorem forged_token_accepted n s :
  validateToken request (tokenOf (string_of_Z n ++ ":" ++ s)) = getUserById request n /\
  validateToken request (tokenOf (string_of_Z n)) = getUserById request n.
Proof.
  split; [apply validateToken_tokenOf, colon_text_head|].
  rewrite <- (string_app_nil_r (string_of_Z n)). by apply validateToken_tokenOf.
Qed.
End Claims.

(** ** Witnesses *)

Definition walice : jvalue :=
  JObj [("id", JNum 7); ("slug", JStr "alice"); ("email", JStr "alice@example.com"); ("name", JStr "Alice Liddell")].
Definition wcustomer : jvalue :=
  JObj [("id", JNum 7); ("email", JStr "alice@example.com"); ("first_name", JStr "Alice");
        ("last_name", JStr "Liddell"); ("date_created", JStr "2024-01-01"); ("date_modified", JStr "2024-01-02")].
Definition wreq (endpoint : string) : result WooError jvalue :=
  if String.eqb endpoint "/wp/v2/users?slug=alice&per_page=10" then Ok (JArr [walice])
  else if String.eqb endpoint "/customers/7" then Ok wcustomer
  else Err (WooErr "WooCommerce API endpoint not found.").
Definition wnow : Z := 1700000000000.
Definition wiso : string := "2024-06-01T00:00:00.000Z".
Definition wnobody : WooCommerceUser :=
  {| wu_id := None; wu_username := None; wu_email := None; wu_first_name := None; wu_last_name := None;
     wu_role := None; wu_date_created := None; wu_date_modified := None; wu_avatar_url := None |}.
Definition wlogin : WooCommerceUser * string :=
  match authenticateUser wreq wnow wiso "alice" "hunter2" with Ok r => r | Err _ => (wnobody, ""%string) end.

Lemma issued_token_validates_witness :
  authenticateUser wreq wnow wiso "alice" "hunter2" = Ok wlogin /\
  validateToken wreq wlogin.2 = getUserById wreq 7 /\ getUserById wreq 7 <> None.
Proof.
  assert (H : authenticateUser wreq wnow wiso "alice" "hunter2" = Ok (wlogin.1, wlogin.2)) by (vm_compute; reflexivity).
  split; [vm_compute; reflexivity|]. split; [|vm_compute; discriminate].
  apply (issued_token_validates wreq wnow wiso "alice" "hunter2" wlogin.1 wlogin.2 7 H). vm_compute. reflexivity.
Defined.

Lemma authenticateUser_ignores_password_witness :
  authenticateUser wreq wnow wiso "alice" "hunter2" = authenticateUser wreq wnow wiso "alice" "x".
Proof. apply authenticateUser_ignores_password; discriminate. Defined.

End AuthTheorems.
