(* ===== verification/WooStore.v ===== *)
(** * The WooCommerce REST client of [src/lib/woocommerce.ts]

  [WooCommerceAPI.request] calls [fetch] on the store's REST API and
  turns a failed response into an [Error] whose message depends on the
  status; the methods over it read products, orders, coupons, shipping
  zones and sales.  [fetch] is an oracle from the URL and the request's
  method and body to the response; the JSON body is read by
  [JsonParse.parse].  JavaScript numbers of the coupon and shipping
  arithmetic are exact rationals with the infinities and [NaN]
  ([Number.parseFloat] can return all of them); the rounding of binary
  floating point is not modelled.  Identifiers and quantities are the
  integers of the JSON model. *)

From Stdlib Require Import QArith Lqa.
From S2P Require Import Prelude Json JsonParser WooAuth.
Open Scope Z_scope.
Open Scope commerce_scope.

(** ** JavaScript numbers *)

Module JsNumber.

Inductive jsnum := Fin (q : Q) | PInf | NInf | NaN.

(** [a < b] *)
Definition num_lt (a b : jsnum) : bool :=
  match a, b with
  | NaN, _ | _, NaN => false
  | Fin x, Fin y => negb (Qle_bool y x)
  | NInf, NInf | PInf, PInf => false
  | NInf, _ => true
  | _, PInf => true
  | PInf, _ => false
  | Fin _, NInf => false
  end.

(** [a <= b] *)
Definition num_le (a b : jsnum) : bool :=
  match a, b with NaN, _ | _, NaN => false | _, _ => negb (num_lt b a) end.

Definition neg (a : jsnum) : jsnum :=
  match a with Fin x => Fin (- x) | PInf => NInf | NInf => PInf | NaN => NaN end.

(** [a * b] *)
Definition num_mul (a b : jsnum) : jsnum :=
  match a, b with
  | NaN, _ | _, NaN => NaN
  | Fin x, Fin y => Fin (x * y)
  | Fin x, inf | inf, Fin x =>
      if Qeq_bool x 0 then NaN else if Qle_bool 0 x then inf else neg inf
  | PInf, PInf | NInf, NInf => PInf
  | _, _ => NInf
  end.

(** [a / 100] *)
Definition div100 (a : jsnum) : jsnum := match a with Fin x => Fin (x / 100) | _ => a end.

(** [Math.min(a, b)] *)
Definition num_min (a b : jsnum) : jsnum :=
  match a, b with NaN, _ | _, NaN => NaN | _, _ => if num_lt b a then b else a end.

(** [n || 0]: [0] and [NaN] are falsy. *)
Definition or_zero (a : jsnum) : jsnum :=
  match a with Fin x => if Qeq_bool x 0 then Fin 0 else a | NaN => Fin 0 | _ => a end.

Definition of_Z (n : Z) : jsnum := Fin (inject_Z n).

(** The value of a non-empty decimal digit string. *)
Definition digits_value (d : string) : Z := default 0 (Js.parse_digits 10 d None).

Definition scale10 (n e : Z) : Q :=
  if 0 <=? e then inject_Z (n * 10 ^ e) else Qmake n (Z.to_pos (10 ^ (- e))).

(** The exponent part [e±digits] when it is complete, [0] otherwise. *)
Definition exponent (s : string) : Z :=
  match s with
  | String c r =>
      if Ascii.eqb c "e" || Ascii.eqb c "E" then
        let '(sign, r') := Js.strip_sign r in
        let '(d, _) := JsonParse.span_digits r' in
        if String.eqb d "" then 0 else sign * digits_value d
      else 0
  | EmptyString => 0
  end.

(** The longest prefix that is a [StrUnsignedDecimalLiteral] other than
    [Infinity]. *)
Definition decimal_prefix (s : string) : option Q :=
  let '(i, r1) := JsonParse.span_digits s in
  let '(f, r2) := match r1 with
                  | String c r => if Ascii.eqb c "." then JsonParse.span_digits r else (EmptyString, r1)
                  | EmptyString => (EmptyString, r1)
                  end in
  if String.eqb i "" && String.eqb f "" then None
  else Some (scale10 (digits_value (i ++ f)) (exponent r2 - Z.of_nat (String.length f))).

(** [Number.parseFloat(s)] *)
Definition parseFloat (s : string) : jsnum :=
  let '(sign, s2) := Js.strip_sign (trim_start s) in
  if String.prefix "Infinity" s2 then (if sign <? 0 then NInf else PInf)
  else match decimal_prefix s2 with Some q => Fin (inject_Z sign * q) | None => NaN end.

End JsNumber.

(** ** [URLSearchParams] *)

Module SearchParams.

(** The [application/x-www-form-urlencoded] byte serializer. *)
Definition form_safe (c : ascii) : bool :=
  let n := nat_of_ascii c in
  ((65 <=? n) && (n <=? 90) || (97 <=? n) && (n <=? 122) || (48 <=? n) && (n <=? 57) ||
   (n =? 42) || (n =? 45) || (n =? 46) || (n =? 95))%nat.

Fixpoint form_encode (s : string) : string :=
  match s with
  | EmptyString => EmptyString
  | String c s' =>
      (if Ascii.eqb c " " then "+"
       else if form_safe c then String c EmptyString
       else String.concat "" (map JsText.percent (Codec.utf8_char c))) ++ form_encode s'
  end.

Definition params := list (string * string).

(** [searchParams.toString()] *)
Definition toString (ps : params) : string :=
  join "&" (map (fun kv => form_encode kv.1 ++ "=" ++ form_encode kv.2)%string ps).

(** [searchParams.append(k, v)] *)
Definition append (ps : params) (k v : string) : params := (ps ++ [(k, v)])%list.

(** [searchParams.set(k, v)]: the first pair of [k] takes the value, the
    others go; a new key is appended. *)
Fixpoint set_first (ps : params) (k v : string) : option params :=
  match ps with
  | [] => None
  | (k', v') :: ps' =>
      if String.eqb k k' then Some ((k, v) :: filter (fun kv => negb (String.eqb kv.1 k)) ps')
      else option_map (cons (k', v')) (set_first ps' k v)
  end.

Definition set (ps : params) (k v : string) : params :=
  match set_first ps k v with Some ps' => ps' | None => append ps k v end.

(** [new URLSearchParams(record)]: each value through [String(v)]. *)
Definition of_record (o : list (string * option jvalue)) : params :=
  map (fun kv => (kv.1, Js.to_string_opt kv.2)) o.

(** [Object.entries(params).forEach(([k, v]) => { if (v !== undefined) f(k, v.toString()) })]:
    [null.toString()] throws. *)
Fixpoint add_defined (f : params -> string -> string -> params) (ps : params)
    (o : list (string * option jvalue)) : result Js.TypeError params :=
  match o with
  | [] => Ok ps
  | (k, None) :: o' => add_defined f ps o'
  | (k, Some JNull) :: _ => Err Js.type_error
  | (k, Some v) :: o' => add_defined f (f ps k (Js.to_string v)) o'
  end.

End SearchParams.

(** ** [request] and [requestWordPress] *)

Module Http.
Import Auth.

(** The [RequestInit] the methods pass: the method and the JSON body. *)
Record Init := { method : string; body : option jvalue }.

Definition GET : Init := {| method := "GET"; body := None |}.
Definition POST (b : jvalue) : Init := {| method := "POST"; body := Some b |}.

(** What [fetch] resolves with: the status, its text, the
    [content-type] header and the body text. *)
Record Response := { status : Z; statusText : string; contentType : option string; text : string }.

Definition ok (r : Response) : bool := (200 <=? status r) && (status r <=? 299).

(** [response.json()] *)
Definition json (r : Response) : result WooError jvalue :=
  match JsonParse.parse (text r) with Some v => Ok v | None => Err (JsonSyntaxError (text r)) end.

Definition msg401 : string :=
  "WooCommerce API Authentication failed. Please check your consumer key and secret.".
Definition msg404 : string :=
  "WooCommerce API endpoint not found. Please verify your store URL and that WooCommerce REST API is enabled.".

Section Fetch.
Variable fetch : string -> Init -> Response.
(** [STORE_URL] *)
Variable storeUrl : string.

Definition baseUrl : string := storeUrl ++ "/wp-json/wc/v3".

(** [requestWordPress(endpoint, options)] (lines 237-255). *)
Definition requestWordPress (endpoint : string) (init : Init) : result WooError jvalue :=
  let r := fetch (storeUrl ++ "/wp-json" ++ endpoint) init in
  if ok r then json r
  else Err (WooErr ("WordPress API Error: " ++ string_of_Z (status r) ++ " " ++ statusText r ++ " - " ++ text r)).

(** [request(endpoint, options)] (lines 257-306). *)
Definition request (endpoint : string) (init : Init) : result WooError jvalue :=
  if startsWith endpoint "/wp/v2/" then requestWordPress endpoint init
  else
    let r := fetch (baseUrl ++ endpoint) init in
    if negb (ok r) then
      Err (WooErr (if status r =? 401 then msg401
                   else if status r =? 404 then msg404
                   else "WooCommerce API Error: " ++ string_of_Z (status r) ++ " " ++ statusText r ++ " - " ++ text r))
    else
      let ct := default "" (contentType r) in
      if includes ct "application/json" then json r
      else Err (WooErr ("WooCommerce API returned " ++ ct ++
                        " instead of JSON. This usually means the order doesn't exist or access is denied.")).
End Fetch.

(** [error.message]; the text of a [SyntaxError] is the engine's. *)
Definition message (syntaxMessage : string -> string) (e : WooError) : string :=
  match e with WooErr m => m | JsonSyntaxError b => syntaxMessage b end.

End Http.

(** ** Catalogue, orders and payment methods *)

Module Catalog.
Import Auth Http SearchParams.

(** What a method throws: [request]'s error or an [Error] of its own,
    or a [TypeError]. *)
Inductive StoreError := SApi (e : WooError) | SType.

Definition throw {A} (msg : string) : result StoreError A := Err (SApi (WooErr msg)).

Definition lift {A} (r : result WooError A) : result StoreError A :=
  match r with Ok a => Ok a | Err e => Err (SApi e) end.

Definition liftT {A} (r : result Js.TypeError A) : result StoreError A :=
  match r with Ok a => Ok a | Err _ => Err SType end.

(** [if (!Array.isArray(v)) throw new Error(msg)] *)
Definition expectArray (msg : string) (v : jvalue) : result StoreError (list jvalue) :=
  match v with JArr items => Ok items | _ => throw msg end.

Record ConnectionStatus := { success : bool; cs_message : string }.

Section Methods.
(** [this.request(endpoint, options)] *)
Variable req : string -> Init -> result WooError jvalue.
Variable syntaxMessage : string -> string.

Definition get (endpoint : string) : result WooError jvalue := req endpoint GET.

(** [error.message.includes(s)] *)
Definition mentions (e : WooError) (s : string) : bool := includes (message syntaxMessage e) s.

(** [testConnection()] (lines 308-318) *)
Definition testConnection : ConnectionStatus :=
  match get "/products?per_page=1" with
  | Ok _ => {| success := true; cs_message := "Successfully connected to WooCommerce API" |}
  | Err e => {| success := false; cs_message := message syntaxMessage e |}
  end.

(** [getProducts(params)] (lines 320-347): the defined parameters in
    the caller's order. *)
Definition getProducts (params : list (string * option jvalue)) : result StoreError (list jvalue) :=
  sp ← liftT (add_defined append [] params);
  products ← lift (get ("/products?" ++ toString sp));
  expectArray "Expected array of products from API" products.

(** [getProduct(slug)] (lines 349-357) *)
Definition getProduct (slug : string) : result StoreError (option jvalue) :=
  products ← lift (get ("/products?slug=" ++ slug));
  items ← expectArray "Expected array for product search" products;
  Ok (head items).

(** [getProductById(id)] (lines 359-369): a 404 is recognised by its
    message. *)
Definition getProductById (id : Z) : result StoreError (option jvalue) :=
  match get ("/products/" ++ string_of_Z id) with
  | Ok p => Ok (Some p)
  | Err e => if mentions e "404" || mentions e "endpoint not found" then Ok None else Err (SApi e)
  end.

(** [getCategories(params)] (lines 371-399) *)
Definition getCategories (params : list (string * option jvalue)) : result StoreError (list jvalue) :=
  let record := fold_left (fun o kv => obj_set o kv.1 kv.2) params
                  [("per_page", Some (JStr "20")); ("hide_empty", Some (JStr "true"))] in
  sp ← liftT (add_defined set (of_record record) params);
  categories ← lift (get ("/products/categories?" ++ toString sp));
  expectArray "Expected array of categories from API" categories.

(** [getCategoryBySlug(slug)] (lines 401-409) *)
Definition getCategoryBySlug (slug : string) : result StoreError (option jvalue) :=
  categories ← lift (get ("/products/categories?slug=" ++ slug ++ "&per_page=1"));
  items ← expectArray "Expected array for category search" categories;
  Ok (head items).

(** [createOrder(orderData)] (lines 411-418) *)
Definition createOrder (orderData : jvalue) : result StoreError jvalue := lift (req "/orders" (POST orderData)).

(** [getOrder(orderId)] (lines 420-436): only a message with ["404"]
    gives [null]. *)
Definition getOrder (orderId : Z) : result StoreError (option jvalue) :=
  match get ("/orders/" ++ string_of_Z orderId) with
  | Ok o => Ok (Some o)
  | Err e => if mentions e "404" then Ok None else Err (SApi e)
  end.

Record OrderParams := {
  op_per_page : option Z; op_page : option Z; op_status : option string;
  op_order : option string; op_orderby : option string }.

(** [getCustomerOrders(customerId, params)] (lines 438-469): no array check. *)
Definition getCustomerOrders (customerId : Z) (params : OrderParams) : result StoreError jvalue :=
  let base := [("customer", string_of_Z customerId);
               ("per_page", string_of_Z (or_default (op_per_page params) 20));
               ("page", string_of_Z (or_default (op_page params) 1));
               ("order", match op_order params with Some o => if String.eqb o "" then "desc" else o | None => "desc" end);
               ("orderby", match op_orderby params with Some o => if String.eqb o "" then "date" else o | None => "date" end)] in
  let sp := match op_status params with
            | Some st => if String.eqb st "" then base else (base ++ [("status", st)])%list
            | None => base
            end in
  lift (get ("/orders?" ++ toString sp)).

Definition orderStatuses : list string :=
  ["pending"; "processing"; "on-hold"; "completed"; "cancelled"; "refunded"; "failed"].

(** [v === s] for a string [s] *)
Definition is_str (v : option jvalue) (s : string) : bool :=
  match v with Some (JStr x) => String.eqb x s | _ => false end.

Fixpoint count_of (k : string) (l : list (string * Z)) : option Z :=
  match l with [] => None | (k', n) :: l' => if String.eqb k k' then Some n else count_of k l' end.

(** [allOrders.filter(order => order.status === status).length] *)
Fixpoint countStatus (st : string) (orders : list jvalue) : result Js.TypeError Z :=
  match orders with
  | [] => Ok 0
  | o :: os =>
      s ← Js.get (Some o) "status"; n ← countStatus st os;
      Ok (if is_str s st then n + 1 else n)
  end.

Fixpoint countAll (sts : list string) (orders : list jvalue) : result Js.TypeError (list (string * Z)) :=
  match sts with
  | [] => Ok []
  | st :: sts' => n ← countStatus st orders; rest ← countAll sts' orders; Ok ((st, n) :: rest)
  end.

(** [getCustomerOrderCounts(customerId)] (lines 471-497): the first 100
    orders; any error gives [{ all: 0 }]. *)
Definition getCustomerOrderCounts (customerId : Z) : list (string * Z) :=
  match getCustomerOrders customerId {| op_per_page := Some 100; op_page := None; op_status := None;
                                        op_order := None; op_orderby := None |} with
  | Ok (JArr orders) =>
      match countAll orderStatuses orders with
      | Ok counts =>
          (("all", Z.of_nat (List.length orders)) :: counts ++
           [("review", default 0 (count_of "completed" counts))])%list
      | Err _ => [("all", 0)]
      end
  | _ => [("all", 0)]
  end.
End Methods.

End Catalog.

(** ** Reviews and coupons *)

Module Coupons.
Import Auth Http SearchParams Catalog JsNumber.

(** The fields of [WooCommerceCoupon] the code reads, at their declared
    types. *)
Record Coupon := {
  code : string; amount : string; discount_type : string; description : string;
  date_expires : option string; usage_count : Z; usage_limit : option Z;
  product_ids : list Z; excluded_product_ids : list Z;
  minimum_amount : string; maximum_amount : string }.

Definition str_field (v : jvalue) (k : string) : option string :=
  match Js.assoc k (match v with JObj fs => fs | _ => [] end) with Some (JStr s) => Some s | _ => None end.
Definition num_field (v : jvalue) (k : string) : option Z :=
  match Js.assoc k (match v with JObj fs => fs | _ => [] end) with Some (JNum n) => Some n | _ => None end.
Definition nullable {A} (f : jvalue -> string -> option A) (v : jvalue) (k : string) : option (option A) :=
  match Js.assoc k (match v with JObj fs => fs | _ => [] end) with
  | Some JNull => Some None
  | _ => option_map Some (f v k)
  end.
Definition ids_field (v : jvalue) (k : string) : option (list Z) :=
  match Js.assoc k (match v with JObj fs => fs | _ => [] end) with
  | Some (JArr xs) => mapM (fun x => match x with JNum n => Some n | _ => None end) xs
  | _ => None
  end.

(** A coupon of the API at the interface's types; [None] for JSON of
    another shape. *)
Definition coupon_of (v : jvalue) : option Coupon :=
  c ← str_field v "code"; a ← str_field v "amount"; t ← str_field v "discount_type";
  d ← str_field v "description"; e ← nullable str_field v "date_expires";
  uc ← num_field v "usage_count"; ul ← nullable num_field v "usage_limit";
  pids ← ids_field v "product_ids"; xids ← ids_field v "excluded_product_ids";
  mn ← str_field v "minimum_amount"; mx ← str_field v "maximum_amount";
  Some {| code := c; amount := a; discount_type := t; description := d; date_expires := e;
          usage_count := uc; usage_limit := ul; product_ids := pids; excluded_product_ids := xids;
          minimum_amount := mn; maximum_amount := mx |}.

Record ValidationResult := {
  valid : bool; v_message : string; discount : option jsnum; v_description : option string }.

Definition invalid (msg : string) (c : Coupon) : ValidationResult :=
  {| valid := false; v_message := msg; discount := None; v_description := Some (description c) |}.

Section Methods.
Variable req : string -> Init -> result WooError jvalue.
(** [new Date(s)] in milliseconds, [None] for an invalid date; [Date.now()]. *)
Variable parseDate : string -> option Z.
Variable now : Z.

Definition get (endpoint : string) : result WooError jvalue := req endpoint GET.

(** [getProductReviews(productId, params)] (lines 499-534) *)
Definition getProductReviews (productId : Z) (per_page page : option Z) (status : option string)
  : result StoreError (list jvalue) :=
  let sp := [("product", string_of_Z productId); ("per_page", string_of_Z (or_default per_page 10))] in
  let sp := match page with Some p => set sp "page" (string_of_Z p) | None => sp end in
  let sp := match status with Some s => set sp "status" s | None => sp end in
  reviews ← lift (get ("/products/reviews?" ++ toString sp));
  expectArray "Expected array of reviews from API" reviews.

(** The value of a key of the caller's parameter object. *)
Fixpoint param (k : string) (ps : list (string * option jvalue)) : option jvalue :=
  match ps with [] => None | (k', v) :: ps' => if String.eqb k k' then v else param k ps' end.

(** [getCoupons(params)] (lines 536-561) *)
Definition getCoupons (params : list (string * option jvalue)) : result StoreError (list jvalue) :=
  let per_page := match param "per_page" params with
                  | Some v => if truthy v then Js.to_string v else "10"
                  | None => "10"
                  end in
  sp ← liftT (add_defined set [("per_page", per_page)] params);
  coupons ← lift (get ("/coupons?" ++ toString sp));
  expectArray "Expected array of coupons from API" coupons.

(** [getCoupons] read at the interface's types. *)
Definition getTypedCoupons (params : list (string * option jvalue)) : result StoreError (list Coupon) :=
  cs ← getCoupons params;
  match mapM coupon_of cs with Some l => Ok l | None => Err SType end.

(** [coupon.date_expires && new Date(coupon.date_expires) < new Date()] *)
Definition expired (c : Coupon) : bool :=
  match date_expires c with
  | Some d => negb (String.eqb d "") && match parseDate d with Some t => t <? now | None => false end
  | None => false
  end.

(** The product test of both coupon filters. *)
Definition appliesTo (c : Coupon) (productId : Z) : bool :=
  if existsb (Z.eqb productId) (excluded_product_ids c) then false
  else match product_ids c with [] => true | ids => existsb (Z.eqb productId) ids end.

(** [getProductApplicableCoupons(productId)] (lines 563-585) *)
Definition getProductApplicableCoupons (productId : Z) : result StoreError (list Coupon) :=
  cs ← getTypedCoupons [("per_page", Some (JNum 100))];
  Ok (filter (fun c => negb (expired c) && appliesTo c productId) cs).

(** The checks and the discount of [validateCoupon] on the first coupon. *)
Definition checkCoupon (c : Coupon) (productIds : list Z) (cartTotal : jsnum) : ValidationResult :=
  if expired c then invalid "Coupon has expired" c
  else if match usage_limit c with Some l => negb (l =? 0) && (l <=? usage_count c) | None => false end
  then invalid "Coupon usage limit reached" c
  else if negb (String.eqb (minimum_amount c) "") && num_lt (Fin 0) (parseFloat (minimum_amount c)) &&
          num_lt cartTotal (parseFloat (minimum_amount c))
  then invalid ("Minimum order amount of $" ++ minimum_amount c ++ " required") c
  else if negb (String.eqb (maximum_amount c) "") && negb (String.eqb (maximum_amount c) "0") &&
          negb (String.eqb (maximum_amount c) "0.00") &&
          num_lt (Fin 0) (parseFloat (maximum_amount c)) && num_lt (parseFloat (maximum_amount c)) cartTotal
  then invalid ("Maximum order amount of $" ++ maximum_amount c ++ " exceeded") c
  else if negb (existsb (appliesTo c) productIds) then invalid "Coupon not applicable to cart items" c
  else
    let d := if String.eqb (discount_type c) "percent" then div100 (num_mul cartTotal (parseFloat (amount c)))
             else if String.eqb (discount_type c) "fixed_cart" then parseFloat (amount c)
             else Fin 0 in
    if num_le d (Fin 0) then
      {| valid := false; v_message := "Coupon provides no discount for current cart"; discount := Some (Fin 0);
         v_description := Some (description c) |}
    else {| valid := true; v_message := "Coupon is valid"; discount := Some (num_min d cartTotal);
            v_description := Some (description c) |}.

(** [validateCoupon(couponCode, productIds, cartTotal)] (lines 587-686):
    any error gives ["Error validating coupon"]. *)
Definition validateCoupon (couponCode : string) (productIds : list Z) (cartTotal : jsnum) : ValidationResult :=
  match getTypedCoupons [("code", Some (JStr couponCode))] with
  | Ok [] => {| valid := false; v_message := "Coupon not found"; discount := None; v_description := None |}
  | Ok (c :: _) => checkCoupon c productIds cartTotal
  | Err _ => {| valid := false; v_message := "Error validating coupon"; discount := None; v_description := None |}
  end.
End Methods.

End Coupons.

(** ** Sales counts and their cache *)

Module Sales.
Import Auth Http Catalog.

Record SalesCacheEntry := { totalSold : jvalue; timestamp : Z; ttl : Z }.

(** The [salesCache] of the [WooCommerceAPI] instance. *)
Definition SalesCache := gmap Z SalesCacheEntry.

Definition CACHE_TTL : Z := 30 * 60 * 1000.
Definition MAX_ORDERS_PER_REQUEST : Z := 50.
Definition MAX_TOTAL_ORDERS : Z := 500.

(** [a + b] on the values the loop adds: a string operand makes a
    concatenation, otherwise the numbers are added ([null] is [0], a
    boolean [0] or [1]). *)
Definition to_prim (v : jvalue) : jvalue :=
  match v with JArr _ | JObj _ => JStr (Js.to_string v) | _ => v end.
Definition to_num (v : jvalue) : Z :=
  match v with JNum n => n | JBool true => 1 | _ => 0 end.
Definition js_add (a b : jvalue) : jvalue :=
  match to_prim a, to_prim b with
  | JStr x, pb => JStr (x ++ Js.to_string pb)
  | pa, JStr y => JStr (Js.to_string pa ++ y)
  | pa, pb => JNum (to_num pa + to_num pb)
  end.

(** [v === n] for a number [n] *)
Definition is_num (v : option jvalue) (n : Z) : bool :=
  match v with Some (JNum m) => m =? n | _ => false end.

(** [for (const item of order.line_items) if (item.product_id === productId) totalSold += item.quantity || 0] *)
Fixpoint addItems (productId : Z) (items : list jvalue) (total : jvalue) : result Js.TypeError jvalue :=
  match items with
  | [] => Ok total
  | item :: rest =>
      pid ← Js.get (Some item) "product_id";
      q ← Js.get (Some item) "quantity";
      addItems productId rest
        (if is_num pid productId then js_add total (Js.or_else q (JNum 0)) else total)
  end.

(** The orders of one page: [order.line_items] of a [null] order throws. *)
Fixpoint addOrders (productId : Z) (orders : list jvalue) (total : jvalue) : result Js.TypeError jvalue :=
  match orders with
  | [] => Ok total
  | o :: rest =>
      li ← Js.get (Some o) "line_items";
      total' ← (match li with Some (JArr items) => addItems productId items total | _ => Ok total end);
      addOrders productId rest total'
  end.

Section Fetch.
Variable req : string -> Init -> result WooError jvalue.
(** [sixMonthsAgo.toISOString()] *)
Variable dateAfter : string.

Definition ordersUrl (page : Z) : string :=
  "/orders?status=completed&per_page=" ++ string_of_Z MAX_ORDERS_PER_REQUEST ++ "&page=" ++ string_of_Z page ++
  "&after=" ++ dateAfter.

(** The [while] loop of [getProductSales] (lines 743-772) from page
    [page], with [processed] orders counted so far; [fuel] bounds the
    iterations. *)
Fixpoint salesLoop (fuel : nat) (productId page processed : Z) (total : jvalue)
  : result StoreError jvalue :=
  match fuel with
  | O => Ok total
  | S fuel' =>
      if processed <? MAX_TOTAL_ORDERS then
        match req (ordersUrl page) GET with
        | Err e => Err (SApi e)
        | Ok (JArr (o :: os)) =>
            match addOrders productId (o :: os) total with
            | Err _ => Err SType
            | Ok total' =>
                let n := Z.of_nat (List.length (o :: os)) in
                if n <? MAX_ORDERS_PER_REQUEST then Ok total'
                else salesLoop fuel' productId (page + 1) (processed + n) total'
            end
        | Ok _ => Ok total
        end
      else Ok total
  end.

(** Each iteration that continues counts at least
    [MAX_ORDERS_PER_REQUEST] orders, so [MAX_TOTAL_ORDERS /
    MAX_ORDERS_PER_REQUEST] iterations are enough (theorem
    [salesLoop_fuel]). *)
Definition SALES_FUEL : nat := Z.to_nat (MAX_TOTAL_ORDERS / MAX_ORDERS_PER_REQUEST).

(** [cleanupCache()] (lines 810-817) *)
Definition cleanupCache (now : Z) (cache : SalesCache) : SalesCache :=
  filter (fun kv => ~ (timestamp kv.2 + ttl kv.2 < now)) cache.

(** The loop and what follows it: the total is stored with the time
    [t1] and the cache cleaned at [t2]; an error gives [0] and leaves the
    cache as it was. *)
Definition fetchSales (t1 t2 : Z) (productId : Z) (cache : SalesCache) : jvalue * SalesCache :=
  match salesLoop SALES_FUEL productId 1 0 (JNum 0) with
  | Ok total =>
      (total, cleanupCache t2 (<[productId := {| totalSold := total; timestamp := t1; ttl := CACHE_TTL |}]> cache))
  | Err _ => (JNum 0, cache)
  end.

(** [getProductSales(productId)] (lines 728-808): [t0] is the clock of
    the cache check. *)
Definition getProductSales (t0 t1 t2 : Z) (productId : Z) (cache : SalesCache) : jvalue * SalesCache :=
  match cache !! productId with
  | Some e => if t0 - timestamp e <? ttl e then (totalSold e, cache) else fetchSales t1 t2 productId cache
  | None => fetchSales t1 t2 productId cache
  end.
End Fetch.

(** [clearSalesCache(productId?)] (lines 819-825): [0] clears everything. *)
Definition clearSalesCache (productId : option Z) (cache : SalesCache) : SalesCache :=
  match productId with
  | Some p => if p =? 0 then ∅ else delete p cache
  | None => ∅
  end.

End Sales.

(** ** Shipping, payment methods, variations and grouped products *)

Module Shipping.
Import Auth Http Catalog JsNumber.

Record ShippingMethod := {
  sm_id : option jvalue; title : option jvalue; sm_description : option jvalue;
  cost : jsnum; estimatedDays : string; available : bool }.

(** [Number.parseFloat(v)] of a JSON value: its string. *)
Definition parseFloatJ (v : jvalue) : jsnum := parseFloat (Js.to_string v).

(** [method.settings?.k?.value] *)
Definition settingsValue (mv : option jvalue) (k : string) : result Js.TypeError (option jvalue) :=
  st ← Js.get mv "settings"; x ← Js.chain st k; Js.chain x "value".

Definition daysFor (methodId : option jvalue) : string :=
  if Catalog.is_str methodId "flat_rate" then "3-5 business days"
  else if Catalog.is_str methodId "free_shipping" then "5-7 business days"
  else if Catalog.is_str methodId "local_pickup" then "Same day"
  else "3-5 business days".

(** [v?.toString()] *)
Definition toString_opt (v : option jvalue) : option jvalue :=
  match v with None | Some JNull => None | Some x => Some (JStr (Js.to_string x)) end.

(** The method pushed for an enabled zone method (lines 849-885). *)
Definition zoneMethod (cartTotal : jsnum) (m : jvalue) : result Js.TypeError ShippingMethod :=
  let mv := Some m in
  costv ← settingsValue mv "cost";
  let cost0 := if truthy_opt costv then or_zero (parseFloatJ (default JNull costv)) else Fin 0 in
  mid ← Js.get mv "method_id";
  minv ← settingsValue mv "min_amount";
  let cost := if Catalog.is_str mid "free_shipping" then
                let minAmount := if truthy_opt minv then parseFloatJ (default JNull minv) else Fin 0 in
                if num_le minAmount cartTotal then Fin 0 else cost0
              else cost0 in
  iid ← Js.get mv "instance_id";
  t ← JsText.js_or (Js.get mv "title") (Js.get mv "method_title");
  dv ← settingsValue mv "description";
  d ← JsText.js_or (Ok dv) (JsText.js_or (Js.get mv "method_description") (Ok (Some (JStr ""))));
  Ok {| sm_id := if truthy_opt (toString_opt iid) then toString_opt iid else mid;
        title := t; sm_description := d; cost := cost; estimatedDays := daysFor mid; available := true |}.

(** The enabled methods of one zone, in order; an error stops the zone
    and keeps what was pushed. *)
Fixpoint zoneMethods (cartTotal : jsnum) (ms : list jvalue) (acc : list ShippingMethod)
  : list ShippingMethod * bool :=
  match ms with
  | [] => (acc, true)
  | m :: ms' =>
      match Js.get (Some m) "enabled" with
      | Err _ => (acc, false)
      | Ok en =>
          if truthy_opt en then
            match zoneMethod cartTotal m with
            | Ok sm => zoneMethods cartTotal ms' (acc ++ [sm])%list
            | Err _ => (acc, false)
            end
          else zoneMethods cartTotal ms' acc
      end
  end.

Definition standard (cartTotal : jsnum) : ShippingMethod :=
  {| sm_id := Some (JStr "standard"); title := Some (JStr "Standard Shipping");
     sm_description := Some (JStr "Regular delivery service");
     cost := if num_lt (Fin 100) cartTotal then Fin 0 else Fin 50;
     estimatedDays := "3-5 business days"; available := true |}.

Definition express : ShippingMethod :=
  {| sm_id := Some (JStr "express"); title := Some (JStr "Express Shipping");
     sm_description := Some (JStr "Fast delivery service"); cost := Fin 150;
     estimatedDays := "1-2 business days"; available := true |}.

Section Methods.
Variable req : string -> Init -> result WooError jvalue.

Definition get (endpoint : string) : result WooError jvalue := req endpoint GET.

(** The zones in order: [Some acc] goes on, [None] is an error that
    escapes to the outer [catch] (the inner [catch] reads [zone.id] of a
    [null] zone again). *)
Fixpoint collectZones (cartTotal : jsnum) (zones : list jvalue) (acc : list ShippingMethod)
  : option (list ShippingMethod) :=
  match zones with
  | [] => Some acc
  | z :: zs =>
      match Js.get (Some z) "id" with
      | Err _ => None
      | Ok zid =>
          match get ("/shipping/zones/" ++ Js.to_string_opt zid ++ "/methods") with
          | Ok (JArr ms) => collectZones cartTotal zs (zoneMethods cartTotal ms acc).1
          | _ => collectZones cartTotal zs acc
          end
      end
  end.

(** [getShippingMethods({ cartTotal, items })] (lines 827-932) *)
Definition getShippingMethods (cartTotal : jsnum) : list ShippingMethod :=
  match get "/shipping/zones" with
  | Ok (JArr zones) =>
      match collectZones cartTotal zones [] with
      | Some [] => filter available [standard cartTotal; express]
      | Some ms => filter available ms
      | None => [standard cartTotal]
      end
  | _ => [standard cartTotal]
  end.

Record ShippingValidation := { sv_valid : bool; sv_message : option string }.

(** [validateShippingMethod({ methodId, cartTotal, items })] (lines 934-977) *)
Definition validateShippingMethod (methodId : string) (cartTotal : jsnum) : ShippingValidation :=
  match find (fun m => Catalog.is_str (sm_id m) methodId) (getShippingMethods cartTotal) with
  | None => {| sv_valid := false;
               sv_message := Some "Shipping method not available for your location or cart contents" |}
  | Some m => if available m then {| sv_valid := true; sv_message := None |}
              else {| sv_valid := false; sv_message := Some "Shipping method is currently unavailable" |}
  end.

(** [getPaymentMethods()] (lines 688-698): the enabled ones. *)
Fixpoint enabledOnly (ms : list jvalue) : result Js.TypeError (list jvalue) :=
  match ms with
  | [] => Ok []
  | m :: ms' => e ← Js.get (Some m) "enabled"; rest ← enabledOnly ms'; Ok (if truthy_opt e then m :: rest else rest)
  end.

Definition getPaymentMethods : result StoreError (list jvalue) :=
  pm ← lift (get "/payment_gateways");
  items ← expectArray "Expected array of payment methods from API" pm;
  liftT (enabledOnly items).

(** [getProductVariations(productId)] (lines 700-714): errors give [[]].
    [productId] is the value the caller passes, interpolated into the
    path by [String]. *)
Definition getProductVariations (productId : option jvalue) : list jvalue :=
  match get ("/products/" ++ Js.to_string_opt productId ++ "/variations") with
  | Ok (JArr vs) => vs
  | _ => []
  end.

(** [getProductVariation(productId, variationId)] (lines 716-726) *)
Definition getProductVariation (syntaxMessage : string -> string) (productId variationId : Z)
  : result StoreError (option jvalue) :=
  match get ("/products/" ++ string_of_Z productId ++ "/variations/" ++ string_of_Z variationId) with
  | Ok v => Ok (Some v)
  | Err e => if includes (message syntaxMessage e) "404" then Ok None else Err (SApi e)
  end.

(** [getGroupedProductChildren(groupedProductIds)] (lines 979-1001):
    errors give [[]]. *)
Definition getGroupedProductChildren (ids : list Z) : list jvalue :=
  match ids with
  | [] => []
  | _ =>
      match get ("/products?include=" ++ join "," (map string_of_Z ids) ++ "&per_page=" ++
                 string_of_Z (Z.of_nat (List.length ids))) with
      | Ok (JArr children) => children
      | _ => []
      end
  end.
End Methods.

End Shipping.

(** ** Theorems *)

Module StoreTheorems.
Import Auth Http Catalog JsNumber Coupons Sales Shipping.

(** *** The sales loop *)

Section SalesLoop.
Variable req : string -> Init -> result WooError jvalue.
Variable dateAfter : string.

(** With [k] iterations left before [MAX_TOTAL_ORDERS] is reached, any
    fuel of at least [k] gives the same answer. *)
Lemma salesLoop_enough k fuel pid page processed total :
  MAX_TOTAL_ORDERS <= processed + MAX_ORDERS_PER_REQUEST * Z.of_nat k -> (k <= fuel)%nat ->
  salesLoop req dateAfter fuel pid page processed total = salesLoop req dateAfter k pid page processed total.
Proof.
  revert fuel page processed total. induction k as [|k IH]; intros fuel page processed total Hk Hf.
  - destruct fuel; [done|]. cbn [salesLoop]. unfold MAX_TOTAL_ORDERS, MAX_ORDERS_PER_REQUEST in *.
    by rewrite (proj2 (Z.ltb_ge processed 500)) by lia.
  - destruct fuel as [|fuel]; [lia|]. cbn [salesLoop].
    destruct (processed <? MAX_TOTAL_ORDERS); [|done].
    destruct (req _ _) as [[| | | |[|o os]|]|e]; try done.
    destruct (addOrders _ _ _) as [total'|]; [|done].
    destruct (Z.ltb_spec (Z.of_nat (List.length (o :: os))) MAX_ORDERS_PER_REQUEST); [done|].
    apply IH; [lia | lia].
Qed.
(** C11. The sales loop terminates within [SALES_FUEL] (ten)
    iterations: every page that lets it continue holds at least
    [MAX_ORDERS_PER_REQUEST] orders, so [MAX_TOTAL_ORDERS] is reached
    after ten pages; with any larger bound the loop gives the same
    answer, so the bound never cuts it short. *)
Theorem salesLoop_fuel fuel pid total :
  (SALES_FUEL <= fuel)%nat ->
  salesLoop req dateAfter fuel pid 1 0 total = salesLoop req dateAfter SALES_FUEL pid 1 0 total.
Proof. intros Hf. apply salesLoop_enough; [vm_compute; discriminate | done]. Qed.
End SalesLoop.

(** *** The sales cache *)

Lemma cleanup_keeps now pid e cache :
  ~ (timestamp e + ttl e < now) -> cleanupCache now (<[pid := e]> cache) !! pid = Some e.
Proof. intros Hn. apply map_lookup_filter_Some_2; [apply lookup_insert_eq | done]. Qed.

(** A computed sales total is served from the cache: after
    [getProductSales] misses, runs its loop to a total and stores it,
    a second call within [CACHE_TTL] of the stored timestamp returns the
    same total without any request (whatever the API now answers) and
    leaves the cache as it is. *)
Theorem sales_cached_after_fetch req req' d d' t0 t1 t2 t0' t1' t2' pid cache total :
  cache !! pid = None -> salesLoop req d SALES_FUEL pid 1 0 (JNum 0) = Ok total ->
  t2 <= t1 + CACHE_TTL -> t0' < t1 + CACHE_TTL ->
  getProductSales req' d' t0' t1' t2' pid (getProductSales req d t0 t1 t2 pid cache).2 =
    (total, (getProductSales req d t0 t1 t2 pid cache).2).
Proof.
  intros Hc Hl Ht2 Ht0. unfold getProductSales at 2 3. rewrite Hc. unfold fetchSales. rewrite Hl. cbn [snd].
  unfold getProductSales. rewrite cleanup_keeps by (simpl; lia). simpl.
  by rewrite (proj2 (Z.ltb_lt (t0' - t1) CACHE_TTL)) by lia.
Qed.

(** The shape of the sales cache at clock [now]: every entry carries
    [CACHE_TTL] and a timestamp that is not in the future. *)
Definition sales_wf (now : Z) (cache : SalesCache) : Prop :=
  map_Forall (fun _ e => ttl e = CACHE_TTL /\ timestamp e <= now) cache.

Lemma sales_wf_mono now now' cache : now <= now' -> sales_wf now cache -> sales_wf now' cache.
Proof. intros Hn H. eapply map_Forall_impl; [exact H|]. intros _ e [? ?]. split; [done | lia]. Qed.

Lemma cleanup_wf now t cache : sales_wf now cache -> sales_wf now (cleanupCache t cache).
Proof. intros H k e Hk. apply map_lookup_filter_Some in Hk as [Hk _]. exact (H k e Hk). Qed.

Lemma fetchSales_wf req d now t1 t2 pid cache :
  sales_wf now cache -> now <= t1 -> t1 <= t2 -> sales_wf t2 (fetchSales req d t1 t2 pid cache).2.
Proof.
  intros H Ht1 Ht2. unfold fetchSales. destruct (salesLoop _ _ _ _ _ _ _); simpl.
  - apply cleanup_wf, map_Forall_insert_2; [simpl; split; [done | lia]|]. apply (sales_wf_mono now); [lia | done].
  - apply (sales_wf_mono now); [lia | done].
Qed.

(** C10. Well-formedness of the sales cache: every entry of
    [salesCache] holds [CACHE_TTL] and a timestamp not later than the
    clock; [getProductSales] (hit, stored total or error) and
    [clearSalesCache] (one product, [0] or everything) keep it as time
    goes on. *)
Theorem sales_cache_wf req d now t0 t1 t2 pid p cache :
  sales_wf now cache -> now <= t1 -> t1 <= t2 ->
  sales_wf t2 (getProductSales req d t0 t1 t2 pid cache).2 /\ sales_wf now (clearSalesCache p cache).
Proof.
  intros H Ht1 Ht2. split.
  - unfold getProductSales. destruct (cache !! pid) as [e|]; [case_match; simpl|];
      [apply (sales_wf_mono now); [lia | done] | by apply (fetchSales_wf _ _ now) ..].
  - unfold clearSalesCache. repeat case_match; [apply map_Forall_empty | by apply map_Forall_delete | apply map_Forall_empty].
Qed.

(** *** Coupons *)

Section CouponTheorems.
Variable req : string -> Init -> result WooError jvalue.
Variable parseDate : string -> option Z.
Variable now : Z.

(** A positive finite discount capped by the cart total. *)
Lemma num_min_capped x t :
  num_le (Fin x) (Fin 0) = false ->
  exists d, num_min (Fin x) (Fin t) = Fin d /\ (d <= t)%Q /\ ((0 < t)%Q -> (0 < d)%Q).
Proof.
  intros Hx. assert (Hpos : (0 < x)%Q).
  { unfold num_le, num_lt in Hx. rewrite negb_involutive in Hx.
    apply Qnot_le_lt. intros H. apply Qle_bool_iff in H. congruence. }
  unfold num_min, num_lt. destruct (Qle_bool x t) eqn:E; simpl.
  - apply Qle_bool_iff in E. exists x. repeat split; [done|]. intros _. done.
  - exists t. repeat split; [apply Qle_refl | done].
Qed.

(** C14. Fixed-product coupons are always refused: [validateCoupon]
    computes a discount only for ["percent"] and ["fixed_cart"], so a
    coupon of the declared type ["fixed_product"] ends on ["Coupon
    provides no discount for current cart"] (or an earlier check)
    whatever the cart. *)
Theorem validateCoupon_fixed_product code ids t c cs :
  getTypedCoupons req [("code", Some (JStr code))] = Ok (c :: cs) -> discount_type c = "fixed_product" ->
  valid (validateCoupon req parseDate now code ids t) = false.
Proof.
  intros Hg Ht. unfold validateCoupon. rewrite Hg. unfold checkCoupon. rewrite Ht.
  change (String.eqb "fixed_product" "percent") with false. change (String.eqb "fixed_product" "fixed_cart") with false.
  cbn zeta iota. change (num_le (Fin 0) (Fin 0)) with true.
  repeat match goal with |- context [if ?b then _ else _] => destruct b end; reflexivity.
Qed.

(** C13. The discount of a valid coupon is capped by the cart: when the
    coupon's amount and the cart total are numbers, a coupon that
    [checkCoupon] accepts carries a discount of at most the cart total,
    positive when the cart total is. *)
Theorem checkCoupon_discount_bounded c ids a t :
  parseFloat (amount c) = Fin a -> valid (checkCoupon parseDate now c ids (Fin t)) = true ->
  exists d, discount (checkCoupon parseDate now c ids (Fin t)) = Some (Fin d) /\
            (d <= t)%Q /\ ((0 < t)%Q -> (0 < d)%Q).
Proof.
  intros Ha. unfold checkCoupon. rewrite Ha.
  repeat match goal with |- context [if ?b then invalid _ _ else _] => destruct b; [discriminate|] end.
  set (d := if String.eqb (discount_type c) "percent" then _ else _).
  assert (Hd : exists x, d = Fin x) by (subst d; repeat case_match; eexists; reflexivity).
  destruct Hd as [x ->]. destruct (num_le (Fin x) (Fin 0)) eqn:Hle; [discriminate|].
  intros _. destruct (num_min_capped x t Hle) as (d & Hd & H). exists d. cbn [discount]. by rewrite Hd.
Qed.
End CouponTheorems.

(** *** Shipping *)

Lemma zoneMethods_available t ms acc :
  Forall (fun m => available m = true) acc -> Forall (fun m => available m = true) (zoneMethods t ms acc).1.
Proof.
  revert acc. induction ms as [|m ms IH]; intros acc Hacc; [done|]. cbn [zoneMethods].
  destruct (Js.get _ _); [|done]. destruct (truthy_opt _); [|by apply IH].
  destruct (zoneMethod t m) as [sm|] eqn:Hz; [|done]. apply IH. apply Forall_app. split; [done|].
  repeat constructor. unfold zoneMethod in Hz. unbind. repeat case_match; simplify_eq/=; done.
Qed.

Lemma collectZones_available req t zones acc ms :
  Forall (fun m => available m = true) acc -> collectZones req t zones acc = Some ms ->
  Forall (fun m => available m = true) ms.
Proof.
  revert acc. induction zones as [|z zs IH]; intros acc Hacc; cbn [collectZones]; [congruence|].
  destruct (Js.get _ _); [|done]. destruct (Shipping.get _ _) as [[| | | | ms'|]|]; try (by apply IH);
    apply IH; by apply zoneMethods_available.
Qed.

Lemma filter_available_id (ms : list ShippingMethod) :
  Forall (fun m => available m = true) ms -> filter available ms = ms.
Proof.
  induction ms as [|m ms IH]; intros Hms; [done|]. apply Forall_cons in Hms as [Hm Hms].
  rewrite filter_cons_True by (by rewrite Hm). by rewrite IH.
Qed.

(** Checkout always has a shipping method: [getShippingMethods]
    never returns an empty list, whatever the API answers or throws,
    and every method it returns is marked available. *)
Theorem getShippingMethods_nonempty req t :
  getShippingMethods req t <> [] /\ Forall (fun m => available m = true) (getShippingMethods req t).
Proof.
  unfold getShippingMethods. destruct (Shipping.get req "/shipping/zones") as [[| | | |zones|]|];
    try (split; [discriminate | repeat constructor]).
  destruct (collectZones req t zones []) as [[|m ms]|] eqn:Hc; try (split; [discriminate | repeat constructor]).
  pose proof (collectZones_available req t zones [] _ (List.Forall_nil _) Hc) as Hall.
  rewrite filter_available_id by done. split; [discriminate | done].
Qed.

(** *** Missing records *)

Section Missing.
Variable fetch : string -> Init -> Response.
Variable storeUrl : string.
Variable syntaxMessage : string -> string.

(** C15. A missing order is an error, a missing product is [null]:
    [request] reports a 404 of the REST API with a message that names
    no status code; [getProductById] recognises it ("endpoint not
    found") and answers [null], but [getOrder], which looks for ["404"]
    in the message, rethrows it. *)
Theorem missing_order_rejects id pid :
  status (fetch (baseUrl storeUrl ++ "/orders/" ++ string_of_Z id) GET) = 404 ->
  status (fetch (baseUrl storeUrl ++ "/products/" ++ string_of_Z pid) GET) = 404 ->
  getOrder (request fetch storeUrl) syntaxMessage id = Err (SApi (WooErr msg404)) /\
  getProductById (request fetch storeUrl) syntaxMessage pid = Ok None.
Proof.
  intros Ho Hp. unfold getOrder, getProductById, Catalog.get, request, ok.
  rewrite Ho, Hp. cbn -[baseUrl includes]. split; reflexivity.
Qed.
End Missing.

(** ** Witnesses *)

Definition wdate : string := "2024-01-01T00:00:00.000Z".
Definition worder : jvalue := JObj [("id", JNum 1); ("line_items", JArr [JObj [("product_id", JNum 7); ("quantity", JNum 2)]])].
Definition wsales (url : string) (_ : Init) : result WooError jvalue :=
  if String.eqb url (ordersUrl wdate 1) then Ok (JArr (repeat worder 50))
  else if String.eqb url (ordersUrl wdate 2) then Ok (JArr [worder])
  else Err (WooErr msg404).

Lemma salesLoop_fuel_witness :
  salesLoop wsales wdate 12 7 1 0 (JNum 0) = salesLoop wsales wdate SALES_FUEL 7 1 0 (JNum 0).
Proof. apply salesLoop_fuel. cbv. lia. Defined.

Lemma sales_cached_after_fetch_witness :
  getProductSales (fun _ _ => Err (WooErr msg404)) wdate 1000 1001 1002 7
    (getProductSales wsales wdate 0 1 2 7 ∅).2 = (JNum 102, (getProductSales wsales wdate 0 1 2 7 ∅).2).
Proof.
  apply sales_cached_after_fetch; [reflexivity | vm_compute; reflexivity | unfold CACHE_TTL; lia..].
Defined.

Lemma sales_cache_wf_witness :
  sales_wf 20 (getProductSales wsales wdate 10 10 20 7 ∅).2 /\ sales_wf 0 (clearSalesCache (Some 7) ∅).
Proof. apply (sales_cache_wf wsales wdate 0 10 10 20 7 (Some 7) ∅); [apply map_Forall_empty | lia | lia]. Defined.

Definition wcoupon (kind amount_ : string) : jvalue :=
  JObj [("code", JStr "SAVE10"); ("amount", JStr amount_); ("discount_type", JStr kind);
        ("description", JStr "Ten off"); ("date_expires", JNull); ("usage_count", JNum 0);
        ("usage_limit", JNull); ("product_ids", JArr []); ("excluded_product_ids", JArr []);
        ("minimum_amount", JStr "0.00"); ("maximum_amount", JStr "")].
Definition wcoupons (kind : string) (url : string) (_ : Init) : result WooError jvalue :=
  if String.eqb url "/coupons?per_page=10&code=SAVE10" then Ok (JArr [wcoupon kind "10"]) else Ok (JArr []).
Definition wnodate (_ : string) : option Z := None.
Definition wtyped (kind : string) : Coupon :=
  default (Build_Coupon "" "" "" "" None 0 None [] [] "" "") (coupon_of (wcoupon kind "10")).

Lemma validateCoupon_fixed_product_witness :
  valid (validateCoupon (wcoupons "fixed_product") wnodate 0 "SAVE10" [7] (Fin 200)) = false.
Proof.
  apply (validateCoupon_fixed_product _ _ _ _ _ _ (wtyped "fixed_product") []); vm_compute; reflexivity.
Defined.

Lemma checkCoupon_discount_bounded_witness :
  exists d, discount (checkCoupon wnodate 0 (wtyped "percent") [7] (Fin 200)) = Some (Fin d) /\
            (d <= 200)%Q /\ ((0 < 200)%Q -> (0 < d)%Q).
Proof. apply (checkCoupon_discount_bounded _ _ _ _ 10); vm_compute; reflexivity. Defined.

Definition wfetch404 (_ : string) (_ : Init) : Response :=
  {| status := 404; statusText := "Not Found"; contentType := Some "text/html"; text := "<html></html>" |}.

Lemma missing_order_rejects_witness :
  getOrder (request wfetch404 "https://shop.example") (fun _ => ""%string) 42 = Err (SApi (WooErr msg404)) /\
  getProductById (request wfetch404 "https://shop.example") (fun _ => ""%string) 42 = Ok None.
Proof. apply missing_order_rejects; reflexivity. Defined.

End StoreTheorems.
