(* ===== verification/WooFacade.v ===== *)
(** * The storefront's WooCommerce functions of [src/lib/woocommerce/index.ts]

  Each exported function calls one or two methods of the [woocommerce]
  singleton ([WooStore]) and turns every error into an empty answer
  ([[]] or [undefined]).  [getWooCommerceProduct] also fetches the
  variations of a variable product and stores them on the product
  object it returns.  The [request] of the singleton is the oracle of
  [WooStore]; the Next.js ['use cache'] directives and [cacheTag] /
  [cacheLife] calls are framework caching around these functions and
  are not modelled. *)

From S2P Require Import Prelude Json JsonParser WooAuth WooStore.
Open Scope Z_scope.
Open Scope commerce_scope.

Module Facade.
Import Auth Http Catalog Shipping.

Section Functions.
Variable req : string -> Init -> result WooError jvalue.
Variable syntaxMessage : string -> string.

(** [try { ... } catch { return d }] *)
Definition or_catch {A E} (d : A) (r : result E A) : A := match r with Ok a => a | Err _ => d end.

(** [getWooCommerceProducts(params)] (lines 9-34): the [Array.isArray]
    test always passes on what [getProducts] returns. *)
Definition getWooCommerceProducts (params : list (string * option jvalue)) : list jvalue :=
  or_catch [] (Catalog.getProducts req params).

(** [wcProduct.type === 'variable' && wcProduct.variations &&
    wcProduct.variations.length > 0] *)
Definition hasVariations (type_ variations : option jvalue) : bool :=
  match type_ with
  | Some (JStr t) =>
      String.eqb t "variable" && truthy_opt variations &&
      match variations with
      | Some (JArr vs) => bool_decide (0 < List.length vs)%nat
      | Some (JStr s) => bool_decide (0 < String.length s)%nat
      | _ => false
      end
  | _ => false
  end.

(** [(wcProduct as any).productVariations = variations]: only an
    object can have made [hasVariations] true. *)
Definition attachVariations (p : jvalue) (vs : list jvalue) : jvalue :=
  match p with JObj fs => JObj (obj_set fs "productVariations" (JArr vs)) | _ => p end.

(** [getWooCommerceProduct(handle)] (lines 39-65); [getProductVariations]
    never throws, so the inner [catch] is not reached. *)
Definition getWooCommerceProduct (handle : string) : option jvalue :=
  or_catch None
    (p ← Catalog.getProduct req handle;
     match p with
     | Some prod =>
         if truthy prod then
           t ← liftT (Js.get (Some prod) "type");
           vs ← liftT (Js.get (Some prod) "variations");
           if hasVariations t vs then
             id ← liftT (Js.get (Some prod) "id");
             Ok (Some (attachVariations prod (getProductVariations req id)))
           else Ok (Some prod)
         else Ok None
     | None => Ok None
     end).

(** [getWooCommerceProductsByCategory(categorySlug)] (lines 70-82) *)
Definition getWooCommerceProductsByCategory (categorySlug : string) : list jvalue :=
  or_catch [] (Catalog.getProducts req [("category", Some (JStr categorySlug))]).

(** [getWooCommerceCollections()] (lines 87-99) *)
Definition getWooCommerceCollections : list jvalue := or_catch [] (getCategories req []).

(** [getWooCommerceCollection(handle)] (lines 104-118) *)
Definition getWooCommerceCollection (handle : string) : option jvalue :=
  or_catch None (c ← getCategoryBySlug req handle;
                 Ok (match c with Some v => if truthy v then Some v else None | None => None end)).

(** [searchWooCommerceProducts(query)] (lines 123-135) *)
Definition searchWooCommerceProducts (query : string) : list jvalue :=
  or_catch [] (Catalog.getProducts req [("search", Some (JStr query))]).

(** [getWooCommerceFeaturedProducts()] (lines 140-159) *)
Definition getWooCommerceFeaturedProducts : list jvalue :=
  or_catch [] (Catalog.getProducts req [("featured", Some (JBool true))]).

(** [testWooCommerceConnection()] (lines 164-173): [testConnection]
    catches its own errors. *)
Definition testWooCommerceConnection : ConnectionStatus := testConnection req syntaxMessage.

(** [getWooCommerceHomepageProducts()] (lines 178-200): three featured
    products, or else the three latest; an error of either request
    gives [[]]. *)
Definition getWooCommerceHomepageProducts : list jvalue :=
  or_catch []
    (featured ← Catalog.getProducts req [("featured", Some (JBool true)); ("per_page", Some (JNum 3))];
     match featured with
     | _ :: _ => Ok featured
     | [] => Catalog.getProducts req [("per_page", Some (JNum 3))]
     end).
End Functions.

End Facade.

(** ** Theorems *)

Module FacadeTheorems.
Import Auth Http Catalog Shipping Facade.

Lemma obj_set_assoc_eq fs k v : Js.assoc k (obj_set fs k v) = Some v.
Proof.
  induction fs as [|[k' v'] fs IH]; simpl; [by rewrite String.eqb_refl|].
  destruct (String.eqb k k') eqn:E; simpl; [by rewrite String.eqb_refl | by rewrite E].
Qed.

Lemma obj_set_assoc_ne fs k k2 v : k2 <> k -> Js.assoc k2 (obj_set fs k v) = Js.assoc k2 fs.
Proof.
  intros Hne. induction fs as [|[k' v'] fs IH]; simpl.
  - by rewrite (proj2 (String.eqb_neq k2 k) Hne).
  - destruct (String.eqb k k') eqn:E; simpl.
    + apply String.eqb_eq in E as <-. by rewrite (proj2 (String.eqb_neq k2 k) Hne).
    + by rewrite IH.
Qed.

(** A variable product comes with its variations: when the product
    a slug finds is a [variable] product with a non-empty [variations]
    list, [getWooCommerceProduct] returns it with [productVariations]
    set to the answer of the variations endpoint (or [[]] when that
    request fails), every other field as the API sent it. *)
Theorem getWooCommerceProduct_variations req slug fs vs :
  Catalog.getProduct req slug = Ok (Some (JObj fs)) ->
  Js.assoc "type" fs = Some (JStr "variable") -> Js.assoc "variations" fs = Some (JArr vs) -> vs <> [] ->
  exists fs', getWooCommerceProduct req slug = Some (JObj fs') /\
    Js.assoc "productVariations" fs' = Some (JArr (getProductVariations req (Js.assoc "id" fs))) /\
    forall k, k <> "productVariations" -> Js.assoc k fs' = Js.assoc k fs.
Proof.
  intros Hp Ht Hv Hne. unfold getWooCommerceProduct. rewrite Hp. simpl.
  unfold Js.get; simpl. rewrite Ht, Hv. unfold hasVariations. simpl.
  rewrite bool_decide_eq_true_2 by (destruct vs; [done | simpl; lia]).
  eexists. split; [reflexivity|]. split; [apply obj_set_assoc_eq | intros k Hk; by apply obj_set_assoc_ne].
Qed.

(** ** Witnesses *)

Definition wshop (url : string) (_ : Init) : result WooError jvalue :=
  if String.eqb url "/products?slug=hoodie" then
    Ok (JArr [JObj [("id", JNum 5); ("type", JStr "variable"); ("variations", JArr [JNum 6])]])
  else Ok (JArr [JObj [("id", JNum 6)]]).

Lemma getWooCommerceProduct_variations_witness :
  exists fs', getWooCommerceProduct wshop "hoodie" = Some (JObj fs') /\
    Js.assoc "productVariations" fs' = Some (JArr (getProductVariations wshop (Some (JNum 5)))) /\
    forall k, k <> "productVariations" ->
      Js.assoc k fs' = Js.assoc k [("id", JNum 5); ("type", JStr "variable"); ("variations", JArr [JNum 6])].
Proof.
  apply (getWooCommerceProduct_variations wshop "hoodie" _ [JNum 6]);
    [reflexivity | reflexivity | reflexivity | discriminate].
Defined.

End FacadeTheorems.
