(* ===== verification/ProductMapping.v ===== *)
(** * Reading backend JSON: property access, [parseInt] and the product
    and category converters of [src/lib/graphql/index.ts] and
    [src/lib/graphql/enhanced-client.ts]

  A JavaScript value read from a GraphQL answer is [undefined] ([None])
  or a JSON value.  Reading a property of [null] or [undefined] throws a
  [TypeError]; so does calling [.map] on something that is not an
  array.  Module [Js] of [Json] gives these operations, [String(v)] and
  [parseInt]; the converters build the WooCommerce-shaped objects as
  records whose fields keep [undefined] and [NaN] ([None]) where the
  code can produce them.  The fetch functions of [index.ts] call the
  backend ([graphqlClient.request], an oracle here) and catch every
  error. *)

From S2P Require Import Prelude Json QueryDocs.
Open Scope Z_scope.
Open Scope commerce_scope.


Module Converters.
Import Js Queries.

(** ** The WooCommerce-shaped objects *)

Record WooImage := { img_id : option Z; img_src : option jvalue; img_alt : option jvalue }.

Record WooCategory := { cat_id : option Z; cat_name : option jvalue; cat_slug : option jvalue }.

Record WooAttribute := {
  attr_id : option Z; attr_name : option jvalue; attr_options : option jvalue;
  attr_variation : option jvalue }.

Record WooVariationAttribute := { va_id : option Z; va_name : option jvalue; va_option : option jvalue }.

Record WooVariation := {
  var_id : option jvalue; var_price : option jvalue; var_regular_price : option jvalue;
  var_sale_price : option jvalue; var_on_sale : option jvalue; var_stock_status : option jvalue;
  var_stock_quantity : option jvalue; var_attributes : list WooVariationAttribute;
  var_image : option WooImage }.

Record WooRelated := {
  rel_id : option jvalue; rel_name : option jvalue; rel_slug : option jvalue;
  rel_price : option jvalue; rel_regular_price : option jvalue; rel_sale_price : option jvalue;
  rel_on_sale : option jvalue; rel_stock_status : option jvalue; rel_images : list WooImage }.

Record WooReview := {
  rev_id : option Z; rev_content : option jvalue; rev_rating : option jvalue;
  rev_author : option jvalue; rev_date : option jvalue }.

Record WooProduct := {
  id : option jvalue; name : option jvalue; slug : option jvalue; permalink : string;
  description : option jvalue; short_description : option jvalue;
  price : jvalue; regular_price : jvalue; sale_price : jvalue; on_sale : jvalue;
  stock_status : jvalue; type_ : option jvalue; featured : option jvalue;
  average_rating : option jvalue; review_count : option jvalue;
  images : list WooImage; categories : list WooCategory; attributes : list WooAttribute;
  variations : list WooVariation; related : list WooRelated; reviews : list WooReview }.

Record WooParent := { par_id : option Z; par_name : option jvalue; par_slug : option jvalue }.

Record WooCollection := {
  col_id : option jvalue; col_name : option jvalue; col_slug : option jvalue;
  col_description : option jvalue; col_count : option jvalue;
  col_image : option WooImage; col_parent : option WooParent }.

(** ** The converters of [index.ts] *)

(** [x ? { id: parseInt(x.id), src: x.sourceUrl, alt: x.altText } : ...] *)
Definition convertImage (x : jvalue) : result TypeError WooImage :=
  i ← get (Some x) "id"; s ← get (Some x) "sourceUrl"; a ← get (Some x) "altText";
  Ok {| img_id := parseInt i; img_src := s; img_alt := a |}.

(** [x.image ? [image] : []] *)
Definition imageList (x : option jvalue) : result TypeError (list WooImage) :=
  im ← get x "image";
  match im with
  | Some v => if truthy v then (i ← convertImage v; Ok [i]) else Ok []
  | None => Ok []
  end.

(** [x.image ? image : null] *)
Definition imageOrNull (x : option jvalue) : result TypeError (option WooImage) :=
  im ← get x "image";
  match im with
  | Some v => if truthy v then (i ← convertImage v; Ok (Some i)) else Ok None
  | None => Ok None
  end.

Definition convertCategory (c : jvalue) : result TypeError WooCategory :=
  i ← get (Some c) "id"; n ← get (Some c) "name"; s ← get (Some c) "slug";
  Ok {| cat_id := parseInt i; cat_name := n; cat_slug := s |}.

Definition convertAttribute (a : jvalue) : result TypeError WooAttribute :=
  i ← get (Some a) "id"; n ← get (Some a) "name"; o ← get (Some a) "options";
  v ← get (Some a) "variation";
  Ok {| attr_id := parseInt i; attr_name := n; attr_options := o; attr_variation := v |}.

Definition convertVariationAttribute (a : jvalue) : result TypeError WooVariationAttribute :=
  i ← get (Some a) "id"; n ← get (Some a) "name"; o ← get (Some a) "value";
  Ok {| va_id := parseInt i; va_name := n; va_option := o |}.

Definition convertVariation (v : jvalue) : result TypeError WooVariation :=
  i ← get (Some v) "databaseId"; p ← get (Some v) "price"; rp ← get (Some v) "regularPrice";
  sp ← get (Some v) "salePrice"; os ← get (Some v) "onSale"; ss ← get (Some v) "stockStatus";
  sq ← get (Some v) "stockQuantity";
  atr ← get (Some v) "attributes"; ats ← map_nodes convertVariationAttribute atr;
  im ← imageOrNull (Some v);
  Ok {| var_id := i; var_price := p; var_regular_price := rp; var_sale_price := sp;
        var_on_sale := os; var_stock_status := ss; var_stock_quantity := sq;
        var_attributes := ats; var_image := im |}.

Definition convertRelated (r : jvalue) : result TypeError WooRelated :=
  i ← get (Some r) "databaseId"; n ← get (Some r) "name"; s ← get (Some r) "slug";
  p ← get (Some r) "price"; rp ← get (Some r) "regularPrice"; sp ← get (Some r) "salePrice";
  os ← get (Some r) "onSale"; ss ← get (Some r) "stockStatus"; ims ← imageList (Some r);
  Ok {| rel_id := i; rel_name := n; rel_slug := s; rel_price := p; rel_regular_price := rp;
        rel_sale_price := sp; rel_on_sale := os; rel_stock_status := ss; rel_images := ims |}.

(** [author: review.author.node.name] has no optional chaining. *)
Definition convertReview (r : jvalue) : result TypeError WooReview :=
  i ← get (Some r) "id"; c ← get (Some r) "content"; ra ← get (Some r) "rating";
  au ← get (Some r) "author"; nd ← get au "node"; n ← get nd "name"; d ← get (Some r) "date";
  Ok {| rev_id := parseInt i; rev_content := c; rev_rating := ra; rev_author := n; rev_date := d |}.

(** [convertGraphQLProductToWooCommerce]: the fields in the order of the
    object literal; any [TypeError] escapes. *)
Definition convertGraphQLProductToWooCommerce (p : option jvalue) : result TypeError WooProduct :=
  i ← get p "databaseId"; n ← get p "name"; s ← get p "slug";
  d ← get p "description"; sd ← get p "shortDescription";
  pr ← get p "price"; rp ← get p "regularPrice"; sp ← get p "salePrice";
  os ← get p "onSale"; ss ← get p "stockStatus"; ty ← get p "type"; fe ← get p "featured";
  ar ← get p "averageRating"; rc ← get p "reviewCount";
  ims ← imageList p;
  pc ← get p "productCategories"; cats ← map_nodes convertCategory pc;
  atr ← get p "attributes"; ats ← map_nodes convertAttribute atr;
  va ← get p "variations"; vars ← map_nodes convertVariation va;
  re ← get p "related"; rels ← map_nodes convertRelated re;
  rv ← get p "reviews"; revs ← map_nodes convertReview rv;
  Ok {| id := i; name := n; slug := s; permalink := ("/" ++ to_string_opt s)%string;
        description := d; short_description := sd;
        price := or_else pr (JStr ""); regular_price := or_else rp (JStr "");
        sale_price := or_else sp (JStr ""); on_sale := or_else os (JBool false);
        stock_status := or_else ss (JStr "instock"); type_ := ty; featured := fe;
        average_rating := ar; review_count := rc; images := ims; categories := cats;
        attributes := ats; variations := vars; related := rels; reviews := revs |}.

(** [convertGraphQLCategoryToWooCommerce]: [graphqlCategory.parent.node]
    has no optional chaining. *)
Definition convertGraphQLCategoryToWooCommerce (c : jvalue) : result TypeError WooCollection :=
  i ← get (Some c) "databaseId"; n ← get (Some c) "name"; s ← get (Some c) "slug";
  d ← get (Some c) "description"; k ← get (Some c) "count";
  im ← imageOrNull (Some c);
  pa ← get (Some c) "parent"; nd ← get pa "node";
  par ← (match nd with
         | Some v => if truthy v
                     then (pi ← get nd "id"; pn ← get nd "name"; ps ← get nd "slug";
                           Ok (Some {| par_id := parseInt pi; par_name := pn; par_slug := ps |}))
                     else Ok None
         | None => Ok None
         end);
  Ok {| col_id := i; col_name := n; col_slug := s; col_description := d; col_count := k;
        col_image := im; col_parent := par |}.

(** ** The fetch functions of [index.ts] *)

(** The [params] of [getWooCommerceProductsGraphQL] ([page] is unused). *)
Record ProductParams := {
  per_page : option Z; page : option Z; p_category : option string;
  p_search : option string; p_featured : option bool }.

Definition noParams : ProductParams :=
  {| per_page := None; page := None; p_category := None; p_search := None; p_featured := None |}.

(** [if (params.x) where.x = params.x] on a string parameter. *)
Definition truthy_field (k : string) (v : option string) : list (string * jvalue) :=
  match v with Some s => if String.eqb s "" then [] else [(k, JStr s)] | None => [] end.

(** [{ first: params.per_page || 10 }], then [where] when it has a key. *)
Definition buildVariables (params : ProductParams) : jvalue :=
  let wh := (truthy_field "category" (p_category params) ++ truthy_field "search" (p_search params) ++
            match p_featured params with Some b => [("featured", JBool b)] | None => [] end)%list in
  JObj (("first", JNum (or_default (per_page params) 10)) ::
        match wh with [] => [] | _ => [("where", JObj wh)] end).

(** [if (!result.k?.nodes) return []; return result.k.nodes.map(f)]. *)
Definition convert_nodes {B} (f : option jvalue -> result TypeError B) (res : jvalue) (k : string)
  : result TypeError (list B) :=
  c ← get (Some res) k; n ← chain c "nodes";
  if truthy_opt n then
    match n with Some (JArr items) => mapM (fun x => f (Some x)) items | _ => Err type_error end
  else Ok [].

(** [if (!result.k) return undefined; return f(result.k)]. *)
Definition convert_one {B} (f : option jvalue -> result TypeError B) (res : jvalue) (k : string)
  : result TypeError (option B) :=
  c ← get (Some res) k;
  if truthy_opt c then (b ← f c; Ok (Some b)) else Ok None.

Section Fetch.
Context {E : Type}.
(** [graphqlClient.request(query, variables)] *)
Variable request : string -> jvalue -> result E jvalue.

(** [try { ... } catch { return [] }] around a list fetch. *)
Definition fetch_list {B} (query : string) (vars : jvalue) (k : string)
    (f : option jvalue -> result TypeError B) : list B :=
  match request query vars with
  | Ok res => match convert_nodes f res k with Ok l => l | Err _ => [] end
  | Err _ => []
  end.

(** [try { ... } catch { return undefined }] around a single fetch. *)
Definition fetch_one {B} (query : string) (vars : jvalue) (k : string)
    (f : option jvalue -> result TypeError B) : option B :=
  match request query vars with
  | Ok res => match convert_one f res k with Ok o => o | Err _ => None end
  | Err _ => None
  end.

Definition getWooCommerceProductsGraphQL (params : ProductParams) : list WooProduct :=
  fetch_list GET_PRODUCTS_QUERY (buildVariables params) "products" convertGraphQLProductToWooCommerce.

Definition getWooCommerceProductGraphQL (handle : string) : option WooProduct :=
  fetch_one GET_PRODUCT_BY_SLUG_QUERY (JObj [("slug", JStr handle)]) "product"
    convertGraphQLProductToWooCommerce.

Definition getWooCommerceProductsByCategoryGraphQL (categorySlug : string) : list WooProduct :=
  fetch_list GET_PRODUCTS_BY_CATEGORY_QUERY (JObj [("categorySlug", JStr categorySlug); ("first", JNum 20)])
    "products" convertGraphQLProductToWooCommerce.

Definition getWooCommerceCollectionsGraphQL : list WooCollection :=
  fetch_list GET_CATEGORIES_QUERY (JObj [("first", JNum 20)]) "productCategories"
    (fun c => match c with Some c' => convertGraphQLCategoryToWooCommerce c' | None => Err type_error end).

Definition getWooCommerceCollectionGraphQL (handle : string) : option WooCollection :=
  fetch_one GET_CATEGORY_BY_SLUG_QUERY (JObj [("slug", JStr handle)]) "productCategory"
    (fun c => match c with Some c' => convertGraphQLCategoryToWooCommerce c' | None => Err type_error end).

Definition searchWooCommerceProductsGraphQL (query : string) : list WooProduct :=
  fetch_list SEARCH_PRODUCTS_QUERY (JObj [("search", JStr query); ("first", JNum 20)]) "products"
    convertGraphQLProductToWooCommerce.

Definition getWooCommerceFeaturedProductsGraphQL : list WooProduct :=
  fetch_list GET_FEATURED_PRODUCTS_QUERY (JObj [("first", JNum 3)]) "products"
    convertGraphQLProductToWooCommerce.

(** The featured products, or the latest ones when there is none; at most three. *)
Definition getWooCommerceHomepageProductsGraphQL : list WooProduct :=
  match getWooCommerceFeaturedProductsGraphQL with
  | [] => firstn 3 (getWooCommerceProductsGraphQL
                      {| per_page := Some 3; page := None; p_category := None; p_search := None;
                         p_featured := None |})
  | featuredProducts => firstn 3 featuredProducts
  end.
End Fetch.

(** ** The converter of [EnhancedGraphQLClient] *)

Record EnhancedVariation := {
  ev_id : option jvalue; ev_price : option jvalue; ev_regular_price : option jvalue;
  ev_sale_price : option jvalue; ev_on_sale : option jvalue; ev_stock_status : option jvalue;
  ev_stock_quantity : option jvalue; ev_image : option WooImage }.

Record EnhancedProduct := {
  e_id : option jvalue; e_name : option jvalue; e_slug : option jvalue; e_permalink : string;
  e_description : option jvalue; e_short_description : option jvalue;
  e_price : jvalue; e_regular_price : jvalue; e_sale_price : jvalue; e_on_sale : jvalue;
  e_stock_status : jvalue; e_type : option jvalue; e_featured : option jvalue;
  e_average_rating : option jvalue; e_review_count : option jvalue;
  e_images : list WooImage; e_categories : list WooCategory; e_variations : list EnhancedVariation }.

Definition convertEnhancedVariation (v : jvalue) : result TypeError EnhancedVariation :=
  i ← get (Some v) "databaseId"; p ← get (Some v) "price"; rp ← get (Some v) "regularPrice";
  sp ← get (Some v) "salePrice"; os ← get (Some v) "onSale"; ss ← get (Some v) "stockStatus";
  sq ← get (Some v) "stockQuantity"; im ← imageOrNull (Some v);
  Ok {| ev_id := i; ev_price := p; ev_regular_price := rp; ev_sale_price := sp;
        ev_on_sale := os; ev_stock_status := ss; ev_stock_quantity := sq; ev_image := im |}.

(** [convertProduct]: [if (!product) return null;] ([None]). *)
Definition convertProduct (p : option jvalue) : result TypeError (option EnhancedProduct) :=
  if negb (truthy_opt p) then Ok None else
  i ← get p "databaseId"; n ← get p "name"; s ← get p "slug";
  d ← get p "description"; sd ← get p "shortDescription";
  pr ← get p "price"; rp ← get p "regularPrice"; sp ← get p "salePrice";
  os ← get p "onSale"; ss ← get p "stockStatus"; ty ← get p "type"; fe ← get p "featured";
  ar ← get p "averageRating"; rc ← get p "reviewCount";
  ims ← imageList p;
  pc ← get p "productCategories"; cats ← map_nodes convertCategory pc;
  va ← get p "variations"; vars ← map_nodes convertEnhancedVariation va;
  Ok (Some {| e_id := i; e_name := n; e_slug := s; e_permalink := ("/" ++ to_string_opt s)%string;
              e_description := d; e_short_description := sd;
              e_price := or_else pr (JStr ""); e_regular_price := or_else rp (JStr "");
              e_sale_price := or_else sp (JStr ""); e_on_sale := or_else os (JBool false);
              e_stock_status := or_else ss (JStr "instock"); e_type := ty; e_featured := fe;
              e_average_rating := ar; e_review_count := rc; e_images := ims; e_categories := cats;
              e_variations := vars |}).

(** [convertProducts]: [products.map(convertProduct)]. *)
Definition convertProducts (ps : list jvalue) : result TypeError (list (option EnhancedProduct)) :=
  mapM (fun p => convertProduct (Some p)) ps.

End Converters.

(** ** [src/lib/graphql/client.ts] *)

Module GraphQLClient.

(** [GRAPHQL_ENDPOINT] (lines 3-5): [WOOCOMMERCE_URL] is tested for
    truthiness, so an empty value selects the fixed host. *)
Definition GRAPHQL_ENDPOINT (woocommerceUrl : option string) : string :=
  match woocommerceUrl with
  | Some u => if String.eqb u "" then "https://johnp500.sg-host.com/graphql" else (u ++ "/graphql")%string
  | None => "https://johnp500.sg-host.com/graphql"
  end.

(** The query of [testGraphQLConnection] (lines 17-24). *)
Definition testQuery : string :=
  "
      query TestConnection {
        generalSettings {
          title
          description
        }
      }
    ".

Record ConnectionResult := { success : bool; message : string }.

Section Test.
Context {E : Type}.
(** [graphqlClient.request(query)] and the [message] of a thrown value
    that is an [Error]. *)
Variable request : string -> result E jvalue.
Variable errorMessage : E -> option string.

(** [testGraphQLConnection()] (lines 15-46): reading
    [result.generalSettings] of a [null] answer throws a [TypeError],
    whose message the [catch] reports. *)
Definition testGraphQLConnection (typeErrorMessage : string) : ConnectionResult :=
  match request testQuery with
  | Ok r =>
      match Js.get (Some r) "generalSettings" with
      | Ok gs =>
          if truthy_opt gs then
            match Js.chain gs "title" with
            | Ok t => {| success := true;
                         message := "Successfully connected to GraphQL API. Site: " ++ Js.to_string_opt t |}
            | Err _ => {| success := false; message := typeErrorMessage |}
            end
          else {| success := false; message := "GraphQL API responded but no data received" |}
      | Err _ => {| success := false; message := typeErrorMessage |}
      end
  | Err e => {| success := false; message := default "Unknown GraphQL connection error" (errorMessage e) |}
  end.
End Test.

End GraphQLClient.

(** ** Theorems *)

Module ConverterTheorems.
Import Js Converters Queries.

(** Walk a chain of binds in a hypothesis [H : chain = Ok _], naming
    each intermediate result. *)
Ltac chain_inv H :=
  unbind;
  repeat match type of H with
  | context [match ?m with Ok _ => _ | Err _ => _ end] =>
      let E := fresh "E" in destruct m eqn:E; [|discriminate H]
  | context [if ?b then _ else _] => let E := fresh "E" in destruct b eqn:E
  end.

Lemma parseInt_letter c s : is_letter c = true -> parseInt (Some (JStr (String c s))) = None.
Proof. destruct c as [[] [] [] [] [] [] [] []]; intros H; try (vm_compute in H; discriminate H); reflexivity. Qed.

Lemma get_defined v k : v <> JNull -> is_ok (get (Some v) k) = true.
Proof. by destruct v. Qed.

Lemma convertImage_ok v : v <> JNull -> is_ok (convertImage v) = true.
Proof. by destruct v. Qed.

Lemma imageOrNull_ok fs : is_ok (imageOrNull (Some (JObj fs))) = true.
Proof.
  unfold imageOrNull. unbind. cbn [get].
  destruct (assoc "image" fs) as [v|]; [|done].
  destruct (truthy v) eqn:Hv; [|done]. destruct v; try done; discriminate Hv.
Qed.

Lemma category_parent_null c :
  get (Some c) "parent" = Ok (Some JNull) -> is_ok (convertGraphQLCategoryToWooCommerce c) = false.
Proof.
  destruct c as [| | | | |fs]; try discriminate. cbn [get]. intros [= Hp].
  unfold convertGraphQLCategoryToWooCommerce. unbind. cbn [get]. rewrite Hp.
  pose proof (imageOrNull_ok fs) as Hi. by destruct (imageOrNull (Some (JObj fs))).
Qed.

Lemma map_nodes_categories p w pc :
  convertGraphQLProductToWooCommerce p = Ok w -> get p "productCategories" = Ok pc ->
  map_nodes convertCategory pc = Ok (categories w).
Proof.
  unfold convertGraphQLProductToWooCommerce. intros H Hpc. chain_inv H.
  injection H as <-. simpl. congruence.
Qed.
Lemma convertCategory_id c k x s :
  convertCategory c = Ok k -> get (Some c) "id" = Ok (Some (JStr (String x s))) ->
  cat_id k = parseInt (Some (JStr (String x s))).
Proof. unfold convertCategory. intros Hc Hid. rewrite Hid in Hc. chain_inv Hc. by injection Hc as <-. Qed.

Lemma categories_nan items ks :
  Forall2 (fun x y => convertCategory x = Ok y) items ks ->
  Forall (fun c => exists x s, get (Some c) "id" = Ok (Some (JStr (String x s))) /\ is_letter x = true) items ->
  Forall (fun k => cat_id k = None) ks.
Proof.
  induction 1 as [|c k cs ks Hc Hrest IH]; intros Hids; [constructor|].
  inversion Hids as [|? ? (x & s & Hid & Hl) Hids']; subst. constructor; [|by apply IH].
  rewrite (convertCategory_id c k x s Hc Hid). by apply parseInt_letter.
Qed.

(** C29. A root category empties the collection list: when the
    backend's answer to [GET_CATEGORIES_QUERY] lists a category whose
    [parent] is [null] (a top-level category), reading
    [graphqlCategory.parent.node] throws, the [catch] of
    [getWooCommerceCollectionsGraphQL] swallows it and the whole list
    comes back empty, whatever the other categories are. *)
Theorem collections_root_category_empties {E} (request : string -> jvalue -> result E jvalue) items c :
  request GET_CATEGORIES_QUERY (JObj [("first", JNum 20)]) =
    Ok (JObj [("productCategories", JObj [("nodes", JArr items)])]) ->
  In c items -> get (Some c) "parent" = Ok (Some JNull) ->
  getWooCommerceCollectionsGraphQL request = [].
Proof.
  intros Hreq Hin Hp. unfold getWooCommerceCollectionsGraphQL, fetch_list. rewrite Hreq.
  unfold convert_nodes. unbind. simpl.
  match goal with |- context [mapM ?f items] => pose proof (mapM_Err f items c Hin) as Hm end.
  specialize (Hm (category_parent_null c Hp)). by destruct (mapM _ items).
Qed.

(** Category ids are [NaN]: the converter reads a category's [id]
    with [parseInt], but the [id] GraphQL returns is a global ID, a
    base64 string that starts with a letter; every category of a
    converted product then has the id [NaN], one per category node. *)
Theorem product_category_ids_nan p w pc items :
  convertGraphQLProductToWooCommerce p = Ok w ->
  get p "productCategories" = Ok pc -> chain pc "nodes" = Ok (Some (JArr items)) ->
  Forall (fun c => exists x s, get (Some c) "id" = Ok (Some (JStr (String x s))) /\ is_letter x = true) items ->
  List.length (categories w) = List.length items /\ Forall (fun k => cat_id k = None) (categories w).
Proof.
  intros Hw Hpc Hn Hids. pose proof (map_nodes_categories p w pc Hw Hpc) as Hm.
  unfold map_nodes in Hm. unbind. rewrite Hn in Hm. apply mapM_Ok in Hm.
  split; [symmetry; by eapply Forall2_length | by eapply categories_nan].
Qed.

(** ** Witnesses *)

Definition wcat (gid : string) (parent : jvalue) : jvalue :=
  JObj [("id", JStr gid); ("databaseId", JNum 15); ("name", JStr "Shirts"); ("slug", JStr "shirts");
        ("parent", parent)].

Definition wcategories : list jvalue :=
  [wcat "dGVybToxNQ==" (JObj [("node", JNull)]); wcat "dGVybToxNg==" JNull].

Definition wcatalog (q : string) (v : jvalue) : result unit jvalue :=
  Ok (JObj [("productCategories", JObj [("nodes", JArr wcategories)])]).

Lemma collections_root_category_empties_witness : getWooCommerceCollectionsGraphQL wcatalog = [].
Proof.
  apply (collections_root_category_empties wcatalog wcategories (wcat "dGVybToxNg==" JNull));
    [reflexivity | simpl; auto | reflexivity].
Defined.

Definition wcats : jvalue := JObj [("nodes", JArr [wcat "dGVybToxNQ==" JNull])].

Definition wproduct : jvalue :=
  JObj [("databaseId", JNum 7); ("name", JStr "Oxford shirt"); ("slug", JStr "oxford-shirt");
        ("price", JStr "29.99"); ("productCategories", wcats)].

Lemma product_category_ids_nan_witness :
  exists w, convertGraphQLProductToWooCommerce (Some wproduct) = Ok w /\
            List.length (categories w) = 1%nat /\ Forall (fun k => cat_id k = None) (categories w).
Proof.
  eexists. split; [reflexivity|].
  apply (product_category_ids_nan (Some wproduct) _ (Some wcats) [wcat "dGVybToxNQ==" JNull]);
    [reflexivity | reflexivity | reflexivity | repeat constructor].
  eexists _, _. split; reflexivity.
Defined.

End ConverterTheorems.
