(* ===== verification/ResilientClient.v ===== *)
(** * [EnhancedGraphQLClient] of [src/lib/graphql/enhanced-client.ts]:
    retry over the circuit breaker over the in-memory cache

  Every public method runs
  [withRetry(() => withCircuitBreaker(() => this.client.request(q, v)))]
  and turns any error into an empty answer.  The three layers share
  state across calls: the breaker record of the [graphqlErrorHandler]
  singleton, the [graphqlCache] singleton of [cache.ts] (also used by
  the [GraphQLBatchClient] of [batch.ts]), and the backend.  [Env] holds
  the first two and the log of backend calls; the backend is an oracle
  from the index of the call to its answer, so that it may fail and
  then recover.  The retry layer is [Retry.withRetry] itself, whose
  operation reads the clock and the shared state: attempt [k + 1]
  starts when the delay after attempt [k] has elapsed; the backend
  answers without delay (its latency is not modelled). *)

From S2P Require Import Prelude Json QueryDocs MemoryCache Backoff Breaker ProductMapping.
Open Scope Z_scope.
Open Scope commerce_scope.

Module EnhancedClient.
Import Retry CircuitBreaker GraphQLCache Js Converters Queries.

(** ** The shared state *)

Record Env := {
  env_breaker : Breaker;
  env_cache : Cache;
  env_calls : list Call
}.

Section Client.
(** The [n]-th call of the backend ([GraphQLClient.request]). *)
Variable backend : nat -> string -> option jvalue -> result JsError jvalue.

(** [this.client.request(query, variables)] of a [CachedGraphQLClient]
    on the shared cache: the index of the call is the number of backend
    calls made so far. *)
Definition cachedRequest (query : string) (variables : option jvalue) (now : Z)
    (st : Cache * list Call) : result JsError jvalue * (Cache * list Call) :=
  let '(res, cache', made) := request (backend (List.length st.2)) now now query variables st.1 in
  (res, (cache', (st.2 ++ made)%list)).

(** [withCircuitBreaker(operation)] on the shared breaker: the operation
    runs, and changes the cache and the log, only when the breaker lets
    the call through. *)
Definition guarded {A} (operation : Z -> Cache * list Call -> result JsError A * (Cache * list Call))
    (now : Z) (env : Env) : result JsError A * Env :=
  let '(res, (cache', calls')) := operation now (env_cache env, env_calls env) in
  let '(r, cb', called) := withCircuitBreaker now res (env_breaker env) in
  if called then (r, {| env_breaker := cb'; env_cache := cache'; env_calls := calls' |})
  else (r, {| env_breaker := cb'; env_cache := env_cache env; env_calls := env_calls env |}).

(** [graphqlErrorHandler.withRetry(() => graphqlErrorHandler.withCircuitBreaker(() =>
    this.client.request(query, variables)))] *)
Definition resilientRequest (query : string) (variables : option jvalue) (now : Z) (env : Env)
  : result Thrown jvalue * Env * list Z * nat :=
  withRetry (guarded (cachedRequest query variables)) noConfig now env.
End Client.

(** ** [buildOptimizedQuery] *)

(** [type.charAt(0).toUpperCase() + type.slice(1)] on ASCII letters. *)
Definition capitalize (s : string) : string :=
  match s with
  | String c s' =>
      let n := nat_of_ascii c in
      String (if ((97 <=? n) && (n <=? 122))%nat then ascii_of_nat (n - 32) else c) s'
  | EmptyString => EmptyString
  end.

Definition productsFields : string := "
        id
        databaseId
        name
        slug
        price
        regularPrice
        salePrice
        image {
          id
          sourceUrl
          altText
        }
        ... on InventoriedProduct {
          stockStatus
        }
        ... on Product {
          productCategories {
            nodes {
              name
              slug
            }
          }
        }
      ".

Definition categoriesFields : string := "
        id
        databaseId
        name
        slug
        count
        image {
          id
          sourceUrl
          altText
        }
      ".

(** [defaultFields[type] || defaultFields.products] *)
Definition defaultFieldsFor (type_ : string) : string :=
  if String.eqb type_ "categories" then categoriesFields else productsFields.

Definition buildOptimizedQuery (type_ : string) (fields : option (list string)) : string :=
  match fields with
  | None | Some [] =>
      let baseFields := defaultFieldsFor type_ in
      "
        query GetOptimized" ++ capitalize type_ ++ "($first: Int, $where: RootQueryToProductUnionConnectionWhereArgs) {
          " ++ type_ ++ "(first: $first, where: $where) {
            nodes {
              " ++ baseFields ++ "
            }
            pageInfo {
              hasNextPage
              hasPreviousPage
              startCursor
              endCursor
            }
          }
        }
      "
  | Some fs =>
      let customFields := join "
        " fs in
      "
      query GetOptimized" ++ capitalize type_ ++ "($first: Int, $where: RootQueryToProductUnionConnectionWhereArgs) {
        " ++ type_ ++ "(first: $first, where: $where) {
          nodes {
            " ++ customFields ++ "
          }
          pageInfo {
            hasNextPage
            hasPreviousPage
            startCursor
            endCursor
          }
        }
      }
    "
  end.

(** ** The public methods *)

Record ComprehensiveData := {
  cd_product : option EnhancedProduct; cd_related : list (option EnhancedProduct); cd_reviews : jvalue }.

Record SearchData := { sd_products : list (option EnhancedProduct); sd_suggestions : jvalue }.

Record HomepageData := { hp_featured : jvalue; hp_categories : jvalue; hp_latest : jvalue }.

(** The [TypeError] a property read of [null] throws inside an operation. *)
Definition typeErrorJs : JsError :=
  {| code := None; response := None; message := "Cannot read properties of null" |}.

(** [this.convertProducts(result.products?.nodes || [])] *)
Definition productsOf (res : jvalue) : result TypeError (list (option EnhancedProduct)) :=
  pr ← get (Some res) "products"; n ← chain pr "nodes";
  if truthy_opt n then match n with Some (JArr items) => convertProducts items | _ => Err type_error end
  else Ok [].

(** [result.k?.nodes || []] *)
Definition nodesOr (res : jvalue) (k : string) : result TypeError jvalue :=
  c ← get (Some res) k; n ← chain c "nodes"; Ok (or_else n (JArr [])).

Definition comprehensiveOf (res : jvalue) : result TypeError ComprehensiveData :=
  p ← get (Some res) "product"; cp ← convertProduct p; rel ← productsOf res;
  rv ← nodesOr res "comments";
  Ok {| cd_product := cp; cd_related := rel; cd_reviews := rv |}.

Definition searchOf (res : jvalue) : result TypeError SearchData :=
  ps ← productsOf res; sg ← nodesOr res "productCategories";
  Ok {| sd_products := ps; sd_suggestions := sg |}.

Definition searchVariables (query : string) (category : option string) : jvalue :=
  JObj ([("search", JStr query)] ++ match category with Some c => [("category", JStr c)] | None => [] end ++
        [("first", JNum 10)])%list.

Section Methods.
Variable backend : nat -> string -> option jvalue -> result JsError jvalue.

(** [try { const result = await withRetry(...); return f(result) } catch { return d }]:
    the answer, the shared state after the call, and the delays waited. *)
Definition guardedCall {B} (query : string) (variables : jvalue) (f : jvalue -> result TypeError B)
    (d : B) (now : Z) (env : Env) : B * Env * list Z :=
  let '(r, env', delays, _) := resilientRequest backend query (Some variables) now env in
  (match r with Ok res => match f res with Ok b => b | Err _ => d end | Err _ => d end, env', delays).

Definition getProductsOptimized (params : ProductParams) (fields : option (list string)) (now : Z) (env : Env)
  : list (option EnhancedProduct) * Env * list Z :=
  guardedCall (buildOptimizedQuery "products" fields) (buildVariables params) productsOf [] now env.

Definition getProductComprehensive (slug : string) (now : Z) (env : Env) : ComprehensiveData * Env * list Z :=
  guardedCall GET_PRODUCT_COMPREHENSIVE_QUERY (JObj [("slug", JStr slug)]) comprehensiveOf
    {| cd_product := None; cd_related := []; cd_reviews := JArr [] |} now env.

Definition searchProductsAdvanced (query : string) (category : option string) (now : Z) (env : Env)
  : SearchData * Env * list Z :=
  guardedCall SEARCH_PRODUCTS_ADVANCED_QUERY (searchVariables query category) searchOf
    {| sd_products := []; sd_suggestions := JArr [] |} now env.

(** [graphqlBatchClient.getHomepageData()] of [batch.ts] (lines 90-111):
    the three requests of [Promise.all] all run on the shared cache; the
    first rejection in list order is the outcome. *)
Definition batchHomepageData (now : Z) (st : Cache * list Call) : result JsError HomepageData * (Cache * list Call) :=
  let '(r1, st1) := cachedRequest backend GET_FEATURED_PRODUCTS_QUERY (Some (JObj [("first", JNum 3)])) now st in
  let '(r2, st2) := cachedRequest backend GET_CATEGORIES_QUERY (Some (JObj [("first", JNum 10)])) now st1 in
  let '(r3, st3) := cachedRequest backend GET_PRODUCTS_QUERY (Some (JObj [("first", JNum 6)])) now st2 in
  (match r1, r2, r3 with
   | Ok f, Ok c, Ok l =>
       match (fe ← nodesOr f "products"; ca ← nodesOr c "productCategories"; la ← nodesOr l "products";
              Ok {| hp_featured := fe; hp_categories := ca; hp_latest := la |}) with
       | Ok h => Ok h
       | Err _ => Err typeErrorJs
       end
   | Err e, _, _ => Err e
   | _, Err e, _ => Err e
   | _, _, Err e => Err e
   end, st3).

Definition getHomepageData (now : Z) (env : Env) : HomepageData * Env * list Z :=
  let '(r, env', delays, _) := withRetry (guarded batchHomepageData) noConfig now env in
  (match r with
   | Ok h => h
   | Err _ => {| hp_featured := JArr []; hp_categories := JArr []; hp_latest := JArr [] |}
   end, env', delays).
End Methods.

(** [clearCache(pattern?)] *)
Definition clearCache (pattern : option string) (env : Env) : Env :=
  {| env_breaker := env_breaker env; env_cache := invalidateCache pattern (env_cache env);
     env_calls := env_calls env |}.

End EnhancedClient.

(** ** Theorems *)

Module EnhancedTheorems.
Import Retry CircuitBreaker GraphQLCache Js Converters EnhancedClient.

Section RetryBounds.
Context {St A : Type} (op : Z -> St -> result JsError A * St) (m : St -> nat).
(** Each attempt costs at most one unit of [m]. *)
Hypothesis op_cost : forall now s, (m (op now s).2 <= S (m s))%nat.

(** The loop makes at most [n] attempts, one more than the delays it
    waits when it starts aligned on [maxRetries], and costs at most one
    unit per attempt. *)
Lemma retry_loop_shape config n a le now s r s' ds c :
  retry_loop op config n a le now s = (r, s', ds, c) ->
  (m s' <= m s + c)%nat /\ (c <= n)%nat /\
  (n <> 0%nat -> Z.of_nat n + a = maxRetries config + 1 -> (List.length ds + 1 = c)%nat).
Proof.
  revert a le now s r s' ds c. induction n as [|n IH]; intros a le now s r s' ds c H; simpl in H.
  - injection H as <- <- <- <-. lia.
  - pose proof (op_cost now s) as Hc. destruct (op now s) as [res s1]. simpl in Hc.
    destruct res as [x|e].
    + injection H as <- <- <- <-. simpl. lia.
    + destruct ((a =? maxRetries config) || negb (isRetryableError e)) eqn:Hf.
      * injection H as <- <- <- <-. simpl. lia.
      * match type of H with context [retry_loop op config n (a + 1) (Some e) ?t s1] =>
          destruct (retry_loop op config n (a + 1) (Some e) t s1) as [[[r1 s2] ds1] c1] eqn:Hr end.
        injection H as <- <- <- <-. destruct (IH _ _ _ _ _ _ _ _ Hr) as (Hm & Hn & Hl).
        apply orb_false_iff in Hf as [Hf _]. apply Z.eqb_neq in Hf.
        split; [lia|]. split; [lia|]. intros _ Ha. simpl.
        destruct n as [|n]; [lia|]. rewrite Hl; lia.
Qed.
End RetryBounds.

Section Composition.
Variable backend : nat -> string -> option jvalue -> result JsError jvalue.

Lemma guarded_rejected {A} (operation : Z -> Cache * list Call -> result JsError A * (Cache * list Call)) now env :
  enter now (env_breaker env) = None -> guarded operation now env = (Err breakerOpenError, env).
Proof.
  intros He. unfold guarded. destruct (operation now _) as [res [c' l']].
  unfold withCircuitBreaker. rewrite He. by destruct env.
Qed.

Lemma breaker_error_final : isRetryableError breakerOpenError = false.
Proof. reflexivity. Qed.

Lemma open_enter_none cb now :
  state cb = OPEN -> now - lastFailureTime cb <= timeout cb -> enter now cb = None.
Proof. intros Hs Ht. unfold enter. rewrite Hs. case_if; [lia|done]. Qed.

(** C21. An open breaker hides the cache: while the breaker is OPEN and
    its timeout has not elapsed, [getProductsOptimized] answers [[]] at
    once, without waiting, calling the backend or changing any state,
    even when [graphqlCache] holds a fresh answer for the query: the
    cache sits inside [withCircuitBreaker], and the rejection is not
    retryable. *)
Theorem open_breaker_hides_cache params fields now env :
  state (env_breaker env) = OPEN -> now - lastFailureTime (env_breaker env) <= timeout (env_breaker env) ->
  getProductsOptimized backend params fields now env = ([], env, []).
Proof.
  intros Hs Ht. unfold getProductsOptimized, guardedCall, resilientRequest, withRetry. simpl.
  rewrite guarded_rejected by (by apply open_enter_none). reflexivity.
Qed.
Lemma guarded_fail q v now env e cb1 :
  backend (List.length (env_calls env)) q v = Err e -> env_cache env !! generateKey q v = None ->
  enter now (env_breaker env) = Some cb1 ->
  guarded (cachedRequest backend q v) now env =
    (Err e, {| env_breaker := on_failure now cb1; env_cache := delete (generateKey q v) (env_cache env);
               env_calls := env_calls env ++ [(q, v)] |}).
Proof.
  intros Hb Hc He. unfold guarded, cachedRequest. cbn [fst snd].
  rewrite (request_miss (backend _) now now q v (env_cache env))
    by (unfold GraphQLCache.get; cbv zeta; by rewrite Hc).
  unfold fetch_and_store. rewrite Hb. unfold withCircuitBreaker. rewrite He. reflexivity.
Qed.

Lemma guarded_ok q v now env d cb1 :
  backend (List.length (env_calls env)) q v = Ok d -> env_cache env !! generateKey q v = None ->
  enter now (env_breaker env) = Some cb1 ->
  guarded (cachedRequest backend q v) now env =
    (Ok d, {| env_breaker := on_success cb1;
              env_cache := set now q v d (Some (getTTLForQuery q)) (delete (generateKey q v) (env_cache env));
              env_calls := env_calls env ++ [(q, v)] |}).
Proof.
  intros Hb Hc He. unfold guarded, cachedRequest. cbn [fst snd].
  rewrite (request_miss (backend _) now now q v (env_cache env))
    by (unfold GraphQLCache.get; cbv zeta; by rewrite Hc).
  unfold fetch_and_store. rewrite Hb. unfold withCircuitBreaker. rewrite He. reflexivity.
Qed.

Lemma on_failure_closed now cb :
  state cb = CLOSED -> failures cb + 1 < threshold cb -> state (on_failure now cb) = CLOSED.
Proof. intros Hs Ht. unfold on_failure. simpl. rewrite Hs. case_if; [lia|done]. Qed.

(** A guarded cached request logs at most one backend call. *)
Lemma guarded_cost q v now env :
  (List.length (env_calls (guarded (cachedRequest backend q v) now env).2) <= S (List.length (env_calls env)))%nat.
Proof.
  unfold guarded, cachedRequest. cbn [fst snd].
  destruct (request _ now now q v (env_cache env)) as [[res c'] made] eqn:Hr.
  assert (Hmade : (List.length made <= 1)%nat).
  { unfold request in Hr. destruct (GraphQLCache.get _ _ _ _) as [[d|] c1];
      [destruct (truthy d)|]; [injection Hr as _ _ <-; simpl; lia| |];
      unfold fetch_and_store in Hr; destruct (backend _ q v); injection Hr as _ _ <-; simpl; lia. }
  destruct (withCircuitBreaker now res (env_breaker env)) as [[r cb'] []]; simpl;
    rewrite ?length_app; lia.
Qed.

(** One failed attempt of [getProductsOptimized] on a cache without the key. *)
Ltac failed_attempt Hb Hc He :=
  erewrite guarded_fail; [| apply Hb | simpl; first [exact Hc | apply lookup_delete_eq] | reflexivity];
  rewrite ?He; with_strategy opaque [guarded] simpl.

(** C22. Retries feed the breaker: when every backend call fails with an
    error [withRetry] retries (a 5xx, a 429, a network error), the
    first [getProductsOptimized] on a fresh breaker makes three calls
    and counts three failures, and a second call, however much later,
    opens the breaker on its second attempt, so that its third attempt
    is rejected: two user requests, five backend calls, and the breaker
    of every client of [graphqlErrorHandler] is OPEN.  Both requests
    answer [[]] after waiting 1s and 2s. *)
Theorem failing_calls_open_breaker e params fields t1 t2 c :
  (forall n q v, backend n q v = Err e) -> isRetryableError e = true ->
  c !! generateKey (buildOptimizedQuery "products" fields) (Some (buildVariables params)) = None ->
  let '(r1, env1, d1) := getProductsOptimized backend params fields t1
                           {| env_breaker := initialBreaker; env_cache := c; env_calls := [] |} in
  let '(r2, env2, d2) := getProductsOptimized backend params fields t2 env1 in
  r1 = [] /\ r2 = [] /\ d1 = [1000; 2000] /\ d2 = [1000; 2000] /\
  List.length (env_calls env2) = 5%nat /\ state (env_breaker env2) = OPEN.
Proof.
  intros Hb He Hc. unfold getProductsOptimized, guardedCall, resilientRequest, withRetry.
  replace (finalConfig noConfig) with defaultConfig by reflexivity.
  change (Z.to_nat (maxRetries defaultConfig)) with 3%nat. cbn [retry_loop].
  do 5 failed_attempt Hb Hc He.
  rewrite guarded_rejected by (apply open_enter_none; [reflexivity | unfold calculateDelay; simpl; lia]).
  simpl. repeat split; reflexivity.
Qed.

(** C8. A transient failure is absorbed by the three layers together:
    when the cache has no entry for the query, the breaker is CLOSED
    with room for one more failure, and the backend fails once with an
    error [withRetry] retries and then answers [d], [resilientRequest]
    resolves to [d] after two backend calls and one wait of 1000 ms;
    the answer is cached with the time of the second attempt and the
    query's TTL, and the breaker stays CLOSED but keeps the failure in
    its count (a success in CLOSED does not reset it). *)
Theorem transient_failure_recovers q v now env e d :
  env_cache env !! generateKey q v = None ->
  state (env_breaker env) = CLOSED -> failures (env_breaker env) + 1 < threshold (env_breaker env) ->
  backend (List.length (env_calls env)) q v = Err e -> isRetryableError e = true ->
  backend (S (List.length (env_calls env))) q v = Ok d ->
  resilientRequest backend q v now env =
    (Ok d, {| env_breaker := on_failure now (env_breaker env);
              env_cache := set (now + 1000) q v d (Some (getTTLForQuery q)) (delete (generateKey q v) (env_cache env));
              env_calls := env_calls env ++ [(q, v); (q, v)] |}, [1000], 2%nat).
Proof.
  intros Hc Hs Hf Hb1 He Hb2. unfold resilientRequest, withRetry.
  replace (finalConfig noConfig) with defaultConfig by reflexivity.
  change (Z.to_nat (maxRetries defaultConfig)) with 3%nat. cbn [retry_loop].
  rewrite (guarded_fail q v now env e (env_breaker env)) by (done || by apply enter_not_open; rewrite Hs).
  rewrite He. cbn [orb negb Z.eqb maxRetries defaultConfig].
  rewrite (guarded_ok q v (now + calculateDelay 1 defaultConfig) _ d (on_failure now (env_breaker env)));
    [| cbn [env_calls]; rewrite length_app, Nat.add_comm; exact Hb2 | apply lookup_delete_eq
     | apply enter_not_open; cbn [env_breaker]; rewrite (on_failure_closed now _ Hs Hf); done].
  cbn [env_cache env_calls]. rewrite delete_delete_eq, <- app_assoc.
  unfold on_success. rewrite decide_False by (rewrite (on_failure_closed now _ Hs Hf); done).
  reflexivity.
Qed.

(** Bounded work per request: whatever the backend answers and
    whatever the state of the breaker and the cache, one
    [getProductsOptimized] call makes at most three backend calls
    ([maxRetries]) and waits at most twice. *)
Theorem getProductsOptimized_bounded params fields now env r env' ds :
  getProductsOptimized backend params fields now env = (r, env', ds) ->
  (List.length (env_calls env') <= List.length (env_calls env) + 3)%nat /\ (List.length ds <= 2)%nat.
Proof.
  unfold getProductsOptimized, guardedCall, resilientRequest, withRetry.
  replace (finalConfig noConfig) with defaultConfig by reflexivity.
  destruct (retry_loop _ _ _ _ _ now env) as [[[r0 s'] ds0] c] eqn:Hr. intros [= _ <- <-].
  destruct (retry_loop_shape _ (fun e => List.length (env_calls e)) (guarded_cost _ _) _ _ _ _ _ _ _ _ _ _ Hr)
    as (Hm & Hn & Hl).
  simpl in Hn, Hl. specialize (Hl ltac:(lia) eq_refl). lia.
Qed.

End Composition.

(** ** Witnesses *)

Definition wquery : string := buildOptimizedQuery "products" None.
Definition wvars : jvalue := buildVariables noParams.
Definition wdata : jvalue := JObj [("products", JObj [("nodes", JArr [])])].
Definition whealthy (n : nat) (q : string) (v : option jvalue) : result JsError jvalue := Ok wdata.
Definition e503 : JsError :=
  {| code := None; response := Some {| status := Some 503; errors := None |}; message := "Service Unavailable" |}.
Definition wfailing (n : nat) (q : string) (v : option jvalue) : result JsError jvalue := Err e503.
Definition wopenEnv : Env :=
  {| env_breaker := {| failures := 5; lastFailureTime := 1000; state := OPEN; threshold := 5; timeout := 60000 |};
     env_cache := set 1000 wquery (Some wvars) wdata None ∅; env_calls := [] |}.
Definition wfreshEnv : Env := {| env_breaker := initialBreaker; env_cache := ∅; env_calls := [] |}.

Lemma open_breaker_hides_cache_witness :
  (GraphQLCache.get 2000 wquery (Some wvars) (env_cache wopenEnv)).1 = Some wdata /\
  getProductsOptimized whealthy noParams None 2000 wopenEnv = ([], wopenEnv, []).
Proof.
  split; [vm_compute; reflexivity|].
  apply open_breaker_hides_cache; [reflexivity | simpl; lia].
Defined.

Lemma failing_calls_open_breaker_witness :
  let '(r1, env1, d1) := getProductsOptimized wfailing noParams None 0 wfreshEnv in
  let '(r2, env2, d2) := getProductsOptimized wfailing noParams None 100000 env1 in
  r1 = [] /\ r2 = [] /\ d1 = [1000; 2000] /\ d2 = [1000; 2000] /\
  List.length (env_calls env2) = 5%nat /\ state (env_breaker env2) = OPEN.
Proof. apply (failing_calls_open_breaker wfailing e503); [intros; reflexivity | reflexivity | reflexivity]. Defined.

Definition wflaky (n : nat) (q : string) (v : option jvalue) : result JsError jvalue :=
  if Nat.eqb n 0 then Err e503 else Ok wdata.

Lemma transient_failure_recovers_witness :
  resilientRequest wflaky wquery (Some wvars) 0 wfreshEnv =
    (Ok wdata, {| env_breaker := on_failure 0 initialBreaker;
                  env_cache := set 1000 wquery (Some wvars) wdata (Some (getTTLForQuery wquery)) ∅;
                  env_calls := [(wquery, Some wvars); (wquery, Some wvars)] |}, [1000], 2%nat).
Proof.
  rewrite (transient_failure_recovers wflaky wquery (Some wvars) 0 wfreshEnv e503 wdata);
    [reflexivity | reflexivity | reflexivity | simpl; lia | reflexivity | reflexivity | reflexivity].
Defined.

Lemma getProductsOptimized_bounded_witness :
  exists r env' ds, getProductsOptimized wfailing noParams None 0 wfreshEnv = (r, env', ds) /\
    (List.length (env_calls env') <= List.length (env_calls wfreshEnv) + 3)%nat /\ (List.length ds <= 2)%nat.
Proof.
  do 3 eexists. split; [reflexivity|].
  eapply (getProductsOptimized_bounded wfailing noParams None 0 wfreshEnv). reflexivity.
Defined.

End EnhancedTheorems.
