(* ===== verification/LazyLoading.v ===== *)
(** * Lazy loading of [src/lib/lazy-loading/lazy-loader.ts]

  [useLazyLoad] keeps a [LazyLoadState] in React state and, in an
  effect whose dependencies are the resolved [threshold], [rootMargin]
  and [triggerOnce], observes the element of its ref with an
  [IntersectionObserver].  The browser is the environment: it delivers
  batches of entries to the observer's callback while the element is
  observed, and each entry updates the state with a functional
  [setState].  One hook instance is a state machine: [Commit] is a
  render followed by the effect phase (the effect runs again only when
  its dependencies changed), [Deliver] a callback call, [Unmount] the
  cleanup.

  The components over the hook ([LazyImage], [LazyProductCard],
  [LazyGrid], [LazyLoadWithPrefetch], [LazyComponent]) are their render
  functions, to a small tree of elements, and their own effects.
  [LazyImage] preloads the picture with [new Image()]: every such image
  is an element of [pending], and its [onload] or [onerror] is an event.
  A caller-supplied node ([fallback], [renderItem]'s result) is an
  opaque [Slot]; the function props whose identity the effects compare
  are the tokens [nat]. *)

From Stdlib Require Import QArith.
From S2P Require Import Prelude Json.
Open Scope Z_scope.
Open Scope commerce_scope.

Module LazyLoader.

(** ** Elements *)

(** A React element: a tag with its props (later keys of a spread
    overwrite earlier ones, as in an object literal), a text, or a node
    the caller supplied. *)
Inductive node :=
| Elem (tag : string) (props : list (string * string)) (children : list node)
| Text (s : string)
| Slot (n : nat)
| Suspense (fallback : node) (child : node).

(** [{ ...a, ...b }] on string props. *)
Definition spread (a b : list (string * string)) : list (string * string) :=
  fold_left (fun acc kv => obj_set acc kv.1 kv.2) b a.

(** [fallback || d]: a caller's node is truthy when it is given. *)
Definition or_node (fallback : option node) (d : node) : node :=
  match fallback with Some n => n | None => d end.

(** ** [useLazyLoad] (lines 19-74) *)

Record LazyLoadOptions := {
  threshold : option Q;
  rootMargin : option string;
  triggerOnce : option bool
}.

Record LazyLoadState := { isVisible : bool; hasLoaded : bool; isLoading : bool }.

Definition initialLazyLoadState : LazyLoadState :=
  {| isVisible := false; hasLoaded := false; isLoading := false |}.

(** The effect's dependencies, the options with their defaults. *)
Record Deps := { d_threshold : Q; d_rootMargin : string; d_triggerOnce : bool }.

Definition resolve (o : LazyLoadOptions) : Deps :=
  {| d_threshold := default (1 # 10) (threshold o); d_rootMargin := default "50px" (rootMargin o);
     d_triggerOnce := default true (triggerOnce o) |}.

(** [Object.is] on each dependency. *)
Definition deps_eqb (a b : Deps) : bool :=
  Qeq_bool (d_threshold a) (d_threshold b) && String.eqb (d_rootMargin a) (d_rootMargin b) &&
  Bool.eqb (d_triggerOnce a) (d_triggerOnce b).

(** One hook instance: its state, whether the current observer observes
    the element, and the dependencies of the effect's last run. *)
Record Hook := { hstate : LazyLoadState; observed : bool; ran : option Deps }.

Definition initialHook : Hook := {| hstate := initialLazyLoadState; observed := false; ran := None |}.

(** The effect phase after a render: when the dependencies changed, the
    previous cleanup unobserves the element and the effect observes the
    element of the ref, if there is one ([if (!element) return]). *)
Definition commitHook (element : bool) (d : Deps) (h : Hook) : Hook :=
  match ran h with
  | Some d' => if deps_eqb d d' then h else {| hstate := hstate h; observed := element; ran := Some d |}
  | None => {| hstate := hstate h; observed := element; ran := Some d |}
  end.

(** One entry of the callback. *)
Definition onEntry (triggerOnce : bool) (h : Hook) (isIntersecting : bool) : Hook :=
  if isIntersecting then
    {| hstate := {| isVisible := true; hasLoaded := true; isLoading := true |};
       observed := if triggerOnce then false else observed h; ran := ran h |}
  else if negb triggerOnce then
    {| hstate := {| isVisible := false; hasLoaded := hasLoaded (hstate h); isLoading := isLoading (hstate h) |};
       observed := observed h; ran := ran h |}
  else h.

(** The callback on a batch of entries: [entries.forEach], with the
    [triggerOnce] of the effect run that created the observer. *)
Definition observerCallback (entries : list bool) (h : Hook) : Hook :=
  match ran h with
  | Some d => fold_left (onEntry (d_triggerOnce d)) entries h
  | None => h
  end.

(** The cleanup on unmount. *)
Definition unmountHook (h : Hook) : Hook := {| hstate := hstate h; observed := false; ran := ran h |}.

Inductive HookEvent :=
| Commit (element : bool) (o : LazyLoadOptions)
| Deliver (entries : list bool)
| Unmount.

(** The browser delivers entries only while the element is observed. *)
Inductive hook_step : Hook -> HookEvent -> Hook -> Prop :=
| hs_commit h el o : hook_step h (Commit el o) (commitHook el (resolve o) h)
| hs_deliver h es : observed h = true -> hook_step h (Deliver es) (observerCallback es h)
| hs_unmount h : hook_step h Unmount (unmountHook h).

#[export] Instance hook_step_inst : Step Hook HookEvent := hook_step.

(** ** [LazyImage] (lines 100-151) *)

Definition imageOptions : LazyLoadOptions :=
  {| threshold := Some (1 # 10); rootMargin := Some "100px"; triggerOnce := None |}.

(** The instance: the hook, the [src] prop, the two state cells, the
    dependencies of the preload effect's last run and the [Image]
    objects created by it whose [onload] or [onerror] has not fired. *)
Record ImageState := {
  ihook : Hook;
  src : string;
  imageLoaded : bool;
  imageError : bool;
  ieffect : option (bool * string * bool * bool);
  pending : list string
}.

Section Image.
(** The props other than [src]: [alt], [className = ''], [fallback] and
    the rest, spread last on the [img]. *)
Variable alt : string.
Variable className : string.
Variable fallback : option node.
Variable props : list (string * string).

Definition with_hook (s : ImageState) (h : Hook) : ImageState :=
  {| ihook := h; src := src s; imageLoaded := imageLoaded s; imageError := imageError s;
     ieffect := ieffect s; pending := pending s |}.

Definition failedView : node :=
  Elem "div" [("className", className ++ " bg-gray-200 flex items-center justify-center")%string]
    [Elem "span" [("className", "text-gray-500 text-sm")] [Text "Failed to load"]].

(** The render: the placeholder until the element has been seen, the
    failure box after an error, the picture otherwise. *)
Definition renderImage (s : ImageState) : node :=
  if negb (hasLoaded (hstate (ihook s))) then
    Elem "div" [("ref", "elementRef")]
      [or_node fallback (Elem "div" [("className", "animate-pulse bg-gray-200 rounded")] [])]
  else if imageError s then failedView
  else
    Elem "img"
      (spread [("ref", "elementRef"); ("src", src s); ("alt", alt);
               ("className", className ++ " " ++ (if imageLoaded s then "opacity-100" else "opacity-0") ++
                             " transition-opacity duration-300")%string;
               ("onLoad", "setImageLoaded"); ("onError", "setImageError")] props) [].

(** Whether the rendered element carries the ref: the failure box does
    not. *)
Definition hasRef (s : ImageState) : bool := negb (hasLoaded (hstate (ihook s)) && imageError s).

(** The preload effect, deps [[isVisible, src, imageLoaded, imageError]]. *)
Definition imageEffect (s : ImageState) : ImageState :=
  let deps := (isVisible (hstate (ihook s)), src s, imageLoaded s, imageError s) in
  if bool_decide (ieffect s = Some deps) then s
  else
    {| ihook := ihook s; src := src s; imageLoaded := imageLoaded s; imageError := imageError s;
       ieffect := Some deps;
       pending := if isVisible (hstate (ihook s)) && negb (imageLoaded s) && negb (imageError s)
                  then (pending s ++ [src s])%list else pending s |}.

(** The effect phase after a render, in declaration order. *)
Definition commitImage (s : ImageState) : ImageState :=
  imageEffect (with_hook s (commitHook (hasRef s) (resolve imageOptions) (ihook s))).

Definition mountImage (src0 : string) : ImageState :=
  commitImage {| ihook := initialHook; src := src0; imageLoaded := false; imageError := false;
                 ieffect := None; pending := [] |}.

(** [setImageLoaded(true)] or [setImageError(true)]. *)
Definition settle (ok : bool) (s : ImageState) : ImageState :=
  {| ihook := ihook s; src := src s; imageLoaded := imageLoaded s || ok; imageError := imageError s || negb ok;
     ieffect := ieffect s; pending := pending s |}.

Definition drop_pending (i : nat) (s : ImageState) : ImageState :=
  {| ihook := ihook s; src := src s; imageLoaded := imageLoaded s; imageError := imageError s;
     ieffect := ieffect s; pending := delete i (pending s) |}.

Definition set_src (s' : string) (s : ImageState) : ImageState :=
  {| ihook := ihook s; src := s'; imageLoaded := imageLoaded s; imageError := imageError s;
     ieffect := ieffect s; pending := pending s |}.

Inductive ImageEvent :=
| IDeliver (entries : list bool)
| IPreload (i : nat) (ok : bool)
| IElement (ok : bool)
| ISetSrc (s : string).

(** The [img]'s own [onLoad]/[onError], unless the rest props replaced
    the handler. *)
Definition elementHandler (ok : bool) : string := if ok then "onLoad" else "onError".

Inductive image_step : ImageState -> ImageEvent -> ImageState -> Prop :=
| is_deliver s es :
    observed (ihook s) = true ->
    image_step s (IDeliver es) (commitImage (with_hook s (observerCallback es (ihook s))))
| is_preload s i u ok :
    pending s !! i = Some u ->
    image_step s (IPreload i ok) (commitImage (settle ok (drop_pending i s)))
| is_element s ok :
    hasLoaded (hstate (ihook s)) = true -> imageError s = false ->
    image_step s (IElement ok)
      (commitImage (if bool_decide (elementHandler ok ∈ map fst props) then s else settle ok s))
| is_set_src s s' : image_step s (ISetSrc s') (commitImage (set_src s' s)).

#[export] Instance image_step_inst : Step ImageState ImageEvent := image_step.
End Image.

(** ** The visibility effects *)

(** [useEffect(() => { if (isVisible && f) f(); }, [isVisible, f])]:
    the dependencies of the last run and the calls made, by the
    function's identity. *)
Definition visibleEffect (vis : bool) (f : option nat) (last : option (bool * option nat)) (calls : list nat)
  : option (bool * option nat) * list nat :=
  if bool_decide (last = Some (vis, f)) then (last, calls)
  else (Some (vis, f), match f with Some g => if vis then (calls ++ [g])%list else calls | None => calls end).

(** ** [LazyLoadWithPrefetch] (lines 259-288) *)

(** Its options: [threshold = 0.3], [rootMargin = '200px'] and
    [triggerOnce: false]. *)
Definition prefetchOptions (thr : option Q) (rm : option string) : LazyLoadOptions :=
  {| threshold := Some (default (3 # 10) thr); rootMargin := Some (default "200px" rm); triggerOnce := Some false |}.

Record PrefetchState := {
  phook : Hook;
  prefetchFunction : option nat;
  peffect : option (bool * option nat);
  calls : list nat
}.

Section Prefetch.
Variables (thr : option Q) (rm : option string).

(** The effect phase: the hook's effect on the wrapper [div], which is
    always rendered with the ref, then the prefetch effect. *)
Definition commitPrefetch (s : PrefetchState) : PrefetchState :=
  let h := commitHook true (resolve (prefetchOptions thr rm)) (phook s) in
  let '(last, cs) := visibleEffect (isVisible (hstate h)) (prefetchFunction s) (peffect s) (calls s) in
  {| phook := h; prefetchFunction := prefetchFunction s; peffect := last; calls := cs |}.

Definition mountPrefetch (f : option nat) : PrefetchState :=
  commitPrefetch {| phook := initialHook; prefetchFunction := f; peffect := None; calls := [] |}.

Inductive PrefetchEvent :=
| PDeliver (entries : list bool)
| PSetFunction (f : option nat).

Inductive prefetch_step : PrefetchState -> PrefetchEvent -> PrefetchState -> Prop :=
| ps_deliver s es :
    observed (phook s) = true ->
    prefetch_step s (PDeliver es)
      (commitPrefetch {| phook := observerCallback es (phook s); prefetchFunction := prefetchFunction s;
                         peffect := peffect s; calls := calls s |})
| ps_set s f :
    prefetch_step s (PSetFunction f)
      (commitPrefetch {| phook := phook s; prefetchFunction := f; peffect := peffect s; calls := calls s |}).

#[export] Instance prefetch_step_inst : Step PrefetchState PrefetchEvent := prefetch_step.

(** The render: [<div ref={elementRef} {...props}>{children}</div>]. *)
Definition renderPrefetch (props : list (string * string)) (children : node) : node :=
  Elem "div" (spread [("ref", "elementRef")] props) [children].
End Prefetch.

(** ** [LazyProductCard] (lines 156-197) *)

Definition cardOptions : LazyLoadOptions :=
  {| threshold := Some (1 # 10); rootMargin := Some "200px"; triggerOnce := None |}.

(** Why a render throws: reading a property of [null] or [undefined],
    or an object given as a child. *)
Inductive RenderError := ReadError (e : Js.TypeError) | InvalidChild.

Definition read {A} (r : result Js.TypeError A) : result RenderError A :=
  match r with Ok a => Ok a | Err e => Err (ReadError e) end.

(** What React renders for a value given as a child: nothing for
    [undefined], [null] and booleans, its text for a number or a string,
    its elements for an array; an object throws. *)
Fixpoint child_nodes (v : jvalue) : result RenderError (list node) :=
  match v with
  | JNull | JBool _ => Ok []
  | JNum n => Ok [Text (string_of_Z n)]
  | JStr s => Ok [Text s]
  | JArr items =>
      (fix go (l : list jvalue) : result RenderError (list node) :=
         match l with
         | [] => Ok []
         | x :: l' => a ← child_nodes x; b ← go l'; Ok (a ++ b)%list
         end) items
  | JObj _ => Err InvalidChild
  end.

Definition child_opt (v : option jvalue) : result RenderError (list node) :=
  match v with Some x => child_nodes x | None => Ok [] end.

Record CardState := { chook : Hook; onLoad : option nat; ceffect : option (bool * option nat); onLoadCalls : list nat }.

Definition commitCard (s : CardState) : CardState :=
  let h := commitHook true (resolve cardOptions) (chook s) in
  let '(last, cs) := visibleEffect (isVisible (hstate h)) (onLoad s) (ceffect s) (onLoadCalls s) in
  {| chook := h; onLoad := onLoad s; ceffect := last; onLoadCalls := cs |}.

(** The render of the card for [product] once seen: a [LazyImage] of
    [product.image?.src || '/placeholder.jpg'], the name and the price. *)
Definition renderCard (product : option jvalue) (props : list (string * string)) (s : CardState)
  : result RenderError node :=
  if negb (hasLoaded (hstate (chook s))) then
    Ok (Elem "div" [("ref", "elementRef"); ("className", "animate-pulse bg-gray-200 rounded-lg h-64")] [])
  else
    img ← read (Js.get product "image" ≫= fun i => Js.chain i "src");
    name ← read (Js.get product "name");
    price ← read (Js.get product "price");
    title ← child_opt name;
    Ok (Elem "div" (spread [("ref", "elementRef"); ("className", "product-card")] props)
          [Elem "LazyImage" [("src", if truthy_opt img then Js.to_string_opt img else "/placeholder.jpg");
                             ("alt", Js.to_string_opt name);
                             ("className", "w-full h-48 object-cover rounded-lg")] [];
           Elem "div" [("className", "p-4")]
             [Elem "h3" [("className", "font-semibold text-lg")] title;
              Elem "p" [("className", "text-gray-600")] [Text ("$" ++ Js.to_string_opt price)%string]]]).

(** ** [LazyGrid] (lines 202-254) *)

Definition gridClass (className : string) : string :=
  (className ++ " grid grid-cols-1 md:grid-cols-2 lg:grid-cols-3 gap-4")%string.

(** [item.id || index], as the key React compares. *)
Definition itemKey (item : jvalue) (index : Z) : result RenderError string :=
  id ← read (Js.get (Some item) "id");
  Ok (if truthy_opt id then Js.to_string_opt id else string_of_Z index).

Fixpoint gridItems (renderItem : jvalue -> Z -> node) (items : list jvalue) (index : Z)
  : result RenderError (list node) :=
  match items with
  | [] => Ok []
  | item :: rest =>
      k ← itemKey item index;
      tl ← gridItems renderItem rest (index + 1);
      Ok (Elem "div" [("key", k)] [renderItem item index] :: tl)
  end.

(** The render: six skeleton cells until the grid has been seen, then
    one keyed cell per item. *)
Definition renderGrid (renderItem : jvalue -> Z -> node) (items : list jvalue) (className : string)
    (props : list (string * string)) (h : Hook) : result RenderError node :=
  if negb (hasLoaded (hstate h)) then
    Ok (Elem "div" [("ref", "elementRef"); ("className", gridClass className)]
          (map (fun i => Elem "div" [("key", string_of_Z (Z.of_nat i));
                                     ("className", "animate-pulse bg-gray-200 rounded-lg h-64")] [])
               (seq 0 6)))
  else
    cells ← gridItems renderItem items 0;
    Ok (Elem "div" (spread [("ref", "elementRef"); ("className", gridClass className)] props) cells).

(** ** [LazyComponent] (lines 79-95) *)

(** Each render calls [React.lazy(component)] afresh: [n] numbers the
    lazy types created so far, and the render returns the next one. *)
Definition renderLazyComponent (fallback : option node) (props : list (string * string)) (n : nat) : node * nat :=
  (Suspense (or_node fallback (Elem "div" [("className", "animate-pulse bg-gray-200 rounded h-32")] []))
            (Elem ("React.lazy#" ++ string_of_Z (Z.of_nat n)) props []), S n).

End LazyLoader.

(** ** Theorems *)

Module LazyTheorems.
Import LazyLoader.

(** *** The hook *)

Lemma commitHook_hstate el d h : hstate (commitHook el d h) = hstate h.
Proof. unfold commitHook. by repeat case_match. Qed.

Lemma commitHook_ran el d h : ran (commitHook el d h) = Some d \/ commitHook el d h = h.
Proof.
  unfold commitHook. destruct (ran h) as [d'|]; [|by left].
  destruct (deps_eqb d d'); [by right | by left].
Qed.

(** The shape every entry keeps: a visible element has been seen, and
    [isLoading] is [hasLoaded]. *)
Definition lazy_inv (st : LazyLoadState) : Prop :=
  (isVisible st = true -> hasLoaded st = true) /\ isLoading st = hasLoaded st.

Lemma onEntry_inv t h e : lazy_inv (hstate h) -> lazy_inv (hstate (onEntry t h e)).
Proof. unfold onEntry, lazy_inv. intros [Hv Hl]. destruct e, t; simpl; split; auto; discriminate. Qed.

Lemma observerCallback_inv es h : lazy_inv (hstate h) -> lazy_inv (hstate (observerCallback es h)).
Proof.
  unfold observerCallback. destruct (ran h) as [d|]; [|done].
  revert h. induction es as [|e es IH]; intros h H; [done|]. simpl. by apply IH, onEntry_inv.
Qed.

Lemma onEntry_hasLoaded t h e : hasLoaded (hstate h) = true -> hasLoaded (hstate (onEntry t h e)) = true.
Proof. unfold onEntry. destruct e, t; simpl; auto. Qed.

Lemma observerCallback_hasLoaded es h :
  hasLoaded (hstate h) = true -> hasLoaded (hstate (observerCallback es h)) = true.
Proof.
  unfold observerCallback. destruct (ran h) as [d|]; [|done].
  revert h. induction es as [|e es IH]; intros h H; [done|]. simpl. by apply IH, onEntry_hasLoaded.
Qed.

#[export] Hint Resolve onEntry_inv observerCallback_inv onEntry_hasLoaded observerCallback_hasLoaded : commerce.

(** C26. The hook's state machine: in every state reachable from the
    first render, whatever the browser delivers and however the options
    change, a visible element has been loaded, and [isLoading] equals
    [hasLoaded]: it becomes [true] with the first intersection and is
    never reset, so it never reports a load in progress as such. *)
Theorem reachable_lazy_state es h :
  initialHook =[ es ]=> h ->
  (isVisible (hstate h) = true -> hasLoaded (hstate h) = true) /\ isLoading (hstate h) = hasLoaded (hstate h).
Proof.
  intros Hs. apply (steps_invariant hook_step (fun h => lazy_inv (hstate h))) with initialHook es;
    [| exact Hs | split; auto].
  intros h1 l h2 H Hst. destruct Hst; simpl.
  - by rewrite commitHook_hstate.
  - by apply observerCallback_inv.
  - done.
Qed.

(** *** [LazyImage] *)

Section ImageTheorems.
Variables (alt className : string) (fallback : option node) (props : list (string * string)).

Lemma commitImage_fields s :
  hstate (ihook (commitImage s)) = hstate (ihook s) /\ imageError (commitImage s) = imageError s /\
  imageLoaded (commitImage s) = imageLoaded s /\ src (commitImage s) = src s.
Proof. unfold commitImage, imageEffect. case_bool_decide; simpl; by rewrite commitHook_hstate. Qed.

(** Seen and failed. *)
Definition failed_seen (s : ImageState) : Prop := hasLoaded (hstate (ihook s)) = true /\ imageError s = true.

Lemma failed_seen_step s l s' : failed_seen s -> image_step props s l s' -> failed_seen s'.
Proof.
  intros [Hl He] Hst. unfold failed_seen.
  destruct Hst as [s es _|s i u ok _|s ok _ _|s s0];
    rewrite (proj1 (commitImage_fields _)), (proj1 (proj2 (commitImage_fields _))); simpl.
  - split; [by apply observerCallback_hasLoaded | done].
  - by rewrite Hl, He.
  - case_bool_decide; simpl; by rewrite ?Hl, ?He.
  - done.
Qed.

(** C27. A failed picture stays failed: once [LazyImage] has shown its
    failure box, no later event (intersections, preloads or element
    events completing, or a new [src] from the parent) shows a picture
    again: [imageError] is never reset, not even when [src] changes, so
    the component renders ["Failed to load"] for every later source. *)
Theorem image_failure_sticky s es s' :
  hasLoaded (hstate (ihook s)) = true -> imageError s = true ->
  steps (image_step props) s es s' -> renderImage alt className fallback props s' = failedView className.
Proof.
  intros Hl He Hs.
  destruct (steps_invariant (image_step props) failed_seen failed_seen_step s es s' Hs (conj Hl He)) as [Hl' He'].
  unfold renderImage. by rewrite Hl', He'.
Qed.

(** A preload of an old [src] marks the new one as loaded: the
    preload effect's handlers set [imageLoaded] whatever [src] is now,
    so when the parent changes [src] from ["a.jpg"] to ["b.jpg"] while
    the preload of ["a.jpg"] is in flight, its [onload] makes the
    component show ["b.jpg"] at full opacity while the preload of
    ["b.jpg"] has not finished. *)
Theorem image_stale_preload :
  exists s', steps (image_step props) (mountImage "a.jpg") [IDeliver [true]; ISetSrc "b.jpg"; IPreload 0 true] s' /\
    src s' = "b.jpg" /\ imageLoaded s' = true /\ pending s' = ["b.jpg"].
Proof.
  eexists. split.
  - eapply steps_cons; [apply is_deliver; reflexivity|].
    eapply steps_cons; [apply is_set_src|].
    eapply steps_cons; [eapply is_preload; vm_compute; reflexivity|]. apply steps_nil.
  - vm_compute. auto.
Qed.
End ImageTheorems.

(** *** [LazyLoadWithPrefetch] *)

Lemma deps_eqb_refl d : deps_eqb d d = true.
Proof.
  unfold deps_eqb. rewrite Qeq_bool_refl, String.eqb_refl. by destruct (d_triggerOnce d).
Qed.

Lemma last_cons_default {A} (e v : A) b : List.last (e :: b) v = List.last b e.
Proof.
  revert e v. induction b as [|x b IH]; intros e v; [done|].
  change (List.last (e :: x :: b) v) with (List.last (x :: b) v). by rewrite !IH.
Qed.

(** The batches a [triggerOnce: false] observer delivers leave the
    element observed and make it visible as their last entry says. *)
Lemma fold_onEntry_false b h :
  observed (fold_left (onEntry false) b h) = observed h /\ ran (fold_left (onEntry false) b h) = ran h /\
  isVisible (hstate (fold_left (onEntry false) b h)) = List.last b (isVisible (hstate h)).
Proof.
  revert h. induction b as [|e b IH]; intros h; [done|]. simpl fold_left.
  rewrite last_cons_default. destruct (IH (onEntry false h e)) as (-> & -> & ->).
  by destruct e.
Qed.

(** The number of batches after which the element has entered the
    view: its visibility goes from [false] to [true]. *)
Fixpoint entries_into_view (v : bool) (bs : list (list bool)) : nat :=
  match bs with
  | [] => 0
  | b :: bs' => let v' := List.last b v in (if negb v && v' then 1 else 0) + entries_into_view v' bs'
  end.

Section PrefetchTheorems.
Variables (thr : option Q) (rm : option string) (f : nat).

Definition prefetch_inv (s : PrefetchState) : Prop :=
  prefetchFunction s = Some f /\ observed (phook s) = true /\
  ran (phook s) = Some (resolve (prefetchOptions thr rm)) /\
  peffect s = Some (isVisible (hstate (phook s)), Some f).

Definition deliverPrefetch (b : list bool) (s : PrefetchState) : PrefetchState :=
  commitPrefetch thr rm {| phook := observerCallback b (phook s); prefetchFunction := prefetchFunction s;
                           peffect := peffect s; calls := calls s |}.

(** One batch: the element is visible as its last entry says, and the
    function is called when the batch brought it into view. *)
Lemma prefetch_deliver_one s b :
  prefetch_inv s ->
  prefetch_inv (deliverPrefetch b s) /\
  isVisible (hstate (phook (deliverPrefetch b s))) = List.last b (isVisible (hstate (phook s))) /\
  calls (deliverPrefetch b s) =
    (calls s ++ if negb (isVisible (hstate (phook s))) && List.last b (isVisible (hstate (phook s)))
                then [f] else [])%list.
Proof.
  intros (Hf & Ho & Hr & He).
  destruct (fold_onEntry_false b (phook s)) as (Ho1 & Hr1 & Hv1).
  unfold deliverPrefetch, commitPrefetch, observerCallback. cbn [phook prefetchFunction peffect calls].
  rewrite Hr. change (d_triggerOnce (resolve (prefetchOptions thr rm))) with false.
  set (h1 := fold_left (onEntry false) b (phook s)) in *.
  assert (Hc : commitHook true (resolve (prefetchOptions thr rm)) h1 = h1).
  { unfold commitHook. by rewrite Hr1, Hr, deps_eqb_refl. }
  rewrite Hc, Hf, He, Hv1. unfold visibleEffect.
  destruct (isVisible (hstate (phook s))), (List.last b _);
    first [rewrite bool_decide_eq_true_2 by done | rewrite bool_decide_eq_false_2 by congruence];
    unfold prefetch_inv; simpl; rewrite ?Hv1, ?app_nil_r; repeat split; congruence.
Qed.

Lemma prefetch_deliver_run s bs s' :
  prefetch_inv s -> steps (prefetch_step thr rm) s (map PDeliver bs) s' ->
  calls s' = (calls s ++ repeat f (entries_into_view (isVisible (hstate (phook s))) bs))%list.
Proof.
  revert s. induction bs as [|b bs IH]; intros s Hi Hs.
  { inversion Hs; subst. by rewrite app_nil_r. }
  inversion Hs as [|? ? s1 ? ? Hst Hs']; subst. inversion Hst; subst.
  destruct (prefetch_deliver_one s b Hi) as (Hi1 & Hv1 & Hc1).
  rewrite (IH _ Hi1 Hs'), Hc1, Hv1, <- app_assoc. simpl.
  destruct (isVisible (hstate (phook s))), (List.last b _); reflexivity.
Qed.
End PrefetchTheorems.

(** Prefetch on entering the view: for a [LazyLoadWithPrefetch]
    whose parent keeps the same [prefetchFunction], whatever batches of
    intersection entries the browser delivers, the function is called
    exactly once each time a batch brings the element into view from
    outside it, and never otherwise. *)
Theorem prefetch_once_per_entry thr rm f bs s :
  steps (prefetch_step thr rm) (mountPrefetch thr rm (Some f)) (map PDeliver bs) s ->
  calls s = repeat f (entries_into_view false bs).
Proof.
  intros Hs. refine (prefetch_deliver_run thr rm f _ bs s _ Hs).
  unfold prefetch_inv, mountPrefetch, commitPrefetch. simpl. by repeat split.
Qed.

(** *** [LazyGrid] *)

(** The value of a prop of an element. *)
Fixpoint prop_value (k : string) (ps : list (string * string)) : option string :=
  match ps with [] => None | (k', v) :: ps' => if String.eqb k k' then Some v else prop_value k ps' end.

Definition cell_key (c : node) : option string :=
  match c with Elem _ ps _ => prop_value "key" ps | _ => None end.

(** The [k]-th cell carries the key of the [k]-th item. *)
Lemma gridItems_key r items i cells k item :
  gridItems r items i = Ok cells -> items !! k = Some item ->
  exists key, itemKey item (i + Z.of_nat k) = Ok key /\ cell_key <$> cells !! k = Some (Some key).
Proof.
  revert i cells k. induction items as [|it items IH]; intros i cells k Hg Hk; [done|].
  simpl in Hg. destruct (itemKey it i) as [key|] eqn:Hkey; [|done]. simpl in Hg.
  destruct (gridItems r items (i + 1)) as [tl|] eqn:Htl; [|done]. injection Hg as <-.
  destruct k as [|k]; simpl in Hk.
  - injection Hk as <-. exists key. rewrite Z.add_0_r. by split.
  - destruct (IH _ _ _ Htl Hk) as (key' & Hk' & Hc). exists key'.
    split; [by rewrite <- Hk'; f_equal; lia | done].
Qed.

Lemma itemKey_falsy item fs index :
  item = JObj fs -> truthy_opt (Js.assoc "id" fs) = false -> itemKey item index = Ok (string_of_Z index).
Proof. intros -> Hf. unfold itemKey, read, Js.get. simpl. by rewrite Hf. Qed.

Lemma itemKey_id item fs n index :
  item = JObj fs -> Js.assoc "id" fs = Some (JNum n) -> n <> 0 -> itemKey item index = Ok (string_of_Z n).
Proof.
  intros -> Hid Hn. unfold itemKey, read, Js.get. simpl. rewrite Hid. simpl.
  by rewrite (proj2 (Z.eqb_neq n 0) Hn).
Qed.

(** Grid keys collide: [LazyGrid] keys a cell by [item.id || index],
    so an item without an id (or with a falsy one) at position [n] gets
    the key of an item whose id is [n]; once the grid has been seen,
    every render has two cells with the same key, and React matches
    them to each other's state. *)
Theorem grid_keys_collide r items cells n m fs gs :
  gridItems r items 0 = Ok cells ->
  items !! n = Some (JObj fs) -> truthy_opt (Js.assoc "id" fs) = false ->
  items !! m = Some (JObj gs) -> Js.assoc "id" gs = Some (JNum (Z.of_nat n)) -> n <> 0%nat ->
  ~ NoDup (cell_key <$> cells).
Proof.
  intros Hg Hn Hfn Hm Hid Hn0 Hnd.
  destruct (gridItems_key r items 0 cells n _ Hg Hn) as (k1 & Hk1 & Hc1).
  destruct (gridItems_key r items 0 cells m _ Hg Hm) as (k2 & Hk2 & Hc2).
  rewrite (itemKey_falsy _ fs _ eq_refl Hfn) in Hk1. rewrite (itemKey_id _ gs _ _ eq_refl Hid) in Hk2 by lia.
  injection Hk1 as <-. injection Hk2 as <-.
  assert (n <> m) as Hnm by (intros <-; rewrite Hn in Hm; injection Hm as ->; rewrite Hid in Hfn; simpl in Hfn;
                             destruct (Z.of_nat n =? 0) eqn:E; [apply Z.eqb_eq in E; lia | done]).
  rewrite <- list_lookup_fmap in Hc1, Hc2. simpl in Hc1, Hc2.
  apply Hnm. eapply NoDup_lookup; [exact Hnd | exact Hc1 | by rewrite Hc2].
Qed.

(** ** Witnesses *)

Lemma reachable_lazy_state_witness :
  let h := observerCallback [true] (commitHook true (resolve imageOptions) initialHook) in
  (isVisible (hstate h) = true -> hasLoaded (hstate h) = true) /\ isLoading (hstate h) = hasLoaded (hstate h).
Proof.
  apply (reachable_lazy_state [Commit true imageOptions; Deliver [true]]).
  eapply steps_cons; [apply hs_commit|]. eapply steps_cons; [apply hs_deliver; reflexivity|]. apply steps_nil.
Defined.

Definition wfailed : ImageState :=
  {| ihook := {| hstate := {| isVisible := true; hasLoaded := true; isLoading := true |}; observed := false;
                 ran := Some (resolve imageOptions) |};
     src := "a.jpg"; imageLoaded := false; imageError := true; ieffect := None; pending := [] |}.

Lemma image_failure_sticky_witness :
  renderImage "" "" None [] (commitImage (set_src "b.jpg" wfailed)) = failedView "".
Proof.
  apply (image_failure_sticky "" "" None [] wfailed [ISetSrc "b.jpg"]); [reflexivity | reflexivity |].
  eapply steps_cons; [apply is_set_src|]. apply steps_nil.
Defined.

Lemma prefetch_once_per_entry_witness :
  calls (deliverPrefetch None None [true] (deliverPrefetch None None [false]
          (deliverPrefetch None None [true] (mountPrefetch None None (Some 7%nat))))) =
    repeat 7%nat (entries_into_view false [[true]; [false]; [true]]).
Proof.
  apply (prefetch_once_per_entry None None 7 [[true]; [false]; [true]]).
  do 3 (eapply steps_cons; [apply ps_deliver; reflexivity|]). apply steps_nil.
Defined.

Definition wrender (_ : jvalue) (i : Z) : node := Slot (Z.to_nat i).
Definition witems : list jvalue := [JObj [("id", JNum 1)]; JObj [("name", JStr "b")]].

Lemma grid_keys_collide_witness :
  ~ NoDup (cell_key <$> [Elem "div" [("key", "1")] [Slot 0]; Elem "div" [("key", "1")] [Slot 1]]).
Proof.
  apply (grid_keys_collide wrender witems _ 1 0 [("name", JStr "b")] [("id", JNum 1)]);
    [reflexivity | reflexivity | reflexivity | reflexivity | reflexivity | lia].
Defined.

End LazyTheorems.
