(* ===== verification/ProductOptions.v ===== *)
(** * Variant selection: [src/components/product/woocommerce-product-context.tsx]
    and [src/components/product/woocommerce-variant-selector.tsx]

  [WooCommerceProductProvider] holds two React state cells, the selected
  options (attribute name to option) and the selected variation, and
  hands them with their setters to [useWooCommerceProduct].
  [WooCommerceVariantSelector] renders a button per option of each
  variation attribute, a price, a stock badge and the variation's
  picture; two effects keep the selection consistent: the first fills
  the options with each attribute's first option when none is selected,
  the second looks up the variation whose attributes all agree with the
  selection and stores it in the component's [displayVariation] and in
  the context.

  The products are the TypeScript interfaces of [lib/woocommerce/types]
  restricted to the fields the component reads.  A React state update
  with an object always makes a new object, and effect dependencies are
  compared by identity: the identities of [selectedOptions] and of the
  product's two arrays are the tokens [nat] ([options_id],
  [attributes_id], [variations_id]).  The setters of [useState] are
  stable, so the dependencies that name them never change.  Attribute
  names are ordinary property names (not [__proto__]). *)

From S2P Require Import Prelude Json.
Open Scope Z_scope.
Open Scope commerce_scope.

Module ProductContext.

Record Image := { img_src : string; img_alt : string }.

Record VariationAttribute := { va_id : Z; va_name : string; va_option : string }.

(** [WooCommerceVariation] (types.ts lines 182-229), the fields the
    selector reads. *)
Record WooCommerceVariation := {
  v_id : Z; v_price : string; v_regular_price : string; v_sale_price : string;
  v_on_sale : bool; v_stock_status : string; v_image : option Image;
  v_attributes : list VariationAttribute
}.

(** The provider's two [useState] cells (context.tsx lines 16-17); a
    new [selectedOptions] object is a new [options_id]. *)
Record Provider := {
  selectedVariation : option WooCommerceVariation;
  selectedOptions : gmap string string;
  options_id : nat
}.

Definition initialProvider : Provider :=
  {| selectedVariation := None; selectedOptions := ∅; options_id := 0 |}.

(** [setSelectedOptions] (an object, or an updater of the previous one) *)
Definition setSelectedOptions (f : gmap string string -> gmap string string) (p : Provider) : Provider :=
  {| selectedVariation := selectedVariation p; selectedOptions := f (selectedOptions p);
     options_id := S (options_id p) |}.

Definition setSelectedVariation (v : option WooCommerceVariation) (p : Provider) : Provider :=
  {| selectedVariation := v; selectedOptions := selectedOptions p; options_id := options_id p |}.

Definition contextError : string :=
  "useWooCommerceProduct must be used within a WooCommerceProductProvider".

(** [useWooCommerceProduct()] (lines 34-40): the nearest provider, or the
    thrown error. *)
Definition useWooCommerceProduct (ctx : option Provider) : result string Provider :=
  match ctx with Some p => Ok p | None => Err contextError end.

End ProductContext.

Module VariantSelector.
Import ProductContext.

(** One of [product.attributes] (types.ts lines 27-32); the component
    guards [attr.options] as if the API could omit it. *)
Record ProductAttribute := {
  pa_id : Z; pa_name : string; pa_options : option (list string); pa_variation : option bool
}.

(** [WooCommerceProduct] (types.ts lines 3-47), the fields the selector
    reads, with the identities of its two arrays. *)
Record WooCommerceProduct := {
  p_price : string; p_regular_price : string; p_sale_price : string; p_on_sale : bool;
  p_stock_status : string;
  attributes : option (list ProductAttribute); attributes_id : nat;
  productVariations : option (list WooCommerceVariation); variations_id : nat
}.

(** [SelectedVariation] (lines 8-15); the component only ever stores a
    found variation in it. *)
Record SelectedVariation := {
  variation : WooCommerceVariation; price : string; regularPrice : string;
  salePrice : option string; stockStatus : string; image : option Image
}.

(** A string is truthy when it is not empty. *)
Definition filled (s : string) : bool := negb (String.eqb s "").

(** [product.attributes?.filter(attr => attr.variation) || []] (lines 26-29) *)
Definition variationAttributes (p : WooCommerceProduct) : list ProductAttribute :=
  match attributes p with
  | Some l => List.filter (fun a => default false (pa_variation a)) l
  | None => []
  end.

(** The early return of line 32 ([[]] is a truthy [productVariations]). *)
Definition returnsNull (p : WooCommerceProduct) : bool :=
  match variationAttributes p, productVariations p with
  | _ :: _, Some _ => false
  | _, _ => true
  end.

(** The hooks a render calls: [useContext], [useState] and [useMemo]
    before the early return, [useMemo] and two [useEffect]s after it. *)
Definition hooksOfRender (p : WooCommerceProduct) : nat := if returnsNull p then 3 else 6.

(** [initialOptions] of the first effect (lines 42-47). *)
Definition initialOptions (attrs : list ProductAttribute) : gmap string string :=
  fold_left (fun m a => match pa_options a with Some (o :: _) => <[pa_name a := o]> m | _ => m end) attrs ∅.

(** The predicate of [productVariations.find] (lines 55-60). *)
Definition matchesSelection (sel : gmap string string) (v : WooCommerceVariation) : bool :=
  forallb (fun va => bool_decide (sel !! va_name va = Some (va_option va))) (v_attributes v).

Definition findMatchingVariation (sel : gmap string string) (vs : list WooCommerceVariation)
  : option WooCommerceVariation := List.find (matchesSelection sel) vs.

(** [selectedVariationData] (lines 63-75) *)
Definition toSelected (m : WooCommerceVariation) : SelectedVariation :=
  {| variation := m;
     price := if v_on_sale m && filled (v_sale_price m) then v_sale_price m else v_price m;
     regularPrice := v_regular_price m;
     salePrice := if v_on_sale m then Some (v_sale_price m) else None;
     stockStatus := v_stock_status m;
     image := v_image m |}.

(** The component's instance: its [displayVariation] cell, the hooks of
    its last render, the dependencies of each effect's last run and the
    product it last rendered. *)
Record Selector := {
  displayVariation : option SelectedVariation;
  hookCount : option nat;
  effect1Deps : option (nat * nat);
  effect2Deps : option (nat * nat);
  rendered : option WooCommerceProduct
}.

Definition initialSelector : Selector :=
  {| displayVariation := None; hookCount := None; effect1Deps := None; effect2Deps := None;
     rendered := None |}.

Inductive RenderError :=
| NoProvider (msg : string)
| HooksMismatch (before now : nat).

(** An effect runs after its first render and whenever a dependency is
    not [Object.is] its value of the last run. *)
Definition depsChanged (old : option (nat * nat)) (d : nat * nat) : bool :=
  match old with Some d' => negb (bool_decide (d' = d)) | None => true end.

(** React throws when a render calls another number of hooks than the
    one before. *)
Definition hooksAgree (old : option nat) (n : nat) : bool :=
  match old with Some m => bool_decide (m = n) | None => true end.

(** A render of [WooCommerceVariantSelector] and its effect phase
    (lines 17-83): the provider and the instance after it, and whether an
    effect called a setter, after which React renders again.  Both
    effects see the values of the render: the second reads
    [selectedOptions] as it was before the first replaced it.  The
    guards [variationAttributes.length > 0] and [product.productVariations]
    of the effects hold past the early return. *)
Definition commit (ctx : option Provider) (p : WooCommerceProduct) (s : Selector)
  : result RenderError (Provider * Selector * bool) :=
  match useWooCommerceProduct ctx with
  | Err msg => Err (NoProvider msg)
  | Ok c =>
      let n := hooksOfRender p in
      if negb (hooksAgree (hookCount s) n) then Err (HooksMismatch (default 0%nat (hookCount s)) n) else
      match variationAttributes p, productVariations p with
      | (_ :: _) as attrs, Some vs =>
          let keys := size (selectedOptions c) in
          let d1 := (attributes_id p, keys) in
          let d2 := (options_id c, variations_id p) in
          let set1 := depsChanged (effect1Deps s) d1 && bool_decide (keys = 0%nat) in
          let c1 := if set1 then setSelectedOptions (fun _ => initialOptions attrs) c else c in
          let set2 := depsChanged (effect2Deps s) d2 && bool_decide (0 < keys)%nat in
          let m := findMatchingVariation (selectedOptions c) vs in
          Ok (if set2 then setSelectedVariation m c1 else c1,
              {| displayVariation := if set2 then toSelected <$> m else displayVariation s;
                 hookCount := Some n; effect1Deps := Some d1; effect2Deps := Some d2;
                 rendered := Some p |},
              set1 || set2)
      | _, _ =>
          Ok (c, {| displayVariation := displayVariation s; hookCount := Some n;
                    effect1Deps := effect1Deps s; effect2Deps := effect2Deps s; rendered := Some p |},
              false)
      end
  end.

(** [handleOptionChange] (lines 85-90) *)
Definition handleOptionChange (attributeName optionValue : string) : Provider -> Provider :=
  setSelectedOptions (fun prev => <[attributeName := optionValue]> prev).

(** [isOptionAvailable] (lines 92-100): some variation's first attribute
    of that name has that option. *)
Definition isOptionAvailable (p : WooCommerceProduct) (attributeName optionValue : string) : bool :=
  match productVariations p with
  | None => true
  | Some vs =>
      existsb (fun v =>
        match List.find (fun a => String.eqb (va_name a) attributeName) (v_attributes v) with
        | Some a => String.eqb (va_option a) optionValue
        | None => false
        end) vs
  end.

(** [getCurrentPrice], [getCurrentRegularPrice], [getCurrentSalePrice]
    and [getCurrentStockStatus] (lines 102-128) *)
Definition getCurrentPrice (p : WooCommerceProduct) (d : option SelectedVariation) : string :=
  match d with
  | Some x => price x
  | None => if p_on_sale p && filled (p_sale_price p) then p_sale_price p else p_price p
  end.

Definition getCurrentRegularPrice (p : WooCommerceProduct) (d : option SelectedVariation) : string :=
  match d with Some x => regularPrice x | None => p_regular_price p end.

Definition getCurrentSalePrice (p : WooCommerceProduct) (d : option SelectedVariation) : option string :=
  match d with Some x => salePrice x | None => if p_on_sale p then Some (p_sale_price p) else None end.

Definition getCurrentStockStatus (p : WooCommerceProduct) (d : option SelectedVariation) : string :=
  match d with Some x => stockStatus x | None => p_stock_status p end.

Record OptionButton := { ob_option : string; ob_selected : bool; ob_disabled : bool; ob_title : string }.

(** What the markup shows (lines 130-218): per variation attribute its
    [id], its name and its buttons; the price; the struck-through
    regular price; the stock badge; the variation's picture.  The two
    branches of the price display are the same markup. *)
Record View := {
  selectors : list (Z * string * list OptionButton);
  priceText : string; strikeText : option string;
  inStock : bool; stockLabel : string; picture : option Image
}.

Definition optionButton (p : WooCommerceProduct) (sel : gmap string string) (name o : string) : OptionButton :=
  let avail := isOptionAvailable p name o in
  {| ob_option := o; ob_selected := bool_decide (sel !! name = Some o); ob_disabled := negb avail;
     ob_title := if avail then o else (o ++ " - Not Available")%string |}.

Definition renderSelector (p : WooCommerceProduct) (d : option SelectedVariation) (sel : gmap string string)
  : option View :=
  if returnsNull p then None else
  let st := getCurrentStockStatus p d in
  Some {| selectors := map (fun a => (pa_id a, pa_name a,
                                      match pa_options a with
                                      | Some os => map (optionButton p sel (pa_name a)) os
                                      | None => []
                                      end)) (variationAttributes p);
          priceText := ("$" ++ getCurrentPrice p d)%string;
          strikeText := match getCurrentSalePrice p d with
                        | Some sp => if filled sp then Some ("$" ++ getCurrentRegularPrice p d)%string else None
                        | None => None
                        end;
          inStock := String.eqb st "instock";
          stockLabel := if String.eqb st "instock" then "In Stock" else "Out of Stock";
          picture := d ≫= image |}.

(** ** The page: the provider, the selector, the user *)

Record World := { provider : Provider; selector : Selector }.

Definition initialWorld : World := {| provider := initialProvider; selector := initialSelector |}.

(** A button the last render shows and does not disable. *)
Definition clickable (p : WooCommerceProduct) (name opt : string) : bool :=
  negb (returnsNull p) &&
  existsb (fun a => String.eqb (pa_name a) name &&
                    match pa_options a with Some os => bool_decide (opt ∈ os) | None => false end)
          (variationAttributes p) &&
  isOptionAvailable p name opt.

Inductive SelectorEvent :=
| Render (p : WooCommerceProduct)
| Click (name opt : string).

Inductive selector_step : World -> SelectorEvent -> World -> Prop :=
| sel_render w p c s b :
    commit (Some (provider w)) p (selector w) = Ok (c, s, b) ->
    selector_step w (Render p) {| provider := c; selector := s |}
| sel_click w p name opt :
    rendered (selector w) = Some p -> clickable p name opt = true ->
    selector_step w (Click name opt) {| provider := handleOptionChange name opt (provider w); selector := selector w |}.

#[export] Instance selector_step_inst : Step World SelectorEvent := selector_step.

(** The same steps as a function: [None] where React throws or the
    button is not there. *)
Definition selector_next (w : World) (e : SelectorEvent) : option World :=
  match e with
  | Render p =>
      match commit (Some (provider w)) p (selector w) with
      | Ok (c, s, _) => Some {| provider := c; selector := s |}
      | Err _ => None
      end
  | Click name opt =>
      match rendered (selector w) with
      | Some p => if clickable p name opt
                  then Some {| provider := handleOptionChange name opt (provider w); selector := selector w |}
                  else None
      | None => None
      end
  end.

Fixpoint selector_run (w : World) (es : list SelectorEvent) : option World :=
  match es with
  | [] => Some w
  | e :: es' => match selector_next w e with Some w' => selector_run w' es' | None => None end
  end.

(** React renders again while an effect has called a setter. *)
Fixpoint renderLoop (fuel : nat) (p : WooCommerceProduct) (w : World) : result RenderError (World * bool) :=
  match fuel with
  | O => Ok (w, true)
  | S k =>
      match commit (Some (provider w)) p (selector w) with
      | Err e => Err e
      | Ok (c, s, again) =>
          let w' := {| provider := c; selector := s |} in
          if again then renderLoop k p w' else Ok (w', false)
      end
  end.

End VariantSelector.

(** ** Theorems *)

Module VariantTheorems.
Import ProductContext VariantSelector.

Lemma selector_next_spec w e w' : selector_next w e = Some w' <-> selector_step w e w'.
Proof.
  split.
  - destruct e as [p|name opt]; unfold selector_next.
    + destruct (commit (Some (provider w)) p (selector w)) as [[[c s] b]|] eqn:H; [intros Hs; injection Hs as Hs; subst w'; by econstructor|done].
    + destruct (rendered (selector w)) as [p|] eqn:Hp; [|done].
      destruct (clickable p name opt) eqn:Hc; [intros Hs; injection Hs as Hs; subst w'; by econstructor|done].
  - intros [w0 p c s b H | w0 p name opt Hp Hc]; unfold selector_next; [by rewrite H | by rewrite Hp, Hc].
Qed.

Lemma selector_run_steps w es w' : selector_run w es = Some w' -> w =[ es ]=> w'.
Proof.
  revert w. induction es as [|e es IH]; intros w; cbn; [intros [= <-]; constructor|].
  destruct (selector_next w e) as [w1|] eqn:H; [|done]. intros Hr.
  econstructor; [by apply selector_next_spec | by apply IH].
Qed.

Lemma returnsNull_false p :
  returnsNull p = false ->
  exists a attrs vs, variationAttributes p = a :: attrs /\ productVariations p = Some vs.
Proof.
  unfold returnsNull. destruct (variationAttributes p) as [|a attrs], (productVariations p) as [vs|]; try done.
  intros _. eauto.
Qed.

Lemma commit_null c p s :
  returnsNull p = true -> hooksAgree (hookCount s) 3 = true ->
  commit (Some c) p s =
    Ok (c, {| displayVariation := displayVariation s; hookCount := Some 3%nat;
              effect1Deps := effect1Deps s; effect2Deps := effect2Deps s; rendered := Some p |}, false).
Proof.
  unfold commit, hooksOfRender. intros Hn Hh. rewrite Hn, Hh. simpl.
  unfold returnsNull in Hn. by destruct (variationAttributes p), (productVariations p).
Qed.

(** Open the [commit] of a product the selector shows. *)
Ltac open_commit Ha Hv :=
  unfold commit, hooksOfRender, returnsNull; rewrite ?Ha, ?Hv; cbn [useWooCommerceProduct negb].

Lemma depsChanged_same d : depsChanged (Some d) d = false.
Proof. unfold depsChanged. by rewrite bool_decide_eq_true_2. Qed.

Lemma depsChanged_other d d' : d <> d' -> depsChanged (Some d) d' = true.
Proof. intros Hne. unfold depsChanged. by rewrite bool_decide_eq_false_2. Qed.

(** The instance after a render of a product it shows. *)
Definition shownSelector p (m : option SelectedVariation) (k o : nat) : Selector :=
  {| displayVariation := m; hookCount := Some 6%nat; effect1Deps := Some (attributes_id p, k);
     effect2Deps := Some (o, variations_id p); rendered := Some p |}.

Section Shown.
Variables (p : WooCommerceProduct) (a : ProductAttribute) (attrs : list ProductAttribute)
          (vs : list WooCommerceVariation).
Hypothesis Ha : variationAttributes p = a :: attrs.
Hypothesis Hv : productVariations p = Some vs.

Lemma commit_mount :
  commit (Some initialProvider) p initialSelector =
    Ok (setSelectedOptions (fun _ => initialOptions (a :: attrs)) initialProvider,
        shownSelector p None 0 0, true).
Proof. open_commit Ha Hv. reflexivity. Qed.

(** With both effects' dependencies unchanged, no effect runs. *)
Lemma commit_quiet c m :
  commit (Some c) p (shownSelector p m (size (selectedOptions c)) (options_id c)) =
    Ok (c, shownSelector p m (size (selectedOptions c)) (options_id c), false).
Proof.
  open_commit Ha Hv. cbn [shownSelector effect1Deps effect2Deps hookCount].
  rewrite !depsChanged_same. reflexivity.
Qed.

(** A new non-empty [selectedOptions] object: the second effect looks the
    variation up, the first one does nothing. *)
Lemma commit_new_options c m k o :
  o <> options_id c -> (0 < size (selectedOptions c))%nat ->
  commit (Some c) p (shownSelector p m k o) =
    Ok (setSelectedVariation (findMatchingVariation (selectedOptions c) vs) c,
        shownSelector p (toSelected <$> findMatchingVariation (selectedOptions c) vs)
          (size (selectedOptions c)) (options_id c), true).
Proof.
  intros Ho Hk. open_commit Ha Hv. cbn [shownSelector effect1Deps effect2Deps hookCount].
  rewrite (depsChanged_other (o, _)) by congruence.
  rewrite (bool_decide_eq_false_2 (size _ = 0%nat)) by lia.
  rewrite (bool_decide_eq_true_2 (0 < size _)%nat) by lia.
  rewrite andb_false_r. reflexivity.
Qed.

(** The render after the mount: the options object is new; when it is
    empty the second effect finds nothing to look up. *)
Lemma commit_after_mount :
  let c1 := setSelectedOptions (fun _ => initialOptions (a :: attrs)) initialProvider in
  initialOptions (a :: attrs) = ∅ ->
  commit (Some c1) p (shownSelector p None 0 0) = Ok (c1, shownSelector p None 0 1, false).
Proof.
  intros c1 He. subst c1. open_commit Ha Hv. cbn [shownSelector effect1Deps effect2Deps hookCount].
  cbn [selectedOptions options_id setSelectedOptions initialProvider]. rewrite He, map_size_empty.
  rewrite depsChanged_same, depsChanged_other by congruence. reflexivity.
Qed.
End Shown.

(** The invariant of a page: the displayed variation mirrors the
    context's, and the instance is what its last render left: nothing
    before the first render, three hooks after a render that returned
    [null], the shown form otherwise, its second effect last run on an
    options object not newer than the provider's. *)
Definition selector_wf (w : World) : Prop :=
  displayVariation (selector w) = toSelected <$> selectedVariation (provider w) /\
  match rendered (selector w) with
  | None => selector w = initialSelector
  | Some p =>
      if returnsNull p then hookCount (selector w) = Some 3%nat
      else exists k o, selector w = shownSelector p (displayVariation (selector w)) k o /\
                       (o <= options_id (provider w))%nat
  end.

Lemma commit_shown c p a attrs vs s c' s' b :
  variationAttributes p = a :: attrs -> productVariations p = Some vs ->
  commit (Some c) p s = Ok (c', s', b) ->
  s' = shownSelector p (displayVariation s') (size (selectedOptions c)) (options_id c) /\
  (options_id c <= options_id c')%nat /\
  (displayVariation s' = toSelected <$> selectedVariation c' \/
   displayVariation s' = displayVariation s /\ selectedVariation c' = selectedVariation c).
Proof.
  intros Ha Hv H. unfold commit, hooksOfRender, returnsNull in H. rewrite Ha, Hv in H.
  cbn [useWooCommerceProduct negb] in H.
  destruct (hooksAgree _ _); [|discriminate]. cbn in H.
  destruct (depsChanged _ _ && bool_decide (size _ = 0%nat)),
           (depsChanged _ _ && bool_decide (0 < size _)%nat); injection H as <- <- _;
    cbn; (split; [reflexivity | split; [lia | auto]]).
Qed.

Lemma commit_wf w p c s b :
  selector_wf w -> commit (Some (provider w)) p (selector w) = Ok (c, s, b) ->
  selector_wf {| provider := c; selector := s |}.
Proof.
  intros [Hd _] H. unfold selector_wf. cbn [provider selector].
  destruct (returnsNull p) eqn:Hn.
  - destruct (hooksAgree (hookCount (selector w)) 3) eqn:Hh.
    + rewrite commit_null in H by done. injection H as <- <- _. cbn. by rewrite Hn.
    + unfold commit, hooksOfRender in H. by rewrite Hn, Hh in H.
  - destruct (returnsNull_false p Hn) as (a & attrs & vs & Ha & Hv).
    destruct (commit_shown _ _ _ _ _ _ _ _ _ Ha Hv H) as (Hs & Hle & Hdisp).
    rewrite Hs. cbn [shownSelector rendered displayVariation]. rewrite Hn.
    split; [destruct Hdisp as [|[-> ->]]; done | eauto].
Qed.

Lemma click_wf w p name opt :
  selector_wf w -> rendered (selector w) = Some p ->
  selector_wf {| provider := handleOptionChange name opt (provider w); selector := selector w |}.
Proof.
  intros [Hd Hr] Hp. unfold selector_wf in *. cbn [provider selector]. rewrite Hp in Hr |- *.
  split; [done|]. destruct (returnsNull p); [done|].
  destruct Hr as (k & o & Hs & Hle). exists k, o. split; [done | cbn; lia].
Qed.

Lemma reachable_selector_wf es w : initialWorld =[ es ]=> w -> selector_wf w.
Proof.
  intros Hsteps. eapply (steps_invariant selector_step); [|exact Hsteps|by split].
  intros w0 ev w1 Hwf Hst. destruct Hst; [by eapply commit_wf | by eapply click_wf].
Qed.

Lemma wf_hookCount w p :
  selector_wf w -> rendered (selector w) = Some p -> hookCount (selector w) = Some (hooksOfRender p).
Proof.
  intros [_ Hr] Hp. rewrite Hp in Hr. unfold hooksOfRender.
  destruct (returnsNull p); [done|]. by destruct Hr as (k & o & -> & _).
Qed.

(** C30. The effects settle: mounted inside a fresh provider, a selector
    that shows a product stops re-rendering within three renders, with
    every attribute set to its first option, the context's variation the
    first variation that agrees with that selection (none when no
    attribute has an option) and the displayed variation the same one. *)
Theorem mount_settles p a attrs vs :
  variationAttributes p = a :: attrs -> productVariations p = Some vs ->
  exists w, renderLoop 3 p initialWorld = Ok (w, false) /\
    selectedOptions (provider w) = initialOptions (a :: attrs) /\
    selectedVariation (provider w) =
      (if bool_decide (initialOptions (a :: attrs) = ∅) then None
       else findMatchingVariation (initialOptions (a :: attrs)) vs) /\
    displayVariation (selector w) = toSelected <$> selectedVariation (provider w).
Proof.
  intros Ha Hv. cbn [renderLoop provider selector initialWorld].
  rewrite (commit_mount p a attrs vs Ha Hv). cbn [provider selector].
  destruct (decide (initialOptions (a :: attrs) = ∅)) as [He|Hne].
  - rewrite (commit_after_mount p a attrs vs Ha Hv He).
    eexists; split; [reflexivity|]. rewrite bool_decide_eq_true_2 by done. cbn. auto.
  - rewrite (commit_new_options p a attrs vs Ha Hv) by (cbn; first [lia | apply Nat.neq_0_lt_0, map_size_non_empty_iff; done]).
    pose proof (commit_quiet p a attrs vs Ha Hv
      (setSelectedVariation (findMatchingVariation (initialOptions (a :: attrs)) vs)
         (setSelectedOptions (fun _ => initialOptions (a :: attrs)) initialProvider))
      (toSelected <$> findMatchingVariation (initialOptions (a :: attrs)) vs)) as Hq.
    cbn in Hq |- *. rewrite Hq.
    eexists; split; [reflexivity|]. rewrite bool_decide_eq_false_2 by done. cbn. auto.
Qed.

(** C31. The price shown is the context's: in every state a page reaches
    by renders and clicks, the selector's [displayVariation] is the
    [selectedVariation] of the provider turned into its display data (or
    both are empty). *)
Theorem display_mirrors_context es w :
  initialWorld =[ es ]=> w ->
  displayVariation (selector w) = toSelected <$> selectedVariation (provider w).
Proof. intros H. apply (reachable_selector_wf es w H). Qed.

(** C32. The conditional hooks throw: once the selector has rendered a
    product, rendering it with a product on the other side of the early
    return ([null] for one, the selector for the other) calls another
    number of hooks, and React throws instead of rendering. *)
Theorem rerender_other_shape_throws es w p q :
  initialWorld =[ es ]=> w -> rendered (selector w) = Some p -> returnsNull p <> returnsNull q ->
  commit (Some (provider w)) q (selector w) = Err (HooksMismatch (hooksOfRender p) (hooksOfRender q)).
Proof.
  intros Hr Hp Hne. pose proof (wf_hookCount w p (reachable_selector_wf es w Hr) Hp) as Hh.
  unfold commit. cbn [useWooCommerceProduct]. rewrite Hh. unfold hooksAgree, hooksOfRender in *.
  destruct (returnsNull p), (returnsNull q); try done; reflexivity.
Qed.

Lemma clickable_shown p name opt :
  clickable p name opt = true -> returnsNull p = false.
Proof. unfold clickable. by intros [[->%negb_true_iff _]%andb_true_iff _]%andb_true_iff. Qed.

(** C33. A click is looked up at the next render: after the user picks
    [opt] for [name] on a page showing [p], the next render of [p]
    succeeds, keeps the other selected options, and makes the first
    variation that agrees with the new selection the context's and the
    displayed variation. *)
Theorem click_updates_variation es w w1 p vs name opt :
  initialWorld =[ es ]=> w -> rendered (selector w) = Some p -> productVariations p = Some vs ->
  selector_step w (Click name opt) w1 ->
  exists w2, selector_step w1 (Render p) w2 /\
    selectedOptions (provider w2) = <[name := opt]> (selectedOptions (provider w)) /\
    selectedVariation (provider w2) = findMatchingVariation (<[name := opt]> (selectedOptions (provider w))) vs /\
    displayVariation (selector w2) = toSelected <$> selectedVariation (provider w2).
Proof.
  intros Hr Hp Hv Hc. inversion Hc as [|? p' ? ? Hp' Hcl]; subst. rewrite Hp in Hp'. injection Hp' as <-.
  pose proof (clickable_shown p name opt Hcl) as Hn.
  destruct (reachable_selector_wf es w Hr) as [_ Hwf]. rewrite Hp, Hn in Hwf.
  destruct Hwf as (k & o & Hs & Hle).
  destruct (returnsNull_false p Hn) as (a & attrs & vs' & Ha & Hv'). rewrite Hv in Hv'. injection Hv' as <-.
  eexists. split; [eapply sel_render; cbn [provider selector]; rewrite Hs; apply (commit_new_options p a attrs); try done|].
  - cbn. lia.
  - cbn. apply Nat.neq_0_lt_0, map_size_non_empty_iff, insert_non_empty.
  - cbn. auto.
Qed.

(** The price block follows one rule for a variation and for the
    parent product: the big price is the sale price when the item is on
    sale with a non-empty sale price and its price otherwise, and the
    struck-through regular price appears exactly in the first case. *)
Theorem price_block p d sel v :
  renderSelector p (toSelected <$> d) sel = Some v ->
  let '(onSale, sale, regular, base) :=
    match d with
    | Some m => (v_on_sale m, v_sale_price m, v_regular_price m, v_price m)
    | None => (p_on_sale p, p_sale_price p, p_regular_price p, p_price p)
    end in
  priceText v = ("$" ++ (if onSale && filled sale then sale else base))%string /\
  strikeText v = (if onSale && filled sale then Some ("$" ++ regular)%string else None).
Proof.
  unfold renderSelector. destruct (returnsNull p); [done|]. intros [= <-].
  destruct d as [m|]; cbn; [destruct (v_on_sale m) | destruct (p_on_sale p)]; cbn;
    [destruct (filled (v_sale_price m)) | | destruct (filled (p_sale_price p)) |]; done.
Qed.

Lemma find_name_some (l : list VariationAttribute) a :
  In a l -> exists a', List.find (fun x => String.eqb (va_name x) (va_name a)) l = Some a' /\
                       va_name a' = va_name a /\ In a' l.
Proof.
  intros Hin. destruct (List.find _ l) as [a'|] eqn:Hf.
  - apply find_some in Hf as [Hin' Heq]. apply String.eqb_eq in Heq. eauto.
  - apply (find_none _ _ Hf) in Hin. by rewrite String.eqb_refl in Hin.
Qed.

(** A found variation's options are never greyed out: every attribute
    of the variation the selector finds for a selection is selected in
    it, and its button is enabled ([isOptionAvailable] holds). *)
Theorem found_variation_available p vs sel m a :
  productVariations p = Some vs -> findMatchingVariation sel vs = Some m -> In a (v_attributes m) ->
  sel !! va_name a = Some (va_option a) /\ isOptionAvailable p (va_name a) (va_option a) = true.
Proof.
  intros Hv Hf Hin. apply find_some in Hf as [Hm Hmatch].
  assert (Hsel : forall x, In x (v_attributes m) -> sel !! va_name x = Some (va_option x)).
  { intros x Hx. unfold matchesSelection in Hmatch. rewrite forallb_forall in Hmatch.
    specialize (Hmatch x Hx). cbn in Hmatch. by case_bool_decide. }
  split; [by apply Hsel|]. unfold isOptionAvailable. rewrite Hv. apply existsb_exists. exists m. split; [done|].
  destruct (find_name_some _ a Hin) as (a' & -> & Hname & Hin'). apply String.eqb_eq.
  pose proof (Hsel a Hin) as H1. pose proof (Hsel a' Hin') as H2. rewrite Hname in H2. congruence.
Qed.

(** ** Witnesses *)

Definition demoVariation (id : Z) (price : string) (size color : string) : WooCommerceVariation :=
  {| v_id := id; v_price := price; v_regular_price := price; v_sale_price := ""; v_on_sale := false;
     v_stock_status := "instock"; v_image := None;
     v_attributes := [{| va_id := 1; va_name := "Size"; va_option := size |};
                      {| va_id := 2; va_name := "Color"; va_option := color |}] |}.

Definition sizeAttr : ProductAttribute :=
  {| pa_id := 1; pa_name := "Size"; pa_options := Some ["S"; "M"]; pa_variation := Some true |}.
Definition colorAttr : ProductAttribute :=
  {| pa_id := 2; pa_name := "Color"; pa_options := Some ["red"; "blue"]; pa_variation := Some true |}.

Definition shirtVariations : list WooCommerceVariation :=
  [demoVariation 11 "12" "S" "blue"; demoVariation 12 "13" "M" "red"].

(** A shirt sold as small and blue or medium and red. *)
Definition shirt : WooCommerceProduct :=
  {| p_price := "10"; p_regular_price := "10"; p_sale_price := ""; p_on_sale := false;
     p_stock_status := "instock"; attributes := Some [sizeAttr; colorAttr]; attributes_id := 1;
     productVariations := Some shirtVariations; variations_id := 2 |}.

(** The same page once the shop has no variations for it. *)
Definition plainShirt : WooCommerceProduct :=
  {| p_price := "10"; p_regular_price := "10"; p_sale_price := ""; p_on_sale := false;
     p_stock_status := "instock"; attributes := Some [sizeAttr; colorAttr]; attributes_id := 1;
     productVariations := None; variations_id := 3 |}.

(** The page after the events [es], where they can happen. *)
Definition after (es : list SelectorEvent) : World := default initialWorld (selector_run initialWorld es).

Lemma mount_settles_witness :
  exists w, renderLoop 3 shirt initialWorld = Ok (w, false) /\
    selectedOptions (provider w) = initialOptions [sizeAttr; colorAttr] /\
    selectedVariation (provider w) =
      (if bool_decide (initialOptions [sizeAttr; colorAttr] = ∅) then None
       else findMatchingVariation (initialOptions [sizeAttr; colorAttr]) shirtVariations) /\
    displayVariation (selector w) = toSelected <$> selectedVariation (provider w).
Proof. apply (mount_settles shirt sizeAttr [colorAttr] shirtVariations); reflexivity. Defined.

Lemma display_mirrors_context_witness :
  let es := [Render shirt; Render shirt; Click "Size" "M"; Render shirt] in
  displayVariation (selector (after es)) = toSelected <$> selectedVariation (provider (after es)).
Proof. apply (display_mirrors_context [Render shirt; Render shirt; Click "Size" "M"; Render shirt]).
  apply selector_run_steps. vm_compute. reflexivity. Defined.

Lemma rerender_other_shape_throws_witness :
  commit (Some (provider (after [Render shirt]))) plainShirt (selector (after [Render shirt])) =
    Err (HooksMismatch (hooksOfRender shirt) (hooksOfRender plainShirt)).
Proof.
  apply (rerender_other_shape_throws [Render shirt]);
    [apply selector_run_steps; vm_compute; reflexivity | vm_compute; reflexivity | discriminate].
Defined.

Lemma click_updates_variation_witness :
  let w := after [Render shirt; Render shirt; Render shirt] in
  let w1 := after [Render shirt; Render shirt; Render shirt; Click "Size" "M"] in
  exists w2, selector_step w1 (Render shirt) w2 /\
    selectedOptions (provider w2) = <["Size" := "M"]> (selectedOptions (provider w)) /\
    selectedVariation (provider w2) =
      findMatchingVariation (<["Size" := "M"]> (selectedOptions (provider w))) shirtVariations /\
    displayVariation (selector w2) = toSelected <$> selectedVariation (provider w2).
Proof.
  apply (click_updates_variation [Render shirt; Render shirt; Render shirt]);
    [apply selector_run_steps | | | apply selector_next_spec]; vm_compute; reflexivity.
Defined.

Lemma price_block_witness :
  exists v, renderSelector shirt (toSelected <$> Some (demoVariation 11 "12" "S" "blue")) ∅ = Some v /\
    priceText v = ("$" ++ (if false && filled "" then "" else "12"))%string /\
    strikeText v = (if false && filled "" then Some ("$" ++ "12")%string else None).
Proof.
  eexists. split; [reflexivity|].
  apply (price_block shirt (Some (demoVariation 11 "12" "S" "blue")) ∅). reflexivity.
Defined.

Lemma found_variation_available_witness :
  let sel : gmap string string := <["Size" := "M"]> (<["Color" := "red"]> ∅) in
  sel !! "Size" = Some "M" /\ isOptionAvailable shirt "Size" "M" = true.
Proof.
  apply (found_variation_available shirt shirtVariations _ (demoVariation 12 "13" "M" "red")
           {| va_id := 1; va_name := "Size"; va_option := "M" |}); [reflexivity | vm_compute; reflexivity | by left].
Defined.

(** The first options need not make a variation: the shirt opens on small
    and red, which the shop does not sell; every button is enabled, no
    variation is found and the page shows the parent product's price. *)
Example first_options_match_nothing :
  match renderLoop 3 shirt initialWorld with
  | Ok (w, false) =>
      selectedVariation (provider w) = None /\
      match renderSelector shirt (displayVariation (selector w)) (selectedOptions (provider w)) with
      | Some v => priceText v = "$10"%string /\
                  forallb (fun g => forallb (fun b => negb (ob_disabled b)) g.2) (selectors v) = true
      | None => False
      end
  | _ => False
  end.
Proof. vm_compute. repeat split. Qed.

End VariantTheorems.
