(* ===== verification/Galleries.v ===== *)
(** * Product image galleries: [src/components/product/optimized-gallery.tsx]
    and [src/components/product/gallery.tsx]

  Both galleries keep the index of the image shown in a React state cell
  initialised from [state.image] of [useProduct()] (the product context
  of [components/product/product-context], a module the repository does
  not contain: its [state.image] is an input here), derive the indices
  of the next and previous images and move between them on clicks.
  [OptimizedGallery] also preloads the neighbours with [fetch] [HEAD]
  requests and listens to the arrow keys on [window].

  An index is a JavaScript number: [Some k] an integer, [None] the [NaN]
  that [parseInt] gives on a string without digits.  [Object.is] treats
  [NaN] as equal to itself, which is the equality of [option Z].  The
  identity of the [images] array is a token [nat]. *)

From S2P Require Import Prelude Json.
Open Scope Z_scope.
Open Scope commerce_scope.

Module OptimizedGallery.

Record GalleryImage := { src : string; altText : string }.

(** A number: [None] is [NaN]. *)
Definition jsnum : Type := option Z.

(** [state.image ? parseInt(state.image) : 0] (lines 17-19) *)
Definition initialIndex (stateImage : option string) : jsnum :=
  match stateImage with
  | Some s => if String.eqb s "" then Some 0 else Js.parseInt (Some (JStr s))
  | None => Some 0
  end.

(** [imageIndex + 1 < images.length ? imageIndex + 1 : 0] (line 29) *)
Definition nextImageIndex (i : jsnum) (n : Z) : jsnum :=
  match i with Some k => if k + 1 <? n then Some (k + 1) else Some 0 | None => Some 0 end.

(** [imageIndex === 0 ? images.length - 1 : imageIndex - 1] (line 30) *)
Definition previousImageIndex (i : jsnum) (n : Z) : jsnum :=
  match i with Some k => if k =? 0 then Some (n - 1) else Some (k - 1) | None => None end.

(** [images[i]]: an element for an index in range, [undefined] for a
    negative or too large index and for [NaN]. *)
Definition at_index {A} (l : list A) (i : jsnum) : option A :=
  match i with Some k => if 0 <=? k then nth_error l (Z.to_nat k) else None | None => None end.

(** The text of a number in JSX. *)
Definition showNum (i : jsnum) : string := match i with Some k => string_of_Z k | None => "NaN" end.

(** The instance: the index cell, the dependencies of each effect's last
    run, the [keydown] listener registered on [window] (the two indices
    its closure captured), the handlers of the last render's buttons
    (previous, next, and the number of images they were rendered with)
    and the [HEAD] requests sent so far, oldest first. *)
Record Gallery := {
  localImageIndex : jsnum;
  syncDeps : option (option string);
  preloadDeps : option (jsnum * nat * jsnum * jsnum);
  keyListener : option (jsnum * jsnum);
  buttons : option (jsnum * jsnum * Z);
  headRequests : list string
}.

(** The first render's [useState] initialiser. *)
Definition mountGallery (stateImage : option string) : Gallery :=
  {| localImageIndex := initialIndex stateImage; syncDeps := None; preloadDeps := None;
     keyListener := None; buttons := None; headRequests := [] |}.

(** The preload effect (lines 33-57): a [HEAD] request for the next
    image, then one for the previous, each when it exists. *)
Definition preloadRequests (images : list GalleryImage) (nx pv : jsnum) : list string :=
  match at_index images nx with Some im => [src im] | None => [] end ++
  match at_index images pv with Some im => [src im] | None => [] end.

(** A render and its effect phase (lines 13-91).  The effects read the
    values of the render; the sync effect's [setLocalImageIndex] takes
    effect after them. *)
Definition commitGallery (stateImage : option string) (images : list GalleryImage) (imagesId : nat)
    (g : Gallery) : Gallery :=
  let i := localImageIndex g in
  let n := Z.of_nat (List.length images) in
  let nx := nextImageIndex i n in
  let pv := previousImageIndex i n in
  let runSync := bool_decide (syncDeps g <> Some stateImage) in
  let runPreload := bool_decide (preloadDeps g <> Some (i, imagesId, nx, pv)) in
  let runKeys := bool_decide (keyListener g <> Some (pv, nx)) in
  {| localImageIndex :=
       match stateImage with
       | Some s => if runSync && negb (String.eqb s "") then Js.parseInt (Some (JStr s)) else i
       | None => i
       end;
     syncDeps := Some stateImage;
     preloadDeps := Some (i, imagesId, nx, pv);
     keyListener := if runKeys then Some (pv, nx) else keyListener g;
     buttons := Some (pv, nx, n);
     headRequests := headRequests g ++ (if runPreload then preloadRequests images nx pv else []) |}.

(** [setLocalImageIndex(v)] *)
Definition setIndex (v : jsnum) (g : Gallery) : Gallery :=
  {| localImageIndex := v; syncDeps := syncDeps g; preloadDeps := preloadDeps g;
     keyListener := keyListener g; buttons := buttons g; headRequests := headRequests g |}.

(** [handleKeyDown] (lines 61-69) of the registered listener. *)
Definition handleKeyDown (key : string) (g : Gallery) : Gallery :=
  match keyListener g with
  | Some (pv, nx) =>
      if String.eqb key "ArrowLeft" then setIndex pv g
      else if String.eqb key "ArrowRight" then setIndex nx g
      else g
  | None => g
  end.

Inductive GalleryEvent :=
| GRender (stateImage : option string) (images : list GalleryImage) (imagesId : nat)
| ClickPrevious
| ClickNext
| ClickThumbnail (index : Z)
| KeyDown (key : string).

(** The arrows and the thumbnails exist when the last render had more
    than one image; thumbnail [index] is the [index]-th of them. *)
Inductive gallery_step : Gallery -> GalleryEvent -> Gallery -> Prop :=
| gs_render g s ims id : gallery_step g (GRender s ims id) (commitGallery s ims id g)
| gs_previous g pv nx n : buttons g = Some (pv, nx, n) -> 1 < n -> gallery_step g ClickPrevious (setIndex pv g)
| gs_next g pv nx n : buttons g = Some (pv, nx, n) -> 1 < n -> gallery_step g ClickNext (setIndex nx g)
| gs_thumbnail g pv nx n k : buttons g = Some (pv, nx, n) -> 1 < n -> 0 <= k < n ->
    gallery_step g (ClickThumbnail k) (setIndex (Some k) g)
| gs_key g key : gallery_step g (KeyDown key) (handleKeyDown key g).

#[export] Instance gallery_step_inst : Step Gallery GalleryEvent := gallery_step.

(** The same steps as a function: [None] for a button that is not there. *)
Definition gallery_next (g : Gallery) (e : GalleryEvent) : option Gallery :=
  match e with
  | GRender s ims id => Some (commitGallery s ims id g)
  | ClickPrevious =>
      match buttons g with Some (pv, _, n) => if 1 <? n then Some (setIndex pv g) else None | None => None end
  | ClickNext =>
      match buttons g with Some (_, nx, n) => if 1 <? n then Some (setIndex nx g) else None | None => None end
  | ClickThumbnail k =>
      match buttons g with
      | Some (_, _, n) => if (1 <? n) && (0 <=? k) && (k <? n) then Some (setIndex (Some k) g) else None
      | None => None
      end
  | KeyDown key => Some (handleKeyDown key g)
  end.

Fixpoint gallery_run (g : Gallery) (es : list GalleryEvent) : option Gallery :=
  match es with
  | [] => Some g
  | e :: es' => match gallery_next g e with Some g' => gallery_run g' es' | None => None end
  end.

(** What the markup shows (lines 91-183): the main image, the counter
    [imageIndex + 1 / images.length] and the active thumbnail. *)
Record GalleryView := {
  mainImage : option GalleryImage;
  counter : option string;
  activeThumbnails : list nat
}.

Definition renderGallery (images : list GalleryImage) (g : Gallery) : GalleryView :=
  let i := localImageIndex g in
  let n := Z.of_nat (List.length images) in
  {| mainImage := at_index images i;
     counter := if 1 <? n then Some (showNum (option_map (Z.add 1) i) ++ " / " ++ string_of_Z n)%string
                else None;
     activeThumbnails := if 1 <? n then filter (fun k => Some (Z.of_nat k) = i) (seq 0 (List.length images)) else [] |}.

End OptimizedGallery.

(** ** [Gallery] of [gallery.tsx] *)

Module LegacyGallery.

(** The body of [Gallery] up to its [return], as the engine runs it: a
    [const] declaration binds its names, a hook call reads names.  The
    names declared with [const] anywhere in the body exist from its start
    but cannot be read before their declaration runs (the temporal dead
    zone of ECMAScript): such a read throws a [ReferenceError]. *)
Inductive Stmt :=
| ConstDecl (names : list string)
| Read (names : list string).

(** Lines 10-48 in order: [useProduct()], [useUpdateURL()], [useState]
    with its initialiser reading [state], the sync effect and its
    dependencies [[state.image]], the preload effect and its dependencies
    [[imageIndex, images, nextImageIndex, previousImageIndex]] (line 41),
    then the [const]s of lines 43-48. *)
Definition galleryBody : list Stmt :=
  [ConstDecl ["state"; "updateImage"];
   ConstDecl ["updateURL"];
   Read ["state"]; ConstDecl ["localImageIndex"; "setLocalImageIndex"];
   Read ["state"];
   Read ["imageIndex"; "images"; "nextImageIndex"; "previousImageIndex"];
   Read ["localImageIndex"]; ConstDecl ["imageIndex"];
   Read ["imageIndex"; "images"]; ConstDecl ["nextImageIndex"];
   Read ["imageIndex"; "images"]; ConstDecl ["previousImageIndex"];
   ConstDecl ["buttonClassName"]].

Inductive JsError := ReferenceError (name : string).

(** The names the body declares. *)
Definition declared (body : list Stmt) : list string :=
  List.concat (map (fun st => match st with ConstDecl xs => xs | Read _ => [] end) body).

(** Run the statements with the names bound so far; a read of a declared
    name that is not bound yet throws.  The parameters ([images]) are
    bound from the start. *)
Fixpoint run (tdz : list string) (bound : list string) (body : list Stmt) : result JsError (list string) :=
  match body with
  | [] => Ok bound
  | ConstDecl xs :: rest => run tdz (xs ++ bound) rest
  | Read xs :: rest =>
      match List.find (fun x => bool_decide (x ∈ tdz) && negb (bool_decide (x ∈ bound))) xs with
      | Some x => Err (ReferenceError x)
      | None => run tdz bound rest
      end
  end.

(** A render of [Gallery]: the body from the parameters. *)
Definition renderLegacyGallery : result JsError (list string) :=
  run (declared galleryBody) ["images"] galleryBody.

End LegacyGallery.

(** ** Theorems *)

Module GalleryTheorems.
Import OptimizedGallery LegacyGallery.

Definition in_range (n : Z) (i : jsnum) : Prop :=
  match i with Some k => 0 <= k < n | None => False end.

Lemma gallery_next_sound g e g' : gallery_next g e = Some g' -> gallery_step g e g'.
Proof.
  destruct e as [s ims id| | |k|key]; cbn; try (intros [= <-]; constructor);
    destruct (buttons g) as [[[pv nx] n]|] eqn:Hb; try done; repeat case_if; intros [= <-].
  - by eapply gs_previous.
  - by eapply gs_next.
  - eapply gs_thumbnail; [exact Hb | lia | lia].
Qed.

Lemma gallery_run_steps g es g' : gallery_run g es = Some g' -> g =[ es ]=> g'.
Proof.
  revert g. induction es as [|e es IH]; intros g; cbn; [intros [= <-]; constructor|].
  destruct (gallery_next g e) as [g1|] eqn:H; [|done]. intros Hr.
  econstructor; [by apply gallery_next_sound | by apply IH].
Qed.

Lemma next_in_range n i : in_range n i -> in_range n (nextImageIndex i n).
Proof. destruct i as [k|]; cbn; [|done]. intros Hk. case_if; cbn; lia. Qed.

Lemma previous_in_range n i : in_range n i -> in_range n (previousImageIndex i n).
Proof. destruct i as [k|]; cbn; [|done]. intros Hk. case_if; cbn; lia. Qed.

Lemma at_index_in_range {A} (l : list A) i :
  in_range (Z.of_nat (List.length l)) i -> exists x, at_index l i = Some x.
Proof.
  destruct i as [k|]; cbn; [|done]. intros Hk. rewrite (proj2 (Z.leb_le 0 k)) by lia.
  destruct (nth_error l (Z.to_nat k)) eqn:E; [eauto|]. apply nth_error_None in E. lia.
Qed.

(** Next and previous are inverse: for an index in range, the
    previous image of the next one and the next image of the previous
    one are the image itself, so the arrows walk the images as a cycle. *)
Theorem next_previous_inverse n k :
  0 <= k < n ->
  previousImageIndex (nextImageIndex (Some k) n) n = Some k /\
  nextImageIndex (previousImageIndex (Some k) n) n = Some k.
Proof.
  intros Hk. unfold nextImageIndex, previousImageIndex.
  split; repeat (case_if; cbn); f_equal; lia.
Qed.

(** After a render, the [keydown] listener holds the render's indices. *)
Lemma commit_listener s ims id g :
  keyListener (commitGallery s ims id g) =
    Some (previousImageIndex (localImageIndex g) (Z.of_nat (List.length ims)),
          nextImageIndex (localImageIndex g) (Z.of_nat (List.length ims))).
Proof. unfold commitGallery. cbn. by case_bool_decide. Qed.

(** A render with the [state.image] of the previous one keeps the index. *)
Lemma commit_index_same s ims id g :
  syncDeps g = Some s -> localImageIndex (commitGallery s ims id g) = localImageIndex g.
Proof.
  intros Hs. unfold commitGallery. cbn. rewrite Hs.
  rewrite bool_decide_eq_false_2 by (intros H; by apply H). by destruct s.
Qed.

Lemma commit_index_first s ims id :
  localImageIndex (commitGallery s ims id (mountGallery s)) = initialIndex s.
Proof.
  unfold commitGallery, mountGallery, initialIndex. cbn.
  destruct s as [s|]; [|done]. destruct (String.eqb s "") eqn:E; [done|].
  by rewrite bool_decide_eq_true_2.
Qed.

(** Renders with the props [s] and [ims], and any click or key. *)
Definition same_props (s : option string) (ims : list GalleryImage) (e : GalleryEvent) : Prop :=
  match e with GRender s' ims' _ => s' = s /\ ims' = ims | _ => True end.

Definition gallery_inv (s : option string) (n : Z) (g : Gallery) : Prop :=
  in_range n (localImageIndex g) /\
  (syncDeps g = None -> g = mountGallery s) /\
  (forall s', syncDeps g = Some s' -> s' = s) /\
  (forall pv nx m, buttons g = Some (pv, nx, m) -> in_range n pv /\ in_range n nx /\ m = n) /\
  (forall pv nx, keyListener g = Some (pv, nx) -> in_range n pv /\ in_range n nx).

Lemma commit_inv s ims id g :
  gallery_inv s (Z.of_nat (List.length ims)) g -> gallery_inv s (Z.of_nat (List.length ims)) (commitGallery s ims id g).
Proof.
  intros (Hi & Hmount & Hsync & Hb & Hk).
  assert (Hidx : localImageIndex (commitGallery s ims id g) = localImageIndex g).
  { destruct (syncDeps g) as [s'|] eqn:Hs.
    - rewrite (Hsync s' eq_refl) in Hs. by apply commit_index_same.
    - rewrite (Hmount eq_refl). apply commit_index_first. }
  split; [by rewrite Hidx|]. split; [unfold commitGallery; done|].
  split; [unfold commitGallery; cbn; by intros ? [= ->]|].
  split.
  - unfold commitGallery. cbn. intros pv nx m [= <- <- <-]. auto using next_in_range, previous_in_range.
  - intros pv nx. rewrite commit_listener. intros [= <- <-]. auto using next_in_range, previous_in_range.
Qed.

Lemma setIndex_inv s n g v :
  gallery_inv s n g -> in_range n v -> syncDeps g <> None -> gallery_inv s n (setIndex v g).
Proof. intros (_ & _ & Hs & Hb & Hk) Hv Hn. split; [done|]. split; [cbn; by intros ?|]. cbn. auto. Qed.

Lemma gallery_inv_started s n g : gallery_inv s n g -> buttons g <> None \/ keyListener g <> None -> syncDeps g <> None.
Proof. intros (_ & Hm & _) Hbk Hs. rewrite (Hm Hs) in Hbk. cbn in Hbk. tauto. Qed.

Lemma gallery_step_inv s ims g e g' :
  gallery_inv s (Z.of_nat (List.length ims)) g -> same_props s ims e -> gallery_step g e g' ->
  gallery_inv s (Z.of_nat (List.length ims)) g'.
Proof.
  intros Hinv He Hst. pose proof Hinv as (_ & _ & _ & Hb & Hk).
  destruct Hst as [g s' ims' id|g pv nx m Hbt _|g pv nx m Hbt _|g pv nx m k Hbt _ Hkr|g key].
  - destruct He as [-> ->]. by apply commit_inv.
  - destruct (Hb _ _ _ Hbt) as (? & ? & ?). apply setIndex_inv; auto.
    apply (gallery_inv_started s _ g Hinv). left. by rewrite Hbt.
  - destruct (Hb _ _ _ Hbt) as (? & ? & ?). apply setIndex_inv; auto.
    apply (gallery_inv_started s _ g Hinv). left. by rewrite Hbt.
  - destruct (Hb _ _ _ Hbt) as (? & ? & ->). apply setIndex_inv; [done | cbn; lia |].
    apply (gallery_inv_started s _ g Hinv). left. by rewrite Hbt.
  - unfold handleKeyDown. destruct (keyListener g) as [[pv nx]|] eqn:Hl; [|done].
    destruct (Hk pv nx eq_refl).
    assert (syncDeps g <> None) by (apply (gallery_inv_started s _ g Hinv); right; by rewrite Hl).
    repeat case_if; auto using setIndex_inv.
Qed.

(** C34. The shown image stays in range: when [state.image] is empty,
    absent or the number of an image, every state the gallery reaches
    through renders with the same props, clicks on the arrows and the
    thumbnails and arrow keys has its index in range, so a main image is
    always shown. *)
Theorem reachable_index_in_range s ims es g :
  in_range (Z.of_nat (List.length ims)) (initialIndex s) ->
  mountGallery s =[ es ]=> g -> Forall (same_props s ims) es ->
  in_range (Z.of_nat (List.length ims)) (localImageIndex g) /\ exists im, mainImage (renderGallery ims g) = Some im.
Proof.
  intros Hin Hst Hes.
  assert (Hinv : gallery_inv s (Z.of_nat (List.length ims)) g).
  { refine (steps_invariant_when gallery_step _ (same_props s ims) _ _ _ _ Hst Hes _).
    - intros g0 e g1 H0 He H1. by eapply gallery_step_inv.
    - repeat split; cbn; try done. }
  destruct Hinv as [Hi _]. split; [done|]. by apply at_index_in_range.
Qed.

Lemma at_index_past_end {A} (l : list A) k :
  Z.of_nat (List.length l) <= k -> at_index l (Some k) = None.
Proof.
  intros Hk. cbn. case_if; [|done]. apply nth_error_None. lia.
Qed.

(** [ArrowLeft] and the render it causes, from a rendered state. *)
Lemma left_press s ims id g m :
  syncDeps g = Some s ->
  keyListener g = Some (previousImageIndex (Some m) (Z.of_nat (List.length ims)),
                        nextImageIndex (Some m) (Z.of_nat (List.length ims))) ->
  localImageIndex g = Some m -> m <> 0 ->
  localImageIndex (commitGallery s ims id (handleKeyDown "ArrowLeft" g)) = Some (m - 1) /\
  syncDeps (commitGallery s ims id (handleKeyDown "ArrowLeft" g)) = Some s /\
  keyListener (commitGallery s ims id (handleKeyDown "ArrowLeft" g)) =
    Some (previousImageIndex (Some (m - 1)) (Z.of_nat (List.length ims)),
          nextImageIndex (Some (m - 1)) (Z.of_nat (List.length ims))).
Proof.
  intros Hs Hk Hi Hm.
  assert (Hl : handleKeyDown "ArrowLeft" g = setIndex (Some (m - 1)) g).
  { unfold handleKeyDown. rewrite Hk. cbn. by rewrite (proj2 (Z.eqb_neq m 0) Hm). }
  rewrite Hl. rewrite commit_listener, commit_index_same by done. done.
Qed.

Lemma left_presses s ims id j g0 g m :
  let n := Z.of_nat (List.length ims) in
  syncDeps g0 = Some s -> keyListener g0 = Some (previousImageIndex (Some m) n, nextImageIndex (Some m) n) ->
  localImageIndex g0 = Some m -> 0 < n <= m - Z.of_nat j ->
  g0 =[ List.concat (repeat [KeyDown "ArrowLeft"; GRender s ims id] j) ]=> g ->
  localImageIndex g = Some (m - Z.of_nat j).
Proof.
  intros n. revert g0 m. induction j as [|j IH]; intros g0 m Hs Hk Hi Hb Hst.
  - invc Hst. by rewrite Z.sub_0_r.
  - cbn in Hst. invc Hst. match goal with H : step_rel _ _ _ |- _ => invc H end.
    match goal with H : steps _ _ (_ :: _) _ |- _ => invc H end.
    match goal with H : step_rel _ _ _ |- _ => invc H end.
    destruct (left_press s ims id g0 m Hs Hk Hi ltac:(lia)) as (Hi' & Hs' & Hk').
    rewrite (IH _ (m - 1) Hs' Hk' Hi' ltac:(lia)) by done. f_equal. lia.
Qed.

(** C35. An image number past the end is never corrected by the left
    arrow: when [state.image] is a number [k] not below the number of
    images, the gallery opens on no image, and each [ArrowLeft] (with the
    render it causes) only moves to [k - 1], [k - 2], ...: no image is
    shown until the index comes back into range. *)
Theorem url_index_past_end s ims id k j g :
  initialIndex s = Some k -> 0 < Z.of_nat (List.length ims) <= k - Z.of_nat j ->
  mountGallery s =[ GRender s ims id :: List.concat (repeat [KeyDown "ArrowLeft"; GRender s ims id] j) ]=> g ->
  localImageIndex g = Some (k - Z.of_nat j) /\ mainImage (renderGallery ims g) = None.
Proof.
  intros Hk Hb Hst. invc Hst. match goal with H : step_rel _ _ _ |- _ => invc H end.
  match goal with H : steps _ _ _ g |- _ => rename H into Hrest end.
  assert (Hi : localImageIndex g = Some (k - Z.of_nat j)).
  { eapply (left_presses s ims id j (commitGallery s ims id (mountGallery s)) g k); [reflexivity | | | exact Hb | exact Hrest].
    - rewrite commit_listener. cbn. by rewrite Hk.
    - by rewrite commit_index_first. }
  split; [done|]. cbn. rewrite Hi. apply at_index_past_end. lia.
Qed.

(** C36. [Gallery] of [gallery.tsx] throws on every render: the
    dependency array of its preload effect (line 41) reads [imageIndex]
    before the [const] of line 43 initialises it, a [ReferenceError]. *)
Theorem legacy_gallery_throws : renderLegacyGallery = Err (ReferenceError "imageIndex").
Proof. vm_compute. reflexivity. Qed.

(** The first render preloads the two neighbours of the shown image, the
    next one first; a gallery of one image requests that image twice. *)
Theorem first_render_preloads_neighbours s ims id k :
  initialIndex s = Some k -> 0 <= k < Z.of_nat (List.length ims) ->
  let n := Z.of_nat (List.length ims) in
  exists a b, at_index ims (nextImageIndex (Some k) n) = Some a /\
              at_index ims (previousImageIndex (Some k) n) = Some b /\
              headRequests (commitGallery s ims id (mountGallery s)) = [src a; src b] /\
              (n = 1 -> a = b /\ at_index ims (Some k) = Some a).
Proof.
  intros Hk Hr n.
  destruct (at_index_in_range ims (nextImageIndex (Some k) n)) as [a Ha]; [by apply next_in_range|].
  destruct (at_index_in_range ims (previousImageIndex (Some k) n)) as [b Hb']; [by apply previous_in_range|].
  exists a, b. split; [done|]. split; [done|]. split.
  - unfold commitGallery. cbn. rewrite Hk. fold n. unfold preloadRequests. by rewrite Ha, Hb'.
  - intros Hn. rewrite Hn in Ha, Hb'. assert (k = 0) as -> by lia.
    change (nextImageIndex (Some 0) 1) with (Some 0) in Ha.
    change (previousImageIndex (Some 0) 1) with (Some 0) in Hb'.
    rewrite Ha in Hb'. injection Hb' as ->. done.
Qed.

(** ** Witnesses *)

Definition photo (name : string) : GalleryImage := {| src := name; altText := name |}.
Definition photos : list GalleryImage := [photo "front.jpg"; photo "back.jpg"; photo "side.jpg"].

Definition galleryAfter (s : option string) (es : list GalleryEvent) : Gallery :=
  default (mountGallery s) (gallery_run (mountGallery s) es).

Definition browse : list GalleryEvent :=
  [GRender (Some "1") photos 0; ClickNext; GRender (Some "1") photos 0; KeyDown "ArrowLeft";
   GRender (Some "1") photos 0; ClickThumbnail 0; GRender (Some "1") photos 0; KeyDown "ArrowLeft"].

Lemma reachable_index_in_range_witness :
  in_range 3 (localImageIndex (galleryAfter (Some "1") browse)) /\
  exists im, mainImage (renderGallery photos (galleryAfter (Some "1") browse)) = Some im.
Proof.
  apply (reachable_index_in_range (Some "1") photos browse).
  - vm_compute. split; [discriminate | reflexivity].
  - apply gallery_run_steps. vm_compute. reflexivity.
  - repeat constructor.
Defined.

Lemma url_index_past_end_witness :
  let es := GRender (Some "7") photos 0 :: List.concat (repeat [KeyDown "ArrowLeft"; GRender (Some "7") photos 0] 2) in
  localImageIndex (galleryAfter (Some "7") es) = Some (7 - Z.of_nat 2) /\
  mainImage (renderGallery photos (galleryAfter (Some "7") es)) = None.
Proof.
  apply (url_index_past_end (Some "7") photos 0 7 2).
  - reflexivity.
  - cbn. lia.
  - apply gallery_run_steps. vm_compute. reflexivity.
Defined.

End GalleryTheorems.
