(* ===== verification/Navigation.v ===== *)
(** * Client navigation on the product page:
    [src/components/product/product-loading-wrapper.tsx] and
    [src/components/product/product-navigation.tsx]

  [ProductLoadingWrapper] replaces the [push] method of the shared Next.js
  [router] object by a function that sets its [isLoading] cell and calls
  the method it replaced, and restores that method in its cleanup; while
  [isLoading] holds it renders a skeleton instead of its children.
  [ProductNavigation] lists up to four related products and, on a click,
  calls [router.push] (whatever function the router holds at that time)
  and clears its [isNavigating] cell 500 ms later with [setTimeout].

  The router is one object shared by both components: its [push] field
  is a chain of the replacements installed on it ending in Next's own
  method, which records the navigation.  The page has one wrapper.  A
  click is handled on the state of the last render, which React renders
  before the next discrete event; the 500 ms timer is an event of its
  own. *)

From S2P Require Import Prelude Json.
Open Scope Z_scope.
Open Scope commerce_scope.

Module LoadingWrapper.

(** The function [router.push] holds. *)
Inductive PushImpl :=
| NextPush
| WrappedPush (original : PushImpl).

(** The wrapper's [isLoading] cell and the [originalPush] its effect
    captured (lines 11-34); [None] before the effect and after the
    cleanup. *)
Record Wrapper := { isLoading : bool; originalPush : option PushImpl }.

(** [useState(false)] at mount. *)
Definition mountWrapper : Wrapper := {| isLoading := false; originalPush := None |}.

(** The effect (lines 24-28): keep the router's method, install the
    replacement. *)
Definition wrapperEffect (push : PushImpl) (w : Wrapper) : PushImpl * Wrapper :=
  (WrappedPush push, {| isLoading := isLoading w; originalPush := Some push |}).

(** The cleanup (lines 31-33): put the kept method back. *)
Definition wrapperCleanup (push : PushImpl) (w : Wrapper) : PushImpl :=
  match originalPush w with Some orig => orig | None => push end.

(** [setIsLoading(true)] of the replacement (line 26); after the
    wrapper has unmounted it does nothing. *)
Definition setLoading (w : option Wrapper) : option Wrapper :=
  match w with
  | Some x => Some {| isLoading := true; originalPush := originalPush x |}
  | None => None
  end.

Inductive WrapperView := Skeleton | Children.

(** The render (lines 36-87). *)
Definition renderWrapper (w : Wrapper) : WrapperView := if isLoading w then Skeleton else Children.

End LoadingWrapper.

Module RelatedNavigation.
Import LoadingWrapper.

(** The fields of a related [WooCommerceProduct] the list reads. *)
Record RelatedProduct := {
  r_id : Z; r_slug : string; r_name : string; r_price : string; r_regular_price : string;
  r_image : option (string * string)
}.

(** [relatedProducts.filter(p => p.id !== currentProductId).slice(0, 4)]
    (lines 36-38) *)
Definition shownRelated (currentProductId : Z) (rs : list RelatedProduct) : list RelatedProduct :=
  firstn 4 (List.filter (fun r => negb (r_id r =? currentProductId)) rs).

(** The page: the router's [push], the wrapper when mounted, the
    navigation's [isNavigating] cell, its pending [setTimeout] callbacks,
    and the URLs Next's [push] was called with, oldest first. *)
Record Page := {
  push : PushImpl;
  wrapper : option Wrapper;
  isNavigating : bool;
  pendingTimers : nat;
  firedTimers : nat;
  visited : list string
}.

Definition initialPage : Page :=
  {| push := NextPush; wrapper := None; isNavigating := false; pendingTimers := 0; firedTimers := 0;
     visited := [] |}.

(** A call of [router.push(url)]: each replacement sets the wrapper's
    [isLoading] and calls the function it replaced. *)
Fixpoint runPush (impl : PushImpl) (url : string) (wr : option Wrapper) (seen : list string)
  : option Wrapper * list string :=
  match impl with
  | NextPush => (wr, seen ++ [url])
  | WrappedPush orig => runPush orig url (setLoading wr) seen
  end.

(** [navigateToProduct(slug)] (lines 17-30): the guard, [setIsNavigating],
    [router.push], the timer of the [finally] block. *)
Definition navigateToProduct (slug : string) (pg : Page) : Page :=
  if isNavigating pg then pg else
  let '(wr, seen) := runPush (push pg) ("/product/" ++ slug)%string (wrapper pg) (visited pg) in
  {| push := push pg; wrapper := wr; isNavigating := true; pendingTimers := S (pendingTimers pg);
     firedTimers := firedTimers pg; visited := seen |}.

(** The timer's [setIsNavigating(false)] (line 28). *)
Definition fireTimer (pg : Page) : Page :=
  {| push := push pg; wrapper := wrapper pg; isNavigating := false; pendingTimers := pred (pendingTimers pg);
     firedTimers := S (firedTimers pg); visited := visited pg |}.

(** The wrapper's mount with its effect, and its unmount with the cleanup. *)
Definition wrapperMounts (pg : Page) : Page :=
  let '(p, w) := wrapperEffect (push pg) mountWrapper in
  {| push := p; wrapper := Some w; isNavigating := isNavigating pg; pendingTimers := pendingTimers pg;
     firedTimers := firedTimers pg; visited := visited pg |}.

Definition wrapperUnmounts (w : Wrapper) (pg : Page) : Page :=
  {| push := wrapperCleanup (push pg) w; wrapper := None; isNavigating := isNavigating pg;
     pendingTimers := pendingTimers pg; firedTimers := firedTimers pg; visited := visited pg |}.

Inductive PageEvent :=
| MountWrapper
| UnmountWrapper
| ClickRelated (currentProductId : Z) (rs : list RelatedProduct) (slug : string)
| TimerFires
| RouteChangeComplete.

(** A related product's button exists and is enabled ([disabled={isNavigating}])
    only for a shown product; Next finishing a navigation calls nothing
    of these components. *)
Inductive page_step : Page -> PageEvent -> Page -> Prop :=
| ps_mount pg : wrapper pg = None -> page_step pg MountWrapper (wrapperMounts pg)
| ps_unmount pg w : wrapper pg = Some w -> page_step pg UnmountWrapper (wrapperUnmounts w pg)
| ps_click pg cur rs r :
    In r (shownRelated cur rs) -> isNavigating pg = false ->
    page_step pg (ClickRelated cur rs (r_slug r)) (navigateToProduct (r_slug r) pg)
| ps_timer pg : (0 < pendingTimers pg)%nat -> page_step pg TimerFires (fireTimer pg)
| ps_complete pg : page_step pg RouteChangeComplete pg.

#[export] Instance page_step_inst : Step Page PageEvent := page_step.

(** The same steps as a function: [None] where the event cannot happen. *)
Definition page_next (pg : Page) (e : PageEvent) : option Page :=
  match e with
  | MountWrapper => match wrapper pg with None => Some (wrapperMounts pg) | Some _ => None end
  | UnmountWrapper => match wrapper pg with Some w => Some (wrapperUnmounts w pg) | None => None end
  | ClickRelated cur rs slug =>
      if isNavigating pg then None
      else if existsb (fun r => String.eqb (r_slug r) slug) (shownRelated cur rs)
      then Some (navigateToProduct slug pg) else None
  | TimerFires => if (0 <? pendingTimers pg)%nat then Some (fireTimer pg) else None
  | RouteChangeComplete => Some pg
  end.

Fixpoint page_run (pg : Page) (es : list PageEvent) : option Page :=
  match es with
  | [] => Some pg
  | e :: es' => match page_next pg e with Some pg' => page_run pg' es' | None => None end
  end.

(** One card of the list (lines 41-94): its key, its picture (a skeleton
    while navigating, the first image with [alt || name], or the "No
    Image" box), its name and price text, or their skeleton. *)
Inductive CardPicture := PictureSkeleton | Picture (src alt : string) | NoImage.

Record Card := { c_key : Z; c_picture : CardPicture; c_text : option (string * string) }.

Definition renderCard (navigating : bool) (r : RelatedProduct) : Card :=
  {| c_key := r_id r;
     c_picture := if navigating then PictureSkeleton else
                  match r_image r with
                  | Some (src, alt) => Picture src (if String.eqb alt "" then r_name r else alt)
                  | None => NoImage
                  end;
     c_text := if navigating then None else
               Some (r_name r, ("$" ++ (if String.eqb (r_price r) "" then r_regular_price r else r_price r))%string) |}.

Definition renderNavigation (currentProductId : Z) (rs : list RelatedProduct) (pg : Page) : list Card :=
  map (renderCard (isNavigating pg)) (shownRelated currentProductId rs).

End RelatedNavigation.

(** ** Theorems *)

Module NavigationTheorems.
Import LoadingWrapper RelatedNavigation.

Lemma page_next_sound pg e pg' : page_next pg e = Some pg' -> page_step pg e pg'.
Proof.
  destruct e as [| |cur rs slug| |]; cbn.
  - destruct (wrapper pg) eqn:Hw; [done|]. intros [= <-]. by constructor.
  - destruct (wrapper pg) as [w|] eqn:Hw; [|done]. intros [= <-]. by econstructor.
  - destruct (isNavigating pg) eqn:Hn; [done|].
    destruct (existsb _ _) eqn:He; [|done]. intros [= <-].
    apply existsb_exists in He as (r & Hin & Hs). apply String.eqb_eq in Hs as <-. by constructor.
  - destruct (pendingTimers pg) eqn:Ht; [discriminate|]. intros [= <-]. constructor. lia.
  - intros [= <-]. constructor.
Qed.

Lemma page_run_steps pg es pg' : page_run pg es = Some pg' -> pg =[ es ]=> pg'.
Proof.
  revert pg. induction es as [|e es IH]; intros pg; cbn; [intros [= <-]; constructor|].
  destruct (page_next pg e) as [p1|] eqn:H; [|done]. intros Hr.
  econstructor; [by apply page_next_sound | by apply IH].
Qed.

(** A call through replacements keeps a loading wrapper loading. *)
Lemma runPush_keeps_loading impl url w seen :
  isLoading w = true -> exists w', (runPush impl url (Some w) seen).1 = Some w' /\ isLoading w' = true.
Proof.
  revert w. induction impl as [|orig IH]; intros w Hw; cbn; [eauto|]. by apply IH.
Qed.

(** Through the wrapper's replacement, Next's [push] is called once and
    the wrapper starts loading. *)
Lemma runPush_wrapped url w seen :
  runPush (WrappedPush NextPush) url (Some w) seen =
    (Some {| isLoading := true; originalPush := originalPush w |}, seen ++ [url]).
Proof. reflexivity. Qed.

Lemma runPush_next url seen : runPush NextPush url None seen = (None, seen ++ [url]).
Proof. reflexivity. Qed.

Definition loading (pg : Page) : Prop := exists w, wrapper pg = Some w /\ isLoading w = true.

(** C37. The skeleton stays: once [ProductLoadingWrapper] shows its
    skeleton, every event short of its unmount (related-product clicks,
    the navigation timers, Next finishing the navigation) leaves it
    loading, because nothing calls [handleRouteChangeComplete]. *)
Theorem loading_never_cleared pg es pg' :
  loading pg -> pg =[ es ]=> pg' -> Forall (fun e => e <> UnmountWrapper) es ->
  exists w, wrapper pg' = Some w /\ renderWrapper w = Skeleton.
Proof.
  intros Hl Hst Hes.
  assert (Hl' : loading pg').
  { refine (steps_invariant_when page_step loading _ _ _ _ _ Hst Hes Hl).
    intros p0 e p1 (w & Hw & Hload) He Hs. destruct Hs as [p Hn|p w0 _|p cur rs r _ Hnav|p _|p].
    - congruence.
    - done.
    - unfold navigateToProduct. rewrite Hnav, Hw. cbn [isNavigating].
      destruct (runPush_keeps_loading (push p) ("/product/" ++ r_slug r)%string w (visited p) Hload)
        as (w' & Hr & Hw').
      destruct (runPush _ _ _ _) as [wr seen] eqn:E. cbn in Hr |- *. subst wr. by exists w'.
    - exists w. by cbn.
    - by exists w. }
  destruct Hl' as (w & Hw & Hload). exists w. split; [done|]. unfold renderWrapper. by rewrite Hload.
Qed.

(** The shape of every page the components reach from the first render:
    the router holds the wrapper's replacement exactly while the wrapper
    is mounted, the replacement wraps Next's method, and at most one
    navigation timer is pending, exactly while [isNavigating] holds. *)
Definition page_wf (pg : Page) : Prop :=
  push pg = match wrapper pg with Some _ => WrappedPush NextPush | None => NextPush end /\
  (forall w, wrapper pg = Some w -> originalPush w = Some NextPush) /\
  (pendingTimers pg = if isNavigating pg then 1%nat else 0%nat) /\
  List.length (visited pg) = (firedTimers pg + pendingTimers pg)%nat.

Lemma page_step_wf pg e pg' : page_wf pg -> page_step pg e pg' -> page_wf pg'.
Proof.
  intros (Hp & Ho & Ht & Hv) Hs. destruct Hs as [p Hn|p w Hw|p cur rs r _ Hnav|p Hpos|p]; try done.
  - rewrite Hn in Hp. unfold wrapperMounts. cbn. rewrite Hp. repeat split; [by intros ? [= <-] | done | done].
  - rewrite Hw in Hp. unfold wrapperUnmounts. cbn. unfold wrapperCleanup. rewrite (Ho w Hw).
    repeat split; [discriminate | done | done].
  - unfold navigateToProduct. rewrite Hnav in Ht |- *. rewrite Ht in Hv.
    destruct (wrapper p) as [w|] eqn:Hw; rewrite Hp; [rewrite runPush_wrapped | rewrite runPush_next];
      cbn; rewrite ?Ht; (split; [done|]);
      (split; [intros w' Hw'; inversion Hw'; subst; cbn; by apply Ho|]);
      (split; [done|]); cbn; rewrite length_app; cbn; lia.
  - unfold fireTimer. simpl. destruct (isNavigating p) eqn:En; [|lia].
    split; [done|]. split; [exact Ho|]. simpl. rewrite Ht. split; [done|]. rewrite Hv, Ht. lia.
Qed.

Lemma reachable_page_wf es pg : initialPage =[ es ]=> pg -> page_wf pg.
Proof.
  intros H. refine (steps_invariant page_step page_wf _ _ _ _ H _); [apply page_step_wf|].
  repeat split; cbn; done.
Qed.

(** C38. One navigation per timer: along every run of the page, Next's
    [push] has been called at most once more than the 500 ms timers have
    fired, so the related-product list never starts a second navigation
    while one is in its window. *)
Theorem one_navigation_per_timer es pg :
  initialPage =[ es ]=> pg -> (List.length (visited pg) <= firedTimers pg + 1)%nat.
Proof.
  intros H. destruct (reachable_page_wf es pg H) as (_ & _ & Ht & Hv). rewrite Hv, Ht.
  destruct (isNavigating pg); lia.
Qed.

(** A related-product click navigates through the wrapper: on a page
    reached from the first render, with the wrapper mounted and no
    navigation in progress, clicking a shown product calls Next's [push]
    exactly once with its URL, turns the wrapper's view into the
    skeleton and every card into its skeleton. *)
Theorem related_click_navigates es pg cur rs r w :
  initialPage =[ es ]=> pg -> wrapper pg = Some w -> isNavigating pg = false -> In r (shownRelated cur rs) ->
  exists pg', page_step pg (ClickRelated cur rs (r_slug r)) pg' /\
    visited pg' = visited pg ++ [("/product/" ++ r_slug r)%string] /\
    (exists w', wrapper pg' = Some w' /\ renderWrapper w' = Skeleton) /\
    Forall (fun c => c_picture c = PictureSkeleton /\ c_text c = None) (renderNavigation cur rs pg').
Proof.
  intros Hr Hw Hnav Hin. destruct (reachable_page_wf es pg Hr) as (Hp & _ & _ & _). rewrite Hw in Hp.
  exists (navigateToProduct (r_slug r) pg). split; [by constructor|].
  unfold navigateToProduct. rewrite Hnav, Hp, Hw, runPush_wrapped. cbn.
  split; [done|]. split; [eauto|]. unfold renderNavigation. cbn [isNavigating].
  clear Hin. induction (shownRelated cur rs) as [|x l IH]; cbn;
    [constructor | constructor; [split; reflexivity | exact IH]].
Qed.

Lemma filter_sublist {A} (f : A -> bool) (l : list A) : List.filter f l `sublist_of` l.
Proof.
  induction l as [|x l IH]; cbn; [constructor|]. destruct (f x); [by apply sublist_skip | by apply sublist_cons].
Qed.

(** The related list: at most four products, none of them the
    current one, in the order and multiplicity the API gave them. *)
Theorem shownRelated_spec cur rs :
  (List.length (shownRelated cur rs) <= 4)%nat /\
  Forall (fun r => r_id r <> cur) (shownRelated cur rs) /\
  shownRelated cur rs `sublist_of` rs.
Proof.
  unfold shownRelated. split; [rewrite length_take; lia|]. split.
  - apply Forall_take, Forall_forall. intros r Hr. apply list_elem_of_In, filter_In in Hr as [_ Hr].
    apply negb_true_iff, Z.eqb_neq in Hr. done.
  - etrans; [apply sublist_take | apply filter_sublist].
Qed.

(** ** Witnesses *)

Definition mug : RelatedProduct :=
  {| r_id := 2; r_slug := "mug"; r_name := "Mug"; r_price := "8"; r_regular_price := "10"; r_image := None |}.
Definition cap : RelatedProduct :=
  {| r_id := 3; r_slug := "cap"; r_name := "Cap"; r_price := ""; r_regular_price := "12";
     r_image := Some ("cap.jpg", "") |}.
Definition related : list RelatedProduct := [mug; cap].

Definition pageAfter (es : list PageEvent) : Page := default initialPage (page_run initialPage es).

Lemma loading_never_cleared_witness :
  let pg := pageAfter [MountWrapper; ClickRelated 1 related "mug"] in
  let es := [TimerFires; RouteChangeComplete; ClickRelated 1 related "cap"] in
  exists w, wrapper (default pg (page_run pg es)) = Some w /\ renderWrapper w = Skeleton.
Proof.
  apply (loading_never_cleared (pageAfter [MountWrapper; ClickRelated 1 related "mug"]) [TimerFires; RouteChangeComplete; ClickRelated 1 related "cap"]).
  - vm_compute. eexists. split; reflexivity.
  - apply page_run_steps. vm_compute. reflexivity.
  - repeat constructor; discriminate.
Defined.

Lemma one_navigation_per_timer_witness :
  let es := [MountWrapper; ClickRelated 1 related "mug"; TimerFires; ClickRelated 1 related "cap"] in
  (List.length (visited (pageAfter es)) <= firedTimers (pageAfter es) + 1)%nat.
Proof.
  apply (one_navigation_per_timer [MountWrapper; ClickRelated 1 related "mug"; TimerFires; ClickRelated 1 related "cap"]).
  apply page_run_steps. vm_compute. reflexivity.
Defined.

Lemma related_click_navigates_witness :
  exists pg', page_step (pageAfter [MountWrapper]) (ClickRelated 1 related (r_slug cap)) pg' /\
    visited pg' = visited (pageAfter [MountWrapper]) ++ [("/product/" ++ r_slug cap)%string] /\
    (exists w', wrapper pg' = Some w' /\ renderWrapper w' = Skeleton) /\
    Forall (fun c => c_picture c = PictureSkeleton /\ c_text c = None) (renderNavigation 1 related pg').
Proof.
  apply (related_click_navigates [MountWrapper] _ 1 related cap {| isLoading := false; originalPush := Some NextPush |}).
  - apply page_run_steps. vm_compute. reflexivity.
  - reflexivity.
  - reflexivity.
  - right. left. reflexivity.
Defined.

End NavigationTheorems.
