(* ===== verification/Recommendations.v ===== *)
(** * Product recommendations: [src/components/enhanced/product-recommendations.tsx]

  [ProductRecommendations] loads products with
  [optimizedGraphQLClient.getProducts({ first: limit })], drops the
  current product, keeps [limit] of them and hands one prefetch per
  recommendation to the shared [browserPrefetchManager] ([BrowserScheduler],
  with its exported configuration), marked [idle], [low] and staggered
  by [index * 100] ms.  It loads on mount (an effect on [currentProduct],
  [category] and [limit]) and again when an [IntersectionObserver] sees
  its container while the list of its render is empty.

  The props are fixed for one instance (Section [Props]).  A load is in
  flight between its call and the answer of [getProducts]; the answer
  (the products, or the error the method throws) and the ids [Date.now()]
  and [Math.random()] give the manager's items are the environment's.
  The stats interval only reads the manager and is not modelled. *)

From S2P Require Import Prelude Json PrioritySort BrowserScheduler.
Open Scope Z_scope.
Open Scope commerce_scope.

Module Recommendations.
Import Priority BrowserPrefetch.

(** The fields of a [GraphQLProduct] the component reads. *)
Record GProduct := { gp_id : string; gp_slug : string; gp_name : string }.

(** [array.slice(0, n)] *)
Definition slice0 {A} (l : list A) (n : Z) : list A :=
  if 0 <=? n then firstn (Z.to_nat n) l else firstn (List.length l - Z.to_nat (- n)) l.

Section Props.
Variables (currentProductId : option string) (limit : Z) (enablePrefetching enableLazyLoading : bool).

(** Lines 88-93: the current product out, then [limit] of the rest. *)
Definition selectRecommendations (allProducts : list GProduct) : list GProduct :=
  let filtered := match currentProductId with
                  | Some c => List.filter (fun p => negb (String.eqb (gp_id p) c)) allProducts
                  | None => allProducts
                  end in
  slice0 filtered limit.

Definition recommendationKey (p : GProduct) : string := ("recommendation:" ++ gp_slug p)%string.

(** The argument of [addPrefetch] for the [index]-th recommendation
    (lines 105-124). *)
Definition recommendationPrefetch (index : nat) (p : GProduct) : PrefetchInput :=
  {| in_id := None;
     in_strategy := {| name := ("recommendation_" ++ gp_slug p)%string; priority := Low; trigger := Idle;
                       delay := Some (Z.of_nat index * 100); has_condition := false |};
     in_cacheKey := Some (recommendationKey p); in_ttl := Some 600 |}.

(** [recommendations.forEach((product, index) => addPrefetch(...))] with
    the ids the manager generates. *)
Fixpoint addAllPrefetches (now : Z) (index : nat) (ps : list GProduct) (ids : list string) (m : State) : State :=
  match ps, ids with
  | p :: ps', g :: ids' =>
      addAllPrefetches now (S index) ps' ids'
        (addPrefetch browserPrefetchConfig now g (recommendationPrefetch index p) m).2
  | _, _ => m
  end.

(** The hover prefetch of [handleProductHover] (lines 134-157). *)
Definition hoverPrefetch (p : GProduct) : PrefetchInput :=
  {| in_id := None;
     in_strategy := {| name := ("recommendation_hover_" ++ gp_slug p)%string; priority := Medium;
                       trigger := Hover; delay := Some 150; has_condition := false |};
     in_cacheKey := Some ("hover:recommendation:" ++ gp_slug p)%string; in_ttl := Some 300 |}.

(** The instance and the manager: the two state cells, the loads in
    flight, the [getProducts] calls made, the dependencies of the load
    and observer effects' last runs, whether an observer watches the
    container (with the list length its callback captured), and the
    shared prefetch manager. *)
Record RecState := {
  recommendations : list GProduct;
  loading : bool;
  inflight : nat;
  calls : nat;
  loadRan : bool;
  observerDeps : option (bool * nat);
  observing : option nat;
  manager : State
}.

Definition initialRecState (m : State) : RecState :=
  {| recommendations := []; loading := true; inflight := 0; calls := 0; loadRan := false;
     observerDeps := None; observing := None; manager := m |}.

(** [loadRecommendations()] up to its [await] (lines 77-84). *)
Definition startLoad (s : RecState) : RecState :=
  {| recommendations := recommendations s; loading := true; inflight := S (inflight s); calls := S (calls s);
     loadRan := loadRan s; observerDeps := observerDeps s; observing := observing s; manager := manager s |}.

(** The container [div] with the ref exists unless the render returned
    [null] (lines 162-178). *)
Definition hasContainer (s : RecState) : bool := loading s || negb (bool_decide (recommendations s = [])).

(** A render and its effect phase (lines 37-75): the load effect on its
    first run (its dependencies are the fixed props), then the observer
    effect when [enableLazyLoading] or the list's length changed. *)
Definition commitRecommendations (s : RecState) : RecState :=
  let s1 := if loadRan s then s else
              let t := startLoad s in
              {| recommendations := recommendations t; loading := loading t; inflight := inflight t;
                 calls := calls t; loadRan := true; observerDeps := observerDeps t; observing := observing t;
                 manager := manager t |} in
  let d := (enableLazyLoading, List.length (recommendations s)) in
  if bool_decide (observerDeps s1 = Some d) then s1 else
  {| recommendations := recommendations s1; loading := loading s1; inflight := inflight s1; calls := calls s1;
     loadRan := loadRan s1; observerDeps := Some d;
     observing := if enableLazyLoading && hasContainer s then Some (List.length (recommendations s)) else None;
     manager := manager s1 |}.

(** The observer's callback on an entry that intersects (lines 59-64). *)
Definition onIntersect (s : RecState) : RecState :=
  match observing s with Some 0%nat => startLoad s | _ => s end.

(** The rest of a load after [getProducts] answers (lines 85-131). *)
Definition finishLoad (now : Z) (ids : list string) (answer : result unit (list GProduct)) (s : RecState)
  : RecState :=
  let '(recs, m) :=
    match answer with
    | Ok ps =>
        let recs := selectRecommendations ps in
        (recs, if enablePrefetching then addAllPrefetches now 0 recs ids (manager s) else manager s)
    | Err _ => (recommendations s, manager s)
    end in
  {| recommendations := recs; loading := false; inflight := pred (inflight s); calls := calls s;
     loadRan := loadRan s; observerDeps := observerDeps s; observing := observing s; manager := m |}.

Inductive RecEvent :=
| RRender
| Intersect
| LoadDone (now : Z) (ids : list string) (answer : result unit (list GProduct))
| Hovered (now : Z) (id : string) (p : GProduct).

Inductive rec_step : RecState -> RecEvent -> RecState -> Prop :=
| rs_render s : rec_step s RRender (commitRecommendations s)
| rs_intersect s : observing s <> None -> rec_step s Intersect (onIntersect s)
| rs_done s now ids a : (0 < inflight s)%nat -> rec_step s (LoadDone now ids a) (finishLoad now ids a s)
| rs_hover s now g p :
    In p (recommendations s) ->
    rec_step s (Hovered now g p)
      (if enablePrefetching then
         {| recommendations := recommendations s; loading := loading s; inflight := inflight s;
            calls := calls s; loadRan := loadRan s; observerDeps := observerDeps s; observing := observing s;
            manager := (addPrefetch browserPrefetchConfig now g (hoverPrefetch p) (manager s)).2 |}
       else s).

End Props.

End Recommendations.

(** ** Theorems *)

Module RecommendationTheorems.
Import Priority BrowserPrefetch Recommendations.

(** What a prefetch item says of itself: its key, trigger and delay. *)
Definition summary (x : PrefetchItem) : option string * Trigger * option Z :=
  (cacheKey x, trigger (strategy x), delay (strategy x)).

Definition expected (i : nat) (p : GProduct) : option string * Trigger * option Z :=
  (Some (recommendationKey p), Idle, Some (Z.of_nat i * 100)).

Fixpoint expectedFrom (i : nat) (ps : list GProduct) : list (option string * Trigger * option Z) :=
  match ps with [] => [] | p :: ps' => expected i p :: expectedFrom (S i) ps' end.

Lemma expectedFrom_app i l1 l2 :
  expectedFrom i (l1 ++ l2) = expectedFrom i l1 ++ expectedFrom (i + List.length l1) l2.
Proof.
  revert i. induction l1 as [|p l1 IH]; intros i; cbn; [by rewrite Nat.add_0_r|].
  rewrite IH. do 3 f_equal. lia.
Qed.

Lemma addAll_app now i l1 l2 ids m :
  (List.length l1 <= List.length ids)%nat ->
  addAllPrefetches now i (l1 ++ l2) ids m =
    addAllPrefetches now (i + List.length l1) l2 (drop (List.length l1) ids) (addAllPrefetches now i l1 ids m).
Proof.
  revert i ids m. induction l1 as [|p l1 IH]; intros i ids m Hl; cbn; [by rewrite Nat.add_0_r|].
  destruct ids as [|g ids]; simpl in Hl; [lia|]. rewrite IH by (simpl in Hl; lia). cbn. do 3 f_equal; lia.
Qed.

(** A free slot and an empty queue: the item starts at once. *)
Lemma add_free now g inp m :
  in_id inp = None -> queue m = [] -> (size (activePrefetches m) < 3)%nat -> g ∉ activePrefetches m ->
  let m' := (addPrefetch browserPrefetchConfig now g inp m).2 in
  queue m' = [] /\ activePrefetches m' = {[ g ]} ∪ activePrefetches m /\
  map (fun x => summary x.1) (running m') = map (fun x => summary x.1) (running m) ++
    [(in_cacheKey inp, trigger (in_strategy inp), delay (in_strategy inp))].
Proof.
  intros Hid Hq Hs Hg. unfold addPrefetch. rewrite Hq. cbn.
  rewrite bool_decide_eq_false_2 by done. cbn.
  unfold processQueue. cbn. rewrite (proj2 (Z.leb_gt 3 (Z.of_nat (size (activePrefetches m))))) by lia.
  unfold enqueue. cbn.
  assert (H1 : sortByPriority itemPriority [mkItem g inp] = [mkItem g inp]) by reflexivity.
  change ((if 15 <=? Z.of_nat 0 then [] else []) ++ [mkItem g inp]) with [mkItem g inp].
  rewrite H1. cbn. rewrite Hid. split; [done|]. split; [done|]. rewrite map_app. done.
Qed.

(** No free slot: the item waits at the end of the queue. *)
Lemma add_full now g inp m :
  (3 <= size (activePrefetches m))%nat -> (List.length (queue m) < 15)%nat ->
  g ∉ activePrefetches m -> g ∉ map id (queue m) ->
  let m' := (addPrefetch browserPrefetchConfig now g inp m).2 in
  queue m' = queue m ++ [mkItem g inp] /\ activePrefetches m' = activePrefetches m /\ running m' = running m.
Proof.
  intros Hs Hq Hg Hgq. unfold addPrefetch.
  destruct (existsb (fun p => String.eqb (id p) g) (queue m)) eqn:E.
  { apply existsb_exists in E as (x & Hx & Hxg). apply String.eqb_eq in Hxg as <-.
    exfalso. apply Hgq, list_elem_of_In, in_map, Hx. }
  rewrite bool_decide_eq_false_2 by done. cbn.
  unfold enqueue. cbn. rewrite (proj2 (Z.leb_gt 15 (Z.of_nat (List.length (queue m))))) by lia.
  unfold processQueue. cbn. rewrite (proj2 (Z.leb_le 3 (Z.of_nat (size (activePrefetches m))))) by lia.
  done.
Qed.

Lemma summary_recommendation g i p : summary (mkItem g (recommendationPrefetch i p)) = expected i p.
Proof. reflexivity. Qed.

Lemma size_add_fresh g (A : gset string) : g ∉ A -> size ({[ g ]} ∪ A) = S (size A).
Proof. intros Hg. rewrite size_union by set_solver. by rewrite size_singleton. Qed.

(** While slots are free, each recommendation starts at once. *)
Lemma addAll_free now i recs ids m :
  queue m = [] -> (size (activePrefetches m) + List.length recs <= 3)%nat -> NoDup ids ->
  (List.length recs <= List.length ids)%nat -> (forall g, g ∈ ids -> g ∉ activePrefetches m) ->
  let m' := addAllPrefetches now i recs ids m in
  queue m' = [] /\ size (activePrefetches m') = (size (activePrefetches m) + List.length recs)%nat /\
  (forall g, g ∈ drop (List.length recs) ids -> g ∉ activePrefetches m') /\
  map (fun x => summary x.1) (running m') = map (fun x => summary x.1) (running m) ++ expectedFrom i recs.
Proof.
  revert i ids m. induction recs as [|p recs IH]; intros i ids m Hq Hs Hnd Hl Hfresh; cbn.
  - rewrite drop_0, app_nil_r, Nat.add_0_r. auto.
  - destruct ids as [|g ids]; cbn in Hl; [lia|]. apply NoDup_cons in Hnd as [Hg Hnd].
    assert (Hgm : g ∉ activePrefetches m) by (apply Hfresh; left).
    destruct (add_free now g (recommendationPrefetch i p) m eq_refl Hq ltac:(cbn in Hs; lia) Hgm)
      as (Hq1 & Ha1 & Hr1).
    set (m1 := (addPrefetch browserPrefetchConfig now g (recommendationPrefetch i p) m).2) in *.
    assert (Hs1 : size (activePrefetches m1) = S (size (activePrefetches m))) by (rewrite Ha1; by apply size_add_fresh).
    destruct (IH (S i) ids m1 Hq1 ltac:(cbn in Hs; lia) Hnd ltac:(lia)) as (Hq' & Hs' & Hf' & Hr').
    { intros g' Hg'. rewrite Ha1. apply not_elem_of_union. split.
      - apply not_elem_of_singleton. intros ->. contradiction.
      - apply Hfresh. by right. }
    split; [done|]. split; [rewrite Hs', Hs1; cbn; lia|]. split; [done|].
    rewrite Hr', Hr1. cbn. rewrite <- app_assoc. done.
Qed.

(** Once three are running, each recommendation waits in the queue. *)
Lemma addAll_full now i recs ids m :
  (3 <= size (activePrefetches m))%nat -> (List.length (queue m) + List.length recs <= 15)%nat -> NoDup ids ->
  (List.length recs <= List.length ids)%nat ->
  (forall g, g ∈ ids -> (g ∉ activePrefetches m) /\ (g ∉ map id (queue m))) ->
  let m' := addAllPrefetches now i recs ids m in
  running m' = running m /\ map summary (queue m') = map summary (queue m) ++ expectedFrom i recs.
Proof.
  revert i ids m. induction recs as [|p recs IH]; intros i ids m Hs Hq Hnd Hl Hfresh; cbn.
  - by rewrite app_nil_r.
  - destruct ids as [|g ids]; cbn in Hl; [lia|]. apply NoDup_cons in Hnd as [Hg Hnd].
    destruct (Hfresh g ltac:(left)) as [Hga Hgq].
    destruct (add_full now g (recommendationPrefetch i p) m Hs ltac:(cbn in Hq; lia) Hga Hgq)
      as (Hq1 & Ha1 & Hr1).
    set (m1 := (addPrefetch browserPrefetchConfig now g (recommendationPrefetch i p) m).2) in *.
    destruct (IH (S i) ids m1 ltac:(by rewrite Ha1) ltac:(rewrite Hq1, length_app; cbn in Hq |- *; lia) Hnd
                 ltac:(lia)) as (Hr' & Hq').
    { intros g' Hg'. rewrite Ha1, Hq1, map_app. cbn. split; [apply Hfresh; by right|].
      rewrite elem_of_app, list_elem_of_singleton. intros [Hin | ->]; [|contradiction].
      by apply (Hfresh g' ltac:(by right)). }
    split; [by rewrite Hr', Hr1|]. rewrite Hq', Hq1, map_app, <- app_assoc. done.
Qed.

(** C39. Idle recommendations do not wait: on the shared manager as the
    page starts it, the prefetches [loadRecommendations] hands over,
    marked [idle] and delayed by [index * 100] ms, are not held for an
    idle moment or their delay: the first three start fetching at once,
    the others wait in the queue in their order. *)
Theorem idle_prefetches_start_at_once cur limit now ids ps s :
  manager s = initialState -> NoDup ids ->
  (List.length (selectRecommendations cur limit ps) <= List.length ids)%nat ->
  (List.length (selectRecommendations cur limit ps) <= 18)%nat ->
  map (fun x => summary x.1) (running (manager (finishLoad cur limit true now ids (Ok ps) s))) =
    expectedFrom 0 (firstn 3 (selectRecommendations cur limit ps)) /\
  map summary (queue (manager (finishLoad cur limit true now ids (Ok ps) s))) =
    expectedFrom 3 (skipn 3 (selectRecommendations cur limit ps)).
Proof.
  intros Hm Hnd Hl H18. cbn. rewrite Hm.
  set (recs := selectRecommendations cur limit ps) in *.
  remember (addAllPrefetches now 0 recs ids initialState) as M eqn:HM.
  rewrite <- (take_drop 3 recs), addAll_app in HM by (rewrite length_take; lia).
  destruct (addAll_free now 0 (take 3 recs) ids initialState eq_refl
              ltac:(rewrite length_take; change (activePrefetches initialState) with (∅ : gset string); rewrite size_empty; lia) Hnd ltac:(rewrite length_take; lia)
              ltac:(intros; apply not_elem_of_empty)) as (Hq1 & Hs1 & Hf1 & Hr1).
  set (m1 := addAllPrefetches now 0 (take 3 recs) ids initialState) in *.
  destruct (decide (3 <= List.length recs)%nat) as [H3|H3].
  - rewrite length_take, Nat.min_l in Hs1, Hf1, HM by done.
    destruct (addAll_full now 3 (drop 3 recs) (drop 3 ids) m1 ltac:(rewrite Hs1; cbn; lia)
                ltac:(rewrite Hq1, length_drop; cbn; lia) ltac:(rewrite <- (take_drop 3 ids) in Hnd; by apply NoDup_app in Hnd as (_ & _ & ?))
                ltac:(rewrite !length_drop; lia)) as (Hr2 & Hq2).
    { intros g Hg. split; [by apply Hf1|]. rewrite Hq1. apply not_elem_of_nil. }
    subst M. rewrite Nat.add_0_l,  Hr2, Hq2, Hr1, Hq1. done.
  - rewrite (drop_ge recs 3) in HM |- * by lia. cbn in HM. subst M. rewrite Hr1, Hq1.
    rewrite take_ge by lia. done.
Qed.


(** C40. The product list loads twice on mount: with lazy loading on
    (the default), the first commit both starts [loadRecommendations]
    and attaches an observer whose callback captured an empty list, so
    the container coming into view starts a second [getProducts] call
    while the first is still in flight. *)
Theorem mount_loads_twice cur limit pf m :
  (exists s, steps (rec_step cur limit pf true) (initialRecState m) [RRender; Intersect] s) /\
  forall s, steps (rec_step cur limit pf true) (initialRecState m) [RRender; Intersect] s ->
    calls s = 2%nat /\ inflight s = 2%nat.
Proof.
  split.
  - eexists. econstructor; [constructor|]. econstructor; [constructor; cbn; discriminate|constructor].
  - intros s H. invc H. match goal with H : rec_step _ _ _ _ _ _ _ |- _ => invc H end.
    match goal with H : steps _ _ _ _ |- _ => invc H end.
    match goal with H : rec_step _ _ _ _ _ _ _ |- _ => invc H end.
    match goal with H : steps _ _ _ _ |- _ => invc H end. done.
Qed.


Definition catalogue : list GProduct :=
  map (fun x => {| gp_id := x; gp_slug := x; gp_name := x |}) ["p1"; "p2"; "p3"; "p4"; "p5"]%string.

Definition freshIds : list string := ["a"; "b"; "c"; "d"; "e"]%string.

Lemma idle_prefetches_start_at_once_witness :
  let s := initialRecState initialState in
  manager s = initialState /\ NoDup freshIds /\
  map (fun x => summary x.1) (running (manager (finishLoad (Some "p9"%string) 6 true 0 freshIds (Ok catalogue) s))) =
    expectedFrom 0 (firstn 3 (selectRecommendations (Some "p9"%string) 6 catalogue)) /\
  map summary (queue (manager (finishLoad (Some "p9"%string) 6 true 0 freshIds (Ok catalogue) s))) =
    expectedFrom 3 (skipn 3 (selectRecommendations (Some "p9"%string) 6 catalogue)).
Proof.
  cbv zeta. split; [reflexivity|]. split; [apply (bool_decide_unpack _); vm_compute; reflexivity|].
  apply (idle_prefetches_start_at_once (Some "p9"%string) 6 0 freshIds catalogue (initialRecState initialState)).
  - reflexivity.
  - apply (bool_decide_unpack _). vm_compute. reflexivity.
  - vm_compute. lia.
  - vm_compute. lia.
Defined.

Lemma mount_loads_twice_witness :
  calls (onIntersect (commitRecommendations true (initialRecState initialState))) = 2%nat /\
  steps (rec_step None 6 true true) (initialRecState initialState) [RRender; Intersect]
    (onIntersect (commitRecommendations true (initialRecState initialState))).
Proof.
  assert (H : steps (rec_step None 6 true true) (initialRecState initialState) [RRender; Intersect]
    (onIntersect (commitRecommendations true (initialRecState initialState)))).
  { econstructor; [constructor|]. econstructor; [constructor; vm_compute; discriminate|constructor]. }
  split; [|exact H]. apply (proj2 (mount_loads_twice None 6 true initialState) _ H).
Defined.


(** The two loads of the mount both hand their prefetches over: the
    manager only merges items of equal id, and the ids are fresh, so
    the second answer queues every recommendation again, behind the
    two the first left waiting. *)
Example second_load_requeues :
  let s1 := onIntersect (commitRecommendations true (initialRecState initialState)) in
  let s2 := finishLoad None 6 true 0 freshIds (Ok catalogue) s1 in
  let s3 := finishLoad None 6 true 1 ["f"; "g"; "h"; "i"; "j"]%string (Ok catalogue) s2 in
  inflight s3 = 0%nat /\
  map cacheKey (queue (manager s3)) =
    map (fun x => Some ("recommendation:" ++ x)%string) ["p4"; "p5"; "p1"; "p2"; "p3"; "p4"; "p5"]%string.
Proof. vm_compute. split; reflexivity. Qed.

End RecommendationTheorems.
